(** * HP OMEN FourZone RGB keyboard driver: model and verification

    A shallow embedding of the driver (the variant with the animation
    engine, and the plain variant [src/hp-wmi.c] where both share code).
    The driver's globals, the firmware behind [wmi_evaluate_method], the
    kernel log and the state file are the fields of one [world] record that
    every operation threads through, in the order the C code does.

    Integers are [Z] with the C conversions written out ([u8], [s32],
    [u64]); byte buffers are [list Z] and are updated by index with stdpp's
    list insert.  The machine is x86-64: [int] has 32 bits, [unsigned long]
    64, and multi-byte objects are stored little-endian. *)

From Stdlib Require Import ZArith List String Ascii Bool Lia.
From stdpp Require Import base list.
Import ListNotations.
Local Open Scope Z_scope.

(** ** C integer conversions *)

Definition u8 (x : Z) : Z := x mod 256.
Definition u32 (x : Z) : Z := x mod 2 ^ 32.
Definition u64 (x : Z) : Z := x mod 2 ^ 64.

(** Conversion to [int]: keep the low 32 bits, two's complement. *)
Definition s32 (x : Z) : Z :=
  let y := x mod 2 ^ 32 in if y <? 2 ^ 31 then y else y - 2 ^ 32.

Definition EINVAL : Z := 22.
Definition ERANGE : Z := 34.

(** ** Protocol codec: size classes *)

Definition encode_outsize_for_pvsz (outsize : Z) : Z :=
  if outsize >? 4096 then - EINVAL
  else if outsize >? 1024 then 5
  else if outsize >? 128 then 4
  else if outsize >? 4 then 3
  else if outsize >? 0 then 2
  else 1.

(** ** String to integer conversion

    [kstrtoul] is the kernel's library routine (lib/kstrtox.c), which both
    [parse_rgb] and [brightness_set] call.  On this machine it is
    [kstrtoull].  A C string ends at its first NUL. *)

Inductive result (A : Type) : Type :=
  | Ok (v : A)
  | Err (errno : Z).
Arguments Ok {A} v.
Arguments Err {A} errno.

(** The code of a character, 0 to 255. *)
Definition code (c : ascii) : Z := Z.of_N (N_of_ascii c).

Fixpoint cstr (s : string) : list Z :=
  match s with
  | EmptyString => []
  | String c s' => if code c =? 0 then [] else code c :: cstr s'
  end.

Definition _tolower (c : Z) : Z := Z.lor c 32.

(** The digit a character stands for: ['0'..'9'], or ['a'..'f'] after
    [_tolower]. *)
Definition digit_value (c : Z) : option Z :=
  let lc := _tolower c in
  if (48 <=? c) && (c <=? 57) then Some (c - 48)
  else if (97 <=? lc) && (lc <=? 102) then Some (lc - 97 + 10)
  else None.

Definition ULLONG_MAX : Z := 2 ^ 64 - 1.

(** [_parse_integer]: the accumulated value, the number of characters
    consumed and the overflow flag. *)
Fixpoint _parse_integer (s : list Z) (base res : Z) (rv : nat) (ovf : bool)
  : Z * nat * bool :=
  match s with
  | [] => (res, rv, ovf)
  | c :: s' =>
      match digit_value c with
      | None => (res, rv, ovf)
      | Some val =>
          if val >=? base then (res, rv, ovf)
          else
            let near := negb (Z.land res (u64 (Z.shiftl ULLONG_MAX 60)) =? 0) in
            let ovf' := ovf || (near && (res >? (ULLONG_MAX - val) / base)) in
            _parse_integer s' base (u64 (res * base + val)) (S rv) ovf'
      end
  end.

Definition _parse_integer_fixup_radix (s : list Z) (base : Z) : list Z :=
  match s with
  | c0 :: c1 :: s' =>
      if (base =? 16) && (c0 =? 48) && (_tolower c1 =? 120) then s' else s
  | _ => s
  end.

Definition _kstrtoull (s : list Z) (base : Z) : result Z :=
  let s := _parse_integer_fixup_radix s base in
  let '(res, rv, ovf) := _parse_integer s base 0 0%nat false in
  if ovf then Err (- ERANGE)
  else if Nat.eqb rv 0 then Err (- EINVAL)
  else
    let s := drop rv s in
    let s := match s with
             | c :: s' => if c =? 10 then s' else s
             | [] => s
             end in
    match s with
    | [] => Ok res
    | _ :: _ => Err (- EINVAL)
    end.

Definition kstrtoull (s : list Z) (base : Z) : result Z :=
  let s := match s with
           | c :: s' => if c =? 43 then s' else s
           | [] => s
           end in
  _kstrtoull s base.

Definition kstrtoul (buf : string) (base : Z) : result Z :=
  kstrtoull (cstr buf) base.

(** The number a sequence of hexadecimal digit values denotes, and the
    strings that consist of hexadecimal digits only. *)
Definition hex_value (hs : list Z) : Z :=
  fold_left (fun r h => r * 16 + h) hs 0.

Definition hex_digits (buf : string) (hs : list Z) : Prop :=
  Forall2 (fun c h => digit_value (code c) = Some h)
    (list_ascii_of_string buf) hs.

(** ** Zone and colour model *)

Definition ZONE_COUNT : nat := 4.

(** [struct color_platform], packed: the fields lie in memory in this
    order, one byte each. *)
Record color_platform : Type := {
  blue : Z;
  green : Z;
  red : Z
}.

(** [struct platform_zone].  [attr] identifies the sysfs attribute of the
    zone (the index of its [zone_dev_attrs] entry); [None] is the null
    pointer of a freshly allocated zone. *)
Record platform_zone : Type := {
  offset : Z;
  attr : option nat;
  colors : color_platform
}.

Definition set_colors (c : color_platform) (zone : platform_zone) : platform_zone :=
  {| offset := offset zone; attr := attr zone; colors := c |}.

Definition black : color_platform := {| blue := 0; green := 0; red := 0 |}.

(** A zeroed zone, as [kcalloc] and static storage provide. *)
Definition zone0 : platform_zone :=
  {| offset := 0; attr := None; colors := black |}.

(** Byte [i] of a 32-bit object in memory. *)
Definition le_byte (x : Z) (i : Z) : Z :=
  Z.land (Z.shiftr (u32 x) (8 * i)) 255.

(** [union color_union]: the three bytes of [cp] overlay the first three
    bytes of [package]. *)
Definition repackager (package : Z) : color_platform :=
  {| blue := le_byte package 0;
     green := le_byte package 1;
     red := le_byte package 2 |}.

Definition parse_rgb (buf : string) (zone : platform_zone) : Z * platform_zone :=
  match kstrtoul buf 16 with
  | Err e => (e, zone)
  | Ok rgb =>
      if rgb >? 16777215 then (- EINVAL, zone)
      else (0, set_colors (repackager (s32 rgb)) zone)
  end.

(** ** The firmware interface *)

Definition HPWMI_FOURZONE_COLOR_GET : Z := 2.
Definition HPWMI_FOURZONE_COLOR_SET : Z := 3.

Definition HPWMI_READ : Z := 1.
Definition HPWMI_WRITE : Z := 2.
Definition HPWMI_FOURZONE : Z := 131081.

Definition HPWMI_RET_UNKNOWN_COMMAND : Z := 3.
Definition HPWMI_RET_UNKNOWN_CMDTYPE : Z := 4.

(** [struct bios_args]; [data] holds 128 bytes. *)
Record bios_args : Type := {
  signature : Z;
  command : Z;
  commandtype : Z;
  datasize : Z;
  data : list Z
}.

(** What [wmi_evaluate_method] leaves in [output.pointer]: a buffer object
    with its bytes, or an object of another ACPI type. *)
Inductive acpi_object : Type :=
  | ACPI_TYPE_BUFFER (buffer : list Z)
  | ACPI_TYPE_OTHER (type : Z).

(** One evaluation of the BIOS method: the method id (the size class) and
    the request. *)
Record wmi_call : Type := {
  method_id : Z;
  input : bios_args
}.

(** ** Animation state *)

Inductive animation_mode : Type :=
  | ANIMATION_STATIC
  | ANIMATION_BREATHING
  | ANIMATION_RAINBOW
  | ANIMATION_WAVE
  | ANIMATION_PULSE
  | ANIMATION_CHASE
  | ANIMATION_SPARKLE
  | ANIMATION_CANDLE
  | ANIMATION_AURORA
  | ANIMATION_DISCO.

Definition ANIMATION_COUNT : Z := 10.

Definition animation_mode_to_Z (m : animation_mode) : Z :=
  match m with
  | ANIMATION_STATIC => 0
  | ANIMATION_BREATHING => 1
  | ANIMATION_RAINBOW => 2
  | ANIMATION_WAVE => 3
  | ANIMATION_PULSE => 4
  | ANIMATION_CHASE => 5
  | ANIMATION_SPARKLE => 6
  | ANIMATION_CANDLE => 7
  | ANIMATION_AURORA => 8
  | ANIMATION_DISCO => 9
  end.

Definition animation_mode_of_Z (n : Z) : option animation_mode :=
  match n with
  | 0 => Some ANIMATION_STATIC
  | 1 => Some ANIMATION_BREATHING
  | 2 => Some ANIMATION_RAINBOW
  | 3 => Some ANIMATION_WAVE
  | 4 => Some ANIMATION_PULSE
  | 5 => Some ANIMATION_CHASE
  | 6 => Some ANIMATION_SPARKLE
  | 7 => Some ANIMATION_CANDLE
  | 8 => Some ANIMATION_AURORA
  | 9 => Some ANIMATION_DISCO
  | _ => None
  end.

Definition is_static (m : animation_mode) : bool :=
  match m with ANIMATION_STATIC => true | _ => false end.

Definition ANIMATION_TIMER_INTERVAL_MS : Z := 50.
Definition ANIMATION_SPEED_MIN : Z := 1.
Definition ANIMATION_SPEED_MAX : Z := 10.
Definition ANIMATION_SPEED_DEFAULT : Z := 1.

(** [struct animation_state], the persisted record. *)
Record animation_state : Type := {
  mode : Z;
  speed : Z;
  brightness : Z;
  state_colors : list color_platform
}.

(** ** Kernel log *)

Inductive klog_msg : Type :=
  | WARN_ON_splat
  | warn_query_error (query ret : Z)
  | warn_fourzone_color_get (ret : Z)
  | warn_fourzone_color_set (ret : Z)
  | err_invalid_target_zone
  | warn_save_failed
  | info_state_saved
  | info_no_saved_state
  | warn_read_state_failed
  | info_state_loaded (mode speed brightness : Z).

(** A colour frame handed to the firmware by [fourzone_update_led], with
    the zone it was issued for, the zone's colour stored into the frame and
    the driver's base colours and brightness at that moment. *)
Record hw_write : Type := {
  hw_zone : nat;
  hw_color : color_platform;
  hw_frame : list Z;
  hw_original_colors : list platform_zone;
  hw_global_brightness : Z
}.

(** ** The world: driver globals and their environment *)

Record world : Type := {
  (* the driver's globals *)
  zone_data : list platform_zone;
  original_colors : list platform_zone;
  global_brightness : Z;
  current_animation : animation_mode;
  animation_speed : Z;
  animation_timer : option Z;      (* expiry of the pending timer, if armed *)
  animation_work : bool;           (* the work item is queued *)
  animation_start_time : Z;
  animation_active : bool;
  (* the environment *)
  jiffies : Z;
  bios : list wmi_call -> option acpi_object;
                                   (* the firmware's answer to the newest call,
                                      given all calls so far, newest first *)
  wmi_calls : list wmi_call;       (* calls made so far, newest first *)
  stack_junk : list Z;             (* contents of uninitialised stack arrays *)
  state_file : option (list Z);    (* bytes of the state file, if it exists *)
  fs_writable : bool;              (* the state file can be opened for writing *)
  klog : list klog_msg;            (* newest first *)
  hw_writes : list hw_write        (* newest first *)
}.

(** Assignments to one field. *)

Definition set_zone_data (v : list platform_zone) (w : world) : world :=
  {| zone_data := v; original_colors := original_colors w;
     global_brightness := global_brightness w;
     current_animation := current_animation w;
     animation_speed := animation_speed w;
     animation_timer := animation_timer w;
     animation_work := animation_work w;
     animation_start_time := animation_start_time w;
     animation_active := animation_active w; jiffies := jiffies w;
     bios := bios w; wmi_calls := wmi_calls w; stack_junk := stack_junk w;
     state_file := state_file w; fs_writable := fs_writable w;
     klog := klog w; hw_writes := hw_writes w |}.

Definition set_original_colors (v : list platform_zone) (w : world) : world :=
  {| zone_data := zone_data w; original_colors := v;
     global_brightness := global_brightness w;
     current_animation := current_animation w;
     animation_speed := animation_speed w;
     animation_timer := animation_timer w;
     animation_work := animation_work w;
     animation_start_time := animation_start_time w;
     animation_active := animation_active w; jiffies := jiffies w;
     bios := bios w; wmi_calls := wmi_calls w; stack_junk := stack_junk w;
     state_file := state_file w; fs_writable := fs_writable w;
     klog := klog w; hw_writes := hw_writes w |}.

Definition set_global_brightness (v : Z) (w : world) : world :=
  {| zone_data := zone_data w; original_colors := original_colors w;
     global_brightness := v; current_animation := current_animation w;
     animation_speed := animation_speed w;
     animation_timer := animation_timer w;
     animation_work := animation_work w;
     animation_start_time := animation_start_time w;
     animation_active := animation_active w; jiffies := jiffies w;
     bios := bios w; wmi_calls := wmi_calls w; stack_junk := stack_junk w;
     state_file := state_file w; fs_writable := fs_writable w;
     klog := klog w; hw_writes := hw_writes w |}.

Definition set_current_animation (v : animation_mode) (w : world) : world :=
  {| zone_data := zone_data w; original_colors := original_colors w;
     global_brightness := global_brightness w; current_animation := v;
     animation_speed := animation_speed w;
     animation_timer := animation_timer w;
     animation_work := animation_work w;
     animation_start_time := animation_start_time w;
     animation_active := animation_active w; jiffies := jiffies w;
     bios := bios w; wmi_calls := wmi_calls w; stack_junk := stack_junk w;
     state_file := state_file w; fs_writable := fs_writable w;
     klog := klog w; hw_writes := hw_writes w |}.

Definition set_animation_speed (v : Z) (w : world) : world :=
  {| zone_data := zone_data w; original_colors := original_colors w;
     global_brightness := global_brightness w;
     current_animation := current_animation w; animation_speed := v;
     animation_timer := animation_timer w;
     animation_work := animation_work w;
     animation_start_time := animation_start_time w;
     animation_active := animation_active w; jiffies := jiffies w;
     bios := bios w; wmi_calls := wmi_calls w; stack_junk := stack_junk w;
     state_file := state_file w; fs_writable := fs_writable w;
     klog := klog w; hw_writes := hw_writes w |}.

Definition set_animation_timer (v : option Z) (w : world) : world :=
  {| zone_data := zone_data w; original_colors := original_colors w;
     global_brightness := global_brightness w;
     current_animation := current_animation w;
     animation_speed := animation_speed w; animation_timer := v;
     animation_work := animation_work w;
     animation_start_time := animation_start_time w;
     animation_active := animation_active w; jiffies := jiffies w;
     bios := bios w; wmi_calls := wmi_calls w; stack_junk := stack_junk w;
     state_file := state_file w; fs_writable := fs_writable w;
     klog := klog w; hw_writes := hw_writes w |}.

Definition set_animation_work (v : bool) (w : world) : world :=
  {| zone_data := zone_data w; original_colors := original_colors w;
     global_brightness := global_brightness w;
     current_animation := current_animation w;
     animation_speed := animation_speed w;
     animation_timer := animation_timer w; animation_work := v;
     animation_start_time := animation_start_time w;
     animation_active := animation_active w; jiffies := jiffies w;
     bios := bios w; wmi_calls := wmi_calls w; stack_junk := stack_junk w;
     state_file := state_file w; fs_writable := fs_writable w;
     klog := klog w; hw_writes := hw_writes w |}.

Definition set_animation_start_time (v : Z) (w : world) : world :=
  {| zone_data := zone_data w; original_colors := original_colors w;
     global_brightness := global_brightness w;
     current_animation := current_animation w;
     animation_speed := animation_speed w;
     animation_timer := animation_timer w;
     animation_work := animation_work w; animation_start_time := v;
     animation_active := animation_active w; jiffies := jiffies w;
     bios := bios w; wmi_calls := wmi_calls w; stack_junk := stack_junk w;
     state_file := state_file w; fs_writable := fs_writable w;
     klog := klog w; hw_writes := hw_writes w |}.

Definition set_animation_active (v : bool) (w : world) : world :=
  {| zone_data := zone_data w; original_colors := original_colors w;
     global_brightness := global_brightness w;
     current_animation := current_animation w;
     animation_speed := animation_speed w;
     animation_timer := animation_timer w;
     animation_work := animation_work w;
     animation_start_time := animation_start_time w; animation_active := v;
     jiffies := jiffies w; bios := bios w; wmi_calls := wmi_calls w;
     stack_junk := stack_junk w; state_file := state_file w;
     fs_writable := fs_writable w; klog := klog w; hw_writes := hw_writes w |}.

Definition set_wmi_calls (v : list wmi_call) (w : world) : world :=
  {| zone_data := zone_data w; original_colors := original_colors w;
     global_brightness := global_brightness w;
     current_animation := current_animation w;
     animation_speed := animation_speed w;
     animation_timer := animation_timer w;
     animation_work := animation_work w;
     animation_start_time := animation_start_time w;
     animation_active := animation_active w; jiffies := jiffies w;
     bios := bios w; wmi_calls := v; stack_junk := stack_junk w;
     state_file := state_file w; fs_writable := fs_writable w;
     klog := klog w; hw_writes := hw_writes w |}.

Definition set_state_file (v : option (list Z)) (w : world) : world :=
  {| zone_data := zone_data w; original_colors := original_colors w;
     global_brightness := global_brightness w;
     current_animation := current_animation w;
     animation_speed := animation_speed w;
     animation_timer := animation_timer w;
     animation_work := animation_work w;
     animation_start_time := animation_start_time w;
     animation_active := animation_active w; jiffies := jiffies w;
     bios := bios w; wmi_calls := wmi_calls w; stack_junk := stack_junk w;
     state_file := v; fs_writable := fs_writable w; klog := klog w;
     hw_writes := hw_writes w |}.

Definition set_klog (v : list klog_msg) (w : world) : world :=
  {| zone_data := zone_data w; original_colors := original_colors w;
     global_brightness := global_brightness w;
     current_animation := current_animation w;
     animation_speed := animation_speed w;
     animation_timer := animation_timer w;
     animation_work := animation_work w;
     animation_start_time := animation_start_time w;
     animation_active := animation_active w; jiffies := jiffies w;
     bios := bios w; wmi_calls := wmi_calls w; stack_junk := stack_junk w;
     state_file := state_file w; fs_writable := fs_writable w; klog := v;
     hw_writes := hw_writes w |}.

Definition set_hw_writes (v : list hw_write) (w : world) : world :=
  {| zone_data := zone_data w; original_colors := original_colors w;
     global_brightness := global_brightness w;
     current_animation := current_animation w;
     animation_speed := animation_speed w;
     animation_timer := animation_timer w;
     animation_work := animation_work w;
     animation_start_time := animation_start_time w;
     animation_active := animation_active w; jiffies := jiffies w;
     bios := bios w; wmi_calls := wmi_calls w; stack_junk := stack_junk w;
     state_file := state_file w; fs_writable := fs_writable w;
     klog := klog w; hw_writes := v |}.

Definition set_jiffies (v : Z) (w : world) : world :=
  {| zone_data := zone_data w; original_colors := original_colors w;
     global_brightness := global_brightness w;
     current_animation := current_animation w;
     animation_speed := animation_speed w;
     animation_timer := animation_timer w;
     animation_work := animation_work w;
     animation_start_time := animation_start_time w;
     animation_active := animation_active w; jiffies := v; bios := bios w;
     wmi_calls := wmi_calls w; stack_junk := stack_junk w;
     state_file := state_file w; fs_writable := fs_writable w;
     klog := klog w; hw_writes := hw_writes w |}.

(** ** Sequencing

    A driver routine takes the world and returns its C result with the
    world it leaves. *)

Definition M (A : Type) : Type := world -> A * world.

Definition ret {A} (a : A) : M A := fun w => (a, w).

Definition bind {A B} (c : M A) (k : A -> M B) : M B :=
  fun w => let '(a, w1) := c w in k a w1.

Definition get : M world := fun w => (w, w).

Definition modify (f : world -> world) : M unit := fun w => (tt, f w).

Notation "'let*' x ':=' c 'in' k" := (bind c (fun x => k))
  (at level 10, x pattern, c at level 200, k at level 200).

Definition pr (m : klog_msg) : M unit :=
  modify (fun w => set_klog (m :: klog w) w).

(** Array reads [zone_data[z]] and [original_colors[z]]. *)
Definition zone_at (w : world) (z : nat) : platform_zone := nth z (zone_data w) zone0.
Definition original_at (w : world) (z : nat) : platform_zone :=
  nth z (original_colors w) zone0.

Definition set_zone_colors (z : nat) (c : color_platform) (w : world) : world :=
  set_zone_data (<[z := set_colors c (zone_at w z)]> (zone_data w)) w.

Definition set_original_colors_at (z : nat) (c : color_platform) (w : world) : world :=
  set_original_colors (<[z := set_colors c (original_at w z)]> (original_colors w)) w.

(** ** Protocol codec: the query *)

(** A buffer of exactly [n] bytes: the first [n] of [l], zero-filled. *)
Definition bytes_n (n : nat) (l : list Z) : list Z :=
  take n (map u8 l ++ replicate n 0).

(** A 32-bit little-endian field at byte [i] of a buffer. *)
Definition le32_at (l : list Z) (i : nat) : Z :=
  u8 (nth i l 0) + 256 * u8 (nth (i + 1) l 0)
  + 65536 * u8 (nth (i + 2) l 0) + 16777216 * u8 (nth (i + 3) l 0).

(** The request: [struct bios_args args] as initialised, with the first
    [insize] bytes of the caller's array copied into [data]. *)
Definition query_args (query command : Z) (buffer : list Z) (insize : Z)
  : bios_args :=
  {| signature := 1430472019;
     command := command;
     commandtype := query;
     datasize := u32 insize;
     data := bytes_n 128 (take (Z.to_nat insize) buffer) |}.

(** [buffer] is the caller's array, read for the request and overwritten
    with the answer; the routine returns its result and the array.  An
    answer shorter than the 8-byte [struct bios_return] header is outside
    what the C code handles: its missing bytes read as zero here and
    nothing is copied from it. *)
Definition hp_wmi_perform_query (query command : Z) (buffer : list Z)
    (insize outsize : Z) : M (Z * list Z) :=
  let mid := encode_outsize_for_pvsz outsize in
  if mid <? 0 then let* _ := pr WARN_ON_splat in ret (mid, buffer)
  else if u64 insize >? 128 then
    let* _ := pr WARN_ON_splat in ret (- EINVAL, buffer)
  else
    let call := {| method_id := mid;
                   input := query_args query command buffer insize |} in
    let* _ := modify (fun w => set_wmi_calls (call :: wmi_calls w) w) in
    let* w := get in
    match bios w (wmi_calls w) with
    | None => ret (- EINVAL, buffer)
    | Some (ACPI_TYPE_OTHER _) => ret (- EINVAL, buffer)
    | Some (ACPI_TYPE_BUFFER resp) =>
        let r := s32 (le32_at resp 4) in
        if negb (r =? 0) then
          let* _ :=
            if negb (r =? HPWMI_RET_UNKNOWN_COMMAND)
               && negb (r =? HPWMI_RET_UNKNOWN_CMDTYPE)
            then pr (warn_query_error query r) else ret tt in
          ret (r, buffer)
        else if outsize =? 0 then ret (r, buffer)
        else
          let actual_outsize :=
            Z.min outsize (s32 (Z.of_nat (length resp) - 8)) in
          let n := Z.to_nat actual_outsize in
          let out := take n (map u8 (drop 8 resp))
                     ++ replicate (Z.to_nat outsize - n)%nat 0 in
          ret (r, out ++ drop (Z.to_nat outsize) buffer)
    end.

(** ** Zone/colour model: frame transfer *)

(** The first zone whose attribute is [a], as the linear search finds it. *)
Fixpoint match_zone_from (zs : list platform_zone) (zone : nat) (n : nat)
    (a : nat) : option nat :=
  match n with
  | O => None
  | S n' =>
      if bool_decide (attr (nth zone zs zone0) = Some a) then Some zone
      else match_zone_from zs (S zone) n' a
  end.

Definition match_zone (w : world) (a : nat) : option nat :=
  match_zone_from (zone_data w) 0 ZONE_COUNT a.

(** [zone] is the index of the zone the C pointer designates; every caller
    passes the address of a [zone_data] element.  The local array [state]
    starts with whatever the stack holds.  An index past the end of [state]
    (an offset above 125) is outside what the C code handles; here such a
    store has no effect and such a load gives zero. *)
Definition fourzone_update_led (zone : nat) (rw : Z) : M Z :=
  let* w0 := get in
  let state := bytes_n 128 (stack_junk w0) in
  let* (r, state) :=
    hp_wmi_perform_query HPWMI_FOURZONE_COLOR_GET HPWMI_FOURZONE state 128 128 in
  if negb (r =? 0) then
    let* _ := pr (warn_fourzone_color_get r) in
    ret (if r <=? 0 then r else - EINVAL)
  else
    let* w := get in
    let z := zone_at w zone in
    let off := Z.to_nat (offset z) in
    if rw =? HPWMI_WRITE then
      let state :=
        <[(off + 2)%nat := blue (colors z)]>
          (<[(off + 1)%nat := green (colors z)]>
             (<[off := red (colors z)]> state)) in
      let* _ := modify (fun w =>
        set_hw_writes ({| hw_zone := zone;
                          hw_color := colors z;
                          hw_frame := state;
                          hw_original_colors := original_colors w;
                          hw_global_brightness := global_brightness w |}
                       :: hw_writes w) w) in
      let* (r, _) :=
        hp_wmi_perform_query HPWMI_FOURZONE_COLOR_SET HPWMI_FOURZONE state 128 128 in
      let* _ := if negb (r =? 0) then pr (warn_fourzone_color_set r) else ret tt in
      ret r
    else
      let* _ := modify (set_zone_colors zone
        {| blue := nth (off + 2) state 0;
           green := nth (off + 1) state 0;
           red := nth off state 0 |}) in
      ret 0.

(** ** Brightness *)

(** One channel: [int] multiplication and truncating division, stored
    back into a byte. *)
Definition scale_channel (c percent : Z) : Z := u8 ((c * percent) ÷ 100).

Definition apply_brightness_to_color (w : world) (color : color_platform)
  : color_platform :=
  {| blue := scale_channel (blue color) (global_brightness w);
     green := scale_channel (green color) (global_brightness w);
     red := scale_channel (red color) (global_brightness w) |}.

(** ** Persistence layer *)

Definition le32 (x : Z) : list Z :=
  [le_byte x 0; le_byte x 1; le_byte x 2; le_byte x 3].

Definition color_bytes (c : color_platform) : list Z :=
  [u8 (blue c); u8 (green c); u8 (red c)].

Definition color_at (l : list Z) (i : nat) : color_platform :=
  {| blue := u8 (nth i l 0);
     green := u8 (nth (i + 1) l 0);
     red := u8 (nth (i + 2) l 0) |}.

Definition zones : list nat := seq 0 ZONE_COUNT.

(** The object representation of [struct animation_state]: 24 bytes. *)
Definition animation_state_bytes (s : animation_state) : list Z :=
  le32 (mode s) ++ le32 (speed s) ++ le32 (brightness s)
  ++ concat (map (fun i => color_bytes (nth i (state_colors s) black)) zones).

Definition animation_state_of_bytes (l : list Z) : animation_state :=
  {| mode := le32_at l 0;
     speed := s32 (le32_at l 4);
     brightness := s32 (le32_at l 8);
     state_colors := map (fun i => color_at l (12 + 3 * i)) zones |}.

Definition sizeof_animation_state : Z := 24.

(** Creating the directory changes nothing modelled here.  [filp_open]
    for writing succeeds when [fs_writable]; the result of [kernel_write]
    is not looked at by the C code and the write is taken to be complete. *)
Definition save_animation_state : M unit :=
  let* w := get in
  let state :=
    {| mode := animation_mode_to_Z (current_animation w);
       speed := animation_speed w;
       brightness := global_brightness w;
       state_colors := map (fun i => colors (original_at w i)) zones |} in
  if fs_writable w then
    let* _ := modify (set_state_file (Some (animation_state_bytes state))) in
    pr info_state_saved
  else pr warn_save_failed.

Definition load_animation_state : M unit :=
  let* w := get in
  match state_file w with
  | None => pr info_no_saved_state
  | Some file =>
      let nread := Z.min (Z.of_nat (length file)) sizeof_animation_state in
      if negb (nread =? sizeof_animation_state) then pr warn_read_state_failed
      else
        let state := animation_state_of_bytes (take 24 file) in
        let* _ :=
          if (mode state >=? 0) && (mode state <? ANIMATION_COUNT) then
            match animation_mode_of_Z (mode state) with
            | Some m => modify (set_current_animation m)
            | None => ret tt
            end
          else ret tt in
        let* _ :=
          if (speed state >=? ANIMATION_SPEED_MIN)
             && (speed state <=? ANIMATION_SPEED_MAX)
          then modify (set_animation_speed (speed state)) else ret tt in
        let* _ :=
          if (brightness state >=? 0) && (brightness state <=? 100)
          then modify (set_global_brightness (brightness state)) else ret tt in
        let* _ := modify (fun w =>
          fold_left (fun w i =>
            set_original_colors_at i (nth i (state_colors state) black) w)
            zones w) in
        let* w := get in
        pr (info_state_loaded (animation_mode_to_Z (current_animation w))
              (animation_speed w) (global_brightness w))
  end.

(** ** Stopping an animation, and the direct writes *)

Fixpoint for_zones (zs : list nat) (body : nat -> M unit) : M unit :=
  match zs with
  | [] => ret tt
  | zone :: rest => let* _ := body zone in for_zones rest body
  end.

Definition stop_animation : M unit :=
  let* _ := modify (set_animation_active false) in
  let* _ := modify (set_animation_timer None) in
  for_zones zones (fun zone =>
    let* _ := modify (fun w => set_zone_colors zone (colors (original_at w zone)) w) in
    let* _ := modify (fun w =>
      set_zone_colors zone (apply_brightness_to_color w (colors (zone_at w zone))) w) in
    let* _ := fourzone_update_led zone HPWMI_WRITE in
    ret tt).

(** [a] is the attribute the write arrived on.  [parse_rgb] stores through
    [target_zone], which points into [zone_data]. *)
Definition zone_set (a : nat) (buf : string) (count : Z) : M Z :=
  let* w := get in
  match match_zone w a with
  | None => let* _ := pr err_invalid_target_zone in ret 1
  | Some zone_idx =>
      let (r, target) := parse_rgb buf (zone_at w zone_idx) in
      let* _ := modify (set_zone_data (<[zone_idx := target]> (zone_data w))) in
      if negb (r =? 0) then ret r
      else
        let* _ := stop_animation in
        let* _ := modify (set_current_animation ANIMATION_STATIC) in
        let* _ := modify (fun w =>
          set_original_colors_at zone_idx (colors (zone_at w zone_idx)) w) in
        let* _ := modify (fun w =>
          let c := colors (zone_at w zone_idx) in
          set_zone_colors zone_idx
            {| blue := scale_channel (blue c) (global_brightness w);
               green := scale_channel (green c) (global_brightness w);
               red := scale_channel (red c) (global_brightness w) |} w) in
        let* r := fourzone_update_led zone_idx HPWMI_WRITE in
        if negb (r =? 0) then ret r
        else
          let* _ := save_animation_state in
          ret count
  end.

Fixpoint brightness_set_loop (level : Z) (zs : list nat) : M Z :=
  match zs with
  | [] => ret 0
  | zone :: rest =>
      let* r := fourzone_update_led zone HPWMI_READ in
      if negb (r =? 0) then ret r
      else
        let* _ := modify (fun w =>
          set_original_colors_at zone (colors (zone_at w zone)) w) in
        let* _ := modify (fun w =>
          let c := colors (zone_at w zone) in
          set_zone_colors zone
            {| blue := u8 (u64 (blue c * level) ÷ 100);
               green := u8 (u64 (green c * level) ÷ 100);
               red := u8 (u64 (red c * level) ÷ 100) |} w) in
        let* r := fourzone_update_led zone HPWMI_WRITE in
        if negb (r =? 0) then ret r
        else brightness_set_loop level rest
  end.

Definition brightness_set (buf : string) (count : Z) : M Z :=
  match kstrtoul buf 10 with
  | Err _ => ret (- EINVAL)
  | Ok level =>
      let level := if level >? 100 then 100 else level in
      let* _ := modify (set_global_brightness (s32 level)) in
      let* r := brightness_set_loop level zones in
      if negb (r =? 0) then ret r
      else
        let* _ := save_animation_state in
        ret count
  end.

Fixpoint all_set_loop (temp : platform_zone) (zs : list nat) : M Z :=
  match zs with
  | [] => ret 0
  | z :: rest =>
      let* _ := modify (set_original_colors_at z (colors temp)) in
      let* _ := modify (fun w =>
        set_zone_colors z
          {| blue := scale_channel (blue (colors temp)) (global_brightness w);
             green := scale_channel (green (colors temp)) (global_brightness w);
             red := scale_channel (red (colors temp)) (global_brightness w) |} w) in
      let* r := fourzone_update_led z HPWMI_WRITE in
      if negb (r =? 0) then ret r
      else all_set_loop temp rest
  end.

(** The local [temp] is uninitialised; only its colours are read, and only
    after [parse_rgb] has stored them. *)
Definition all_set (buf : string) (count : Z) : M Z :=
  let (r, temp) := parse_rgb buf zone0 in
  if negb (r =? 0) then ret r
  else
    let* _ := stop_animation in
    let* _ := modify (set_current_animation ANIMATION_STATIC) in
    let* r := all_set_loop temp zones in
    if negb (r =? 0) then ret r
    else
      let* _ := save_animation_state in
      ret count.

(** ** Animation math *)

Definition simple_sin (angle_degrees : Z) : Z :=
  let a := Z.rem angle_degrees 360 in
  let a := if a <? 0 then a + 360 else a in
  if a <? 90 then (a * 100) ÷ 90
  else if a <? 180 then ((180 - a) * 100) ÷ 90
  else if a <? 270 then (- ((a - 180) * 100)) ÷ 90
  else (- ((360 - a) * 100)) ÷ 90.

Definition hsv_to_rgb (h s v : Z) : color_platform :=
  let c := (v * s) ÷ 100 in
  let x := (c * (60 - Z.abs (Z.rem h 120 - 60))) ÷ 60 in
  let m := v - c in
  let '(r, g, b) :=
    if h <? 60 then (c, x, 0)
    else if h <? 120 then (x, c, 0)
    else if h <? 180 then (0, c, x)
    else if h <? 240 then (0, x, c)
    else if h <? 300 then (x, 0, c)
    else (c, 0, x) in
  {| blue := u8 (((b + m) * 255) ÷ 100);
     green := u8 (((g + m) * 255) ÷ 100);
     red := u8 (((r + m) * 255) ÷ 100) |}.

(** A colour with each channel multiplied by [num] and divided by [den]. *)
Definition dim (c : color_platform) (num den : Z) : color_platform :=
  {| blue := u8 ((blue c * num) ÷ den);
     green := u8 ((green c * num) ÷ den);
     red := u8 ((red c * num) ÷ den) |}.

Definition rgb (r g b : Z) : color_platform :=
  {| blue := b; green := g; red := r |}.

(** The frame push shared by all effects. *)
Definition update_all_zones_with_colors (frame : list color_platform) : M unit :=
  for_zones zones (fun zone =>
    let* _ := modify (set_zone_colors zone (nth zone frame black)) in
    let* _ := modify (fun w =>
      set_zone_colors zone (apply_brightness_to_color w (colors (zone_at w zone))) w) in
    let* _ := fourzone_update_led zone HPWMI_WRITE in
    ret tt).

(** ** Effects and the scheduler

    [msecs_to_jiffies] depends on the kernel's tick rate and is left open.
    The kernel gives a positive number of jiffies for a positive number of
    milliseconds; a zero cycle time, on which the C code would divide by
    zero, cannot arise for speeds 1 to 10. *)

Section Animation.

Variable msecs_to_jiffies : Z -> Z.

Definition elapsed_jiffies (w : world) : Z :=
  u64 (jiffies w - animation_start_time w).

Definition animation_breathing : M unit :=
  let* w := get in
  let elapsed := elapsed_jiffies w in
  let cycle_time := msecs_to_jiffies (2000 ÷ animation_speed w) in
  let cycle_pos := Z.rem elapsed cycle_time in
  let angle := s32 (u64 (360 * cycle_pos) ÷ cycle_time) in
  let intensity := 50 + (50 * simple_sin angle) ÷ 100 in
  update_all_zones_with_colors
    (map (fun zone => dim (colors (original_at w zone)) intensity 100) zones).

Definition animation_rainbow : M unit :=
  let* w := get in
  let elapsed := elapsed_jiffies w in
  let cycle_time := msecs_to_jiffies (3000 ÷ animation_speed w) in
  let cycle_pos := Z.rem elapsed cycle_time in
  update_all_zones_with_colors
    (map (fun zone =>
       let hue :=
         s32 (Z.rem (u64 (u64 (360 * cycle_pos) ÷ cycle_time
                          + Z.of_nat zone * 90)) 360) in
       hsv_to_rgb hue 100 100) zones).

Definition animation_wave : M unit :=
  let* w := get in
  let elapsed := elapsed_jiffies w in
  let cycle_time := msecs_to_jiffies (2000 ÷ animation_speed w) in
  let cycle_pos := Z.rem elapsed cycle_time in
  update_all_zones_with_colors
    (map (fun zone =>
       let wave_pos :=
         s32 (Z.rem (u64 (u64 (cycle_pos * 4) ÷ cycle_time + Z.of_nat zone)) 4) in
       let angle := (360 * wave_pos) ÷ 4 in
       let intensity := 30 + (70 * (100 + simple_sin angle)) ÷ 200 in
       dim (colors (original_at w zone)) intensity 100) zones).

Definition animation_pulse : M unit :=
  let* w := get in
  let elapsed := elapsed_jiffies w in
  let cycle_time := msecs_to_jiffies (1500 ÷ animation_speed w) in
  let cycle_pos := Z.rem elapsed cycle_time in
  let angle := s32 (u64 (360 * cycle_pos) ÷ cycle_time) in
  let intensity := 20 + (80 * (100 + simple_sin angle)) ÷ 200 in
  update_all_zones_with_colors
    (map (fun zone => dim (colors (original_at w zone)) intensity 100) zones).

Definition animation_chase : M unit :=
  let* w := get in
  let elapsed := elapsed_jiffies w in
  let cycle_time := msecs_to_jiffies (1200 ÷ animation_speed w) in
  let cycle_pos := Z.rem elapsed cycle_time in
  let active_zone := s32 (u64 (cycle_pos * Z.of_nat ZONE_COUNT) ÷ cycle_time) in
  let base_color := colors (original_at w 0) in
  update_all_zones_with_colors
    (map (fun zone =>
       if Z.of_nat zone =? active_zone then base_color
       else dim base_color 1 6) zones).

Definition animation_sparkle : M unit :=
  let* w := get in
  let elapsed := elapsed_jiffies w in
  let cycle_time := msecs_to_jiffies (3000 ÷ animation_speed w) in
  let base_color := colors (original_at w 0) in
  update_all_zones_with_colors
    (map (fun zone =>
       let sparkle_offset :=
         s32 (Z.rem (u64 (elapsed + Z.of_nat zone * 800)) cycle_time) in
       let sparkle_duration := s32 (cycle_time ÷ 8) in
       if sparkle_offset <? sparkle_duration then rgb 255 255 255
       else dim base_color 1 8) zones).

Definition animation_candle : M unit :=
  let* w := get in
  let elapsed := elapsed_jiffies w in
  let cycle_time := msecs_to_jiffies (100 ÷ animation_speed w) in
  let cycle_pos := Z.rem elapsed cycle_time in
  update_all_zones_with_colors
    (map (fun zone =>
       let flicker :=
         s32 (Z.rem (u64 (cycle_pos + Z.of_nat zone * 500)) cycle_time) in
       let intensity := s32 (60 + u64 (40 * flicker) ÷ cycle_time) in
       rgb (u8 ((255 * intensity) ÷ 100))
           (u8 ((150 * intensity) ÷ 100))
           (u8 ((50 * intensity) ÷ 100))) zones).

Definition animation_aurora : M unit :=
  let* w := get in
  let elapsed := elapsed_jiffies w in
  let cycle_time := msecs_to_jiffies (4000 ÷ animation_speed w) in
  let cycle_pos := Z.rem elapsed cycle_time in
  update_all_zones_with_colors
    (map (fun zone =>
       let wave_pos :=
         s32 (Z.rem (u64 (cycle_pos * 2 + Z.of_nat zone * 1000)) cycle_time) in
       let angle := s32 (u64 (360 * wave_pos) ÷ cycle_time) in
       let intensity := 30 + (70 * (100 + simple_sin angle)) ÷ 200 in
       rgb (u8 ((20 * intensity) ÷ 100))
           (u8 ((200 * intensity) ÷ 100))
           (u8 ((180 * intensity) ÷ 100))) zones).

Definition animation_disco : M unit :=
  let* w := get in
  let elapsed := elapsed_jiffies w in
  let cycle_time := msecs_to_jiffies (300 ÷ animation_speed w) in
  let cycle_pos := Z.rem elapsed cycle_time in
  update_all_zones_with_colors
    (if cycle_pos <? cycle_time ÷ 2 then
       [rgb 255 0 0; rgb 0 255 0; rgb 0 0 255; rgb 255 0 255]
     else [black; black; black; black]).

Definition animation_work_func : M unit :=
  let* w := get in
  if negb (animation_active w) || is_static (current_animation w) then ret tt
  else
    match current_animation w with
    | ANIMATION_STATIC => ret tt
    | ANIMATION_BREATHING => animation_breathing
    | ANIMATION_RAINBOW => animation_rainbow
    | ANIMATION_WAVE => animation_wave
    | ANIMATION_PULSE => animation_pulse
    | ANIMATION_CHASE => animation_chase
    | ANIMATION_SPARKLE => animation_sparkle
    | ANIMATION_CANDLE => animation_candle
    | ANIMATION_AURORA => animation_aurora
    | ANIMATION_DISCO => animation_disco
    end.

Definition mod_timer_interval : M unit :=
  modify (fun w =>
    set_animation_timer
      (Some (u64 (jiffies w + msecs_to_jiffies ANIMATION_TIMER_INTERVAL_MS))) w).

Definition animation_timer_callback : M unit :=
  let* w := get in
  if animation_active w && negb (is_static (current_animation w)) then
    let* _ := modify (set_animation_work true) in
    mod_timer_interval
  else ret tt.

Definition start_animation : M unit :=
  let* w := get in
  if is_static (current_animation w) then modify (set_animation_active false)
  else
    let* _ := modify (set_animation_start_time (jiffies w)) in
    let* _ := modify (set_animation_active true) in
    mod_timer_interval.

(** [strncmp (buf, lit, n) == 0]. *)
Definition strncmp_eq (buf lit : string) (n : nat) : bool :=
  bool_decide (take n (cstr buf ++ [0]) = take n (cstr lit ++ [0])).

Definition animation_mode_set (buf : string) (count : Z) : M Z :=
  let new_mode :=
    if strncmp_eq buf "static" 6 then Some ANIMATION_STATIC
    else if strncmp_eq buf "breathing" 9 then Some ANIMATION_BREATHING
    else if strncmp_eq buf "rainbow" 7 then Some ANIMATION_RAINBOW
    else if strncmp_eq buf "wave" 4 then Some ANIMATION_WAVE
    else if strncmp_eq buf "pulse" 5 then Some ANIMATION_PULSE
    else if strncmp_eq buf "chase" 5 then Some ANIMATION_CHASE
    else if strncmp_eq buf "sparkle" 7 then Some ANIMATION_SPARKLE
    else if strncmp_eq buf "candle" 6 then Some ANIMATION_CANDLE
    else if strncmp_eq buf "aurora" 6 then Some ANIMATION_AURORA
    else if strncmp_eq buf "disco" 5 then Some ANIMATION_DISCO
    else None in
  match new_mode with
  | None => ret (- EINVAL)
  | Some new_mode =>
      let* _ := stop_animation in
      let* _ := modify (set_current_animation new_mode) in
      let* _ := if negb (is_static new_mode) then start_animation else ret tt in
      let* _ := save_animation_state in
      ret count
  end.

Definition animation_speed_set (buf : string) (count : Z) : M Z :=
  match kstrtoul buf 10 with
  | Err e => ret e
  | Ok speed =>
      if (speed <? ANIMATION_SPEED_MIN) || (speed >? ANIMATION_SPEED_MAX)
      then ret (- EINVAL)
      else
        let* _ := modify (set_animation_speed (s32 speed)) in
        let* w := get in
        let* _ :=
          if animation_active w && negb (is_static (current_animation w)) then
            let* _ := stop_animation in start_animation
          else ret tt in
        let* _ := save_animation_state in
        ret count
  end.

(** Driver initialisation.  Allocation failures are not modelled, and the
    registration of the attribute group is taken to succeed. *)
Fixpoint fourzone_setup_read (zs : list nat) : M Z :=
  match zs with
  | [] => ret 0
  | zone :: rest =>
      let* _ := modify (fun w =>
        set_zone_data
          (<[zone := {| offset := u8 (25 + Z.of_nat zone * 3);
                        attr := attr (zone_at w zone);
                        colors := colors (zone_at w zone) |}]> (zone_data w)) w) in
      let* r := fourzone_update_led zone HPWMI_READ in
      if negb (r =? 0) then ret r
      else
        let* _ := modify (fun w =>
          set_original_colors_at zone (colors (zone_at w zone)) w) in
        fourzone_setup_read rest
  end.

Definition fourzone_setup : M Z :=
  let* _ := load_animation_state in
  let* _ := modify (set_zone_data (replicate ZONE_COUNT zone0)) in
  let* r := fourzone_setup_read zones in
  if negb (r =? 0) then ret r
  else
    let* _ := for_zones zones (fun zone =>
      modify (fun w =>
        set_zone_data
          (<[zone := {| offset := u8 (25 + Z.of_nat zone * 3);
                        attr := Some zone;
                        colors := colors (zone_at w zone) |}]> (zone_data w)) w)) in
    let* w := get in
    let* _ := if negb (is_static (current_animation w)) then start_animation
              else ret tt in
    ret 0.

(** The timer core: an expired timer is taken off the list and its
    callback runs; the work queue runs a queued work item. *)
Definition timer_expire : M unit :=
  let* w := get in
  match animation_timer w with
  | Some expires =>
      if expires <=? jiffies w then
        let* _ := modify (set_animation_timer None) in
        animation_timer_callback
      else ret tt
  | None => ret tt
  end.

Definition run_work : M unit :=
  let* w := get in
  if animation_work w then
    let* _ := modify (set_animation_work false) in
    animation_work_func
  else ret tt.

End Animation.

(** The state of the globals when the module is loaded. *)
Definition boot (fw : list wmi_call -> option acpi_object) (junk : list Z)
    (file : option (list Z)) (writable : bool) : world :=
  {| zone_data := [];
     original_colors := replicate ZONE_COUNT zone0;
     global_brightness := 100;
     current_animation := ANIMATION_STATIC;
     animation_speed := ANIMATION_SPEED_DEFAULT;
     animation_timer := None;
     animation_work := false;
     animation_start_time := 0;
     animation_active := false;
     jiffies := 0;
     bios := fw;
     wmi_calls := [];
     stack_junk := junk;
     state_file := file;
     fs_writable := writable;
     klog := [];
     hw_writes := [] |}.

(** ** A reference firmware

    A keyboard controller that keeps the last frame it was sent: it
    answers a colour GET with status 0 and that frame, a colour SET with
    status 0, and any other command type with status 4. *)

Fixpoint current_frame (init : list Z) (calls : list wmi_call) : list Z :=
  match calls with
  | [] => bytes_n 128 init
  | c :: history =>
      if commandtype (input c) =? HPWMI_FOURZONE_COLOR_SET
      then bytes_n 128 (data (input c))
      else current_frame init history
  end.

Definition bios_return_bytes (return_code : Z) : list Z :=
  le32 0 ++ le32 return_code.

Definition frame_store (init : list Z) (calls : list wmi_call)
  : option acpi_object :=
  match calls with
  | [] => None
  | c :: history =>
      if commandtype (input c) =? HPWMI_FOURZONE_COLOR_GET then
        Some (ACPI_TYPE_BUFFER (bios_return_bytes 0 ++ current_frame init history))
      else if commandtype (input c) =? HPWMI_FOURZONE_COLOR_SET then
        Some (ACPI_TYPE_BUFFER (bios_return_bytes 0))
      else Some (ACPI_TYPE_BUFFER (bios_return_bytes 4))
  end.

(** The colour the frame holds for zone [z]. *)
Definition frame_color (frame : list Z) (z : nat) : color_platform :=
  {| blue := nth (25 + 3 * z + 2) frame 0;
     green := nth (25 + 3 * z + 1) frame 0;
     red := nth (25 + 3 * z) frame 0 |}.

(** ** Well-formed driver state *)

Definition u8_color (c : color_platform) : Prop :=
  (0 <= blue c < 256) /\ (0 <= green c < 256) /\ (0 <= red c < 256).

(** Four zones, four base colours, byte-sized channels and a brightness
    percentage. *)
Record colors_ok (w : world) : Prop := {
  ok_zones : length (zone_data w) = ZONE_COUNT;
  ok_originals : length (original_colors w) = ZONE_COUNT;
  ok_brightness : 0 <= global_brightness w <= 100;
  ok_zone_colors : forall z, u8_color (colors (zone_at w z));
  ok_original_colors : forall z, u8_color (colors (original_at w z))
}.

(** Every zone sits at its place in the frame. *)
Definition offsets_ok (w : world) : Prop :=
  forall z, (z < ZONE_COUNT)%nat -> offset (zone_at w z) = 25 + 3 * Z.of_nat z.

(** What initialisation establishes and every operation keeps. *)
Definition wf (w : world) : Prop := colors_ok w /\ offsets_ok w.

(** Hoare triples over [M]. *)
Definition hoare {A} (P : world -> Prop) (c : M A) (Q : A -> world -> Prop)
  : Prop :=
  forall w, P w -> Q (fst (c w)) (snd (c w)).

(** Worlds that differ at most in the firmware call history and the
    kernel log. *)
Definition same_driver (w w' : world) : Prop :=
  exists calls log, w' = set_klog log (set_wmi_calls calls w).

(** A property of worlds that the call history and the log do not
    affect. *)
Definition stable (P : world -> Prop) : Prop :=
  forall w w', P w -> same_driver w w' -> P w'.

(** The record of a frame pushed for [zone] from world [w]. *)
Definition pushed (w : world) (zone : nat) (frame : list Z) : hw_write :=
  {| hw_zone := zone;
     hw_color := colors (nth zone (zone_data w) zone0);
     hw_frame := frame;
     hw_original_colors := original_colors w;
     hw_global_brightness := global_brightness w |}.

(** The frames pushed since [w] all satisfy [P]. *)
Definition writes_since (w w' : world) (P : hw_write -> Prop) : Prop :=
  exists l, hw_writes w' = l ++ hw_writes w /\ Forall P l.

(** A pushed colour is the zone's base colour scaled by the brightness,
    each channel by truncating division. *)
Definition write_scaled (e : hw_write) : Prop :=
  let o := colors (nth (hw_zone e) (hw_original_colors e) zone0) in
  let g := hw_global_brightness e in
  red (hw_color e) = (red o * g) ÷ 100
  /\ green (hw_color e) = (green o * g) ÷ 100
  /\ blue (hw_color e) = (blue o * g) ÷ 100.

(** A pushed colour is the colour [frame] has for the zone, scaled by the
    brightness. *)
Definition write_scaled_from (frame : list color_platform) (e : hw_write)
  : Prop :=
  let c := nth (hw_zone e) frame black in
  let g := hw_global_brightness e in
  red (hw_color e) = (red c * g) ÷ 100
  /\ green (hw_color e) = (green c * g) ÷ 100
  /\ blue (hw_color e) = (blue c * g) ÷ 100.

Definition byte_list (l : list Z) : Prop := Forall (fun b => 0 <= b < 256) l.

(** The zone's colour is its base colour scaled by the brightness. *)
Definition zone_scaled (w : world) (z : nat) : Prop :=
  colors (zone_at w z) = apply_brightness_to_color w (colors (original_at w z)).

(** The invariant of the colour writes: the state is well formed and every
    frame pushed since [w0] satisfies [P]. *)
Definition writes_inv (P : hw_write -> Prop) (w0 w : world) : Prop :=
  wf w /\ writes_since w0 w P.

(** The base colours while a frame is pushed: they are what they were at
    [w0], now and at every push recorded since. *)
Definition originals_kept (w0 w : world) : Prop :=
  original_colors w = original_colors w0
  /\ writes_since w0 w
       (fun e => hw_original_colors e = original_colors w0).

(** The part of [colors_ok] that holds before the zones are allocated. *)
Definition originals_ok (w : world) : Prop :=
  length (original_colors w) = ZONE_COUNT
  /\ 0 <= global_brightness w <= 100
  /\ forall z, u8_color (colors (original_at w z)).

(** ** A sample machine

    A tick rate of 1000 Hz, the reference firmware holding four colours,
    no state file yet, and the driver initialised on it. *)

Definition hz1000 (m : Z) : Z := m.

Definition sample_frame : list Z :=
  replicate 25 0 ++ [10; 20; 30; 40; 50; 60; 70; 80; 90; 100; 110; 120].

Definition sample_boot : world := boot (frame_store sample_frame) [] None true.

Definition sample_world : world := (fourzone_setup hz1000 sample_boot).2.

(** The sample machine running the disco effect, 60 ms after the effect
    was started: the timer has expired and queued the frame work. *)
Definition sample_disco : world :=
  (timer_expire hz1000
     (set_jiffies 60 (animation_mode_set hz1000 "disco" 6 sample_world).2)).2.

(** The scheduler is in its Static state: no effect selected, the active
    flag down, the timer disarmed. *)
Definition scheduler_static (w : world) : Prop :=
  current_animation w = ANIMATION_STATIC
  /\ animation_active w = false
  /\ animation_timer w = None.

(** Two worlds with the same scheduler state. *)
Definition same_scheduler (w w' : world) : Prop :=
  current_animation w' = current_animation w
  /\ animation_active w' = animation_active w
  /\ animation_timer w' = animation_timer w.

(** A routine whose final world is always related to the initial one by
    [R]. *)
Definition keeps (R : world -> world -> Prop) {A} (c : M A) : Prop :=
  forall w, R w (c w).2.

(** The sample machine running the rainbow effect. *)
Definition sample_rainbow : world :=
  (animation_mode_set hz1000 "rainbow" 8 sample_world).2.

(** A colour with every channel scaled to [percent]. *)
Definition scale_color (c : color_platform) (percent : Z) : color_platform :=
  {| blue := (blue c * percent) ÷ 100;
     green := (green c * percent) ÷ 100;
     red := (red c * percent) ÷ 100 |}.

(** The percentage a brightness write of [level] sets. *)
Definition clamp_level (level : Z) : Z := if level >? 100 then 100 else level.

(** A frame as the firmware holds it: 128 bytes. *)
Definition frame_ok (frame : list Z) : Prop :=
  length frame = 128%nat /\ byte_list frame.

(** The frame with the three bytes of zone [z] replaced by colour [c]. *)
Definition frame_with (frame : list Z) (z : nat) (c : color_platform) : list Z :=
  <[(25 + 3 * z + 2)%nat := blue c]>
    (<[(25 + 3 * z + 1)%nat := green c]>
       (<[(25 + 3 * z)%nat := red c]> frame)).

(** The sample machine with all zones set to (200, 100, 50). *)
Definition sample_tan : world := (all_set "C86432" 7 sample_world).2.

(** The state record a save writes for world [w]. *)
Definition saved_state (w : world) : animation_state :=
  {| mode := animation_mode_to_Z (current_animation w);
     speed := animation_speed w;
     brightness := global_brightness w;
     state_colors := map (fun i => colors (original_at w i)) zones |}.

(** A state file holding the record of the sample machine with the
    rainbow effect at speed 5 and brightness 50, followed by one more
    byte. *)
Definition sample_long_file : list Z :=
  animation_state_bytes
    {| mode := 2; speed := 5; brightness := 50;
       state_colors := [rgb 1 2 3; rgb 4 5 6; rgb 7 8 9; rgb 10 11 12] |}
  ++ [0].

(** The globals after the fields of record [s] have been checked and
    applied to world [w], as [load_animation_state] does. *)
Definition apply_state (s : animation_state) (w : world) : world :=
  let w1 :=
    if (mode s >=? 0) && (mode s <? ANIMATION_COUNT) then
      match animation_mode_of_Z (mode s) with
      | Some m => set_current_animation m w
      | None => w
      end
    else w in
  let w2 :=
    if (speed s >=? ANIMATION_SPEED_MIN) && (speed s <=? ANIMATION_SPEED_MAX)
    then set_animation_speed (speed s) w1 else w1 in
  let w3 :=
    if (brightness s >=? 0) && (brightness s <=? 100)
    then set_global_brightness (brightness s) w2 else w2 in
  fold_left (fun w i =>
    set_original_colors_at i (nth i (state_colors s) black) w) zones w3.

(** ** Reading the attributes

    The show routines format into the sysfs page with [sprintf] and return
    the number of characters written. *)

Definition nl : string := String "010"%char EmptyString.

Definition digit_char (d : Z) : ascii := ascii_of_N (Z.to_N (48 + d)).

(** The decimal digits of a non-negative number in front of [acc], most
    significant first. *)
Fixpoint decimal_digits (fuel : nat) (n : Z) (acc : string) : string :=
  match fuel with
  | O => acc
  | S fuel' =>
      let acc' := String (digit_char (n mod 10)) acc in
      if n <? 10 then acc' else decimal_digits fuel' (n / 10) acc'
  end.

(** The conversion [%d] of an [int], which has at most ten digits. *)
Definition fmt_d (n : Z) : string :=
  if n <? 0 then String "-" (decimal_digits 10 (- n) EmptyString)
  else decimal_digits 10 n EmptyString.

(** What [sprintf] returns for the text it has written, with the text. *)
Definition sprintf (text : string) : Z * string :=
  (Z.of_nat (String.length text), text).

Definition no_color_text : string :=
  ("red: -1, green: -1, blue: -1" ++ nl)%string.

Definition color_text (c : color_platform) : string :=
  ("red: " ++ fmt_d (red c) ++ ", green: " ++ fmt_d (green c)
   ++ ", blue: " ++ fmt_d (blue c) ++ nl)%string.

Definition zone_show (a : nat) : M (Z * string) :=
  let* w := get in
  match match_zone w a with
  | None => ret (sprintf no_color_text)
  | Some zone =>
      let* r := fourzone_update_led zone HPWMI_READ in
      if negb (r =? 0) then ret (sprintf no_color_text)
      else
        let* w := get in
        ret (sprintf (color_text (colors (zone_at w zone))))
  end.

Definition all_show : M (Z * string) :=
  let* r := fourzone_update_led 0 HPWMI_READ in
  if negb (r =? 0) then ret (sprintf no_color_text)
  else
    let* w := get in
    ret (sprintf (color_text (colors (zone_at w 0)))).

Definition brightness_show : M (Z * string) :=
  let* w := get in
  ret (sprintf (fmt_d (global_brightness w) ++ nl)%string).

Definition mode_names : list string :=
  ["static"; "breathing"; "rainbow"; "wave"; "pulse";
   "chase"; "sparkle"; "candle"; "aurora"; "disco"]%string.

Definition animation_mode_show : M (Z * string) :=
  let* w := get in
  let m := animation_mode_to_Z (current_animation w) in
  if m >=? ANIMATION_COUNT then ret (sprintf ("unknown" ++ nl)%string)
  else ret (sprintf (nth (Z.to_nat m) mode_names EmptyString ++ nl)%string).

Definition animation_speed_show : M (Z * string) :=
  let* w := get in
  ret (sprintf (fmt_d (animation_speed w) ++ nl)%string).

(** ** Module unload

    [cancel_work_sync] takes the work item off the queue.  Unregistering
    the platform device and the driver removes the attributes and changes
    nothing modelled here. *)
Definition hp_wmi_exit : M unit :=
  let* _ := stop_animation in
  modify (set_animation_work false).

(** ** The plain variant

    The handlers of [src/hp-wmi.c] that differ from the ones above: there
    is no animation to stop and no state to save.  [parse_rgb],
    [match_zone], [fourzone_update_led], the show routines and the zone
    loop of [brightness_set] are the same code. *)

Module Plain.

Definition zone_set (a : nat) (buf : string) (count : Z) : M Z :=
  let* w := get in
  match match_zone w a with
  | None => let* _ := pr err_invalid_target_zone in ret 1
  | Some zone_idx =>
      let (r, target) := parse_rgb buf (zone_at w zone_idx) in
      let* _ := modify (set_zone_data (<[zone_idx := target]> (zone_data w))) in
      if negb (r =? 0) then ret r
      else
        let* _ := modify (fun w =>
          set_original_colors_at zone_idx (colors (zone_at w zone_idx)) w) in
        let* _ := modify (fun w =>
          let c := colors (zone_at w zone_idx) in
          set_zone_colors zone_idx
            {| blue := scale_channel (blue c) (global_brightness w);
               green := scale_channel (green c) (global_brightness w);
               red := scale_channel (red c) (global_brightness w) |} w) in
        let* r := fourzone_update_led zone_idx HPWMI_WRITE in
        ret (if negb (r =? 0) then r else count)
  end.

Definition brightness_set (buf : string) (count : Z) : M Z :=
  match kstrtoul buf 10 with
  | Err _ => ret (- EINVAL)
  | Ok level =>
      let level := if level >? 100 then 100 else level in
      let* _ := modify (set_global_brightness (s32 level)) in
      let* r := brightness_set_loop level zones in
      if negb (r =? 0) then ret r
      else ret count
  end.

Definition all_set (buf : string) (count : Z) : M Z :=
  let (r, temp) := parse_rgb buf zone0 in
  if negb (r =? 0) then ret r
  else
    let* r := all_set_loop temp zones in
    if negb (r =? 0) then ret r
    else ret count.

(** Allocation failures are not modelled, and the registration of the
    attribute group is taken to succeed. *)
Definition fourzone_setup : M Z :=
  let* _ := modify (set_zone_data (replicate ZONE_COUNT zone0)) in
  let* r := fourzone_setup_read zones in
  if negb (r =? 0) then ret r
  else
    let* _ := for_zones zones (fun zone =>
      modify (fun w =>
        set_zone_data
          (<[zone := {| offset := u8 (25 + Z.of_nat zone * 3);
                        attr := Some zone;
                        colors := colors (zone_at w zone) |}]> (zone_data w)) w)) in
    ret 0.

End Plain.

(** ** The driver in use

    What happens to a loaded driver: a write to or a read of one of its
    attributes, time passing, the timer core finding the timer expired and
    the work queue running the queued work. *)

Inductive op : Type :=
  | write_zone (a : nat) (buf : string) (count : Z)
  | write_all (buf : string) (count : Z)
  | write_brightness (buf : string) (count : Z)
  | write_animation_mode (buf : string) (count : Z)
  | write_animation_speed (buf : string) (count : Z)
  | read_zone (a : nat)
  | read_all
  | read_brightness
  | read_animation_mode
  | read_animation_speed
  | time_passes (d : Z)
  | timer_fires
  | work_runs.

Section Use.

Variable msecs_to_jiffies : Z -> Z.

Definition run_op (o : op) : M unit :=
  match o with
  | write_zone a buf count => let* _ := zone_set a buf count in ret tt
  | write_all buf count => let* _ := all_set buf count in ret tt
  | write_brightness buf count => let* _ := brightness_set buf count in ret tt
  | write_animation_mode buf count =>
      let* _ := animation_mode_set msecs_to_jiffies buf count in ret tt
  | write_animation_speed buf count =>
      let* _ := animation_speed_set msecs_to_jiffies buf count in ret tt
  | read_zone a => let* _ := zone_show a in ret tt
  | read_all => let* _ := all_show in ret tt
  | read_brightness => let* _ := brightness_show in ret tt
  | read_animation_mode => let* _ := animation_mode_show in ret tt
  | read_animation_speed => let* _ := animation_speed_show in ret tt
  | time_passes d => modify (fun w => set_jiffies (u64 (jiffies w + d)) w)
  | timer_fires => timer_expire msecs_to_jiffies
  | work_runs => run_work msecs_to_jiffies
  end.

Fixpoint run_ops (os : list op) : M unit :=
  match os with
  | [] => ret tt
  | o :: rest => let* _ := run_op o in run_ops rest
  end.

End Use.

(** ** Properties of states used below *)

(** The speed is one the effects can divide by. *)
Definition speed_ok (w : world) : Prop :=
  ANIMATION_SPEED_MIN <= animation_speed w <= ANIMATION_SPEED_MAX.

(** A timer is pending exactly while an effect is running, and a running
    effect is never the static mode. *)
Definition scheduler_ok (w : world) : Prop :=
  (animation_timer w <> None <-> animation_active w = true)
  /\ (animation_active w = true -> current_animation w <> ANIMATION_STATIC).

(** Zone [z] answers to attribute [z], as the setup leaves it. *)
Definition attrs_ok (w : world) : Prop :=
  forall z, (z < ZONE_COUNT)%nat -> attr (zone_at w z) = Some z.

(** The state of a driver in use. *)
Definition driver_ok (w : world) : Prop :=
  wf w /\ attrs_ok w /\ speed_ok w /\ scheduler_ok w.

(** The name of a mode in the table of [animation_mode_show]. *)
Definition mode_name (m : animation_mode) : string :=
  nth (Z.to_nat (animation_mode_to_Z m)) mode_names EmptyString.

(** The world with the zone array, the call history, the log and the
    record of pushed frames blanked: what is left are the settings. *)
Definition settings (w : world) : world :=
  set_hw_writes [] (set_klog [] (set_wmi_calls [] (set_zone_data [] w))).

(** Channel by channel, [c] is at most [d]. *)
Definition color_le (c d : color_platform) : Prop :=
  red c <= red d /\ green c <= green d /\ blue c <= blue d.

Definition is_get (c : wmi_call) : Prop :=
  commandtype (input c) = HPWMI_FOURZONE_COLOR_GET.

(** The settings without the base colours and the state file: the
    brightness, the scheduler and the environment. *)
Definition controls (w : world) : world :=
  set_state_file None (set_original_colors [] (settings w)).

Definition same_settings (w w' : world) : Prop := settings w' = settings w.

Definition same_controls (w w' : world) : Prop := controls w' = controls w.

(** The mode a write to [animation_mode] selects: the chain of [strncmp]
    tests at the head of [animation_mode_set]. *)
Definition parse_mode (buf : string) : option animation_mode :=
  if strncmp_eq buf "static" 6 then Some ANIMATION_STATIC
  else if strncmp_eq buf "breathing" 9 then Some ANIMATION_BREATHING
  else if strncmp_eq buf "rainbow" 7 then Some ANIMATION_RAINBOW
  else if strncmp_eq buf "wave" 4 then Some ANIMATION_WAVE
  else if strncmp_eq buf "pulse" 5 then Some ANIMATION_PULSE
  else if strncmp_eq buf "chase" 5 then Some ANIMATION_CHASE
  else if strncmp_eq buf "sparkle" 7 then Some ANIMATION_SPARKLE
  else if strncmp_eq buf "candle" 6 then Some ANIMATION_CANDLE
  else if strncmp_eq buf "aurora" 6 then Some ANIMATION_AURORA
  else if strncmp_eq buf "disco" 5 then Some ANIMATION_DISCO
  else None.

(** [s] starts with [p], as C strings. *)
Definition has_prefix (p s : string) : Prop :=
  exists rest, s = (p ++ rest)%string.

(** Where the zones sit and which attribute each answers to. *)
Definition layout (w : world) : list (Z * option nat) :=
  map (fun zn => (offset zn, attr zn)) (zone_data w).

Definition same_layout (w w' : world) : Prop := layout w' = layout w.

Definition same_speed (w w' : world) : Prop :=
  animation_speed w' = animation_speed w.

(** A relation between the world before and after that colour traffic
    respects: it is a preorder, and frame transfers, colour assignments,
    log entries and a new state file stay within it. *)
Class ColorClosed (R : world -> world -> Prop) : Prop := {
  cc_refl : forall w, R w w;
  cc_trans : forall w1 w2 w3, R w1 w2 -> R w2 w3 -> R w1 w3;
  cc_read : forall z, keeps R (fourzone_update_led z HPWMI_READ);
  cc_write : forall z, keeps R (fourzone_update_led z HPWMI_WRITE);
  cc_zone : forall z c w, R w (set_zone_colors z c w);
  cc_original : forall z c w, R w (set_original_colors_at z c w);
  cc_klog : forall l w, R w (set_klog l w);
  cc_file : forall f w, R w (set_state_file f w)
}.

(** Such a relation that assignments to the scheduler's variables, the
    brightness and the clock respect as well. *)
Class SettingClosed (R : world -> world -> Prop) : Prop := {
  sc_color :: ColorClosed R;
  sc_active : forall b w, R w (set_animation_active b w);
  sc_timer : forall t w, R w (set_animation_timer t w);
  sc_current : forall m w, R w (set_current_animation m w);
  sc_start_time : forall t w, R w (set_animation_start_time t w);
  sc_work : forall b w, R w (set_animation_work b w);
  sc_jiffies : forall j w, R w (set_jiffies j w);
  sc_brightness : forall g w, R w (set_global_brightness g w)
}.

(** The colour the reference keyboard, started with frame [init], holds
    for zone [z] after the calls of world [w]. *)
Definition kbd (init : list Z) (w : world) (z : nat) : color_platform :=
  frame_color (current_frame init (wmi_calls w)) z.

(** The world without what a loaded state record can change, and without
    the log. *)
Definition unloaded (w : world) : world :=
  set_klog []
    (set_animation_speed 0
       (set_current_animation ANIMATION_STATIC
          (set_global_brightness 0 (set_original_colors [] w)))).

(** The colour GET that opens a frame transfer from world [w]. *)
Definition get_call (w : world) : wmi_call :=
  {| method_id := 3;
     input := query_args HPWMI_FOURZONE_COLOR_GET HPWMI_FOURZONE
                (bytes_n 128 (stack_junk w)) 128 |}.

(** The world after a colour read of zone [z] that returned colour [c]:
    one more GET on the record and the colour in the zone. *)
Definition after_read (z : nat) (c : color_platform) (w : world) : world :=
  set_zone_colors z c (set_wmi_calls (get_call w :: wmi_calls w) w).

(** The events that are not attribute accesses. *)
Definition clock_op (o : op) : bool :=
  match o with
  | time_passes _ | timer_fires | work_runs => true
  | _ => false
  end.

(** The world without the clock, the timer and the queued work. *)
Definition clockless (w : world) : world :=
  set_jiffies 0 (set_animation_timer None (set_animation_work false w)).

(** What a query whose sizes are accepted returns for the firmware's
    answer: [-EINVAL] when there is no buffer object, and otherwise the
    [return_code] of the answer as an [int]. *)
Definition answer_status (answer : option acpi_object) : Z :=
  match answer with
  | Some (ACPI_TYPE_BUFFER resp) => s32 (le32_at resp 4)
  | _ => - EINVAL
  end.

(** * Verification *)

(** ** Size classes *)

(** C8: the requested output length is mapped to a size class by a
    monotonic step function: every length at most 0 gives the smallest
    class 1, every length above 4096 is refused with [-EINVAL] (no
    clamping), and the class steps up exactly after 0, 4, 128 and 1024, the
    last class ending at 4096.  A query with a refused length fails with
    [-EINVAL] before the firmware is called. *)
Theorem C8_encode_outsize_steps :
  (forall n, n <= 0 -> encode_outsize_for_pvsz n = 1)
  /\ (forall n, 0 < n <= 4 -> encode_outsize_for_pvsz n = 2)
  /\ (forall n, 4 < n <= 128 -> encode_outsize_for_pvsz n = 3)
  /\ (forall n, 128 < n <= 1024 -> encode_outsize_for_pvsz n = 4)
  /\ (forall n, 1024 < n <= 4096 -> encode_outsize_for_pvsz n = 5)
  /\ (forall n, 4096 < n -> encode_outsize_for_pvsz n = - EINVAL)
  /\ (forall n m, n <= m -> m <= 4096 ->
        encode_outsize_for_pvsz n <= encode_outsize_for_pvsz m)
  /\ (forall query command buffer insize n w, 4096 < n ->
        hp_wmi_perform_query query command buffer insize n w
        = ((- EINVAL, buffer), set_klog (WARN_ON_splat :: klog w) w)).
Proof.
  assert (Hbig : forall n, 4096 < n -> encode_outsize_for_pvsz n = - EINVAL).
  { intros n Hn. unfold encode_outsize_for_pvsz.
    destruct (Z.gtb_spec n 4096); [reflexivity | lia]. }
  unfold encode_outsize_for_pvsz at 1 2 3 4 5 6 7 8. unfold EINVAL at 1.
  repeat (split; [intros;
    repeat match goal with
           | |- context [?a >? ?b] => destruct (Z.gtb_spec a b)
           end; lia|]).
  intros query command buffer insize n w Hn.
  unfold hp_wmi_perform_query. rewrite (Hbig n Hn). reflexivity.
Qed.

Lemma C8_encode_outsize_steps_witness :
  encode_outsize_for_pvsz (-3) = 1
  /\ encode_outsize_for_pvsz 4 = 2
  /\ encode_outsize_for_pvsz 128 = 3
  /\ encode_outsize_for_pvsz 129 = 4
  /\ encode_outsize_for_pvsz 4096 = 5
  /\ encode_outsize_for_pvsz 4097 = - EINVAL
  /\ encode_outsize_for_pvsz 4 <= encode_outsize_for_pvsz 5.
Proof.
  destruct C8_encode_outsize_steps as (H1 & H2 & H3 & H4 & H5 & H6 & H7 & _).
  split; [apply H1; lia|].
  split; [apply H2; lia|].
  split; [apply H3; lia|].
  split; [apply H4; lia|].
  split; [apply H5; lia|].
  split; [apply H6; lia|].
  apply H7; lia.
Defined.

(** ** Integer conversions *)

Lemma u8_id (x : Z) : 0 <= x < 256 -> u8 x = x.
Proof. intros H. unfold u8. apply Z.mod_small. lia. Qed.

Lemma u8_range (x : Z) : 0 <= u8 x < 256.
Proof. unfold u8. apply Z.mod_pos_bound. lia. Qed.

Lemma u64_range (x : Z) : 0 <= u64 x < 2 ^ 64.
Proof. unfold u64. apply Z.mod_pos_bound. lia. Qed.

Lemma u64_id (x : Z) : 0 <= x < 2 ^ 64 -> u64 x = x.
Proof. intros H. unfold u64. apply Z.mod_small. lia. Qed.

Lemma s32_small (x : Z) : 0 <= x < 2 ^ 31 -> s32 x = x.
Proof.
  intros H. unfold s32. rewrite Z.mod_small by lia.
  destruct (Z.ltb_spec x (2 ^ 31)); lia.
Qed.

Lemma s32_zero_iff (x : Z) : 0 <= x < 2 ^ 32 -> (s32 x = 0 <-> x = 0).
Proof.
  intros H. unfold s32. rewrite Z.mod_small by lia.
  destruct (Z.ltb_spec x (2 ^ 31)); lia.
Qed.

(** ** Brightness scaling *)

Lemma scale_channel_exact (c p : Z) :
  0 <= c < 256 -> 0 <= p <= 100 ->
  scale_channel c p = (c * p) ÷ 100 /\ 0 <= (c * p) ÷ 100 <= c.
Proof.
  intros Hc Hp. unfold scale_channel.
  assert (Hq : (c * p) ÷ 100 = (c * p) / 100)
    by (apply Z.quot_div_nonneg; nia).
  assert (Hb : 0 <= (c * p) / 100 <= c).
  { split.
    - apply Z.div_pos; nia.
    - apply Z.div_le_upper_bound; nia. }
  rewrite Hq. split; [apply u8_id; lia | lia].
Qed.

Lemma scale_channel_full (c : Z) : 0 <= c < 256 -> scale_channel c 100 = c.
Proof.
  intros Hc. unfold scale_channel.
  rewrite Z.quot_mul by lia. now apply u8_id.
Qed.

Lemma scale_channel_zero (c : Z) : scale_channel c 0 = 0.
Proof. unfold scale_channel. rewrite Z.mul_0_r. reflexivity. Qed.

(** C6: [apply_brightness_to_color] computes every channel on its own as
    channel * percent / 100 with truncating division; for byte channels
    and a percentage from 0 to 100 no output channel exceeds its input, at
    100 the colour is returned as it is, and at 0 the result is black. *)
Theorem C6_apply_brightness (w : world) (c : color_platform) :
  0 <= global_brightness w <= 100 ->
  u8_color c ->
  let out := apply_brightness_to_color w c in
  (red out = (red c * global_brightness w) ÷ 100
   /\ green out = (green c * global_brightness w) ÷ 100
   /\ blue out = (blue c * global_brightness w) ÷ 100)
  /\ (red out <= red c /\ green out <= green c /\ blue out <= blue c)
  /\ (global_brightness w = 100 -> out = c)
  /\ (global_brightness w = 0 -> out = black).
Proof.
  intros Hp (Hb & Hg & Hr). cbv zeta.
  destruct (scale_channel_exact (red c) _ Hr Hp) as [Er Br].
  destruct (scale_channel_exact (green c) _ Hg Hp) as [Eg Bg].
  destruct (scale_channel_exact (blue c) _ Hb Hp) as [Eb Bb].
  unfold apply_brightness_to_color; cbn [red green blue].
  split; [auto|]. split; [rewrite Er, Eg, Eb; lia|]. split.
  - intros ->. rewrite !scale_channel_full by assumption. now destruct c.
  - intros ->. rewrite !scale_channel_zero. reflexivity.
Qed.

Lemma C6_apply_brightness_witness :
  let w := set_global_brightness 50 (boot (frame_store []) [] None true) in
  apply_brightness_to_color w (rgb 255 128 7) = rgb 127 64 3
  /\ red (apply_brightness_to_color w (rgb 255 128 7)) <= 255.
Proof.
  cbv zeta.
  pose proof (C6_apply_brightness
                (set_global_brightness 50 (boot (frame_store []) [] None true))
                (rgb 255 128 7)) as H.
  cbv zeta in H.
  destruct H as (_ & (Hr & _) & _).
  - cbn. lia.
  - unfold u8_color; cbn. lia.
  - split; [reflexivity | exact Hr].
Defined.

(** ** Colour parsing *)

Lemma parse_integer_range (s : list Z) (base res : Z) (rv : nat) (ovf : bool) :
  0 <= res < 2 ^ 64 ->
  0 <= (_parse_integer s base res rv ovf).1.1 < 2 ^ 64.
Proof.
  revert res rv ovf. induction s as [|c s IH]; intros res rv ovf Hres; cbn.
  - exact Hres.
  - destruct (digit_value c) as [val|]; [|exact Hres].
    destruct (val >=? base); [exact Hres|].
    apply IH, u64_range.
Qed.

Lemma kstrtoull_range (s : list Z) (base v : Z) :
  kstrtoull s base = Ok v -> 0 <= v < 2 ^ 64.
Proof.
  unfold kstrtoull, _kstrtoull.
  match goal with
  | |- context [_parse_integer_fixup_radix ?s1 base] =>
      set (s2 := _parse_integer_fixup_radix s1 base)
  end.
  pose proof (parse_integer_range s2 base 0 0%nat false ltac:(lia)) as H.
  destruct (_parse_integer s2 base 0 0%nat false) as [[res rv] ovf].
  cbn in H.
  destruct ovf; [discriminate|].
  destruct (Nat.eqb rv 0); [discriminate|].
  match goal with
  | |- match ?t with [] => _ | _ :: _ => _ end = _ -> _ =>
      destruct t; [|discriminate]
  end.
  intros [= <-]. exact H.
Qed.

Lemma kstrtoull_errno (s : list Z) (base e : Z) :
  kstrtoull s base = Err e -> e = - EINVAL \/ e = - ERANGE.
Proof.
  unfold kstrtoull, _kstrtoull.
  match goal with
  | |- context [_parse_integer_fixup_radix ?s1 base] =>
      set (s2 := _parse_integer_fixup_radix s1 base)
  end.
  destruct (_parse_integer s2 base 0 0%nat false) as [[res rv] ovf].
  destruct ovf; [intros [= <-]; now right|].
  destruct (Nat.eqb rv 0); [intros [= <-]; now left|].
  match goal with
  | |- match ?t with [] => _ | _ :: _ => _ end = _ -> _ =>
      destruct t; [discriminate|]
  end.
  intros [= <-]; now left.
Qed.

(** *** Strings of hexadecimal digits *)

Lemma tolower_small (c : Z) : 0 <= c < 64 -> _tolower c < 64.
Proof.
  intros H. unfold _tolower.
  destruct (Z.eq_dec (Z.lor c 32) 0) as [->|Hne]; [lia|].
  assert (0 <= Z.lor c 32) by (apply Z.lor_nonneg; lia).
  apply (Z.log2_lt_pow2 _ 6); [lia|].
  rewrite Z.log2_lor by lia.
  apply Z.max_lub_lt; [|reflexivity].
  destruct (Z.eq_dec c 0) as [->|Hc]; [reflexivity|].
  apply Z.log2_lt_pow2; lia.
Qed.

Lemma digit_value_some (c h : Z) :
  digit_value c = Some h ->
  0 <= h < 16 /\ c <> 0 /\ c <> 43 /\ c <> 10 /\ _tolower c <> 120.
Proof.
  unfold digit_value.
  destruct (Z.leb_spec 48 c) as [H48|H48];
    [destruct (Z.leb_spec c 57) as [H57|H57]|]; cbn [andb].
  - intros [= <-]. pose proof (tolower_small c ltac:(lia)).
    repeat split; lia.
  - destruct (Z.leb_spec 97 (_tolower c));
      destruct (Z.leb_spec (_tolower c) 102); cbn [andb]; try discriminate.
    intros [= <-]. repeat split; lia.
  - destruct (Z.leb_spec 97 (_tolower c)) as [H97|H97];
      destruct (Z.leb_spec (_tolower c) 102); cbn [andb]; try discriminate.
    intros [= <-].
    repeat split; try lia; intros ->; unfold _tolower in H97;
      [ change (Z.lor 0 32) with 32 in H97
      | change (Z.lor 43 32) with 43 in H97
      | change (Z.lor 10 32) with 42 in H97 ]; lia.
Qed.

Lemma land_top_nibble (res : Z) :
  0 <= res < 2 ^ 60 -> Z.land res (u64 (Z.shiftl ULLONG_MAX 60)) = 0.
Proof.
  intros H. change (u64 (Z.shiftl ULLONG_MAX 60)) with (Z.shiftl 15 60).
  apply Z.bits_inj'. intros n Hn. rewrite Z.land_spec, Z.bits_0.
  destruct (Z.lt_ge_cases n 60).
  - rewrite Z.shiftl_spec_low by lia. apply andb_false_r.
  - destruct (Z.eq_dec res 0) as [->|Hr]; [now rewrite Z.bits_0|].
    rewrite (Z.bits_above_log2 res n); [reflexivity | lia |].
    assert (Z.log2 res < 60) by (apply Z.log2_lt_pow2; lia). lia.
Qed.

Lemma parse_integer_hex (s : list Z) (hs : list Z) :
  Forall2 (fun c h => digit_value c = Some h) s hs ->
  forall res rv ovf,
    0 <= res < 16 ^ (15 - Z.of_nat (length s)) ->
    (length s <= 15)%nat ->
    _parse_integer s 16 res rv ovf
    = (fold_left (fun r h => r * 16 + h) hs res, (rv + length s)%nat, ovf).
Proof.
  induction 1 as [|c h s hs Hc _ IH]; intros res rv ovf Hres Hlen.
  - cbn. now rewrite Nat.add_0_r.
  - cbn [_parse_integer fold_left length]. rewrite Hc.
    apply digit_value_some in Hc as (Hh & _).
    destruct (Z.geb_spec h 16); [lia|].
    cbn [length] in Hres, Hlen.
    assert (Hp : 16 ^ (15 - Z.of_nat (S (length s))) * 16
                 = 16 ^ (15 - Z.of_nat (length s))).
    { replace (15 - Z.of_nat (length s))
        with (Z.succ (15 - Z.of_nat (S (length s)))) by lia.
      rewrite Z.pow_succ_r by lia. lia. }
    assert (Hb : 16 ^ (15 - Z.of_nat (S (length s))) <= 2 ^ 60).
    { change (2 ^ 60) with (16 ^ 15). apply Z.pow_le_mono_r; lia. }
    rewrite land_top_nibble by lia.
    change (negb (0 =? 0)) with false. cbn [andb]. rewrite orb_false_r.
    rewrite u64_id by (change (2 ^ 64) with (2 ^ 60 * 16); nia).
    rewrite IH by (try nia; lia).
    f_equal. f_equal. lia.
Qed.

Lemma cstr_chars (buf : string) (hs : list Z) :
  hex_digits buf hs -> cstr buf = map code (list_ascii_of_string buf).
Proof.
  unfold hex_digits. revert hs.
  induction buf as [|c buf IH]; intros hs H; cbn [cstr list_ascii_of_string map].
  - reflexivity.
  - inversion H as [|? h ? hs' Hc Hrest]; subst.
    apply digit_value_some in Hc as (_ & Hc & _).
    fold (code c). destruct (Z.eqb_spec (code c) 0); [contradiction|].
    f_equal. now apply (IH hs').
Qed.

Lemma hex_value_bound (hs : list Z) (res : Z) (n : Z) :
  Forall (fun h => 0 <= h < 16) hs -> 0 <= res < 16 ^ n -> 0 <= n ->
  0 <= fold_left (fun r h => r * 16 + h) hs res < 16 ^ (n + Z.of_nat (length hs)).
Proof.
  intros H. revert res n. induction H as [|h hs Hh _ IH]; intros res n Hres Hn.
  - cbn. now rewrite Z.add_0_r.
  - cbn [fold_left length].
    replace (n + Z.of_nat (S (length hs))) with ((n + 1) + Z.of_nat (length hs)) by lia.
    apply IH; [|lia]. rewrite Z.pow_add_r by lia. change (16 ^ 1) with 16. nia.
Qed.

Lemma kstrtoul_hex_digits (buf : string) (hs : list Z) :
  hex_digits buf hs -> (0 < length hs <= 15)%nat ->
  kstrtoul buf 16 = Ok (hex_value hs).
Proof.
  intros H Hlen. unfold kstrtoul. rewrite (cstr_chars buf hs H).
  unfold hex_digits in H.
  assert (H' : Forall2 (fun c h => digit_value c = Some h)
                 (map code (list_ascii_of_string buf)) hs).
  { apply Forall2_fmap_l. exact H. }
  set (s := map code (list_ascii_of_string buf)) in *. clearbody s.
  assert (Hls : length s = length hs) by (eapply Forall2_length; eassumption).
  unfold kstrtoull, _kstrtoull.
  destruct H' as [|c0 h0 s hs Hc0 Hrest]; [cbn in Hlen; lia|].
  pose proof Hc0 as Hd. apply digit_value_some in Hd as (_ & _ & H43 & _ & _).
  destruct (Z.eqb_spec c0 43); [contradiction|].
  assert (Hfix : _parse_integer_fixup_radix (c0 :: s) 16 = c0 :: s).
  { unfold _parse_integer_fixup_radix. destruct Hrest as [|c1 h1 s hs Hc1 _]; [reflexivity|].
    apply digit_value_some in Hc1 as (_ & _ & _ & _ & Hx).
    destruct (Z.eqb_spec (_tolower c1) 120); [contradiction|].
    now rewrite andb_false_r. }
  rewrite Hfix.
  rewrite (parse_integer_hex (c0 :: s) (h0 :: hs)); [|constructor; assumption| |lia].
  2:{ split; [lia|]. apply Z.pow_pos_nonneg; lia. }
  cbn [Nat.add]. destruct (Nat.eqb_spec (length (c0 :: s)) 0) as [E|_]; [discriminate|].
  rewrite drop_all. reflexivity.
Qed.

(** The bytes of a value below 2^24, as the union lays them out. *)
Lemma repackager_channels (v : Z) :
  0 <= v <= 16777215 ->
  repackager (s32 v)
  = {| blue := v mod 256;
       green := (v / 256) mod 256;
       red := (v / 65536) mod 256 |}.
Proof.
  intros Hv. rewrite s32_small by lia.
  unfold repackager, le_byte, u32.
  rewrite (Z.mod_small v (2 ^ 32)) by lia.
  change 255 with (Z.ones 8).
  rewrite !Z.land_ones, !Z.shiftr_div_pow2 by lia.
  change (2 ^ (8 * 0)) with 1. change (2 ^ (8 * 1)) with 256.
  change (2 ^ (8 * 2)) with 65536. change (2 ^ 8) with 256.
  now rewrite Z.div_1_r.
Qed.

(** C3: [parse_rgb] accepts exactly the strings that [kstrtoul] reads in
    base 16 as a value of at most 0xFFFFFF.  It fails with [-EINVAL] on a
    larger value and with [kstrtoul]'s negative error on anything that does
    not parse, and leaves the zone untouched then.  For an accepted value
    the three low-order bytes give the colour: bits 16-23 are red, bits
    8-15 green and bits 0-7 blue.  Every string of one to six hexadecimal
    digits is read as the number it denotes, and so is accepted. *)
Theorem C3_parse_rgb (buf : string) (zone : platform_zone) :
  (forall v, kstrtoul buf 16 = Ok v -> v <= 16777215 ->
     parse_rgb buf zone
     = (0, set_colors {| blue := v mod 256;
                         green := (v / 256) mod 256;
                         red := (v / 65536) mod 256 |} zone))
  /\ (forall v, kstrtoul buf 16 = Ok v -> 16777215 < v ->
        parse_rgb buf zone = (- EINVAL, zone))
  /\ (forall e, kstrtoul buf 16 = Err e ->
        parse_rgb buf zone = (e, zone) /\ e < 0)
  /\ (forall hs, hex_digits buf hs -> (0 < length hs <= 6)%nat ->
        kstrtoul buf 16 = Ok (hex_value hs) /\ hex_value hs <= 16777215).
Proof.
  unfold parse_rgb. split; [|split; [|split]]; cycle 3.
  { intros hs Hd Hl. split; [apply kstrtoul_hex_digits; [exact Hd | lia]|].
    assert (Hf : Forall (fun h => 0 <= h < 16) hs).
    { unfold hex_digits in Hd. clear Hl.
      induction Hd as [|c h s hs Hc _ IH]; constructor; [|exact IH].
      now apply digit_value_some in Hc. }
    pose proof (hex_value_bound hs 0 0 Hf ltac:(lia) ltac:(lia)) as Hb.
    fold (hex_value hs) in Hb.
    assert (16 ^ (0 + Z.of_nat (length hs)) <= 16 ^ 6)
      by (apply Z.pow_le_mono_r; lia).
    change (16 ^ 6) with 16777216 in *. lia. }
  - intros v Hk Hv. rewrite Hk.
    apply kstrtoull_range in Hk.
    destruct (Z.gtb_spec v 16777215); [lia|].
    rewrite repackager_channels by lia. reflexivity.
  - intros v Hk Hv. rewrite Hk.
    destruct (Z.gtb_spec v 16777215); [reflexivity | lia].
  - intros e Hk. rewrite Hk. split; [reflexivity|].
    apply kstrtoull_errno in Hk. unfold EINVAL, ERANGE in Hk. lia.
Qed.

Lemma C3_parse_rgb_witness :
  parse_rgb "FF8001" zone0 = (0, set_colors (rgb 255 128 1) zone0)
  /\ parse_rgb "1000000" zone0 = (- EINVAL, zone0)
  /\ parse_rgb "red" zone0 = (- EINVAL, zone0)
  /\ kstrtoul "fF8001" 16 = Ok (hex_value [15; 15; 8; 0; 0; 1]).
Proof.
  split; [|split; [|split]].
  - exact (proj1 (C3_parse_rgb "FF8001" zone0) 16744449
             eq_refl ltac:(lia)).
  - exact (proj1 (proj2 (C3_parse_rgb "1000000" zone0)) 16777216
             eq_refl ltac:(lia)).
  - exact (proj1 (proj1 (proj2 (proj2 (C3_parse_rgb "red" zone0)))
                    (- EINVAL) eq_refl)).
  - refine (proj1 (proj2 (proj2 (proj2 (C3_parse_rgb "fF8001" zone0)))
                     [15; 15; 8; 0; 0; 1] _ _)).
    + repeat constructor.
    + cbn. lia.
Defined.

(** ** Firmware status codes *)

Lemma le32_at_range (l : list Z) (i : nat) : 0 <= le32_at l i < 2 ^ 32.
Proof.
  unfold le32_at.
  pose proof (u8_range (nth i l 0)).
  pose proof (u8_range (nth (i + 1) l 0)).
  pose proof (u8_range (nth (i + 2) l 0)).
  pose proof (u8_range (nth (i + 3) l 0)).
  change (2 ^ 32) with 4294967296. lia.
Qed.

Lemma encode_outsize_nonneg (outsize : Z) :
  outsize <= 4096 -> (encode_outsize_for_pvsz outsize <? 0) = false.
Proof.
  intros H. unfold encode_outsize_for_pvsz.
  destruct (Z.gtb_spec outsize 4096); [lia|].
  repeat match goal with
         | |- context [?a >? ?b] => destruct (Z.gtb_spec a b)
         end; reflexivity.
Qed.

Lemma insize_accepted (insize : Z) :
  0 <= insize <= 128 -> (u64 insize >? 128) = false.
Proof.
  intros H. rewrite u64_id by lia.
  destruct (Z.gtb_spec insize 128); [lia | reflexivity].
Qed.

(** C9: when the firmware answers a query with a non-zero status code, the
    query returns that code (as the [int] it is stored in) and leaves the
    caller's buffer alone; codes 0x03 and 0x04 add nothing to the kernel
    log, every other non-zero code adds one warning. *)
Theorem C9_query_status (w : world) (query command : Z) (buffer : list Z)
    (insize outsize : Z) (resp : list Z) :
  outsize <= 4096 ->
  0 <= insize <= 128 ->
  bios w ({| method_id := encode_outsize_for_pvsz outsize;
             input := query_args query command buffer insize |}
          :: wmi_calls w) = Some (ACPI_TYPE_BUFFER resp) ->
  le32_at resp 4 <> 0 ->
  let code := s32 (le32_at resp 4) in
  let res := hp_wmi_perform_query query command buffer insize outsize w in
  res.1 = (code, buffer)
  /\ code <> 0
  /\ (le32_at resp 4 < 2 ^ 31 -> code = le32_at resp 4)
  /\ klog res.2
     = (if (code =? HPWMI_RET_UNKNOWN_COMMAND)
           || (code =? HPWMI_RET_UNKNOWN_CMDTYPE)
        then klog w
        else warn_query_error query code :: klog w).
Proof.
  intros Hout Hin Hbios Hcode. cbv zeta.
  pose proof (le32_at_range resp 4) as Hr.
  assert (Hs : s32 (le32_at resp 4) <> 0)
    by (rewrite s32_zero_iff by lia; exact Hcode).
  unfold hp_wmi_perform_query.
  rewrite encode_outsize_nonneg, insize_accepted by assumption.
  unfold bind, modify, get, ret, pr. cbn.
  rewrite Hbios.
  destruct (Z.eqb_spec (s32 (le32_at resp 4)) 0) as [E|_]; [contradiction|].
  cbn.
  destruct (s32 (le32_at resp 4) =? HPWMI_RET_UNKNOWN_COMMAND);
    destruct (s32 (le32_at resp 4) =? HPWMI_RET_UNKNOWN_CMDTYPE); cbn;
    (split; [reflexivity|]); (split; [assumption|]);
    (split; [intros; apply s32_small; lia | reflexivity]).
Qed.

(** A firmware that answers every call with the same status code. *)
Lemma C9_query_status_witness :
  let w := boot (fun _ => Some (ACPI_TYPE_BUFFER (bios_return_bytes 5)))
             [] None true in
  (hp_wmi_perform_query HPWMI_FOURZONE_COLOR_GET HPWMI_FOURZONE
     (replicate 128 0) 128 128 w).1 = (5, replicate 128 0).
Proof.
  cbv zeta.
  refine (proj1 (C9_query_status
    (boot (fun _ => Some (ACPI_TYPE_BUFFER (bios_return_bytes 5))) [] None true)
    HPWMI_FOURZONE_COLOR_GET HPWMI_FOURZONE (replicate 128 0) 128 128
    (bios_return_bytes 5) _ _ _ _)).
  - lia.
  - lia.
  - reflexivity.
  - vm_compute. discriminate.
Defined.

(** ** Failed colour parsing *)

Lemma world_eta (w : world) :
  {| zone_data := zone_data w; original_colors := original_colors w;
     global_brightness := global_brightness w;
     current_animation := current_animation w;
     animation_speed := animation_speed w;
     animation_timer := animation_timer w;
     animation_work := animation_work w;
     animation_start_time := animation_start_time w;
     animation_active := animation_active w;
     jiffies := jiffies w; bios := bios w; wmi_calls := wmi_calls w;
     stack_junk := stack_junk w; state_file := state_file w;
     fs_writable := fs_writable w; klog := klog w;
     hw_writes := hw_writes w |} = w.
Proof. now destruct w. Qed.

Lemma insert_nth_same {A} (l : list A) (i : nat) (d : A) :
  <[i := nth i l d]> l = l.
Proof.
  revert i. induction l as [|x l IH]; intros [|i]; cbn; try reflexivity.
  now rewrite IH.
Qed.

Lemma writeback_same_zone (w : world) (z : nat) :
  set_zone_data (<[z := zone_at w z]> (zone_data w)) w = w.
Proof.
  unfold zone_at. rewrite insert_nth_same. unfold set_zone_data.
  apply world_eta.
Qed.

Lemma parse_rgb_failure (buf : string) (zone zone' : platform_zone) (e : Z) :
  (parse_rgb buf zone).1 = e -> e <> 0 -> parse_rgb buf zone' = (e, zone').
Proof.
  unfold parse_rgb. destruct (kstrtoul buf 16) as [v|e'].
  - destruct (v >? 16777215); cbn; intros <- H; [reflexivity | contradiction].
  - cbn. now intros <-.
Qed.

(** C10: when the colour does not parse (not a base-16 number, or a value
    above 0xFFFFFF), a single-zone write on a zone's own attribute and an
    all-zones write return the parse error and leave the whole world as it
    was: zone colours, base colours, animation mode, timer, kernel log and
    state file are unchanged and the firmware has not been called. *)
Theorem C10_parse_failure_atomic (w : world) (a z : nat) (buf : string)
    (count e : Z) :
  (parse_rgb buf zone0).1 = e ->
  e <> 0 ->
  (match_zone w a = Some z -> zone_set a buf count w = (e, w))
  /\ all_set buf count w = (e, w).
Proof.
  intros He Hne. split.
  - intros Hm. unfold zone_set, bind, get. cbv beta iota. rewrite Hm.
    rewrite (parse_rgb_failure buf zone0 (zone_at w z) e He Hne).
    unfold modify. cbv beta iota.
    destruct (Z.eqb_spec e 0) as [E|_]; [contradiction|]. cbv beta iota.
    unfold negb, ret. now rewrite writeback_same_zone.
  - unfold all_set.
    rewrite (parse_rgb_failure buf zone0 zone0 e He Hne).
    destruct (Z.eqb_spec e 0) as [E|_]; [contradiction|]. reflexivity.
Qed.

Lemma C10_parse_failure_atomic_witness :
  let w := (fourzone_setup (fun m => m)
              (boot (frame_store []) [] None true)).2 in
  zone_set 1 "xyz" 4 w = (- EINVAL, w)
  /\ all_set "1000000" 8 w = (- EINVAL, w).
Proof.
  cbv zeta. split.
  - refine (proj1 (C10_parse_failure_atomic _ 1 1 "xyz" 4 (- EINVAL) _ _) _).
    + reflexivity.
    + unfold EINVAL; lia.
    + vm_compute. reflexivity.
  - refine (proj2 (C10_parse_failure_atomic _ 1 1 "1000000" 8 (- EINVAL) _ _)).
    + reflexivity.
    + unfold EINVAL; lia.
Defined.

(** ** Reasoning rules *)

Lemma hoare_ret {A} (P : world -> Prop) (a : A) (Q : A -> world -> Prop) :
  (forall w, P w -> Q a w) -> hoare P (ret a) Q.
Proof. intros H w Hw. now apply H. Qed.

Lemma hoare_bind {A B} (P : world -> Prop) (R : A -> world -> Prop)
    (Q : B -> world -> Prop) (c : M A) (k : A -> M B) :
  hoare P c R -> (forall a, hoare (R a) (k a) Q) -> hoare P (bind c k) Q.
Proof.
  intros Hc Hk w Hw. unfold bind.
  specialize (Hc w Hw). destruct (c w) as [a w1]. cbn in Hc.
  exact (Hk a w1 Hc).
Qed.

Lemma hoare_modify (P : world -> Prop) (f : world -> world)
    (Q : unit -> world -> Prop) :
  (forall w, P w -> Q tt (f w)) -> hoare P (modify f) Q.
Proof. intros H w Hw. now apply H. Qed.

Lemma hoare_get (P : world -> Prop) (Q : world -> world -> Prop) :
  (forall w, P w -> Q w w) -> hoare P get Q.
Proof. intros H w Hw. now apply H. Qed.

Lemma hoare_weaken {A} (P P' : world -> Prop) (Q Q' : A -> world -> Prop)
    (c : M A) :
  hoare P' c Q' -> (forall w, P w -> P' w) ->
  (forall a w, Q' a w -> Q a w) -> hoare P c Q.
Proof. intros H HP HQ w Hw. apply HQ, H, HP, Hw. Qed.

Lemma hoare_for_zones (I : world -> Prop) (zs : list nat)
    (body : nat -> M unit) :
  (forall z, z ∈ zs -> hoare I (body z) (fun _ => I)) ->
  hoare I (for_zones zs body) (fun _ => I).
Proof.
  induction zs as [|z zs IH]; intros Hb; cbn [for_zones].
  - now apply hoare_ret.
  - eapply hoare_bind.
    + apply Hb. constructor.
    + intros ?. apply IH. intros z' Hz'. apply Hb. now constructor.
Qed.

Lemma zones_spec (z : nat) : z ∈ zones <-> (z < ZONE_COUNT)%nat.
Proof.
  unfold zones, ZONE_COUNT. rewrite list_elem_of_In, in_seq. lia.
Qed.

(** ** What a query and a frame transfer change *)

Lemma same_driver_refl (w : world) : same_driver w w.
Proof. exists (wmi_calls w), (klog w). now destruct w. Qed.

Lemma same_driver_trans (w1 w2 w3 : world) :
  same_driver w1 w2 -> same_driver w2 w3 -> same_driver w1 w3.
Proof.
  intros (c1 & l1 & ->) (c2 & l2 & ->). exists c2, l2. now destruct w1.
Qed.

Lemma same_driver_klog (w : world) (log : list klog_msg) :
  same_driver w (set_klog log w).
Proof. exists (wmi_calls w), log. now destruct w. Qed.

Lemma same_driver_wmi_calls (w : world) (calls : list wmi_call) :
  same_driver w (set_wmi_calls calls w).
Proof. exists calls, (klog w). now destruct w. Qed.

Lemma byte_list_nth (l : list Z) (i : nat) : byte_list l -> 0 <= nth i l 0 < 256.
Proof.
  intros H. revert i. induction H as [|x l Hx _ IH]; intros [|i]; cbn;
    auto; lia.
Qed.

Lemma byte_list_map_u8 (l : list Z) : byte_list (map u8 l).
Proof.
  induction l as [|x l IH]; cbn; constructor; auto using u8_range.
Qed.

Lemma byte_list_take (n : nat) (l : list Z) : byte_list l -> byte_list (take n l).
Proof. apply Forall_take. Qed.

Lemma byte_list_drop (n : nat) (l : list Z) : byte_list l -> byte_list (drop n l).
Proof. apply Forall_drop. Qed.

Lemma byte_list_replicate (n : nat) : byte_list (replicate n 0).
Proof. apply Forall_replicate. lia. Qed.

Lemma byte_list_app (l1 l2 : list Z) :
  byte_list l1 -> byte_list l2 -> byte_list (l1 ++ l2).
Proof. intros H1 H2. apply Forall_app. now split. Qed.

Lemma bytes_n_byte_list (n : nat) (l : list Z) : byte_list (bytes_n n l).
Proof.
  unfold bytes_n. apply byte_list_take, byte_list_app.
  - apply byte_list_map_u8.
  - apply byte_list_replicate.
Qed.

Lemma bytes_n_length (n : nat) (l : list Z) : length (bytes_n n l) = n.
Proof.
  unfold bytes_n. rewrite length_take, length_app, length_replicate. lia.
Qed.

(** A query changes only the call history and the log, and hands back a
    buffer of bytes. *)
Lemma query_effect (query command : Z) (buffer : list Z) (insize outsize : Z)
    (w : world) :
  let res := hp_wmi_perform_query query command buffer insize outsize w in
  same_driver w res.2 /\ (byte_list buffer -> byte_list res.1.2).
Proof.
  cbv zeta. unfold hp_wmi_perform_query.
  destruct (encode_outsize_for_pvsz outsize <? 0).
  { cbn. split; [apply same_driver_klog | auto]. }
  destruct (u64 insize >? 128).
  { cbn. split; [apply same_driver_klog | auto]. }
  unfold bind, modify, get, pr, ret. cbn.
  match goal with |- context [bios w ?c] => destruct (bios w c) as [[resp|t]|] end.
  - destruct (s32 (le32_at resp 4) =? 0); cbn.
    + destruct (outsize =? 0); cbn.
      * split; [apply same_driver_wmi_calls | auto].
      * split; [apply same_driver_wmi_calls |].
        intros Hb. repeat apply byte_list_app.
        -- apply byte_list_take, byte_list_map_u8.
        -- apply byte_list_replicate.
        -- now apply byte_list_drop.
    + destruct (negb (s32 (le32_at resp 4) =? HPWMI_RET_UNKNOWN_COMMAND)
                && negb (s32 (le32_at resp 4) =? HPWMI_RET_UNKNOWN_CMDTYPE));
        cbn.
      * split; [|auto].
        eapply same_driver_trans;
          [apply same_driver_wmi_calls | apply same_driver_klog].
      * split; [apply same_driver_wmi_calls | auto].
  - cbn. split; [apply same_driver_wmi_calls | auto].
  - cbn. split; [apply same_driver_wmi_calls | auto].
Qed.

Lemma same_driver_fields (w w' : world) :
  same_driver w w' ->
  zone_data w' = zone_data w
  /\ original_colors w' = original_colors w
  /\ global_brightness w' = global_brightness w
  /\ current_animation w' = current_animation w
  /\ animation_speed w' = animation_speed w
  /\ animation_timer w' = animation_timer w
  /\ animation_work w' = animation_work w
  /\ animation_start_time w' = animation_start_time w
  /\ animation_active w' = animation_active w
  /\ jiffies w' = jiffies w
  /\ bios w' = bios w
  /\ stack_junk w' = stack_junk w
  /\ state_file w' = state_file w
  /\ fs_writable w' = fs_writable w
  /\ hw_writes w' = hw_writes w.
Proof. intros (calls & log & ->). cbn. repeat split. Qed.

Lemma fourzone_read_status (r : Z) :
  r <> 0 -> (if r <=? 0 then r else - EINVAL) <> 0.
Proof. intros H. destruct (Z.leb_spec r 0); unfold EINVAL; lia. Qed.

Lemma stable_same_driver (w0 : world) : stable (same_driver w0).
Proof. intros w w' H1 H2. eapply same_driver_trans; eassumption. Qed.

Lemma hoare_pr (P : world -> Prop) (m : klog_msg) :
  stable P -> hoare P (pr m) (fun _ => P).
Proof. intros HP w Hw. eapply HP; [exact Hw | apply same_driver_klog]. Qed.

Lemma hoare_query (P : world -> Prop) (query command : Z) (buffer : list Z)
    (insize outsize : Z) :
  stable P ->
  hoare P (hp_wmi_perform_query query command buffer insize outsize)
    (fun res w => P w /\ (byte_list buffer -> byte_list res.2)).
Proof.
  intros HP w Hw.
  destruct (query_effect query command buffer insize outsize w) as [H1 H2].
  split; [eapply HP; eassumption | exact H2].
Qed.

(** A frame write changes no driver global; it pushes at most one frame,
    carrying the zone's colour. *)
Lemma fourzone_write_effect (z : nat) (w0 : world) :
  hoare (fun w => w = w0) (fourzone_update_led z HPWMI_WRITE)
    (fun _ w' =>
       same_driver w0 w'
       \/ exists frame,
            same_driver (set_hw_writes (pushed w0 z frame :: hw_writes w0) w0) w').
Proof.
  unfold fourzone_update_led.
  eapply hoare_bind with (R := fun a w => a = w0 /\ w = w0).
  { apply hoare_get. auto. }
  intros a. cbv beta.
  eapply hoare_bind with (R := fun _ w => same_driver w0 w).
  { eapply hoare_weaken.
    - apply (hoare_query (same_driver w0)), stable_same_driver.
    - intros w [_ ->]. apply same_driver_refl.
    - intros res w [H _]. exact H. }
  intros [r st]. destruct (r =? 0); cbn [negb].
  - eapply hoare_bind with (R := fun a w => a = w /\ same_driver w0 w).
    { apply hoare_get. auto. }
    intros w1. change (HPWMI_WRITE =? HPWMI_WRITE) with true. cbv iota.
    eapply hoare_bind with
      (R := fun _ w => exists frame,
              same_driver (set_hw_writes (pushed w0 z frame :: hw_writes w0) w0) w).
    { apply hoare_modify. intros w [-> (c & l & ->)].
      eexists. exists c, l. destruct w0. reflexivity. }
    intros _.
    eapply hoare_bind with
      (R := fun _ w => exists frame,
              same_driver (set_hw_writes (pushed w0 z frame :: hw_writes w0) w0) w).
    { intros w (frame & H).
      match goal with
      | |- context [hp_wmi_perform_query ?q ?c ?b ?i ?o w] =>
          destruct (query_effect q c b i o w) as [Hq _]
      end.
      exists frame. eapply same_driver_trans; eassumption. }
    intros [r2 st2].
    eapply hoare_bind with
      (R := fun _ w => exists frame,
              same_driver (set_hw_writes (pushed w0 z frame :: hw_writes w0) w0) w).
    { destruct (r2 =? 0); cbn [negb].
      - apply hoare_ret. auto.
      - intros w (frame & H). exists frame.
        eapply same_driver_trans; [exact H | apply same_driver_klog]. }
    intros _. apply hoare_ret. intros w H. now right.
  - eapply hoare_bind with (R := fun _ w => same_driver w0 w).
    { apply hoare_pr, stable_same_driver. }
    intros _. apply hoare_ret. intros w H. now left.
Qed.

(** A frame read stores a byte-sized colour into the zone on success and
    changes no driver global on failure. *)
Lemma fourzone_read_effect (z : nat) (w0 : world) :
  hoare (fun w => w = w0) (fourzone_update_led z HPWMI_READ)
    (fun r w' =>
       (r <> 0 /\ same_driver w0 w')
       \/ (r = 0 /\ exists c, u8_color c
                              /\ same_driver (set_zone_colors z c w0) w')).
Proof.
  unfold fourzone_update_led.
  eapply hoare_bind with (R := fun a w => a = w0 /\ w = w0).
  { apply hoare_get. auto. }
  intros a. cbv beta.
  eapply hoare_bind with
    (R := fun res w => same_driver w0 w /\ byte_list res.2).
  { eapply hoare_weaken.
    - apply (hoare_query (same_driver w0)), stable_same_driver.
    - intros w [_ ->]. apply same_driver_refl.
    - intros res w [H Hb]. split; [exact H|]. apply Hb, bytes_n_byte_list. }
  intros [r st]. destruct (Z.eqb_spec r 0) as [->|Hr]; cbn [negb].
  - eapply hoare_bind with
      (R := fun a w => a = w /\ same_driver w0 w /\ byte_list st).
    { apply hoare_get. cbn. intuition. }
    intros w1. change (HPWMI_READ =? HPWMI_WRITE) with false. cbv iota.
    eapply hoare_bind with
      (R := fun _ w => exists c, u8_color c
                                 /\ same_driver (set_zone_colors z c w0) w).
    { apply hoare_modify. intros w (-> & (c & l & ->) & Hb).
      eexists. split; cycle 1.
      - exists c, l. destruct w0. reflexivity.
      - unfold u8_color; cbn [blue green red].
        auto using byte_list_nth. }
    intros _. apply hoare_ret. intros w H. right. auto.
  - eapply hoare_bind with (R := fun _ w => same_driver w0 w).
    { eapply hoare_weaken.
      - apply (hoare_pr (same_driver w0)), stable_same_driver.
      - intros w [H _]. exact H.
      - auto. }
    intros _. apply hoare_ret. intros w H. left.
    split; [now apply fourzone_read_status | exact H].
Qed.

Lemma hoare_fourzone_write (P Q : world -> Prop) (z : nat) :
  stable Q ->
  (forall w, P w -> Q w) ->
  (forall w frame, P w ->
     Q (set_hw_writes (pushed w z frame :: hw_writes w) w)) ->
  hoare P (fourzone_update_led z HPWMI_WRITE) (fun _ => Q).
Proof.
  intros HQ H1 H2 w Hw.
  destruct (fourzone_write_effect z w w eq_refl) as [H|(frame & H)].
  - eapply HQ; [apply H1, Hw | exact H].
  - eapply HQ; [apply H2, Hw | exact H].
Qed.

Lemma hoare_fourzone_read (P : world -> Prop) (Q : Z -> world -> Prop)
    (z : nat) :
  (forall w w' r, P w -> r <> 0 -> same_driver w w' -> Q r w') ->
  (forall w w' c, P w -> u8_color c ->
     same_driver (set_zone_colors z c w) w' -> Q 0 w') ->
  hoare P (fourzone_update_led z HPWMI_READ) Q.
Proof.
  intros H1 H2 w Hw.
  destruct (fourzone_read_effect z w w eq_refl) as [[Hr H]|[Hr (c & Hc & H)]].
  - eapply H1; eassumption.
  - rewrite Hr. eapply H2; eassumption.
Qed.

(** ** Well-formedness is kept *)

Lemma colors_ok_ext (w w' : world) :
  zone_data w' = zone_data w ->
  original_colors w' = original_colors w ->
  global_brightness w' = global_brightness w ->
  colors_ok w -> colors_ok w'.
Proof.
  intros Hz Ho Hg [H1 H2 H3 H4 H5].
  constructor; unfold zone_at, original_at in *; rewrite ?Hz, ?Ho, ?Hg;
    assumption.
Qed.

Lemma wf_ext (w w' : world) :
  zone_data w' = zone_data w ->
  original_colors w' = original_colors w ->
  global_brightness w' = global_brightness w ->
  wf w -> wf w'.
Proof.
  intros Hz Ho Hg [H1 H2]. split.
  - now apply (colors_ok_ext w w').
  - unfold offsets_ok, zone_at in *. now rewrite Hz.
Qed.

Lemma wf_zones (w : world) : wf w -> length (zone_data w) = ZONE_COUNT.
Proof. intros [H _]. apply H. Qed.

Lemma wf_originals (w : world) :
  wf w -> length (original_colors w) = ZONE_COUNT.
Proof. intros [H _]. apply H. Qed.

Lemma wf_brightness (w : world) : wf w -> 0 <= global_brightness w <= 100.
Proof. intros [H _]. apply H. Qed.

Lemma wf_zone_colors (w : world) :
  wf w -> forall z, u8_color (colors (zone_at w z)).
Proof. intros [H _]. apply H. Qed.

Lemma wf_original_colors (w : world) :
  wf w -> forall z, u8_color (colors (original_at w z)).
Proof. intros [H _]. apply H. Qed.

Lemma wf_offset (w : world) (z : nat) :
  wf w -> (z < ZONE_COUNT)%nat -> offset (zone_at w z) = 25 + 3 * Z.of_nat z.
Proof. intros [_ H]. apply H. Qed.

Lemma stable_wf : stable wf.
Proof.
  intros w w' Hw H. apply same_driver_fields in H.
  apply (wf_ext w w'); intuition.
Qed.

Lemma nth_insert_eq {A} (l : list A) (i : nat) (x d : A) :
  (i < length l)%nat -> nth i (<[i := x]> l) d = x.
Proof.
  revert i. induction l as [|y l IH]; intros [|i] H; cbn in *; try lia;
    [reflexivity | apply IH; lia].
Qed.

Lemma nth_insert_ne {A} (l : list A) (i j : nat) (x d : A) :
  i <> j -> nth j (<[i := x]> l) d = nth j l d.
Proof.
  revert i j. induction l as [|y l IH]; intros [|i] [|j] H; cbn;
    try reflexivity; try lia.
  apply IH. lia.
Qed.

(** Replacing a zone by one with byte-sized colours. *)
Lemma colors_ok_set_zone (w : world) (z : nat) (zone : platform_zone) :
  u8_color (colors zone) -> colors_ok w ->
  colors_ok (set_zone_data (<[z := zone]> (zone_data w)) w).
Proof.
  intros Hc [H1 H2 H3 H4 H5].
  constructor; unfold zone_at, original_at in *;
    cbn [zone_data original_colors global_brightness set_zone_data];
    try assumption.
  - now rewrite length_insert.
  - intros z'.
    destruct (Nat.eq_dec z z') as [<-|Hne].
    + destruct (Nat.lt_ge_cases z (length (zone_data w))).
      * rewrite nth_insert_eq by assumption. exact Hc.
      * rewrite list_insert_ge by assumption. apply H4.
    + rewrite nth_insert_ne by assumption. apply H4.
Qed.

Lemma colors_ok_set_original_colors_at (w : world) (z : nat)
    (c : color_platform) :
  u8_color c -> colors_ok w -> colors_ok (set_original_colors_at z c w).
Proof.
  intros Hc [H1 H2 H3 H4 H5].
  constructor; unfold zone_at, original_at, set_original_colors_at in *;
    cbn [zone_data original_colors global_brightness set_original_colors];
    try assumption.
  - now rewrite length_insert.
  - intros z'.
    destruct (Nat.eq_dec z z') as [<-|Hne].
    + destruct (Nat.lt_ge_cases z (length (original_colors w))).
      * rewrite nth_insert_eq by assumption. exact Hc.
      * rewrite list_insert_ge by assumption. apply H5.
    + rewrite nth_insert_ne by assumption. apply H5.
Qed.

Lemma colors_ok_set_global_brightness (w : world) (g : Z) :
  0 <= g <= 100 -> colors_ok w -> colors_ok (set_global_brightness g w).
Proof. intros Hg [H1 H2 H3 H4 H5]. now constructor. Qed.

Lemma wf_set_zone_colors (w : world) (z : nat) (c : color_platform) :
  u8_color c -> wf w -> wf (set_zone_colors z c w).
Proof.
  intros Hc [H1 H2]. split.
  - now apply colors_ok_set_zone.
  - intros z' Hz'. unfold zone_at, set_zone_colors.
    cbn [zone_data set_zone_data].
    destruct (Nat.eq_dec z z') as [<-|Hne].
    + rewrite nth_insert_eq by (rewrite (ok_zones w H1); exact Hz').
      cbn. now apply H2.
    + rewrite nth_insert_ne by assumption. now apply H2.
Qed.

Lemma wf_set_original_colors_at (w : world) (z : nat) (c : color_platform) :
  u8_color c -> wf w -> wf (set_original_colors_at z c w).
Proof.
  intros Hc [H1 H2]. split.
  - now apply colors_ok_set_original_colors_at.
  - exact H2.
Qed.

Lemma wf_set_global_brightness (w : world) (g : Z) :
  0 <= g <= 100 -> wf w -> wf (set_global_brightness g w).
Proof.
  intros Hg [H1 H2]. split.
  - now apply colors_ok_set_global_brightness.
  - exact H2.
Qed.

Lemma apply_brightness_u8 (w : world) (c : color_platform) :
  u8_color (apply_brightness_to_color w c).
Proof.
  unfold apply_brightness_to_color, u8_color, scale_channel; cbn.
  auto using u8_range.
Qed.

(** ** Every pushed colour is a scaled colour *)

Lemma writes_since_refl (w : world) (P : hw_write -> Prop) : writes_since w w P.
Proof. exists []. split; [reflexivity | constructor]. Qed.

Lemma writes_since_ext (w0 w w' : world) (P : hw_write -> Prop) :
  hw_writes w' = hw_writes w -> writes_since w0 w P -> writes_since w0 w' P.
Proof. intros H (l & Hl & HP). exists l. now rewrite H. Qed.

Lemma writes_since_push (w0 w w' : world) (P : hw_write -> Prop) (e : hw_write) :
  hw_writes w' = e :: hw_writes w -> P e ->
  writes_since w0 w P -> writes_since w0 w' P.
Proof.
  intros H He (l & Hl & HP). exists (e :: l). rewrite H, Hl.
  split; [reflexivity | now constructor].
Qed.

Lemma writes_inv_ext (P : hw_write -> Prop) (w0 w w' : world) :
  zone_data w' = zone_data w ->
  original_colors w' = original_colors w ->
  global_brightness w' = global_brightness w ->
  hw_writes w' = hw_writes w ->
  writes_inv P w0 w -> writes_inv P w0 w'.
Proof.
  intros Hz Ho Hg Hh [Hw Hs]. split.
  - now apply (wf_ext w w').
  - now apply (writes_since_ext w0 w w').
Qed.

Lemma stable_writes_inv (P : hw_write -> Prop) (w0 : world) :
  stable (writes_inv P w0).
Proof.
  intros w w' Hw H. apply same_driver_fields in H.
  apply (writes_inv_ext P w0 w w'); intuition.
Qed.

Lemma hoare_write_inv (P : hw_write -> Prop) (w0 : world) (z : nat) :
  hoare (fun w => writes_inv P w0 w /\ forall frame, P (pushed w z frame))
    (fourzone_update_led z HPWMI_WRITE) (fun _ => writes_inv P w0).
Proof.
  apply hoare_fourzone_write.
  - apply stable_writes_inv.
  - now intros w [H _].
  - intros w frame [[Hw Hs] HP]. split.
    + now apply (wf_ext w).
    + eapply writes_since_push; [reflexivity | apply HP | exact Hs].
Qed.

Lemma pushed_scaled (w : world) (z : nat) (frame : list Z) :
  wf w -> zone_scaled w z -> write_scaled (pushed w z frame).
Proof.
  intros Hw Hz. unfold write_scaled, pushed, zone_scaled, zone_at in *.
  cbn [hw_zone hw_color hw_original_colors hw_global_brightness]. rewrite Hz.
  destruct (wf_original_colors w Hw z) as (Hb & Hg & Hr).
  pose proof (wf_brightness w Hw) as Hp.
  unfold apply_brightness_to_color; cbn [red green blue].
  fold (original_at w z).
  repeat split; now apply scale_channel_exact.
Qed.

Lemma hoare_write_scaled (w0 : world) (z : nat) :
  hoare (fun w => writes_inv write_scaled w0 w /\ zone_scaled w z)
    (fourzone_update_led z HPWMI_WRITE) (fun _ => writes_inv write_scaled w0).
Proof.
  eapply hoare_weaken; [apply (hoare_write_inv write_scaled w0 z) | | ].
  - intros w [H Hz]. split; [exact H|].
    intros frame. apply pushed_scaled; [apply H | exact Hz].
  - intros ? w H. exact H.
Qed.

Lemma colors_zone_at_set (w : world) (z : nat) (c : color_platform) :
  wf w -> (z < ZONE_COUNT)%nat -> colors (zone_at (set_zone_colors z c w) z) = c.
Proof.
  intros Hw Hz. unfold zone_at, set_zone_colors. cbn [zone_data set_zone_data].
  rewrite nth_insert_eq by (rewrite (wf_zones w Hw); exact Hz). reflexivity.
Qed.

Lemma colors_original_at_set (w : world) (z : nat) (c : color_platform) :
  wf w -> (z < ZONE_COUNT)%nat ->
  colors (original_at (set_original_colors_at z c w) z) = c.
Proof.
  intros Hw Hz. unfold original_at, set_original_colors_at.
  cbn [original_colors set_original_colors].
  rewrite nth_insert_eq by (rewrite (wf_originals w Hw); exact Hz). reflexivity.
Qed.

(** Storing a scaled colour into a zone whose base colour it was scaled
    from. *)
Lemma zone_scaled_set (w : world) (z : nat) (c : color_platform) :
  wf w -> (z < ZONE_COUNT)%nat ->
  c = apply_brightness_to_color w (colors (original_at w z)) ->
  zone_scaled (set_zone_colors z c w) z.
Proof.
  intros Hw Hz ->. unfold zone_scaled.
  rewrite colors_zone_at_set by assumption. reflexivity.
Qed.


Lemma writes_inv_set_zone_colors (P : hw_write -> Prop) (w0 w : world)
    (z : nat) (c : color_platform) :
  u8_color c -> writes_inv P w0 w -> writes_inv P w0 (set_zone_colors z c w).
Proof.
  intros Hc [Hw Hs]. split.
  - now apply wf_set_zone_colors.
  - now apply (writes_since_ext w0 w).
Qed.

Lemma writes_inv_set_original (P : hw_write -> Prop) (w0 w : world)
    (z : nat) (c : color_platform) :
  u8_color c -> writes_inv P w0 w ->
  writes_inv P w0 (set_original_colors_at z c w).
Proof.
  intros Hc [Hw Hs]. split.
  - now apply wf_set_original_colors_at.
  - now apply (writes_since_ext w0 w).
Qed.

(** A step that leaves the zones, base colours, brightness and pushed
    frames alone keeps the invariant. *)
Ltac keeps_inv :=
  apply hoare_modify;
  let w := fresh "w" in
  let H := fresh "H" in
  intros w H; apply (writes_inv_ext _ _ w); [reflexivity .. | exact H].

Lemma stop_animation_scaled (w0 : world) :
  hoare (writes_inv write_scaled w0) stop_animation
    (fun _ => writes_inv write_scaled w0).
Proof.
  unfold stop_animation.
  eapply hoare_bind with (R := fun _ => writes_inv write_scaled w0);
    [keeps_inv | intros ?].
  eapply hoare_bind with (R := fun _ => writes_inv write_scaled w0);
    [keeps_inv | intros ?].
  apply hoare_for_zones. intros z Hz. apply zones_spec in Hz.
  eapply hoare_bind with
    (R := fun _ w => writes_inv write_scaled w0 w
                     /\ colors (zone_at w z) = colors (original_at w z)).
  { apply hoare_modify. intros w H. split.
    - apply writes_inv_set_zone_colors; [apply H | exact H].
    - apply colors_zone_at_set; [apply H | exact Hz]. }
  intros ?.
  eapply hoare_bind with
    (R := fun _ w => writes_inv write_scaled w0 w /\ zone_scaled w z).
  { apply hoare_modify. intros w [H E]. split.
    - apply writes_inv_set_zone_colors; [apply apply_brightness_u8 | exact H].
    - apply zone_scaled_set; [apply H | exact Hz | now rewrite E]. }
  intros ?.
  eapply hoare_bind; [apply hoare_write_scaled | intros ?].
  now apply hoare_ret.
Qed.

Lemma pushed_scaled_from (frame : list color_platform) (w : world) (z : nat)
    (st : list Z) :
  wf w -> u8_color (nth z frame black) ->
  colors (zone_at w z) = apply_brightness_to_color w (nth z frame black) ->
  write_scaled_from frame (pushed w z st).
Proof.
  intros Hw (Hb & Hg & Hr) Hz. unfold write_scaled_from, pushed, zone_at in *.
  cbn [hw_zone hw_color hw_original_colors hw_global_brightness]. rewrite Hz.
  pose proof (wf_brightness w Hw) as Hp.
  unfold apply_brightness_to_color; cbn [red green blue].
  repeat split; now apply scale_channel_exact.
Qed.

Lemma update_all_zones_scaled (frame : list color_platform) (w0 : world) :
  (forall z, u8_color (nth z frame black)) ->
  hoare (writes_inv (write_scaled_from frame) w0)
    (update_all_zones_with_colors frame)
    (fun _ => writes_inv (write_scaled_from frame) w0).
Proof.
  intros Hf. unfold update_all_zones_with_colors.
  apply hoare_for_zones. intros z Hz. apply zones_spec in Hz.
  eapply hoare_bind with
    (R := fun _ w => writes_inv (write_scaled_from frame) w0 w
                     /\ colors (zone_at w z) = nth z frame black).
  { apply hoare_modify. intros w H. split.
    - apply writes_inv_set_zone_colors; [apply Hf | exact H].
    - apply colors_zone_at_set; [apply H | exact Hz]. }
  intros ?.
  eapply hoare_bind with
    (R := fun _ w =>
            writes_inv (write_scaled_from frame) w0 w
            /\ colors (zone_at w z)
               = apply_brightness_to_color w (nth z frame black)).
  { apply hoare_modify. intros w [H E]. split.
    - apply writes_inv_set_zone_colors; [apply apply_brightness_u8 | exact H].
    - rewrite colors_zone_at_set by (apply H || exact Hz). now rewrite E. }
  intros ?.
  eapply hoare_bind with
    (R := fun _ => writes_inv (write_scaled_from frame) w0).
  { eapply hoare_weaken;
      [apply (hoare_write_inv (write_scaled_from frame) w0 z) | | ].
    - intros w [H E]. split; [exact H|]. intros st.
      apply pushed_scaled_from; [apply H | apply Hf | exact E].
    - intros ? w H. exact H. }
  intros ?. now apply hoare_ret.
Qed.

Lemma save_animation_state_inv (P : hw_write -> Prop) (w0 : world) :
  hoare (writes_inv P w0) save_animation_state (fun _ => writes_inv P w0).
Proof.
  intros w H. unfold save_animation_state, bind, get, modify, pr.
  cbv beta iota.
  destruct (fs_writable w); cbn [fst snd];
    apply (writes_inv_ext _ _ w); try reflexivity; exact H.
Qed.

Lemma le_byte_range (x i : Z) : 0 <= le_byte x i < 256.
Proof.
  unfold le_byte. change 255 with (Z.ones 8).
  rewrite Z.land_ones by lia. apply Z.mod_pos_bound. lia.
Qed.

Lemma parse_rgb_u8 (buf : string) (zone : platform_zone) :
  u8_color (colors zone) -> u8_color (colors (parse_rgb buf zone).2).
Proof.
  intros H. unfold parse_rgb.
  destruct (kstrtoul buf 16) as [v|e]; [|exact H].
  destruct (v >? 16777215); [exact H|].
  unfold u8_color; cbn. auto using le_byte_range.
Qed.

Lemma parse_rgb_offset (buf : string) (zone : platform_zone) :
  offset (parse_rgb buf zone).2 = offset zone.
Proof.
  unfold parse_rgb.
  destruct (kstrtoul buf 16) as [v|e]; [|reflexivity].
  now destruct (v >? 16777215).
Qed.

Lemma match_zone_from_lt (zs : list platform_zone) (zone n a z : nat) :
  match_zone_from zs zone n a = Some z -> (zone <= z < zone + n)%nat.
Proof.
  revert zone. induction n as [|n IH]; intros zone; cbn; [discriminate|].
  destruct (bool_decide _).
  - intros [= <-]. lia.
  - intros H. apply IH in H. lia.
Qed.

Lemma match_zone_lt (w : world) (a z : nat) :
  match_zone w a = Some z -> (z < ZONE_COUNT)%nat.
Proof. intros H. apply match_zone_from_lt in H. lia. Qed.

Lemma parse_rgb_zone (buf : string) (zone : platform_zone) :
  (parse_rgb buf zone).2 = set_colors (colors (parse_rgb buf zone).2) zone.
Proof.
  unfold parse_rgb.
  destruct (kstrtoul buf 16) as [v|e]; [|now destruct zone].
  destruct (v >? 16777215); [now destruct zone | reflexivity].
Qed.

Lemma zone_set_scaled (w0 : world) (a : nat) (buf : string) (count : Z) :
  hoare (writes_inv write_scaled w0) (zone_set a buf count)
    (fun _ => writes_inv write_scaled w0).
Proof.
  unfold zone_set.
  eapply hoare_bind with
    (R := fun a' w => a' = w /\ writes_inv write_scaled w0 w).
  { apply hoare_get. auto. }
  intros w1. destruct (match_zone w1 a) as [z|] eqn:Hm.
  2: { eapply hoare_bind with (R := fun _ => writes_inv write_scaled w0).
       - eapply hoare_weaken;
           [apply (hoare_pr (writes_inv write_scaled w0)), stable_writes_inv
           | now intros w [_ H] | auto].
       - intros ?. now apply hoare_ret. }
  pose proof (match_zone_lt _ _ _ Hm) as Hz.
  pose proof (parse_rgb_zone buf (zone_at w1 z)) as Ht.
  pose proof (parse_rgb_u8 buf (zone_at w1 z)) as Hu.
  destruct (parse_rgb buf (zone_at w1 z)) as [r target]. cbn [snd] in Ht, Hu.
  eapply hoare_bind with (R := fun _ => writes_inv write_scaled w0).
  { apply hoare_modify. intros w [-> H]. rewrite Ht.
    apply (writes_inv_set_zone_colors _ _ _ z (colors target)); [|exact H].
    apply Hu, H. }
  intros ?. destruct (r =? 0); cbn [negb]; [|now apply hoare_ret].
  eapply hoare_bind; [apply stop_animation_scaled | intros ?].
  eapply hoare_bind with (R := fun _ => writes_inv write_scaled w0);
    [keeps_inv | intros ?].
  eapply hoare_bind with
    (R := fun _ w => writes_inv write_scaled w0 w
                     /\ colors (original_at w z) = colors (zone_at w z)).
  { apply hoare_modify. intros w H. split.
    - apply writes_inv_set_original; [apply H | exact H].
    - apply colors_original_at_set; [apply H | exact Hz]. }
  intros ?.
  eapply hoare_bind with
    (R := fun _ w => writes_inv write_scaled w0 w /\ zone_scaled w z).
  { apply hoare_modify. intros w [H E]. cbv zeta.
    change {| blue := scale_channel (blue (colors (zone_at w z))) (global_brightness w);
              green := scale_channel (green (colors (zone_at w z))) (global_brightness w);
              red := scale_channel (red (colors (zone_at w z))) (global_brightness w) |}
      with (apply_brightness_to_color w (colors (zone_at w z))).
    split.
    - apply writes_inv_set_zone_colors; [apply apply_brightness_u8 | exact H].
    - apply zone_scaled_set; [apply H | exact Hz | now rewrite E]. }
  intros ?.
  eapply hoare_bind; [apply hoare_write_scaled | intros r2].
  destruct (r2 =? 0); cbn [negb]; [|now apply hoare_ret].
  eapply hoare_bind; [apply save_animation_state_inv | intros ?].
  now apply hoare_ret.
Qed.

Lemma all_set_loop_scaled (w0 : world) (temp : platform_zone) (zs : list nat) :
  u8_color (colors temp) ->
  (forall z, z ∈ zs -> (z < ZONE_COUNT)%nat) ->
  hoare (writes_inv write_scaled w0) (all_set_loop temp zs)
    (fun _ => writes_inv write_scaled w0).
Proof.
  intros Ht. induction zs as [|z zs IH]; intros Hzs; cbn [all_set_loop].
  - now apply hoare_ret.
  - assert (Hz : (z < ZONE_COUNT)%nat) by (apply Hzs; constructor).
    eapply hoare_bind with
      (R := fun _ w => writes_inv write_scaled w0 w
                       /\ colors (original_at w z) = colors temp).
    { apply hoare_modify. intros w H. split.
      - now apply writes_inv_set_original.
      - apply colors_original_at_set; [apply H | exact Hz]. }
    intros ?.
    eapply hoare_bind with
      (R := fun _ w => writes_inv write_scaled w0 w /\ zone_scaled w z).
    { apply hoare_modify. intros w [H E].
      change {| blue := scale_channel (blue (colors temp)) (global_brightness w);
                green := scale_channel (green (colors temp)) (global_brightness w);
                red := scale_channel (red (colors temp)) (global_brightness w) |}
        with (apply_brightness_to_color w (colors temp)).
      split.
      - apply writes_inv_set_zone_colors; [apply apply_brightness_u8 | exact H].
      - apply zone_scaled_set; [apply H | exact Hz | now rewrite E]. }
    intros ?.
    eapply hoare_bind; [apply hoare_write_scaled | intros r].
    destruct (r =? 0); cbn [negb]; [|now apply hoare_ret].
    apply IH. intros z' Hz'. apply Hzs. now constructor.
Qed.

Lemma all_set_scaled (w0 : world) (buf : string) (count : Z) :
  hoare (writes_inv write_scaled w0) (all_set buf count)
    (fun _ => writes_inv write_scaled w0).
Proof.
  unfold all_set.
  pose proof (parse_rgb_u8 buf zone0) as Hu.
  destruct (parse_rgb buf zone0) as [r temp]. cbn [snd] in Hu.
  destruct (r =? 0); cbn [negb]; [|now apply hoare_ret].
  eapply hoare_bind; [apply stop_animation_scaled | intros ?].
  eapply hoare_bind with (R := fun _ => writes_inv write_scaled w0);
    [keeps_inv | intros ?].
  eapply hoare_bind.
  { apply all_set_loop_scaled.
    - apply Hu. unfold u8_color; cbn; lia.
    - intros z. apply zones_spec. }
  intros r2. destruct (r2 =? 0); cbn [negb]; [|now apply hoare_ret].
  eapply hoare_bind; [apply save_animation_state_inv | intros ?].
  now apply hoare_ret.
Qed.

Lemma brightness_level_channel (c level : Z) :
  0 <= c < 256 -> 0 <= level <= 100 ->
  u8 (u64 (c * level) ÷ 100) = scale_channel c level.
Proof.
  intros Hc Hl. unfold scale_channel.
  rewrite u64_id; [reflexivity|]. change (2 ^ 64) with 18446744073709551616.
  nia.
Qed.

Lemma brightness_set_loop_scaled (w0 : world) (level : Z) (zs : list nat) :
  0 <= level <= 100 ->
  (forall z, z ∈ zs -> (z < ZONE_COUNT)%nat) ->
  hoare (fun w => writes_inv write_scaled w0 w /\ global_brightness w = level)
    (brightness_set_loop level zs)
    (fun _ => writes_inv write_scaled w0).
Proof.
  intros Hl. induction zs as [|z zs IH]; intros Hzs; cbn [brightness_set_loop].
  - apply hoare_ret. now intros w [H _].
  - assert (Hz : (z < ZONE_COUNT)%nat) by (apply Hzs; constructor).
    eapply hoare_bind with
      (R := fun r w => writes_inv write_scaled w0 w /\ global_brightness w = level).
    { apply hoare_fourzone_read.
      - intros w w' r [H G] _ Hs.
        split; [eapply stable_writes_inv; eassumption|].
        apply same_driver_fields in Hs. intuition congruence.
      - intros w w' c [H G] Hc Hs. split.
        + eapply stable_writes_inv; [|exact Hs].
          now apply writes_inv_set_zone_colors.
        + apply same_driver_fields in Hs.
          destruct Hs as (_ & _ & -> & _). exact G. }
    intros r. destruct (r =? 0); cbn [negb];
      [|apply hoare_ret; now intros w [H _]].
    eapply hoare_bind with
      (R := fun _ w => (writes_inv write_scaled w0 w
                        /\ global_brightness w = level)
                       /\ colors (original_at w z) = colors (zone_at w z)).
    { apply hoare_modify. intros w [H G]. split; [split|].
      - apply writes_inv_set_original; [apply H | exact H].
      - exact G.
      - apply colors_original_at_set; [apply H | exact Hz]. }
    intros ?.
    eapply hoare_bind with
      (R := fun _ w => (writes_inv write_scaled w0 w
                        /\ global_brightness w = level)
                       /\ zone_scaled w z).
    { apply hoare_modify. intros w [[H G] E]. cbv zeta.
      destruct (wf_zone_colors w (proj1 H) z) as (Hb & Hg & Hr).
      rewrite !brightness_level_channel by assumption.
      rewrite <- G.
      change {| blue := scale_channel (blue (colors (zone_at w z))) (global_brightness w);
                green := scale_channel (green (colors (zone_at w z))) (global_brightness w);
                red := scale_channel (red (colors (zone_at w z))) (global_brightness w) |}
        with (apply_brightness_to_color w (colors (zone_at w z))).
      split; [split|].
      - apply writes_inv_set_zone_colors; [apply apply_brightness_u8 | exact H].
      - reflexivity.
      - apply zone_scaled_set; [apply H | exact Hz | now rewrite E]. }
    intros ?.
    eapply hoare_bind with
      (R := fun r w => writes_inv write_scaled w0 w /\ global_brightness w = level).
    { apply hoare_fourzone_write.
      - intros w w' [H G] Hs. split; [eapply stable_writes_inv; eassumption|].
        apply same_driver_fields in Hs. intuition congruence.
      - now intros w [H _].
      - intros w frame [[[Hw Hs] G] Hsc]. split; [split|].
        + now apply (wf_ext w).
        + eapply writes_since_push; [reflexivity | | exact Hs].
          now apply pushed_scaled.
        + exact G. }
    intros r2. destruct (r2 =? 0); cbn [negb];
      [|apply hoare_ret; now intros w [H _]].
    apply IH. intros z' Hz'. apply Hzs. now constructor.
Qed.

Lemma brightness_set_scaled (w0 : world) (buf : string) (count : Z) :
  hoare (writes_inv write_scaled w0) (brightness_set buf count)
    (fun _ => writes_inv write_scaled w0).
Proof.
  unfold brightness_set.
  destruct (kstrtoul buf 10) as [v|e] eqn:Hk; [|now apply hoare_ret].
  apply kstrtoull_range in Hk.
  set (level := if v >? 100 then 100 else v).
  assert (Hl : 0 <= level <= 100)
    by (subst level; destruct (Z.gtb_spec v 100); lia).
  eapply hoare_bind with
    (R := fun _ w => writes_inv write_scaled w0 w /\ global_brightness w = level).
  { apply hoare_modify. intros w [Hw Hs].
    rewrite s32_small by lia. split; [split|].
    - now apply wf_set_global_brightness.
    - now apply (writes_since_ext w0 w).
    - reflexivity. }
  intros ?.
  eapply hoare_bind.
  { apply brightness_set_loop_scaled; [exact Hl|]. intros z. apply zones_spec. }
  intros r. destruct (r =? 0); cbn [negb]; [|now apply hoare_ret].
  eapply hoare_bind; [apply save_animation_state_inv | intros ?].
  now apply hoare_ret.
Qed.

(** ** Initialisation establishes well-formedness *)

Lemma originals_ok_ext (w w' : world) :
  original_colors w' = original_colors w ->
  global_brightness w' = global_brightness w ->
  originals_ok w -> originals_ok w'.
Proof.
  intros Ho Hg (H1 & H2 & H3). unfold originals_ok, original_at in *.
  now rewrite Ho, Hg.
Qed.

Lemma originals_ok_set_original (w : world) (z : nat) (c : color_platform) :
  u8_color c -> originals_ok w -> originals_ok (set_original_colors_at z c w).
Proof.
  intros Hc (H1 & H2 & H3). unfold originals_ok, original_at in *.
  cbn [original_colors global_brightness set_original_colors_at
       set_original_colors].
  split; [now rewrite length_insert | split; [exact H2|]].
  intros z'. destruct (Nat.eq_dec z z') as [<-|Hne].
  - destruct (Nat.lt_ge_cases z (length (original_colors w))).
    + rewrite nth_insert_eq by assumption. exact Hc.
    + rewrite list_insert_ge by assumption. apply H3.
  - rewrite nth_insert_ne by assumption. apply H3.
Qed.

Lemma originals_ok_restore (f : nat -> color_platform) (l : list nat)
    (w : world) :
  (forall i, u8_color (f i)) -> originals_ok w ->
  originals_ok (fold_left (fun w i => set_original_colors_at i (f i) w) l w).
Proof.
  intros Hf. revert w. induction l as [|i l IH]; intros w Hw; cbn.
  - exact Hw.
  - apply IH. now apply originals_ok_set_original.
Qed.

Lemma black_u8 : u8_color black.
Proof. unfold u8_color; cbn; lia. Qed.

Lemma color_at_u8 (l : list Z) (i : nat) : u8_color (color_at l i).
Proof. unfold u8_color, color_at; cbn. auto using u8_range. Qed.

Lemma state_colors_u8 (l : list Z) (i : nat) :
  u8_color (nth i (state_colors (animation_state_of_bytes l)) black).
Proof.
  cbn [state_colors animation_state_of_bytes]. unfold zones, ZONE_COUNT.
  cbn [seq map].
  destruct i as [|[|[|[|i]]]]; cbn [nth];
    try apply color_at_u8. destruct i; apply black_u8.
Qed.

Lemma load_animation_state_originals_ok :
  hoare originals_ok load_animation_state (fun _ => originals_ok).
Proof.
  assert (Hst : stable originals_ok).
  { intros w w' Hw H. apply same_driver_fields in H.
    apply (originals_ok_ext w w'); intuition. }
  unfold load_animation_state.
  eapply hoare_bind with (R := fun _ => originals_ok);
    [apply hoare_get; auto | intros w0].
  destruct (state_file w0) as [file|]; [|now apply hoare_pr].
  destruct (Z.min (Z.of_nat (length file)) sizeof_animation_state
            =? sizeof_animation_state); cbn [negb]; [|now apply hoare_pr].
  set (state := animation_state_of_bytes (take 24 file)).
  eapply hoare_bind with (R := fun _ => originals_ok).
  { destruct ((mode state >=? 0) && (mode state <? ANIMATION_COUNT));
      [|now apply hoare_ret].
    destruct (animation_mode_of_Z (mode state)); [|now apply hoare_ret].
    apply hoare_modify. intros w H.
    now apply (originals_ok_ext w). }
  intros ?.
  eapply hoare_bind with (R := fun _ => originals_ok).
  { destruct ((speed state >=? ANIMATION_SPEED_MIN)
              && (speed state <=? ANIMATION_SPEED_MAX));
      [|now apply hoare_ret].
    apply hoare_modify. intros w H. now apply (originals_ok_ext w). }
  intros ?.
  eapply hoare_bind with (R := fun _ => originals_ok).
  { destruct (Z.geb_spec (brightness state) 0);
      destruct (Z.leb_spec (brightness state) 100); cbn [andb];
      try now apply hoare_ret.
    apply hoare_modify. intros w (H1 & H2 & H3).
    split; [exact H1 | split; [|exact H3]].
    cbn [global_brightness set_global_brightness]. lia. }
  intros ?.
  eapply hoare_bind with (R := fun _ => originals_ok).
  { apply hoare_modify. intros w H.
    apply (originals_ok_restore
             (fun i => nth i (state_colors state) black)); [|exact H].
    intros i. apply state_colors_u8. }
  intros ?.
  eapply hoare_bind with (R := fun _ => originals_ok);
    [apply hoare_get; auto | intros w1].
  now apply hoare_pr.
Qed.

Lemma colors_ok_alloc (w : world) :
  originals_ok w -> colors_ok (set_zone_data (replicate ZONE_COUNT zone0) w).
Proof.
  intros (H1 & H2 & H3). constructor; try assumption.
  - reflexivity.
  - intros z. unfold zone_at. cbn [zone_data set_zone_data].
    destruct z as [|[|[|[|z]]]]; cbn; try apply black_u8.
    destruct z; apply black_u8.
Qed.

Lemma stable_colors_ok : stable colors_ok.
Proof.
  intros w w' Hw H. apply same_driver_fields in H.
  apply (colors_ok_ext w w'); intuition.
Qed.

Lemma fourzone_setup_read_colors_ok (zs : list nat) :
  hoare colors_ok (fourzone_setup_read zs) (fun _ => colors_ok).
Proof.
  induction zs as [|z zs IH]; cbn [fourzone_setup_read].
  - now apply hoare_ret.
  - eapply hoare_bind with (R := fun _ => colors_ok).
    { apply hoare_modify. intros w H.
      apply colors_ok_set_zone; [|exact H]. cbn [colors].
      apply (ok_zone_colors w H). }
    intros ?.
    eapply hoare_bind with (R := fun _ => colors_ok).
    { apply hoare_fourzone_read.
      - intros w w' r H _ Hs. eapply stable_colors_ok; eassumption.
      - intros w w' c H Hc Hs. eapply stable_colors_ok; [|exact Hs].
        now apply colors_ok_set_zone. }
    intros r. destruct (r =? 0); cbn [negb]; [|now apply hoare_ret].
    eapply hoare_bind with (R := fun _ => colors_ok); [|intros ?; exact IH].
    apply hoare_modify. intros w H.
    apply colors_ok_set_original_colors_at; [|exact H].
    apply (ok_zone_colors w H).
Qed.

(** The second loop of [fourzone_setup] puts every zone at its offset. *)
Lemma fourzone_setup_attrs_wf (w : world) :
  colors_ok w ->
  wf (for_zones zones (fun zone =>
        modify (fun w =>
          set_zone_data
            (<[zone := {| offset := u8 (25 + Z.of_nat zone * 3);
                          attr := Some zone;
                          colors := colors (zone_at w zone) |}]> (zone_data w))
            w)) w).2.
Proof.
  intros H. pose proof (ok_zones w H) as Hl.
  pose proof (ok_zone_colors w H) as Hc.
  destruct H as [_ H2 H3 _ H5].
  destruct w as [zd oc gb ca sp tm wk st ac jf bs wc sj sf fw kl hw].
  cbn in Hl, Hc, H2, H3, H5.
  destruct zd as [|z0 [|z1 [|z2 [|z3 [|]]]]]; try discriminate.
  pose proof (Hc 0%nat) as C0. pose proof (Hc 1%nat) as C1.
  pose proof (Hc 2%nat) as C2. pose proof (Hc 3%nat) as C3.
  unfold zone_at in C0, C1, C2, C3. cbn in C0, C1, C2, C3.
  split; [constructor|]; cbn; try assumption; try reflexivity.
  - intros z. unfold zone_at; cbn.
    destruct z as [|[|[|[|z]]]]; cbn; try assumption.
    destruct z; apply black_u8.
  - intros z Hz. unfold zone_at; cbn.
    destruct z as [|[|[|[|z]]]]; cbn; try reflexivity.
    unfold ZONE_COUNT in Hz. lia.
Qed.

Lemma start_animation_wf (msecs_to_jiffies : Z -> Z) :
  hoare wf (start_animation msecs_to_jiffies) (fun _ => wf).
Proof.
  intros w H. unfold start_animation, mod_timer_interval, bind, get, modify.
  cbv beta iota.
  destruct (is_static (current_animation w)); cbn [fst snd];
    now apply (wf_ext w).
Qed.

Lemma boot_originals_ok (fw : list wmi_call -> option acpi_object)
    (junk : list Z) (file : option (list Z)) (writable : bool) :
  originals_ok (boot fw junk file writable).
Proof.
  split; [reflexivity | split; [cbn; lia|]].
  intros z. unfold original_at; cbn.
  destruct z as [|[|[|[|z]]]]; cbn; try apply black_u8.
  destruct z; apply black_u8.
Qed.

(** Initialisation that succeeds leaves a well-formed state. *)
Lemma fourzone_setup_wf (msecs_to_jiffies : Z -> Z) :
  hoare originals_ok (fourzone_setup msecs_to_jiffies)
    (fun r w => r = 0 -> wf w).
Proof.
  unfold fourzone_setup.
  eapply hoare_bind; [apply load_animation_state_originals_ok | intros ?].
  eapply hoare_bind with (R := fun _ => colors_ok).
  { apply hoare_modify. intros w H. now apply colors_ok_alloc. }
  intros ?.
  eapply hoare_bind; [apply fourzone_setup_read_colors_ok | intros r].
  destruct (Z.eqb_spec r 0) as [->|Hr]; cbn [negb].
  - eapply hoare_bind with (R := fun _ => wf).
    { intros w H. now apply fourzone_setup_attrs_wf. }
    intros ?.
    eapply hoare_bind with (R := fun _ => wf); [apply hoare_get; auto|].
    intros w1.
    eapply hoare_bind with (R := fun _ => wf).
    { destruct (is_static (current_animation w1)); cbn [negb].
      - now apply hoare_ret.
      - apply start_animation_wf. }
    intros ?. apply hoare_ret. auto.
  - apply hoare_ret. intros w _ E. contradiction.
Qed.

Lemma update_all_zones_originals (frame : list color_platform) (w0 : world) :
  hoare (originals_kept w0) (update_all_zones_with_colors frame)
    (fun _ => originals_kept w0).
Proof.
  unfold update_all_zones_with_colors.
  apply hoare_for_zones. intros z _.
  eapply hoare_bind with (R := fun _ => originals_kept w0).
  { apply hoare_modify. intros w [Ho Hs]. split; [exact Ho|].
    now apply (writes_since_ext w0 w). }
  intros ?.
  eapply hoare_bind with (R := fun _ => originals_kept w0).
  { apply hoare_modify. intros w [Ho Hs]. split; [exact Ho|].
    now apply (writes_since_ext w0 w). }
  intros ?.
  eapply hoare_bind with (R := fun _ => originals_kept w0);
    [|intros ?; now apply hoare_ret].
  apply hoare_fourzone_write.
  - intros w w' [Ho Hs] H. apply same_driver_fields in H.
    destruct H as (_ & Ho' & _ & _ & _ & _ & _ & _ & _ & H). split.
    + now rewrite Ho'.
    + apply (writes_since_ext w0 w); [|exact Hs]. apply H.
  - auto.
  - intros w st [Ho Hs]. split; [exact Ho|].
    eapply writes_since_push; [reflexivity | exact Ho | exact Hs].
Qed.

Lemma writes_since_and (w w' : world) (P Q : hw_write -> Prop) :
  writes_since w w' P -> writes_since w w' Q ->
  writes_since w w' (fun e => P e /\ Q e).
Proof.
  intros (l & Hl & HP) (l' & Hl' & HQ).
  rewrite Hl in Hl'. apply app_inv_tail in Hl'. subst l'.
  exists l. split; [exact Hl|].
  apply Forall_forall. intros e He. rewrite Forall_forall in HP, HQ.
  split; [now apply HP | now apply HQ].
Qed.

(** No effect stores into the base colours. *)
Lemma animation_work_func_originals (msecs_to_jiffies : Z -> Z) (w : world) :
  original_colors (animation_work_func msecs_to_jiffies w).2
  = original_colors w.
Proof.
  assert (H : hoare (originals_kept w) (animation_work_func msecs_to_jiffies)
                (fun _ => originals_kept w)).
  { unfold animation_work_func.
    eapply hoare_bind with (R := fun _ => originals_kept w);
      [apply hoare_get; auto | intros w1].
    destruct (negb (animation_active w1) || is_static (current_animation w1));
      [now apply hoare_ret|].
    destruct (current_animation w1);
      [ now apply hoare_ret
      | unfold animation_breathing | unfold animation_rainbow
      | unfold animation_wave | unfold animation_pulse
      | unfold animation_chase | unfold animation_sparkle
      | unfold animation_candle | unfold animation_aurora
      | unfold animation_disco ];
      (eapply hoare_bind with (R := fun _ => originals_kept w);
       [apply hoare_get; auto | intros ?; cbv zeta;
        apply update_all_zones_originals]). }
  apply (H w). split; [reflexivity | apply writes_since_refl].
Qed.

(** C1 (as amended): every direct zone write, all-zones write, brightness
    change and animation stop pushes, for each zone it writes, the zone's
    Original Color with every channel multiplied by the Global Brightness
    and divided by 100, truncating; an animation frame push writes the
    colour the effect computed for the zone, scaled the same way, and does
    not change the Original Colors: they are the same at every push and
    afterwards, and no effect's frame work changes them. *)
Theorem C1_writes_scaled (w : world) :
  wf w ->
  (forall a buf count, writes_since w (zone_set a buf count w).2 write_scaled)
  /\ (forall buf count, writes_since w (all_set buf count w).2 write_scaled)
  /\ (forall buf count,
        writes_since w (brightness_set buf count w).2 write_scaled)
  /\ writes_since w (stop_animation w).2 write_scaled
  /\ (forall frame, (forall z, u8_color (nth z frame black)) ->
        writes_since w (update_all_zones_with_colors frame w).2
          (fun e => write_scaled_from frame e
                    /\ hw_original_colors e = original_colors w)
        /\ original_colors (update_all_zones_with_colors frame w).2
           = original_colors w)
  /\ (forall msecs_to_jiffies,
        original_colors (animation_work_func msecs_to_jiffies w).2
        = original_colors w).
Proof.
  intros Hw.
  assert (Hi : forall P, writes_inv P w w)
    by (intros P; split; [exact Hw | apply writes_since_refl]).
  split; [|split; [|split; [|split; [|split]]]].
  - intros a buf count. apply (zone_set_scaled w a buf count w (Hi _)).
  - intros buf count. apply (all_set_scaled w buf count w (Hi _)).
  - intros buf count. apply (brightness_set_scaled w buf count w (Hi _)).
  - apply (stop_animation_scaled w w (Hi _)).
  - intros frame Hf.
    destruct (update_all_zones_originals frame w w) as [Ho Hs].
    { split; [reflexivity | apply writes_since_refl]. }
    split; [|exact Ho].
    apply writes_since_and; [|exact Hs].
    apply (update_all_zones_scaled frame w Hf w (Hi _)).
  - intros msecs_to_jiffies. apply animation_work_func_originals.
Qed.

(** Well-formedness of a world given in full, by evaluation. *)
Ltac concrete_wf :=
  split;
  [ constructor;
    [ vm_compute; reflexivity
    | vm_compute; reflexivity
    | vm_compute; split; discriminate
    | intros z; unfold zone_at, u8_color;
      do 5 (try destruct z as [|z]); vm_compute; intuition discriminate
    | intros z; unfold original_at, u8_color;
      do 5 (try destruct z as [|z]); vm_compute; intuition discriminate ]
  | intros z Hz; unfold ZONE_COUNT in Hz; unfold zone_at;
    do 4 (try destruct z as [|z]); [vm_compute; reflexivity .. | lia] ].

Lemma sample_world_wf : wf sample_world.
Proof.
  apply (fourzone_setup_wf hz1000 sample_boot (boot_originals_ok _ _ _ _)).
  vm_compute. reflexivity.
Qed.

Lemma C1_writes_scaled_witness :
  writes_since sample_world (all_set "FF8000" 7 sample_world).2 write_scaled
  /\ writes_since sample_world (brightness_set "50" 3 sample_world).2
       write_scaled.
Proof.
  pose proof (C1_writes_scaled sample_world sample_world_wf)
    as (_ & Hall & Hbr & _).
  split; [apply Hall | apply Hbr].
Defined.

Lemma writes_since_inv (w w' : world) (P : hw_write -> Prop)
    (l0 : list hw_write) :
  hw_writes w' = l0 ++ hw_writes w -> writes_since w w' P -> Forall P l0.
Proof.
  intros H (l & Hl & HF). rewrite H in Hl. apply app_inv_tail in Hl.
  now subst.
Qed.

(** C1 as stated fails for the animation frame push: the disco effect
    writes pure red, green, blue and magenta whatever the zones' Original
    Colors are. *)
Lemma C1_counterexample :
  wf sample_disco
  /\ ~ writes_since sample_disco (run_work hz1000 sample_disco).2 write_scaled.
Proof.
  split.
  - concrete_wf.
  - intros H.
    assert (E : hw_writes (run_work hz1000 sample_disco).2
                = take 4 (hw_writes (run_work hz1000 sample_disco).2)
                  ++ hw_writes sample_disco)
      by (vm_compute; reflexivity).
    apply (writes_since_inv _ _ _ _ E) in H.
    vm_compute in H. apply Forall_inv in H. vm_compute in H.
    destruct H as (H & _). discriminate H.
Qed.

(** ** Where a zone lies in the frame *)

Lemma s32_le (y : Z) : 0 <= y -> s32 y <= y.
Proof.
  intros H. unfold s32.
  pose proof (Z.mod_le y (2 ^ 32) H ltac:(lia)).
  pose proof (Z.mod_pos_bound y (2 ^ 32) ltac:(lia)).
  destruct (y mod 2 ^ 32 <? 2 ^ 31); lia.
Qed.

Lemma s32_neg (y : Z) : - 2 ^ 31 <= y < 0 -> s32 y = y.
Proof.
  intros H. unfold s32.
  rewrite <- (Z.mod_add y 1 (2 ^ 32)) by lia.
  rewrite Z.mod_small by lia.
  destruct (Z.ltb_spec (y + 1 * 2 ^ 32) (2 ^ 31)); lia.
Qed.

(** A query on a 128-byte array hands back a 128-byte array. *)
Lemma query_output_length (query command : Z) (buffer : list Z) (insize : Z)
    (w : world) :
  length buffer = 128%nat ->
  length (hp_wmi_perform_query query command buffer insize 128 w).1.2
  = 128%nat.
Proof.
  intros Hl. unfold hp_wmi_perform_query.
  change (encode_outsize_for_pvsz 128 <? 0) with false. cbv iota.
  destruct (u64 insize >? 128); [exact Hl|].
  unfold bind, modify, get, pr, ret. cbv beta iota.
  match goal with |- context [bios ?w' ?c] => destruct (bios w' c) as [[resp|t]|] end;
    try exact Hl.
  destruct (s32 (le32_at resp 4) =? 0); cbn [negb];
    [|destruct (_ && _); exact Hl].
  change (128 =? 0) with false. cbv iota. cbn [fst snd].
  rewrite !length_app, length_take, length_replicate, length_drop, length_map,
    length_drop, Hl.
  assert (Z.to_nat (Z.min 128 (s32 (Z.of_nat (length resp) - 8)))
          <= length resp - 8)%nat; [|lia].
  destruct (Z.le_gt_cases 8 (Z.of_nat (length resp))).
  - pose proof (s32_le (Z.of_nat (length resp) - 8) ltac:(lia)). lia.
  - rewrite s32_neg by lia. lia.
Qed.

(** A query that passes the size checks calls the firmware once. *)
Lemma query_call_pushed (query command : Z) (buffer : list Z)
    (insize outsize : Z) (w : world) :
  outsize <= 4096 -> 0 <= insize <= 128 ->
  wmi_calls (hp_wmi_perform_query query command buffer insize outsize w).2
  = {| method_id := encode_outsize_for_pvsz outsize;
       input := query_args query command buffer insize |} :: wmi_calls w.
Proof.
  intros Ho Hi. unfold hp_wmi_perform_query.
  rewrite encode_outsize_nonneg, insize_accepted by assumption.
  unfold bind, modify, get, pr, ret. cbv beta iota.
  cbn [wmi_calls set_wmi_calls bios].
  match goal with
  | |- context [bios w ?c] => destruct (bios w c) as [[resp|t]|]
  end; try reflexivity.
  destruct (s32 (le32_at resp 4) =? 0); cbn [negb].
  - destruct (outsize =? 0); reflexivity.
  - destruct (_ && _); reflexivity.
Qed.

Lemma byte_list_insert (l : list Z) (i : nat) (b : Z) :
  0 <= b < 256 -> byte_list l -> byte_list (<[i := b]> l).
Proof. intros Hb Hl. now apply Forall_insert. Qed.

Lemma map_u8_bytes (l : list Z) : byte_list l -> map u8 l = l.
Proof.
  induction 1 as [|x l Hx _ IH]; cbn; [reflexivity|].
  now rewrite u8_id, IH.
Qed.

Lemma bytes_n_id (l : list Z) :
  byte_list l -> length l = 128%nat -> bytes_n 128 (take 128 l) = l.
Proof.
  intros Hb Hl. unfold bytes_n.
  rewrite (take_ge l 128) by lia. rewrite map_u8_bytes by assumption.
  rewrite take_app_le by lia. apply take_ge. lia.
Qed.

(** What a frame transfer does once the firmware has answered the GET
    with status 0 and frame [st]. *)
Lemma fourzone_frame_transfer (w w1 : world) (z : nat) (st : list Z) :
  wf w ->
  (z < ZONE_COUNT)%nat ->
  hp_wmi_perform_query HPWMI_FOURZONE_COLOR_GET HPWMI_FOURZONE
    (bytes_n 128 (stack_junk w)) 128 128 w = ((0, st), w1) ->
  let c := colors (zone_at w z) in
  let off := (25 + 3 * z)%nat in
  fourzone_update_led z HPWMI_READ w
  = (0, set_zone_colors z {| blue := nth (off + 2) st 0;
                             green := nth (off + 1) st 0;
                             red := nth off st 0 |} w1)
  /\ exists call,
       wmi_calls (fourzone_update_led z HPWMI_WRITE w).2 = call :: wmi_calls w1
       /\ commandtype (input call) = HPWMI_FOURZONE_COLOR_SET
       /\ length (data (input call)) = 128%nat
       /\ nth off (data (input call)) 0 = red c
       /\ nth (off + 1) (data (input call)) 0 = green c
       /\ nth (off + 2) (data (input call)) 0 = blue c
       /\ forall i, i <> off -> i <> (off + 1)%nat -> i <> (off + 2)%nat ->
            nth i (data (input call)) 0 = nth i st 0.
Proof.
  intros Hw Hz Hq. cbv zeta.
  pose proof (query_effect HPWMI_FOURZONE_COLOR_GET HPWMI_FOURZONE
                (bytes_n 128 (stack_junk w)) 128 128 w) as [Hs Hb].
  pose proof (query_output_length HPWMI_FOURZONE_COLOR_GET HPWMI_FOURZONE
                (bytes_n 128 (stack_junk w)) 128 w (bytes_n_length _ _)) as Hl.
  rewrite Hq in Hs, Hb, Hl. cbn [fst snd] in Hs, Hb, Hl.
  specialize (Hb (bytes_n_byte_list _ _)).
  assert (Hzone : zone_at w1 z = zone_at w z).
  { apply same_driver_fields in Hs. unfold zone_at.
    destruct Hs as (-> & _). reflexivity. }
  assert (Hoff : Z.to_nat (offset (zone_at w z)) = (25 + 3 * z)%nat).
  { rewrite (wf_offset w z Hw Hz). lia. }
  destruct (wf_zone_colors w Hw z) as (Cb & Cg & Cr).
  split.
  - unfold fourzone_update_led, bind, get. cbv beta iota. rewrite Hq.
    cbv beta iota. change (0 =? 0) with true. cbn [negb].
    change (HPWMI_READ =? HPWMI_WRITE) with false. cbv iota.
    unfold modify, ret. rewrite Hzone, Hoff. reflexivity.
  - unfold fourzone_update_led, bind, get. cbv beta iota. rewrite Hq.
    cbv beta iota. change (0 =? 0) with true. cbn [negb].
    change (HPWMI_WRITE =? HPWMI_WRITE) with true. cbv iota.
    unfold modify at 1. cbv beta iota. rewrite Hzone, Hoff.
    set (frame := <[(25 + 3 * z + 2)%nat := blue (colors (zone_at w z))]>
                    (<[(25 + 3 * z + 1)%nat := green (colors (zone_at w z))]>
                       (<[(25 + 3 * z)%nat := red (colors (zone_at w z))]> st))).
    assert (Hfl : length frame = 128%nat)
      by (subst frame; now rewrite !length_insert).
    assert (Hfb : byte_list frame)
      by (subst frame; now repeat apply byte_list_insert).
    exists {| method_id := encode_outsize_for_pvsz 128;
              input := query_args HPWMI_FOURZONE_COLOR_SET HPWMI_FOURZONE
                         frame 128 |}.
    assert (Hdata : data (query_args HPWMI_FOURZONE_COLOR_SET HPWMI_FOURZONE
                            frame 128) = frame).
    { unfold query_args; cbn [data].
      change (Z.to_nat 128) with 128%nat. now apply bytes_n_id. }
    cbn [input]. rewrite Hdata.
    unfold ZONE_COUNT in Hz.
    split; [|split; [reflexivity | split; [exact Hfl|]]].
    + match goal with
      | |- context [hp_wmi_perform_query ?q ?c ?b ?i ?o ?w2] =>
          pose proof (query_call_pushed q c b i o w2 ltac:(lia) ltac:(lia))
            as Hc;
          destruct (hp_wmi_perform_query q c b i o w2) as [[r2 st2] w3]
      end.
      cbn [snd] in Hc. cbn [wmi_calls set_hw_writes] in Hc.
      unfold pr, modify, ret.
      destruct (r2 =? 0); cbn [negb snd wmi_calls set_klog]; exact Hc.
    + subst frame. repeat split.
      * rewrite nth_insert_ne, nth_insert_ne by lia.
        apply nth_insert_eq. lia.
      * rewrite nth_insert_ne by lia. apply nth_insert_eq.
        rewrite length_insert. lia.
      * apply nth_insert_eq. rewrite !length_insert. lia.
      * intros i H0 H1 H2. now rewrite !nth_insert_ne by lia.
Qed.

(** C2 (as amended): zone [z] lies in bytes 25+3z, 25+3z+1 and 25+3z+2 of
    the 128-byte frame, in the order red, green, blue.  A zone read takes
    the zone's colour from exactly these three bytes of the frame the
    firmware returned; a zone write sends that frame back with exactly
    these three bytes replaced by the zone's colour. *)
Theorem C2_zone_frame_bytes (w w1 : world) (z : nat) (st : list Z) :
  wf w ->
  (z < ZONE_COUNT)%nat ->
  hp_wmi_perform_query HPWMI_FOURZONE_COLOR_GET HPWMI_FOURZONE
    (bytes_n 128 (stack_junk w)) 128 128 w = ((0, st), w1) ->
  let c := colors (zone_at w z) in
  let off := (25 + 3 * z)%nat in
  fourzone_update_led z HPWMI_READ w
  = (0, set_zone_colors z {| blue := nth (off + 2) st 0;
                             green := nth (off + 1) st 0;
                             red := nth off st 0 |} w1)
  /\ exists call,
       wmi_calls (fourzone_update_led z HPWMI_WRITE w).2 = call :: wmi_calls w1
       /\ commandtype (input call) = HPWMI_FOURZONE_COLOR_SET
       /\ length (data (input call)) = 128%nat
       /\ nth off (data (input call)) 0 = red c
       /\ nth (off + 1) (data (input call)) 0 = green c
       /\ nth (off + 2) (data (input call)) 0 = blue c
       /\ forall i, i <> off -> i <> (off + 1)%nat -> i <> (off + 2)%nat ->
            nth i (data (input call)) 0 = nth i st 0.
Proof. exact (fourzone_frame_transfer w w1 z st). Qed.

Lemma C2_zone_frame_bytes_witness :
  let q := hp_wmi_perform_query HPWMI_FOURZONE_COLOR_GET HPWMI_FOURZONE
             (bytes_n 128 (stack_junk sample_world)) 128 128 sample_world in
  fourzone_update_led 1 HPWMI_READ sample_world
  = (0, set_zone_colors 1 (rgb (nth 28 q.1.2 0) (nth 29 q.1.2 0)
                               (nth 30 q.1.2 0)) q.2).
Proof.
  cbv zeta.
  refine (proj1 (C2_zone_frame_bytes sample_world _ 1 _ sample_world_wf _ _)).
  - unfold ZONE_COUNT. lia.
  - vm_compute. reflexivity.
Defined.

(** C2 as stated fails on the byte order: after orange (red 255, green
    128, blue 0) has been written to all zones, the frame holds 255, 128, 0
    at bytes 25, 26, 27, which is red first and not blue first. *)
Lemma C2_counterexample :
  let w := (all_set "FF8000" 7 sample_world).2 in
  let frame := current_frame sample_frame (wmi_calls w) in
  let c := colors (zone_at w 0) in
  c = rgb 255 128 0
  /\ (nth 25 frame 0 = red c /\ nth 26 frame 0 = green c
      /\ nth 27 frame 0 = blue c)
  /\ ~ (nth 25 frame 0 = blue c /\ nth 26 frame 0 = green c
        /\ nth 27 frame 0 = red c).
Proof.
  vm_compute. repeat split; try reflexivity. intros (H & _). discriminate H.
Qed.

(** ** Direct writes and the scheduler *)

Lemma same_scheduler_refl (w : world) : same_scheduler w w.
Proof. now repeat split. Qed.

Lemma same_scheduler_trans (w1 w2 w3 : world) :
  same_scheduler w1 w2 -> same_scheduler w2 w3 -> same_scheduler w1 w3.
Proof.
  intros (A1 & A2 & A3) (B1 & B2 & B3). unfold same_scheduler.
  now rewrite B1, B2, B3.
Qed.

Lemma same_driver_scheduler (w w' : world) :
  same_driver w w' -> same_scheduler w w'.
Proof. intros (c & l & ->). now repeat split. Qed.

Lemma fourzone_write_scheduler (z : nat) (w : world) :
  same_scheduler w (fourzone_update_led z HPWMI_WRITE w).2.
Proof.
  destruct (fourzone_write_effect z w w eq_refl) as [H|(frame & H)].
  - now apply same_driver_scheduler.
  - apply same_driver_scheduler in H. exact H.
Qed.

Lemma fourzone_read_scheduler (z : nat) (w : world) :
  same_scheduler w (fourzone_update_led z HPWMI_READ w).2.
Proof.
  destruct (fourzone_read_effect z w w eq_refl) as [[_ H]|[_ (c & _ & H)]].
  - now apply same_driver_scheduler.
  - apply same_driver_scheduler in H. exact H.
Qed.

Lemma keeps_bind {A B} (R : world -> world -> Prop) (c : M A) (k : A -> M B) :
  (forall w1 w2 w3, R w1 w2 -> R w2 w3 -> R w1 w3) ->
  keeps R c -> (forall a, keeps R (k a)) -> keeps R (bind c k).
Proof.
  intros Ht Hc Hk w. unfold bind. specialize (Hc w).
  destruct (c w) as [a w1]. cbn in Hc.
  eapply Ht; [exact Hc | apply Hk].
Qed.

Lemma keeps_scheduler_modify (f : world -> world) :
  (forall w, same_scheduler w (f w)) -> keeps same_scheduler (modify f).
Proof. intros H w. apply H. Qed.

Lemma keeps_scheduler_ret {A} (a : A) : keeps same_scheduler (ret a).
Proof. intros w. apply same_scheduler_refl. Qed.

Lemma save_animation_state_scheduler : keeps same_scheduler save_animation_state.
Proof.
  intros w. unfold save_animation_state, bind, get, modify, pr.
  cbv beta iota. destruct (fs_writable w); now repeat split.
Qed.

Tactic Notation "scheduler_bind" "as" ident(r) :=
  apply (keeps_bind same_scheduler); [exact same_scheduler_trans | | intros r].

Lemma brightness_set_loop_scheduler (level : Z) (zs : list nat) :
  keeps same_scheduler (brightness_set_loop level zs).
Proof.
  induction zs as [|z zs IH]; cbn [brightness_set_loop].
  - apply keeps_scheduler_ret.
  - scheduler_bind as r; [intros w; apply fourzone_read_scheduler|].
    destruct (r =? 0); cbn [negb]; [|apply keeps_scheduler_ret].
    scheduler_bind as u1; [now apply keeps_scheduler_modify|].
    scheduler_bind as u2; [now apply keeps_scheduler_modify|].
    scheduler_bind as r2; [intros w; apply fourzone_write_scheduler|].
    destruct (r2 =? 0); cbn [negb]; [exact IH | apply keeps_scheduler_ret].
Qed.

Lemma brightness_set_scheduler (buf : string) (count : Z) :
  keeps same_scheduler (brightness_set buf count).
Proof.
  unfold brightness_set.
  destruct (kstrtoul buf 10) as [v|e]; [|apply keeps_scheduler_ret].
  scheduler_bind as u1; [now apply keeps_scheduler_modify|].
  scheduler_bind as r; [apply brightness_set_loop_scheduler|].
  destruct (r =? 0); cbn [negb]; [|apply keeps_scheduler_ret].
  scheduler_bind as u2; [apply save_animation_state_scheduler|].
  apply keeps_scheduler_ret.
Qed.

Lemma all_set_loop_scheduler (temp : platform_zone) (zs : list nat) :
  keeps same_scheduler (all_set_loop temp zs).
Proof.
  induction zs as [|z zs IH]; cbn [all_set_loop].
  - apply keeps_scheduler_ret.
  - scheduler_bind as u1; [now apply keeps_scheduler_modify|].
    scheduler_bind as u2; [now apply keeps_scheduler_modify|].
    scheduler_bind as r; [intros w; apply fourzone_write_scheduler|].
    destruct (r =? 0); cbn [negb]; [exact IH | apply keeps_scheduler_ret].
Qed.

(** [stop_animation] lowers the active flag and disarms the timer; it
    leaves the selected effect and the base colours alone. *)
Lemma stop_animation_stops (w : world) :
  let w' := (stop_animation w).2 in
  animation_active w' = false
  /\ animation_timer w' = None
  /\ current_animation w' = current_animation w
  /\ original_colors w' = original_colors w.
Proof.
  cbv zeta. unfold stop_animation.
  set (R := fun w w' : world =>
              same_scheduler w w' /\ original_colors w' = original_colors w).
  assert (Ht : forall w1 w2 w3, R w1 w2 -> R w2 w3 -> R w1 w3).
  { intros w1 w2 w3 [A1 A2] [B1 B2]. split.
    - eapply same_scheduler_trans; eassumption.
    - congruence. }
  assert (Hloop : forall zs body,
             (forall z, keeps R (body z)) -> keeps R (for_zones zs body)).
  { induction zs as [|z zs IH]; intros body Hb; cbn [for_zones].
    - intros w1. split; [apply same_scheduler_refl | reflexivity].
    - apply (keeps_bind R); [exact Ht | apply Hb | intros ?; now apply IH]. }
  unfold bind at 1 2. unfold modify at 1 2. cbv beta iota.
  match goal with
  | |- context [for_zones zones ?body ?w1] =>
      destruct (Hloop zones body) with (w := w1) as [(H1 & H2 & H3) H4]
  end.
  - intros z.
    apply (keeps_bind R); [exact Ht | | intros ?].
    { intros w1. now repeat split. }
    apply (keeps_bind R); [exact Ht | | intros ?].
    { intros w1. now repeat split. }
    apply (keeps_bind R); [exact Ht | | intros ?].
    { intros w1. destruct (fourzone_write_effect z w1 w1 eq_refl)
        as [H|(frame & H)]; apply same_driver_fields in H;
        (split; [split; [|split]|]); cbn in H; intuition congruence. }
    intros w1. split; [apply same_scheduler_refl | reflexivity].
  - cbn in H1, H2, H3, H4. auto.
Qed.

Lemma scheduler_static_kept (w w' : world) :
  scheduler_static w -> same_scheduler w w' -> scheduler_static w'.
Proof.
  intros (A1 & A2 & A3) (B1 & B2 & B3). unfold scheduler_static.
  now rewrite B1, B2, B3.
Qed.

Lemma scheduler_static_after_stop (w : world) :
  scheduler_static
    (set_current_animation ANIMATION_STATIC (stop_animation w).2).
Proof.
  destruct (stop_animation_stops w) as (H1 & H2 & _).
  now repeat split.
Qed.

(** C4 (as amended): a single-zone write (on a zone's attribute) and an
    all-zones write whose colour parses leave the scheduler in the Static
    state with the active flag down and the timer disarmed, whatever the
    firmware answers; the all-zones write has stopped the animation and
    selected Static, with the base colours still untouched, before it
    stores the new colour; a brightness write does not stop anything: it
    leaves the selected effect, the active flag and the timer as they
    were. *)
Theorem C4_direct_writes_and_scheduler (w : world) (buf : string) (count : Z) :
  (forall a z, match_zone w a = Some z ->
     (parse_rgb buf (zone_at w z)).1 = 0 ->
     scheduler_static (zone_set a buf count w).2)
  /\ (forall temp, parse_rgb buf zone0 = (0, temp) ->
        let w1 := set_current_animation ANIMATION_STATIC (stop_animation w).2 in
        scheduler_static w1
        /\ original_colors w1 = original_colors w
        /\ all_set buf count w
           = (let* r := all_set_loop temp zones in
              if negb (r =? 0) then ret r
              else let* _ := save_animation_state in ret count) w1
        /\ scheduler_static (all_set buf count w).2)
  /\ same_scheduler w (brightness_set buf count w).2.
Proof.
  split; [|split].
  - intros a z Hm Hp. unfold zone_set.
    unfold bind at 1, get. cbv beta iota. rewrite Hm.
    destruct (parse_rgb buf (zone_at w z)) as [r target]. cbn [fst] in Hp.
    subst r. unfold bind at 1. unfold modify at 1. cbv beta iota.
    change (negb (0 =? 0)) with false. cbv iota.
    unfold bind at 1.
    set (w1 := set_zone_data (<[z := target]> (zone_data w)) w).
    destruct (stop_animation w1) as [u w2] eqn:Hstop.
    unfold bind at 1. unfold modify at 1. cbv beta iota.
    pose proof (scheduler_static_after_stop w1) as Hs.
    rewrite Hstop in Hs. cbn [snd] in Hs.
    eapply scheduler_static_kept; [exact Hs|].
    revert Hs. generalize (set_current_animation ANIMATION_STATIC w2).
    intros w3 _. revert w3.
    change (keeps same_scheduler
      (let* _ := modify (fun w =>
                   set_original_colors_at z (colors (zone_at w z)) w) in
       let* _ := modify (fun w =>
                   let c := colors (zone_at w z) in
                   set_zone_colors z
                     {| blue := scale_channel (blue c) (global_brightness w);
                        green := scale_channel (green c) (global_brightness w);
                        red := scale_channel (red c) (global_brightness w) |} w) in
       let* r := fourzone_update_led z HPWMI_WRITE in
       if negb (r =? 0) then ret r
       else let* _ := save_animation_state in ret count)).
    scheduler_bind as u1; [now apply keeps_scheduler_modify|].
    scheduler_bind as u2; [now apply keeps_scheduler_modify|].
    scheduler_bind as r; [intros w'; apply fourzone_write_scheduler|].
    destruct (r =? 0); cbn [negb]; [|apply keeps_scheduler_ret].
    scheduler_bind as u3; [apply save_animation_state_scheduler|].
    apply keeps_scheduler_ret.
  - intros temp Hp. cbv zeta.
    pose proof (scheduler_static_after_stop w) as Hs.
    assert (Heq : all_set buf count w
                  = (let* r := all_set_loop temp zones in
                     if negb (r =? 0) then ret r
                     else let* _ := save_animation_state in ret count)
                      (set_current_animation ANIMATION_STATIC
                         (stop_animation w).2)).
    { unfold all_set. rewrite Hp. change (negb (0 =? 0)) with false.
      cbv iota. unfold bind at 1. destruct (stop_animation w) as [u w2].
      reflexivity. }
    split; [exact Hs|]. split; [|split; [exact Heq|]].
    + cbn [original_colors set_current_animation].
      apply (stop_animation_stops w).
    + rewrite Heq. eapply scheduler_static_kept; [exact Hs|].
      generalize (set_current_animation ANIMATION_STATIC (stop_animation w).2).
      change (keeps same_scheduler
        (let* r := all_set_loop temp zones in
         if negb (r =? 0) then ret r
         else let* _ := save_animation_state in ret count)).
      scheduler_bind as r; [apply all_set_loop_scheduler|].
      destruct (r =? 0); cbn [negb]; [|apply keeps_scheduler_ret].
      scheduler_bind as u3; [apply save_animation_state_scheduler|].
      apply keeps_scheduler_ret.
  - apply brightness_set_scheduler.
Qed.

Lemma C4_direct_writes_and_scheduler_witness :
  scheduler_static (zone_set 0 "FF0000" 7 sample_rainbow).2
  /\ scheduler_static (all_set "FF0000" 7 sample_rainbow).2.
Proof.
  destruct (C4_direct_writes_and_scheduler sample_rainbow "FF0000" 7)
    as (Hz & Ha & _).
  split.
  - apply (Hz 0%nat 0%nat); vm_compute; reflexivity.
  - refine (proj2 (proj2 (proj2 (Ha (set_colors (rgb 255 0 0) zone0) _)))).
    vm_compute. reflexivity.
Defined.

(** The order of steps inside [zone_set] shows on the sample machine,
    whose zone 0 holds (10, 20, 30): a write of FF0000 to that zone returns
    success, yet the zone's base colour and the frame still hold
    (10, 20, 30).  [parse_rgb] stores the new colour through [target_zone]
    first, and [stop_animation] then restores the zone's colour from the
    old base colour. *)
Remark zone_set_keeps_old_color :
  let res := zone_set 0 "FF0000" 7 sample_world in
  res.1 = 7
  /\ colors (original_at res.2 0) = rgb 10 20 30
  /\ frame_color (current_frame sample_frame (wmi_calls res.2)) 0
     = rgb 10 20 30.
Proof. vm_compute. repeat split. Qed.

(** C4 as stated fails for the brightness write: with the rainbow effect
    running, setting the brightness succeeds and the effect is still
    selected, active and armed. *)
Lemma C4_counterexample :
  let res := brightness_set "50" 3 sample_rainbow in
  res.1 = 3
  /\ current_animation res.2 = ANIMATION_RAINBOW
  /\ animation_active res.2 = true
  /\ animation_timer res.2 = Some 50
  /\ ~ scheduler_static res.2.
Proof.
  vm_compute. repeat split; try reflexivity. intros (H & _). discriminate H.
Qed.

(** ** Brightness on the reference firmware *)

Lemma bytes_n_frame (l : list Z) : frame_ok l -> bytes_n 128 l = l.
Proof.
  intros [Hl Hb]. rewrite <- (take_ge l 128) at 1 by lia.
  now apply bytes_n_id.
Qed.

Lemma current_frame_ok (init : list Z) (calls : list wmi_call) :
  frame_ok (current_frame init calls).
Proof.
  induction calls as [|c calls IH]; cbn [current_frame].
  - split; [apply bytes_n_length | apply bytes_n_byte_list].
  - destruct (commandtype (input c) =? HPWMI_FOURZONE_COLOR_SET);
      [|exact IH].
    split; [apply bytes_n_length | apply bytes_n_byte_list].
Qed.

Lemma frame_with_ok (frame : list Z) (z : nat) (c : color_platform) :
  frame_ok frame -> u8_color c -> frame_ok (frame_with frame z c).
Proof.
  intros [Hl Hb] (Cb & Cg & Cr). unfold frame_with. split.
  - now rewrite !length_insert.
  - now repeat apply byte_list_insert.
Qed.

Lemma frame_color_with_same (frame : list Z) (z : nat) (c : color_platform) :
  frame_ok frame -> (z < ZONE_COUNT)%nat ->
  frame_color (frame_with frame z c) z = c.
Proof.
  intros [Hl _] Hz. unfold ZONE_COUNT in Hz. unfold frame_color, frame_with.
  rewrite (nth_insert_eq _ (25 + 3 * z + 2))
    by (rewrite !length_insert; lia).
  rewrite (nth_insert_ne _ (25 + 3 * z + 2) (25 + 3 * z + 1)) by lia.
  rewrite (nth_insert_eq _ (25 + 3 * z + 1)) by (rewrite !length_insert; lia).
  rewrite (nth_insert_ne _ (25 + 3 * z + 2) (25 + 3 * z)) by lia.
  rewrite (nth_insert_ne _ (25 + 3 * z + 1) (25 + 3 * z)) by lia.
  rewrite (nth_insert_eq _ (25 + 3 * z)) by lia.
  now destruct c.
Qed.

Lemma frame_color_with_other (frame : list Z) (z z' : nat) (c : color_platform) :
  z' <> z -> frame_color (frame_with frame z c) z' = frame_color frame z'.
Proof.
  intros Hne. unfold frame_color, frame_with.
  now rewrite !nth_insert_ne by lia.
Qed.

Lemma frame_color_u8 (frame : list Z) (z : nat) :
  frame_ok frame -> u8_color (frame_color frame z).
Proof.
  intros [_ Hb]. unfold u8_color, frame_color; cbn [blue green red].
  auto using byte_list_nth.
Qed.

(** The reference firmware answers a colour GET with the frame it holds. *)
Lemma query_get_frame_store (w : world) (init buffer : list Z) :
  bios w = frame_store init ->
  length buffer = 128%nat ->
  hp_wmi_perform_query HPWMI_FOURZONE_COLOR_GET HPWMI_FOURZONE buffer 128 128 w
  = ((0, current_frame init (wmi_calls w)),
     set_wmi_calls
       ({| method_id := 3;
           input := query_args HPWMI_FOURZONE_COLOR_GET HPWMI_FOURZONE
                      buffer 128 |} :: wmi_calls w) w).
Proof.
  intros Hb Hl. unfold hp_wmi_perform_query.
  change (encode_outsize_for_pvsz 128 <? 0) with false.
  change (u64 128 >? 128) with false. cbv iota.
  change (encode_outsize_for_pvsz 128) with 3.
  unfold bind, modify, get, ret. cbv beta iota.
  cbn [bios wmi_calls set_wmi_calls]. rewrite Hb.
  cbn [frame_store input commandtype query_args].
  change (HPWMI_FOURZONE_COLOR_GET =? HPWMI_FOURZONE_COLOR_GET) with true.
  cbv iota.
  destruct (current_frame_ok init (wmi_calls w)) as [Hfl Hfb].
  set (F := current_frame init (wmi_calls w)) in *.
  change (bios_return_bytes 0) with [0; 0; 0; 0; 0; 0; 0; 0].
  change (le32_at ([0; 0; 0; 0; 0; 0; 0; 0] ++ F) 4) with 0.
  change (s32 0 =? 0) with true. cbn [negb]. change (128 =? 0) with false.
  cbv iota. rewrite length_app, Hfl. cbn [length].
  change (s32 (Z.of_nat (8 + 128) - 8)) with 128.
  change (Z.to_nat (Z.min 128 128)) with 128%nat.
  change (Z.to_nat 128) with 128%nat.
  change (drop 8 ([0; 0; 0; 0; 0; 0; 0; 0] ++ F)) with F.
  rewrite map_u8_bytes by assumption.
  rewrite take_ge by lia. rewrite drop_ge by lia.
  change (128 - 128)%nat with 0%nat. cbn [replicate].
  now rewrite !app_nil_r.
Qed.

(** The reference firmware accepts a colour SET. *)
Lemma query_set_frame_store (w : world) (init buffer : list Z) :
  bios w = frame_store init ->
  hp_wmi_perform_query HPWMI_FOURZONE_COLOR_SET HPWMI_FOURZONE buffer 128 128 w
  = ((0, replicate 128 0 ++ drop 128 buffer),
     set_wmi_calls
       ({| method_id := 3;
           input := query_args HPWMI_FOURZONE_COLOR_SET HPWMI_FOURZONE
                      buffer 128 |} :: wmi_calls w) w).
Proof.
  intros Hb. unfold hp_wmi_perform_query.
  change (encode_outsize_for_pvsz 128 <? 0) with false.
  change (u64 128 >? 128) with false. cbv iota.
  change (encode_outsize_for_pvsz 128) with 3.
  unfold bind, modify, get, ret. cbv beta iota.
  cbn [bios wmi_calls set_wmi_calls]. rewrite Hb.
  cbn [frame_store input commandtype query_args].
  change (HPWMI_FOURZONE_COLOR_SET =? HPWMI_FOURZONE_COLOR_GET) with false.
  change (HPWMI_FOURZONE_COLOR_SET =? HPWMI_FOURZONE_COLOR_SET) with true.
  cbv iota. reflexivity.
Qed.

Lemma fourzone_read_frame_store (w : world) (init : list Z) (z : nat) :
  wf w -> (z < ZONE_COUNT)%nat -> bios w = frame_store init ->
  fourzone_update_led z HPWMI_READ w
  = (0, set_zone_colors z
          (frame_color (current_frame init (wmi_calls w)) z)
          (set_wmi_calls
             ({| method_id := 3;
                 input := query_args HPWMI_FOURZONE_COLOR_GET HPWMI_FOURZONE
                            (bytes_n 128 (stack_junk w)) 128 |}
              :: wmi_calls w) w)).
Proof.
  intros Hw Hz Hb.
  exact (proj1 (fourzone_frame_transfer w _ z _ Hw Hz
                  (query_get_frame_store w init _ Hb (bytes_n_length _ _)))).
Qed.

Lemma fourzone_write_frame_store (w : world) (init : list Z) (z : nat) :
  wf w -> (z < ZONE_COUNT)%nat -> bios w = frame_store init ->
  exists w',
    fourzone_update_led z HPWMI_WRITE w = (0, w')
    /\ zone_data w' = zone_data w
    /\ original_colors w' = original_colors w
    /\ global_brightness w' = global_brightness w
    /\ bios w' = bios w
    /\ current_frame init (wmi_calls w')
       = frame_with (current_frame init (wmi_calls w)) z (colors (zone_at w z)).
Proof.
  intros Hw Hz Hb.
  assert (Hoff : Z.to_nat (offset (zone_at w z)) = (25 + 3 * z)%nat).
  { rewrite (wf_offset w z Hw Hz). lia. }
  pose proof (current_frame_ok init (wmi_calls w)) as HF.
  pose proof (frame_with_ok _ z _ HF (wf_zone_colors w Hw z)) as HF'.
  unfold fourzone_update_led, bind, get. cbv beta iota.
  rewrite (query_get_frame_store w init _ Hb (bytes_n_length _ _)).
  cbv beta iota. change (0 =? 0) with true. cbn [negb].
  change (HPWMI_WRITE =? HPWMI_WRITE) with true. cbv iota.
  unfold modify at 1. cbv beta iota.
  change (zone_at (set_wmi_calls ?c w) z) with (zone_at w z).
  rewrite Hoff.
  fold (frame_with (current_frame init (wmi_calls w)) z (colors (zone_at w z))).
  set (frame := frame_with (current_frame init (wmi_calls w)) z
                  (colors (zone_at w z))) in *.
  match goal with
  | |- context [hp_wmi_perform_query _ _ frame 128 128 ?w2] =>
      rewrite (query_set_frame_store w2 init frame Hb)
  end.
  cbv beta iota. change (0 =? 0) with true. cbn [negb].
  unfold ret. eexists. split; [reflexivity|].
  cbn [zone_data original_colors global_brightness bios wmi_calls
       set_wmi_calls set_hw_writes].
  repeat split.
  cbn [current_frame input commandtype query_args data].
  change (HPWMI_FOURZONE_COLOR_SET =? HPWMI_FOURZONE_COLOR_SET) with true.
  cbv iota. change (Z.to_nat 128) with 128%nat.
  destruct HF' as [Hl' Hb'].
  rewrite (take_ge frame 128) by lia.
  rewrite (bytes_n_frame frame) by now split.
  apply bytes_n_frame. now split.
Qed.

Lemma scale_color_level (c : color_platform) (level : Z) :
  u8_color c -> 0 <= level <= 100 ->
  {| blue := u8 (u64 (blue c * level) ÷ 100);
     green := u8 (u64 (green c * level) ÷ 100);
     red := u8 (u64 (red c * level) ÷ 100) |} = scale_color c level.
Proof.
  intros (Hb & Hg & Hr) Hl. unfold scale_color.
  rewrite !brightness_level_channel by assumption.
  destruct (scale_channel_exact (blue c) level Hb Hl) as [-> _].
  destruct (scale_channel_exact (green c) level Hg Hl) as [-> _].
  destruct (scale_channel_exact (red c) level Hr Hl) as [-> _].
  reflexivity.
Qed.

Lemma scale_color_u8 (c : color_platform) (level : Z) :
  u8_color c -> 0 <= level <= 100 -> u8_color (scale_color c level).
Proof.
  intros (Hb & Hg & Hr) Hl. unfold u8_color, scale_color; cbn [blue green red].
  pose proof (scale_channel_exact (blue c) level Hb Hl) as [_ ?].
  pose proof (scale_channel_exact (green c) level Hg Hl) as [_ ?].
  pose proof (scale_channel_exact (red c) level Hr Hl) as [_ ?].
  lia.
Qed.

Lemma original_at_set_other (w : world) (z z' : nat) (c : color_platform) :
  z' <> z -> original_at (set_original_colors_at z c w) z' = original_at w z'.
Proof.
  intros Hne. unfold original_at, set_original_colors_at.
  cbn [original_colors set_original_colors]. now apply nth_insert_ne.
Qed.

(** One round of the brightness loop on the reference firmware: the zone's
    base colour becomes the colour the hardware held, and the hardware gets
    that colour scaled. *)
Lemma brightness_step_frame_store (w : world) (init : list Z) (z : nat)
    (level : Z) :
  wf w -> (z < ZONE_COUNT)%nat -> bios w = frame_store init ->
  global_brightness w = level -> 0 <= level <= 100 ->
  let F := current_frame init (wmi_calls w) in
  exists w1,
    (forall rest, brightness_set_loop level (z :: rest) w
                  = brightness_set_loop level rest w1)
    /\ wf w1 /\ bios w1 = frame_store init /\ global_brightness w1 = level
    /\ colors (original_at w1 z) = frame_color F z
    /\ (forall z', z' <> z -> original_at w1 z' = original_at w z')
    /\ current_frame init (wmi_calls w1)
       = frame_with F z (scale_color (frame_color F z) level).
Proof.
  intros Hw Hz Hb Hg Hl F.
  pose proof (current_frame_ok init (wmi_calls w)) as HF. fold F in HF.
  pose proof (frame_color_u8 F z HF) as Hc.
  set (call := {| method_id := 3;
                  input := query_args HPWMI_FOURZONE_COLOR_GET HPWMI_FOURZONE
                             (bytes_n 128 (stack_junk w)) 128 |}).
  set (wG := set_wmi_calls (call :: wmi_calls w) w).
  assert (HwG : wf wG) by now apply (wf_ext w).
  set (wR := set_zone_colors z (frame_color F z) wG).
  assert (HwR : wf wR) by now apply wf_set_zone_colors.
  assert (HcR : colors (zone_at wR z) = frame_color F z)
    by now apply colors_zone_at_set.
  set (wO := set_original_colors_at z (colors (zone_at wR z)) wR).
  assert (HwO : wf wO)
    by (apply wf_set_original_colors_at; [rewrite HcR|]; assumption).
  set (wS := set_zone_colors z
               {| blue := u8 (u64 (blue (colors (zone_at wO z)) * level) ÷ 100);
                  green := u8 (u64 (green (colors (zone_at wO z)) * level) ÷ 100);
                  red := u8 (u64 (red (colors (zone_at wO z)) * level) ÷ 100) |}
               wO).
  assert (HcO : colors (zone_at wO z) = frame_color F z) by exact HcR.
  assert (Hsc : {| blue := u8 (u64 (blue (colors (zone_at wO z)) * level) ÷ 100);
                   green := u8 (u64 (green (colors (zone_at wO z)) * level) ÷ 100);
                   red := u8 (u64 (red (colors (zone_at wO z)) * level) ÷ 100) |}
                = scale_color (frame_color F z) level)
    by (rewrite HcO; now apply scale_color_level).
  assert (HwS : wf wS).
  { apply wf_set_zone_colors; [|exact HwO]. rewrite Hsc.
    now apply scale_color_u8. }
  assert (HcS : colors (zone_at wS z) = scale_color (frame_color F z) level).
  { unfold wS. rewrite colors_zone_at_set by assumption. exact Hsc. }
  destruct (fourzone_write_frame_store wS init z HwS Hz Hb)
    as (w1 & Hwr & Hzd & Hoc & Hgb & Hbs & Hfr).
  exists w1. split; [|split; [|split; [|split; [|split; [|split]]]]].
  - intros rest. cbn [brightness_set_loop]. unfold bind at 1.
    rewrite (fourzone_read_frame_store w init z Hw Hz Hb).
    fold F. fold call. fold wG. fold wR.
    cbv beta iota. change (negb (0 =? 0)) with false. cbv iota.
    unfold bind at 1. unfold modify at 1. cbv beta iota. fold wO.
    unfold bind at 1. unfold modify at 1. cbv beta iota. fold wS.
    unfold bind at 1. rewrite Hwr.
    cbv beta iota. change (negb (0 =? 0)) with false. reflexivity.
  - apply (wf_ext wS w1); assumption.
  - now rewrite Hbs.
  - now rewrite Hgb.
  - unfold original_at. rewrite Hoc. fold (original_at wS z).
    change (original_at wS z) with (original_at wO z).
    unfold wO. rewrite colors_original_at_set by assumption. exact HcR.
  - intros z' Hne. unfold original_at. rewrite Hoc.
    fold (original_at wS z'). change (original_at wS z') with (original_at wO z').
    unfold wO. now rewrite original_at_set_other.
  - rewrite Hfr, HcS. reflexivity.
Qed.

Lemma brightness_loop_frame_store (init : list Z) (level : Z) (zs : list nat) :
  0 <= level <= 100 -> NoDup zs ->
  (forall z, z ∈ zs -> (z < ZONE_COUNT)%nat) ->
  forall w, wf w -> bios w = frame_store init -> global_brightness w = level ->
  let F := current_frame init (wmi_calls w) in
  exists w1,
    brightness_set_loop level zs w = (0, w1)
    /\ wf w1 /\ bios w1 = frame_store init /\ global_brightness w1 = level
    /\ (forall z, z ∈ zs ->
          colors (original_at w1 z) = frame_color F z
          /\ frame_color (current_frame init (wmi_calls w1)) z
             = scale_color (frame_color F z) level)
    /\ (forall z, z ∉ zs ->
          original_at w1 z = original_at w z
          /\ frame_color (current_frame init (wmi_calls w1)) z
             = frame_color F z).
Proof.
  intros Hl. induction zs as [|z zs IH]; intros Hnd Hzs w Hw Hb Hg F.
  - exists w. cbn [brightness_set_loop]. unfold ret.
    split; [reflexivity|]. split; [exact Hw|]. split; [exact Hb|].
    split; [exact Hg|]. split.
    + intros z Hz. inversion Hz.
    + intros z _. split; reflexivity.
  - apply NoDup_cons in Hnd as [Hz_notin Hnd].
    assert (Hz : (z < ZONE_COUNT)%nat) by (apply Hzs; constructor).
    pose proof (current_frame_ok init (wmi_calls w)) as HF. fold F in HF.
    destruct (brightness_step_frame_store w init z level Hw Hz Hb Hg Hl)
      as (w' & Hstep & Hw' & Hb' & Hg' & Ho & Hoth & Hfr).
    fold F in Ho, Hfr.
    destruct (IH Hnd (fun z' Hz' => Hzs z' (list_elem_of_further _ _ _ Hz'))
                w' Hw' Hb' Hg')
      as (w1 & Hrun & Hw1 & Hb1 & Hg1 & Hin & Hout).
    rewrite Hfr in Hin, Hout.
    exists w1. split; [now rewrite Hstep|].
    split; [exact Hw1|]. split; [exact Hb1|]. split; [exact Hg1|]. split.
    + intros z0 Hz0. apply elem_of_cons in Hz0 as [->|Hz0].
      * destruct (Hout z Hz_notin) as [E1 E2]. split.
        -- now rewrite E1.
        -- rewrite E2. now apply frame_color_with_same.
      * assert (z0 <> z) by (intros ->; contradiction).
        destruct (Hin z0 Hz0) as [E1 E2].
        rewrite frame_color_with_other in E1, E2 by assumption. now split.
    + intros z0 Hz0. apply not_elem_of_cons in Hz0 as [Hne Hz0].
      destruct (Hout z0 Hz0) as [E1 E2]. split.
      * rewrite E1. now apply Hoth.
      * rewrite E2. now apply frame_color_with_other.
Qed.

Lemma clamp_level_range (level : Z) :
  0 <= level -> 0 <= clamp_level level <= 100.
Proof. intros H. unfold clamp_level. destruct (Z.gtb_spec level 100); lia. Qed.

(** A brightness write on the reference firmware. *)
Lemma brightness_set_frame_store (w : world) (init : list Z) (buf : string)
    (count level : Z) :
  wf w -> bios w = frame_store init -> kstrtoul buf 10 = Ok level ->
  let F := current_frame init (wmi_calls w) in
  let p := clamp_level level in
  exists w1,
    brightness_set buf count w = (count, w1)
    /\ wf w1 /\ bios w1 = frame_store init /\ global_brightness w1 = p
    /\ forall z, (z < ZONE_COUNT)%nat ->
         colors (original_at w1 z) = frame_color F z
         /\ frame_color (current_frame init (wmi_calls w1)) z
            = scale_color (frame_color F z) p.
Proof.
  intros Hw Hb Hk F p.
  pose proof (kstrtoull_range _ _ _ Hk) as Hr.
  pose proof (clamp_level_range level ltac:(lia)) as Hp. fold p in Hp.
  set (w0 := set_global_brightness (s32 p) w).
  assert (Hs : s32 p = p) by (apply s32_small; lia).
  assert (Hw0 : wf w0)
    by (apply wf_set_global_brightness; [rewrite Hs|]; assumption).
  assert (Hnd : NoDup zones) by (apply NoDup_ListNoDup, seq_NoDup).
  destruct (brightness_loop_frame_store init p zones Hp Hnd
              (fun z Hz => proj1 (zones_spec z) Hz) w0 Hw0 Hb Hs)
    as (w1 & Hrun & Hw1 & Hb1 & Hg1 & Hin & _).
  change (current_frame init (wmi_calls w0)) with F in Hin.
  exists (save_animation_state w1).2.
  split; [|split; [|split; [|split]]].
  - unfold brightness_set. rewrite Hk. fold (clamp_level level). fold p.
    unfold bind at 1. unfold modify at 1. cbv beta iota. fold w0.
    unfold bind at 1. rewrite Hrun. cbv beta iota.
    change (negb (0 =? 0)) with false. cbv iota.
    unfold bind at 1. destruct (save_animation_state w1). reflexivity.
  - apply (save_animation_state_inv (fun _ => True) w1 w1).
    split; [exact Hw1 | apply writes_since_refl].
  - unfold save_animation_state, bind, get, modify, pr. cbv beta iota.
    destruct (fs_writable w1); exact Hb1.
  - unfold save_animation_state, bind, get, modify, pr. cbv beta iota.
    destruct (fs_writable w1); exact Hg1.
  - intros z Hz.
    assert (E : original_at (save_animation_state w1).2 z = original_at w1 z
                /\ wmi_calls (save_animation_state w1).2 = wmi_calls w1).
    { unfold save_animation_state, bind, get, modify, pr. cbv beta iota.
      destruct (fs_writable w1); split; reflexivity. }
    destruct E as [-> ->]. apply Hin. now apply zones_spec.
Qed.

(** C5 (as amended): a brightness write takes each zone's colour as the
    hardware holds it (not the stored Original Color) as the new baseline,
    stores it as the zone's Original Color, and writes it back scaled by
    the new percentage.  The hardware then holds the scaled colour, so a
    second brightness write takes the already scaled colour as its
    baseline: the two scalings compound. *)
Theorem C5_brightness_rebases (w : world) (init : list Z) (buf buf2 : string)
    (count count2 level level2 : Z) :
  wf w ->
  bios w = frame_store init ->
  kstrtoul buf 10 = Ok level ->
  kstrtoul buf2 10 = Ok level2 ->
  let hw := current_frame init (wmi_calls w) in
  let p := clamp_level level in
  let p2 := clamp_level level2 in
  let r1 := brightness_set buf count w in
  let r2 := brightness_set buf2 count2 r1.2 in
  r1.1 = count /\ r2.1 = count2
  /\ global_brightness r1.2 = p /\ global_brightness r2.2 = p2
  /\ forall z, (z < ZONE_COUNT)%nat ->
       colors (original_at r1.2 z) = frame_color hw z
       /\ frame_color (current_frame init (wmi_calls r1.2)) z
          = scale_color (frame_color hw z) p
       /\ colors (original_at r2.2 z) = scale_color (frame_color hw z) p
       /\ frame_color (current_frame init (wmi_calls r2.2)) z
          = scale_color (scale_color (frame_color hw z) p) p2.
Proof.
  intros Hw Hb Hk Hk2. cbv zeta.
  destruct (brightness_set_frame_store w init buf count level Hw Hb Hk)
    as (w1 & E1 & Hw1 & Hb1 & Hg1 & H1).
  rewrite E1. cbn [fst snd].
  destruct (brightness_set_frame_store w1 init buf2 count2 level2 Hw1 Hb1 Hk2)
    as (w2 & E2 & Hw2 & Hb2 & Hg2 & H2).
  rewrite E2. cbn [fst snd].
  repeat split; try assumption; destruct (H1 z H) as [A1 A2];
    destruct (H2 z H) as [B1 B2]; try assumption.
  - now rewrite B1, A2.
  - now rewrite B2, A2.
Qed.

Lemma C5_brightness_rebases_witness :
  let r1 := brightness_set "50" 3 sample_tan in
  let r2 := brightness_set "50" 3 r1.2 in
  colors (original_at r2.2 0) = scale_color (rgb 200 100 50) 50.
Proof.
  cbv zeta.
  pose proof (C5_brightness_rebases sample_tan sample_frame "50" "50" 3 3 50 50)
    as H.
  cbv zeta in H.
  destruct H as (_ & _ & _ & _ & H).
  - concrete_wf.
  - reflexivity.
  - reflexivity.
  - reflexivity.
  - destruct (H 0%nat) as (_ & _ & H3 & _).
    + unfold ZONE_COUNT. lia.
    + exact H3.
Defined.

(** C5 as stated fails on its consequence: on a keyboard that returns the
    frame it was last sent, two brightness writes of 50 in a row leave a
    quarter of the colour, and the second write records the half-scaled
    colour as the zone's Original Color. *)
Lemma C5_counterexample :
  let r1 := brightness_set "50" 3 sample_tan in
  let r2 := brightness_set "50" 3 r1.2 in
  let hw w := frame_color (current_frame sample_frame (wmi_calls w)) 0 in
  hw sample_tan = rgb 200 100 50
  /\ hw r1.2 = rgb 100 50 25
  /\ colors (original_at r2.2 0) = rgb 100 50 25
  /\ hw r2.2 = rgb 50 25 12
  /\ hw r2.2 <> scale_color (hw sample_tan) 50.
Proof.
  vm_compute. repeat split; try reflexivity. intros H. discriminate H.
Qed.

(** ** Persistence *)

Lemma le_byte_div (x i : Z) :
  0 <= i -> le_byte x i = (u32 x / 2 ^ (8 * i)) mod 256.
Proof.
  intros Hi. unfold le_byte. change 255 with (Z.ones 8).
  rewrite Z.land_ones, Z.shiftr_div_pow2 by lia. reflexivity.
Qed.

(** Four little-endian bytes put together give the 32-bit value back. *)
Lemma le_bytes_sum (x : Z) :
  u8 (le_byte x 0) + 256 * u8 (le_byte x 1) + 65536 * u8 (le_byte x 2)
  + 16777216 * u8 (le_byte x 3) = u32 x.
Proof.
  rewrite !u8_id by apply le_byte_range.
  rewrite !le_byte_div by lia.
  pose proof (Z.mod_pos_bound x (2 ^ 32) ltac:(lia)) as H. fold (u32 x) in H.
  generalize dependent (u32 x). intros y Hy.
  change (2 ^ (8 * 0)) with 1. change (2 ^ (8 * 1)) with 256.
  change (2 ^ (8 * 2)) with 65536. change (2 ^ (8 * 3)) with 16777216.
  change (2 ^ 32) with 4294967296 in Hy.
  Z.div_mod_to_equations; lia.
Qed.

Lemma u32_small (x : Z) : 0 <= x < 2 ^ 32 -> u32 x = x.
Proof. intros H. unfold u32. now apply Z.mod_small. Qed.

Lemma animation_state_bytes_length (s : animation_state) :
  length (animation_state_bytes s) = 24%nat.
Proof. reflexivity. Qed.

(** Reading back the bytes of a record. *)
Lemma animation_state_decode (s : animation_state) (rest : list Z) :
  animation_state_of_bytes (take 24 (animation_state_bytes s ++ rest))
  = {| mode := u32 (mode s);
       speed := s32 (u32 (speed s));
       brightness := s32 (u32 (brightness s));
       state_colors :=
         map (fun i => let c := nth i (state_colors s) black in
                       {| blue := u8 (u8 (blue c));
                          green := u8 (u8 (green c));
                          red := u8 (u8 (red c)) |}) zones |}.
Proof.
  unfold animation_state_bytes, animation_state_of_bytes, le32, color_bytes,
    zones, ZONE_COUNT, color_at, le32_at.
  cbn [seq map concat app firstn nth Nat.add Nat.mul].
  now rewrite !le_bytes_sum.
Qed.

Lemma animation_mode_of_to_Z (m : animation_mode) :
  animation_mode_of_Z (animation_mode_to_Z m) = Some m.
Proof. now destruct m. Qed.

Lemma animation_mode_to_Z_range (m : animation_mode) :
  0 <= animation_mode_to_Z m < ANIMATION_COUNT.
Proof. destruct m; cbn; unfold ANIMATION_COUNT; lia. Qed.

Lemma animation_mode_of_Z_known (n : Z) (m : animation_mode) :
  animation_mode_of_Z n = Some m -> 0 <= n < ANIMATION_COUNT.
Proof.
  unfold ANIMATION_COUNT.
  destruct n as [|p|p]; cbn; try discriminate; [lia|].
  do 4 (try destruct p as [p|p|]); cbn; try discriminate; lia.
Qed.

(** Restoring four colours into four base colours. *)
Lemma restore_original_colors (f : nat -> color_platform) (w : world) (z : nat) :
  length (original_colors w) = ZONE_COUNT -> (z < ZONE_COUNT)%nat ->
  colors (original_at
            (fold_left (fun w i => set_original_colors_at i (f i) w) zones w) z)
  = f z.
Proof.
  intros Hl Hz. unfold ZONE_COUNT in *.
  destruct w as [zd oc gb ca sp tm wk st ac jf bs wc sj sf fw kl hw].
  cbn in Hl. destruct oc as [|o0 [|o1 [|o2 [|o3 [|]]]]]; try discriminate.
  destruct z as [|[|[|[|z]]]]; try lia; reflexivity.
Qed.

(** A load of a file of at least 24 bytes applies the record in its
    first 24 bytes and logs the result. *)
Lemma load_animation_state_accepts (w : world) (file : list Z) :
  state_file w = Some file ->
  (24 <= length file)%nat ->
  let w1 := apply_state (animation_state_of_bytes (take 24 file)) w in
  load_animation_state w
  = (tt, set_klog (info_state_loaded
                     (animation_mode_to_Z (current_animation w1))
                     (animation_speed w1) (global_brightness w1) :: klog w1) w1).
Proof.
  intros Hf Hl. cbv zeta.
  unfold load_animation_state. unfold bind at 1. unfold get at 1.
  cbv beta iota. rewrite Hf.
  replace (Z.min (Z.of_nat (length file)) sizeof_animation_state)
    with sizeof_animation_state by (unfold sizeof_animation_state; lia).
  change (negb (sizeof_animation_state =? sizeof_animation_state)) with false.
  cbv iota. unfold apply_state.
  set (s := animation_state_of_bytes (take 24 file)).
  unfold bind, get, modify, pr, ret.
  destruct ((mode s >=? 0) && (mode s <? ANIMATION_COUNT));
    [destruct (animation_mode_of_Z (mode s))|];
    destruct ((speed s >=? ANIMATION_SPEED_MIN)
              && (speed s <=? ANIMATION_SPEED_MAX));
    destruct ((brightness s >=? 0) && (brightness s <=? 100));
    reflexivity.
Qed.

(** Every field of the record is checked on its own. *)
Lemma apply_state_fields (s : animation_state) (w : world) :
  let w' := apply_state s w in
  current_animation w'
  = match animation_mode_of_Z (mode s) with
    | Some m => m
    | None => current_animation w
    end
  /\ animation_speed w'
     = (if (ANIMATION_SPEED_MIN <=? speed s) && (speed s <=? ANIMATION_SPEED_MAX)
        then speed s else animation_speed w)
  /\ global_brightness w'
     = (if (0 <=? brightness s) && (brightness s <=? 100)
        then brightness s else global_brightness w)
  /\ (length (original_colors w) = ZONE_COUNT ->
      forall z, (z < ZONE_COUNT)%nat ->
        colors (original_at w' z) = nth z (state_colors s) black).
Proof.
  cbv zeta. unfold apply_state.
  assert (Hmode : (if (mode s >=? 0) && (mode s <? ANIMATION_COUNT)
                   then match animation_mode_of_Z (mode s) with
                        | Some m => set_current_animation m w
                        | None => w
                        end
                   else w)
                  = match animation_mode_of_Z (mode s) with
                    | Some m => set_current_animation m w
                    | None => w
                    end).
  { destruct (animation_mode_of_Z (mode s)) as [m|] eqn:E.
    - apply animation_mode_of_Z_known in E.
      destruct (Z.geb_spec (mode s) 0);
        destruct (Z.ltb_spec (mode s) ANIMATION_COUNT); try lia. reflexivity.
    - now destruct ((mode s >=? 0) && (mode s <? ANIMATION_COUNT)). }
  rewrite Hmode.
  replace (speed s >=? ANIMATION_SPEED_MIN) with (ANIMATION_SPEED_MIN <=? speed s)
    by (destruct (Z.leb_spec ANIMATION_SPEED_MIN (speed s));
        destruct (Z.geb_spec (speed s) ANIMATION_SPEED_MIN); lia || reflexivity).
  replace (brightness s >=? 0) with (0 <=? brightness s)
    by (destruct (Z.leb_spec 0 (brightness s));
        destruct (Z.geb_spec (brightness s) 0); lia || reflexivity).
  destruct (animation_mode_of_Z (mode s)) as [m|];
    destruct ((ANIMATION_SPEED_MIN <=? speed s)
              && (speed s <=? ANIMATION_SPEED_MAX));
    destruct ((0 <=? brightness s) && (brightness s <=? 100));
    (split; [now destruct w | split; [now destruct w | split; [now destruct w|]]]);
    intros Hlen z Hz;
    apply (restore_original_colors (fun i => nth i (state_colors s) black));
    assumption.
Qed.

Lemma save_animation_state_file (w : world) :
  fs_writable w = true ->
  state_file (save_animation_state w).2
  = Some (animation_state_bytes (saved_state w)).
Proof.
  intros H. unfold save_animation_state, bind, get, modify, pr.
  cbv beta iota. rewrite H. reflexivity.
Qed.

Lemma saved_state_decode (w : world) :
  ANIMATION_SPEED_MIN <= animation_speed w <= ANIMATION_SPEED_MAX ->
  0 <= global_brightness w <= 100 ->
  (forall z, u8_color (colors (original_at w z))) ->
  let s := animation_state_of_bytes
             (take 24 (animation_state_bytes (saved_state w))) in
  animation_mode_of_Z (mode s) = Some (current_animation w)
  /\ speed s = animation_speed w
  /\ brightness s = global_brightness w
  /\ forall z, (z < ZONE_COUNT)%nat ->
       nth z (state_colors s) black = colors (original_at w z).
Proof.
  unfold ANIMATION_SPEED_MIN, ANIMATION_SPEED_MAX. intros Hs Hg Hc. cbv zeta.
  rewrite <- (app_nil_r (animation_state_bytes (saved_state w))).
  rewrite animation_state_decode.
  cbn [mode speed brightness state_colors saved_state].
  pose proof (animation_mode_to_Z_range (current_animation w)) as Hm.
  unfold ANIMATION_COUNT in Hm.
  rewrite !u32_small by lia. rewrite !s32_small by lia.
  split; [apply animation_mode_of_to_Z|]. split; [reflexivity|].
  split; [reflexivity|].
  intros z Hz. unfold ZONE_COUNT in Hz. unfold zones, ZONE_COUNT.
  cbn [seq map].
  assert (Hn : forall c, u8_color c ->
                 {| blue := u8 (u8 (blue c)); green := u8 (u8 (green c));
                    red := u8 (u8 (red c)) |} = c).
  { intros c (Hb & Hg' & Hr). rewrite !u8_id by (rewrite ?u8_id; lia).
    now destruct c. }
  destruct z as [|[|[|[|z]]]]; try lia; cbn [nth]; apply Hn, Hc.
Qed.

Lemma load_animation_state_applies (w : world) (file : list Z) :
  state_file w = Some file ->
  (24 <= length file)%nat ->
  let w1 := apply_state (animation_state_of_bytes (take 24 file)) w in
  let w' := (load_animation_state w).2 in
  current_animation w' = current_animation w1
  /\ animation_speed w' = animation_speed w1
  /\ global_brightness w' = global_brightness w1
  /\ original_colors w' = original_colors w1.
Proof.
  intros Hf Hl. cbv zeta.
  rewrite (load_animation_state_accepts w file Hf Hl).
  generalize (apply_state (animation_state_of_bytes (take 24 file)) w).
  intros w1. repeat split.
Qed.

(** A save that can open the file, then a load. *)
Lemma save_load_roundtrip (w w2 : world) :
  ANIMATION_SPEED_MIN <= animation_speed w <= ANIMATION_SPEED_MAX ->
  0 <= global_brightness w <= 100 ->
  (forall z, u8_color (colors (original_at w z))) ->
  fs_writable w = true ->
  state_file w2 = state_file (save_animation_state w).2 ->
  length (original_colors w2) = ZONE_COUNT ->
  let w' := (load_animation_state w2).2 in
  current_animation w' = current_animation w
  /\ animation_speed w' = animation_speed w
  /\ global_brightness w' = global_brightness w
  /\ forall z, (z < ZONE_COUNT)%nat ->
       colors (original_at w' z) = colors (original_at w z).
Proof.
  intros Hs Hg Hc Hfs Hf Hlen. cbv zeta.
  rewrite (save_animation_state_file w Hfs) in Hf.
  destruct (load_animation_state_applies w2 _ Hf) as (Lm & Ls & Lb & Lc);
    [rewrite animation_state_bytes_length; lia|].
  destruct (saved_state_decode w Hs Hg Hc) as (Dm & Ds & Db & Dc).
  destruct (apply_state_fields
              (animation_state_of_bytes
                 (take 24 (animation_state_bytes (saved_state w)))) w2)
    as (Fm & Fs & Fb & Fc).
  set (s := animation_state_of_bytes
              (take 24 (animation_state_bytes (saved_state w)))) in *.
  clearbody s.
  rewrite Lm, Ls, Lb, Fm, Fs, Fb, Dm, Ds, Db.
  destruct (Z.leb_spec ANIMATION_SPEED_MIN (animation_speed w));
    destruct (Z.leb_spec (animation_speed w) ANIMATION_SPEED_MAX); try lia.
  destruct (Z.leb_spec 0 (global_brightness w));
    destruct (Z.leb_spec (global_brightness w) 100); try lia.
  cbn [andb]. split; [reflexivity|]. split; [reflexivity|].
  split; [reflexivity|].
  intros z Hz. rewrite <- (Dc z Hz), <- (Fc Hlen z Hz).
  unfold original_at. now rewrite Lc.
Qed.

(** A file that ends before the record does is rejected. *)
Lemma load_short_file (w : world) (file : list Z) :
  state_file w = Some file -> (length file < 24)%nat ->
  load_animation_state w = (tt, set_klog (warn_read_state_failed :: klog w) w).
Proof.
  intros Hf Hl.
  unfold load_animation_state. unfold bind at 1. unfold get at 1.
  cbv beta iota. rewrite Hf.
  destruct (Z.eqb_spec (Z.min (Z.of_nat (length file)) sizeof_animation_state)
              sizeof_animation_state) as [E|_].
  - unfold sizeof_animation_state in E. lia.
  - reflexivity.
Qed.

(** The fields after a load of a file of at least 24 bytes. *)
Lemma load_animation_state_fields (w : world) (file : list Z) :
  state_file w = Some file -> (24 <= length file)%nat ->
  let s := animation_state_of_bytes (take 24 file) in
  let w' := (load_animation_state w).2 in
  current_animation w'
  = match animation_mode_of_Z (mode s) with
    | Some m => m
    | None => current_animation w
    end
  /\ animation_speed w'
     = (if (ANIMATION_SPEED_MIN <=? speed s)
           && (speed s <=? ANIMATION_SPEED_MAX)
        then speed s else animation_speed w)
  /\ global_brightness w'
     = (if (0 <=? brightness s) && (brightness s <=? 100)
        then brightness s else global_brightness w)
  /\ (length (original_colors w) = ZONE_COUNT ->
      forall z, (z < ZONE_COUNT)%nat ->
        colors (original_at w' z) = nth z (state_colors s) black).
Proof.
  intros Hf Hl. cbv zeta.
  destruct (load_animation_state_applies w file Hf Hl) as (Lm & Ls & Lb & Lc).
  destruct (apply_state_fields (animation_state_of_bytes (take 24 file)) w)
    as (Fm & Fs & Fb & Fc).
  set (s := animation_state_of_bytes (take 24 file)) in *. clearbody s.
  split; [rewrite Lm; exact Fm|]. split; [rewrite Ls; exact Fs|].
  split; [rewrite Lb; exact Fb|].
  intros Hlen z Hz. rewrite <- (Fc Hlen z Hz).
  unfold original_at. now rewrite Lc.
Qed.

(** C7 (as amended): for every in-range state (known mode, speed 1..10,
    brightness 0..100, any four colours) a save that can open the state
    file followed by a load reproduces exactly the mode, speed, brightness
    and four colours; a file shorter than the 24-byte record is rejected
    entirely; of a file of 24 bytes or more the first 24 bytes are the
    record, and mode, speed and brightness are range-validated one by one,
    an out-of-range field being left at its in-memory value while the other
    fields and the colours are still applied. *)
Theorem C7_state_persistence :
  (forall w w2,
     ANIMATION_SPEED_MIN <= animation_speed w <= ANIMATION_SPEED_MAX ->
     0 <= global_brightness w <= 100 ->
     (forall z, u8_color (colors (original_at w z))) ->
     fs_writable w = true ->
     state_file w2 = state_file (save_animation_state w).2 ->
     length (original_colors w2) = ZONE_COUNT ->
     let w' := (load_animation_state w2).2 in
     current_animation w' = current_animation w
     /\ animation_speed w' = animation_speed w
     /\ global_brightness w' = global_brightness w
     /\ forall z, (z < ZONE_COUNT)%nat ->
          colors (original_at w' z) = colors (original_at w z))
  /\ (forall w file,
        state_file w = Some file -> (length file < 24)%nat ->
        load_animation_state w
        = (tt, set_klog (warn_read_state_failed :: klog w) w))
  /\ (forall w file,
        state_file w = Some file -> (24 <= length file)%nat ->
        let s := animation_state_of_bytes (take 24 file) in
        let w' := (load_animation_state w).2 in
        current_animation w'
        = match animation_mode_of_Z (mode s) with
          | Some m => m
          | None => current_animation w
          end
        /\ animation_speed w'
           = (if (ANIMATION_SPEED_MIN <=? speed s)
                 && (speed s <=? ANIMATION_SPEED_MAX)
              then speed s else animation_speed w)
        /\ global_brightness w'
           = (if (0 <=? brightness s) && (brightness s <=? 100)
              then brightness s else global_brightness w)
        /\ (length (original_colors w) = ZONE_COUNT ->
            forall z, (z < ZONE_COUNT)%nat ->
              colors (original_at w' z) = nth z (state_colors s) black)).
Proof.
  split; [|split].
  - exact save_load_roundtrip.
  - exact load_short_file.
  - exact load_animation_state_fields.
Qed.

Lemma C7_state_persistence_witness :
  let w2 := boot (frame_store sample_frame) []
              (state_file (save_animation_state sample_rainbow).2) true in
  current_animation (load_animation_state w2).2 = ANIMATION_RAINBOW.
Proof.
  cbv zeta.
  refine (proj1 (proj1 C7_state_persistence sample_rainbow _ _ _ _ _ _ _)).
  - vm_compute. split; discriminate.
  - vm_compute. split; discriminate.
  - intros z. unfold original_at, u8_color.
    do 5 (try destruct z as [|z]); vm_compute; intuition discriminate.
  - vm_compute. reflexivity.
  - vm_compute. reflexivity.
  - vm_compute. reflexivity.
Defined.

(** C7 as stated fails on the size check: a state file one byte longer
    than the record is not rejected; a load from the initial state applies
    its first 24 bytes. *)
Lemma C7_counterexample :
  let w := boot (frame_store sample_frame) [] (Some sample_long_file) true in
  let w' := (load_animation_state w).2 in
  length sample_long_file = 25%nat
  /\ current_animation w' = ANIMATION_RAINBOW
  /\ animation_speed w' = 5
  /\ global_brightness w' = 50
  /\ colors (original_at w' 0) = rgb 1 2 3
  /\ load_animation_state w
     <> (tt, set_klog (warn_read_state_failed :: klog w) w).
Proof.
  cbv zeta. repeat split; try (vm_compute; reflexivity).
  intros H. apply (f_equal (fun r => current_animation r.2)) in H.
  vm_compute in H. discriminate H.
Qed.
(** * Further properties of the code *)

(** ** Animation math *)

Ltac by_ltb_cases :=
  repeat match goal with
         | |- context [?x <? ?y] => destruct (Z.ltb_spec x y)
         end.

(** Splits the conjunctions that are written out in the goal. *)
Ltac conj := repeat match goal with |- _ /\ _ => split end.

(** X1: [simple_sin] is a triangle wave in hundredths: its values lie
    between -100 and 100, it repeats every 360 degrees also for negative
    angles, a half turn negates it, and it reaches 100 exactly at 90
    degrees (modulo 360). *)
Theorem simple_sin_triangle (a : Z) :
  -100 <= simple_sin a <= 100
  /\ simple_sin (a + 360) = simple_sin a
  /\ simple_sin (a + 180) = - simple_sin a
  /\ (simple_sin a = 100 <-> a mod 360 = 90).
Proof.
  unfold simple_sin; cbv zeta.
  split; [|split; [|split; [|split; [|intros H]]]];
    by_ltb_cases; try intros H; Z.to_euclidean_division_equations; lia.
Qed.

(** X2: for a hue below 360 and saturation and value up to 100,
    [hsv_to_rgb] gives channels between the low level (v - v*s/100) * 255 /
    100 and the top level v * 255 / 100, which is at most 255; the channel
    of the hue's third of the circle is at the top level and the opposite
    one at the low level. *)
Theorem hsv_to_rgb_levels (h s v : Z) :
  0 <= h < 360 -> 0 <= s <= 100 -> 0 <= v <= 100 ->
  let c := hsv_to_rgb h s v in
  let top := (v * 255) ÷ 100 in
  let low := ((v - (v * s) ÷ 100) * 255) ÷ 100 in
  (0 <= low /\ low <= top /\ top <= 255)
  /\ (low <= red c <= top /\ low <= green c <= top /\ low <= blue c <= top)
  /\ (h < 60 \/ 300 <= h -> red c = top)
  /\ (60 <= h < 180 -> green c = top)
  /\ (180 <= h < 300 -> blue c = top)
  /\ (120 <= h < 240 -> red c = low)
  /\ (240 <= h -> green c = low)
  /\ (h < 120 -> blue c = low).
Proof.
  intros Hh Hs Hv. cbv zeta. unfold hsv_to_rgb. cbv zeta.
  set (c := (v * s) ÷ 100).
  set (k := 60 - Z.abs (Z.rem h 120 - 60)).
  assert (Hc : 0 <= c <= v).
  { subst c. assert (0 <= v * s <= v * 100) by nia.
    Z.to_euclidean_division_equations; lia. }
  assert (Hk : 0 <= k <= 60).
  { subst k. Z.to_euclidean_division_equations; lia. }
  assert (Hx : 0 <= (c * k) ÷ 60 <= c).
  { assert (0 <= c * k <= c * 60) by nia.
    Z.to_euclidean_division_equations; lia. }
  generalize dependent ((c * k) ÷ 60). intros x Hx.
  clearbody c k. unfold u8.
  by_ltb_cases; cbn [red green blue];
    repeat match goal with
           | |- _ /\ _ => split
           | |- _ -> _ => intros ?
           end;
    Z.to_euclidean_division_equations; lia.
Qed.

Lemma hsv_to_rgb_levels_witness :
  red (hsv_to_rgb 30 100 100) = 255 /\ blue (hsv_to_rgb 30 100 100) = 0.
Proof.
  destruct (hsv_to_rgb_levels 30 100 100) as (_ & _ & Hr & _ & _ & _ & _ & Hb);
    [lia | lia | lia |].
  split; [apply Hr; lia | apply Hb; lia].
Defined.

(** ** The query *)

Lemma query_status_answer (query command : Z) (buffer : list Z)
    (insize outsize : Z) (w : world) :
  outsize <= 4096 -> 0 <= insize <= 128 ->
  (hp_wmi_perform_query query command buffer insize outsize w).1.1
  = answer_status
      (bios w ({| method_id := encode_outsize_for_pvsz outsize;
                  input := query_args query command buffer insize |}
               :: wmi_calls w)).
Proof.
  intros Ho Hi. unfold hp_wmi_perform_query.
  rewrite encode_outsize_nonneg, insize_accepted by assumption.
  unfold bind, modify, get, pr, ret. cbv beta iota.
  cbn [wmi_calls set_wmi_calls bios].
  match goal with
  | |- context [bios w ?c] => destruct (bios w c) as [[resp|t]|]
  end; try reflexivity.
  cbn [answer_status].
  destruct (s32 (le32_at resp 4) =? 0) eqn:E; cbn [negb].
  - destruct (outsize =? 0); reflexivity.
  - destruct (negb (s32 (le32_at resp 4) =? HPWMI_RET_UNKNOWN_COMMAND)
              && negb (s32 (le32_at resp 4) =? HPWMI_RET_UNKNOWN_CMDTYPE));
      reflexivity.
Qed.

(** X3: whenever a query fails (returns a non-zero value), the caller's
    buffer is left exactly as it was; a query reaches the firmware at most
    once, with the request built from its arguments; and when the firmware
    gives no object or an object that is not a buffer, the result is
    [-EINVAL].  With sizes the routine accepts the firmware is called
    exactly once and the result is the status of its answer; with an
    [outsize] above 4096 or an [insize] above 128 the firmware is not
    called and the result is [-EINVAL]. *)
Theorem query_failure_keeps_buffer (query command : Z) (buffer : list Z)
    (insize outsize : Z) (w : world) :
  let res := hp_wmi_perform_query query command buffer insize outsize w in
  let call := {| method_id := encode_outsize_for_pvsz outsize;
                 input := query_args query command buffer insize |} in
  (res.1.1 <> 0 -> res.1.2 = buffer)
  /\ (wmi_calls res.2 = wmi_calls w \/ wmi_calls res.2 = call :: wmi_calls w)
  /\ (wmi_calls res.2 = call :: wmi_calls w ->
      match bios w (call :: wmi_calls w) with
      | Some (ACPI_TYPE_BUFFER _) => True
      | _ => res.1.1 = - EINVAL
      end)
  /\ (outsize <= 4096 -> 0 <= insize <= 128 ->
      wmi_calls res.2 = call :: wmi_calls w
      /\ res.1.1 = answer_status (bios w (call :: wmi_calls w)))
  /\ (4096 < outsize \/ 128 < u64 insize ->
      wmi_calls res.2 = wmi_calls w /\ res.1.1 = - EINVAL).
Proof.
  cbv zeta.
  assert (Hnew : (outsize <= 4096 -> 0 <= insize <= 128 ->
            wmi_calls (hp_wmi_perform_query query command buffer insize
                         outsize w).2
            = {| method_id := encode_outsize_for_pvsz outsize;
                 input := query_args query command buffer insize |}
              :: wmi_calls w
            /\ (hp_wmi_perform_query query command buffer insize
                  outsize w).1.1
               = answer_status
                   (bios w ({| method_id := encode_outsize_for_pvsz outsize;
                               input := query_args query command buffer
                                          insize |} :: wmi_calls w)))
          /\ (4096 < outsize \/ 128 < u64 insize ->
              wmi_calls (hp_wmi_perform_query query command buffer insize
                           outsize w).2 = wmi_calls w
              /\ (hp_wmi_perform_query query command buffer insize
                    outsize w).1.1 = - EINVAL)).
  { split.
    - intros Ho Hi. split.
      + now apply query_call_pushed.
      + now apply query_status_answer.
    - intros H. unfold hp_wmi_perform_query, encode_outsize_for_pvsz.
      destruct (Z.gtb_spec outsize 4096) as [Ho|Ho].
      + cbn. now split.
      + destruct H as [H|H]; [lia|].
        replace (_ <? 0) with false.
        2: { symmetry.
             repeat match goal with
                    | |- context [?a >? ?b] => destruct (Z.gtb_spec a b)
                    end; reflexivity. }
        destruct (Z.gtb_spec (u64 insize) 128); [|lia]. cbn. now split. }
  destruct Hnew as [Hn1 Hn2].
  cut ((let res := hp_wmi_perform_query query command buffer insize
                     outsize w in
        let call := {| method_id := encode_outsize_for_pvsz outsize;
                       input := query_args query command buffer insize |} in
        (res.1.1 <> 0 -> res.1.2 = buffer)
        /\ (wmi_calls res.2 = wmi_calls w
            \/ wmi_calls res.2 = call :: wmi_calls w)
        /\ (wmi_calls res.2 = call :: wmi_calls w ->
            match bios w (call :: wmi_calls w) with
            | Some (ACPI_TYPE_BUFFER _) => True
            | _ => res.1.1 = - EINVAL
            end))).
  { cbv zeta. intros (H1 & H2 & H3). now conj. }
  clear Hn1 Hn2.
  cbv zeta. unfold hp_wmi_perform_query.
  destruct (encode_outsize_for_pvsz outsize <? 0).
  { cbn. repeat split; auto.
    intros H. exfalso. revert H. clear.
    generalize (wmi_calls w). intros l H.
    apply (f_equal (@length _)) in H. cbn in H. lia. }
  destruct (u64 insize >? 128).
  { cbn. repeat split; auto.
    intros H. exfalso. revert H. clear.
    generalize (wmi_calls w). intros l H.
    apply (f_equal (@length _)) in H. cbn in H. lia. }
  unfold bind, modify, get, pr, ret.
  cbn [fst snd wmi_calls set_wmi_calls bios].
  match goal with |- context [bios w ?c] => destruct (bios w c) as [[resp|t]|] end.
  - destruct (Z.eqb_spec (s32 (le32_at resp 4)) 0) as [E|E]; cbn [negb].
    + destruct (outsize =? 0); cbn; repeat split; auto; intros H; congruence.
    + destruct (negb (s32 (le32_at resp 4) =? HPWMI_RET_UNKNOWN_COMMAND)
                && negb (s32 (le32_at resp 4) =? HPWMI_RET_UNKNOWN_CMDTYPE));
        cbn; repeat split; auto.
  - cbn. repeat split; auto.
  - cbn. repeat split; auto.
Qed.

Lemma bytes_n_split (n : nat) (l : list Z) :
  bytes_n n l
  = take (Nat.min n (length l)) (map u8 l)
    ++ replicate (n - Nat.min n (length l)) 0.
Proof.
  unfold bytes_n.
  destruct (Nat.le_ge_cases n (length l)) as [H|H].
  - rewrite Nat.min_l by exact H. rewrite Nat.sub_diag. cbn [replicate].
    rewrite app_nil_r. rewrite take_app_le by (rewrite length_map; exact H).
    reflexivity.
  - rewrite Nat.min_r by exact H.
    rewrite take_app_ge by (rewrite length_map; exact H).
    rewrite length_map, take_replicate.
    rewrite (take_ge (map u8 l)) by (rewrite length_map; lia).
    f_equal. f_equal. lia.
Qed.

(** X4: a query the firmware answers with status 0 hands back the payload
    of the answer (the bytes after the 8-byte header): the first [outsize]
    of them, followed by zeros when the answer is shorter; bytes of the
    caller's buffer past [outsize] are kept. *)
Theorem query_success_payload (query command : Z) (buffer : list Z)
    (insize outsize : Z) (resp : list Z) (w : world) :
  0 < outsize <= 4096 ->
  0 <= insize <= 128 ->
  bios w ({| method_id := encode_outsize_for_pvsz outsize;
             input := query_args query command buffer insize |}
          :: wmi_calls w) = Some (ACPI_TYPE_BUFFER resp) ->
  le32_at resp 4 = 0 ->
  (8 <= length resp)%nat ->
  Z.of_nat (length resp) < 2 ^ 31 ->
  (hp_wmi_perform_query query command buffer insize outsize w).1
  = (0, bytes_n (Z.to_nat outsize) (drop 8 resp)
        ++ drop (Z.to_nat outsize) buffer).
Proof.
  intros Ho Hi Hb Hc Hl Hl2. unfold hp_wmi_perform_query.
  rewrite encode_outsize_nonneg by lia.
  rewrite insize_accepted by lia.
  unfold bind, modify, get, pr, ret.
  cbn [fst snd wmi_calls set_wmi_calls bios]. rewrite Hb, Hc.
  change (s32 0 =? 0) with true. cbn [negb].
  destruct (Z.eqb_spec outsize 0) as [E|_]; [lia|].
  cbn [fst]. f_equal. f_equal.
  rewrite s32_small by lia.
  rewrite bytes_n_split, length_drop.
  replace (Z.to_nat (Z.min outsize (Z.of_nat (length resp) - 8)))
    with (Nat.min (Z.to_nat outsize) (length resp - 8)) by lia.
  reflexivity.
Qed.

Lemma query_success_payload_witness :
  (hp_wmi_perform_query HPWMI_FOURZONE_COLOR_GET HPWMI_FOURZONE
     (replicate 4 7) 4 4
     (boot (fun _ => Some (ACPI_TYPE_BUFFER (bios_return_bytes 0 ++ [1; 2])))
        [] None true)).1
  = (0, [1; 2; 0; 0]).
Proof.
  apply (query_success_payload HPWMI_FOURZONE_COLOR_GET HPWMI_FOURZONE
           (replicate 4 7) 4 4 (bios_return_bytes 0 ++ [1; 2])).
  - lia.
  - lia.
  - reflexivity.
  - reflexivity.
  - vm_compute. lia.
  - vm_compute. reflexivity.
Defined.

(** ** Frame transfer *)

Lemma settings_same_driver (w w' : world) :
  same_driver w w' -> settings w' = settings w.
Proof. intros (calls & log & ->). reflexivity. Qed.

Lemma settings_set_klog (l : list klog_msg) (w : world) :
  settings (set_klog l w) = settings w.
Proof. reflexivity. Qed.

Lemma settings_set_zone_colors (z : nat) (c : color_platform) (w : world) :
  settings (set_zone_colors z c w) = settings w.
Proof. reflexivity. Qed.

Lemma settings_set_hw_writes (l : list hw_write) (w : world) :
  settings (set_hw_writes l w) = settings w.
Proof. reflexivity. Qed.

Lemma fourzone_read_unfold (z : nat) (w : world) :
  fourzone_update_led z HPWMI_READ w
  = let q := hp_wmi_perform_query HPWMI_FOURZONE_COLOR_GET HPWMI_FOURZONE
               (bytes_n 128 (stack_junk w)) 128 128 w in
    if negb (q.1.1 =? 0) then
      (if q.1.1 <=? 0 then q.1.1 else - EINVAL,
       set_klog (warn_fourzone_color_get q.1.1 :: klog q.2) q.2)
    else
      let off := Z.to_nat (offset (zone_at q.2 z)) in
      (0, set_zone_colors z {| blue := nth (off + 2) q.1.2 0;
                               green := nth (off + 1) q.1.2 0;
                               red := nth off q.1.2 0 |} q.2).
Proof.
  unfold fourzone_update_led, bind at 1, get at 1. cbv beta iota.
  unfold bind at 1.
  destruct (hp_wmi_perform_query _ _ _ _ _ w) as [[r st] w1].
  cbv zeta. cbn [fst snd].
  destruct (r =? 0); cbn [negb]; reflexivity.
Qed.

Lemma fourzone_write_unfold (z : nat) (w : world) :
  fourzone_update_led z HPWMI_WRITE w
  = let q := hp_wmi_perform_query HPWMI_FOURZONE_COLOR_GET HPWMI_FOURZONE
               (bytes_n 128 (stack_junk w)) 128 128 w in
    if negb (q.1.1 =? 0) then
      (if q.1.1 <=? 0 then q.1.1 else - EINVAL,
       set_klog (warn_fourzone_color_get q.1.1 :: klog q.2) q.2)
    else
      let zn := zone_at q.2 z in
      let off := Z.to_nat (offset zn) in
      let state :=
        <[(off + 2)%nat := blue (colors zn)]>
          (<[(off + 1)%nat := green (colors zn)]>
             (<[off := red (colors zn)]> q.1.2)) in
      let q2 := hp_wmi_perform_query HPWMI_FOURZONE_COLOR_SET HPWMI_FOURZONE
                  state 128 128
                  (set_hw_writes (pushed q.2 z state :: hw_writes q.2) q.2) in
      (q2.1.1,
       if negb (q2.1.1 =? 0)
       then set_klog (warn_fourzone_color_set q2.1.1 :: klog q2.2) q2.2
       else q2.2).
Proof.
  unfold fourzone_update_led, bind at 1, get at 1. cbv beta iota.
  unfold bind at 1.
  destruct (hp_wmi_perform_query _ _ _ _ _ w) as [[r st] w1].
  cbv zeta. cbn [fst snd].
  destruct (r =? 0); cbn [negb]; [|reflexivity].
  unfold bind at 1, get at 1. cbv beta iota.
  change (HPWMI_WRITE =? HPWMI_WRITE) with true. cbv iota.
  unfold bind at 1, modify at 1. cbv beta iota.
  unfold bind at 1.
  match goal with
  | |- context [hp_wmi_perform_query ?a ?b ?c ?d ?e ?x] =>
      change (hp_wmi_perform_query a b c d e x)
        with (hp_wmi_perform_query a b c d e
                (set_hw_writes
                   (pushed w1 z c :: hw_writes w1) w1))
  end.
  destruct (hp_wmi_perform_query _ _ _ _ _ _) as [[r2 st2] w2].
  cbn [fst snd]. unfold bind, ret, pr, modify.
  destruct (r2 =? 0); cbn [negb]; reflexivity.
Qed.

(** X5: reading a zone makes exactly one firmware call, the colour GET,
    and never pushes a frame.  Its result is 0 or negative, never a
    positive firmware status: 0 when the firmware's answer has status 0,
    a negative status itself, and [-EINVAL] for a positive one.  When it
    is not 0 the zones are unchanged; when it is 0 the zone's colour is
    the three bytes at the zone's offset in the buffer the GET returned,
    red first, and nothing else of the zones changes.  The settings are
    unchanged in every case. *)
Theorem fourzone_read_protocol (z : nat) (w : world) :
  let res := fourzone_update_led z HPWMI_READ w in
  let got := (hp_wmi_perform_query HPWMI_FOURZONE_COLOR_GET HPWMI_FOURZONE
                (bytes_n 128 (stack_junk w)) 128 128 w).1 in
  let get_call :=
    {| method_id := 3;
       input := query_args HPWMI_FOURZONE_COLOR_GET HPWMI_FOURZONE
                  (bytes_n 128 (stack_junk w)) 128 |} in
  let off := Z.to_nat (offset (zone_at w z)) in
  res.1 <= 0
  /\ wmi_calls res.2
     = {| method_id := 3;
          input := query_args HPWMI_FOURZONE_COLOR_GET HPWMI_FOURZONE
                     (bytes_n 128 (stack_junk w)) 128 |} :: wmi_calls w
  /\ hw_writes res.2 = hw_writes w
  /\ (res.1 <> 0 -> zone_data res.2 = zone_data w)
  /\ settings res.2 = settings w
  /\ got.1 = answer_status (bios w (get_call :: wmi_calls w))
  /\ res.1 = (if got.1 =? 0 then 0
              else if got.1 <=? 0 then got.1 else - EINVAL)
  /\ (got.1 = 0 ->
      zone_data res.2
      = <[z := set_colors {| blue := nth (off + 2) got.2 0;
                             green := nth (off + 1) got.2 0;
                             red := nth off got.2 0 |} (zone_at w z)]>
          (zone_data w)).
Proof.
  cbv zeta. rewrite fourzone_read_unfold. cbv zeta.
  pose proof (query_effect HPWMI_FOURZONE_COLOR_GET HPWMI_FOURZONE
                (bytes_n 128 (stack_junk w)) 128 128 w) as [Hd _].
  pose proof (query_call_pushed HPWMI_FOURZONE_COLOR_GET HPWMI_FOURZONE
                (bytes_n 128 (stack_junk w)) 128 128 w
                ltac:(lia) ltac:(lia)) as Hc.
  pose proof (query_status_answer HPWMI_FOURZONE_COLOR_GET HPWMI_FOURZONE
                (bytes_n 128 (stack_junk w)) 128 128 w
                ltac:(lia) ltac:(lia)) as Ha.
  change (encode_outsize_for_pvsz 128) with 3 in Hc, Ha.
  destruct (hp_wmi_perform_query _ _ _ _ _ w) as [[r st] w1].
  cbn [fst snd] in *.
  pose proof (settings_same_driver _ _ Hd) as Hs.
  apply same_driver_fields in Hd.
  destruct Hd as (Hz & _ & _ & _ & _ & _ & _ & _ & _ & _ & _ & _ & _ & _ & Hh).
  assert (Hz1 : zone_at w1 z = zone_at w z)
    by (unfold zone_at; now rewrite Hz).
  destruct (Z.eqb_spec r 0) as [->|Hr]; cbn [negb fst snd].
  - rewrite Hz1.
    conj; [lia | exact Hc | exact Hh | intros H; now elim H | exact Hs
          | exact Ha | reflexivity |].
    intros _. unfold set_zone_colors. cbn [zone_data set_zone_data].
    now rewrite Hz1, Hz.
  - conj; [|exact Hc | exact Hh | intros _; exact Hz | exact Hs
          | exact Ha | reflexivity | intros E; contradiction].
    destruct (Z.leb_spec r 0); unfold EINVAL; lia.
Qed.

(** X6: writing a zone is a read-modify-write.  It first sends the colour
    GET, whose status is the firmware's answer to it.  If that status is
    not 0 the result is the status when negative and [-EINVAL] otherwise,
    no SET is sent and no frame is pushed.  If it is 0, the frame is the
    buffer the GET returned with the zone's red, green and blue stored at
    the zone's offset; exactly one colour SET is sent, carrying that frame,
    the push is recorded with the zone's colour, and the result is the
    firmware's answer to that SET.  The zones and the settings are
    unchanged in every case. *)
Theorem fourzone_write_protocol (z : nat) (w : world) :
  let res := fourzone_update_led z HPWMI_WRITE w in
  let got := (hp_wmi_perform_query HPWMI_FOURZONE_COLOR_GET HPWMI_FOURZONE
                (bytes_n 128 (stack_junk w)) 128 128 w).1 in
  let get_call :=
    {| method_id := 3;
       input := query_args HPWMI_FOURZONE_COLOR_GET HPWMI_FOURZONE
                  (bytes_n 128 (stack_junk w)) 128 |} in
  let off := Z.to_nat (offset (zone_at w z)) in
  let frame :=
    <[(off + 2)%nat := blue (colors (zone_at w z))]>
      (<[(off + 1)%nat := green (colors (zone_at w z))]>
         (<[off := red (colors (zone_at w z))]> got.2)) in
  let set_call :=
    {| method_id := 3;
       input := query_args HPWMI_FOURZONE_COLOR_SET HPWMI_FOURZONE
                  frame 128 |} in
  zone_data res.2 = zone_data w
  /\ settings res.2 = settings w
  /\ got.1 = answer_status (bios w (get_call :: wmi_calls w))
  /\ (got.1 <> 0 ->
      res.1 = (if got.1 <=? 0 then got.1 else - EINVAL)
      /\ res.1 < 0
      /\ wmi_calls res.2 = get_call :: wmi_calls w
      /\ hw_writes res.2 = hw_writes w)
  /\ (got.1 = 0 ->
      res.1 = answer_status (bios w (set_call :: get_call :: wmi_calls w))
      /\ wmi_calls res.2 = set_call :: get_call :: wmi_calls w
      /\ hw_writes res.2 = pushed w z frame :: hw_writes w).
Proof.
  cbv zeta. rewrite fourzone_write_unfold. cbv zeta.
  pose proof (query_effect HPWMI_FOURZONE_COLOR_GET HPWMI_FOURZONE
                (bytes_n 128 (stack_junk w)) 128 128 w) as [Hd _].
  pose proof (query_call_pushed HPWMI_FOURZONE_COLOR_GET HPWMI_FOURZONE
                (bytes_n 128 (stack_junk w)) 128 128 w
                ltac:(lia) ltac:(lia)) as Hc.
  pose proof (query_status_answer HPWMI_FOURZONE_COLOR_GET HPWMI_FOURZONE
                (bytes_n 128 (stack_junk w)) 128 128 w
                ltac:(lia) ltac:(lia)) as Ha.
  change (encode_outsize_for_pvsz 128) with 3 in Hc, Ha.
  destruct (hp_wmi_perform_query _ _ _ _ _ w) as [[r st] w1].
  cbn [fst snd] in *.
  pose proof (settings_same_driver _ _ Hd) as Hs.
  assert (Hz1 : zone_at w1 z = zone_at w z).
  { unfold zone_at. apply same_driver_fields in Hd.
    destruct Hd as (-> & _). reflexivity. }
  assert (Hp : forall st', pushed w1 z st' = pushed w z st').
  { intros st'. unfold pushed. apply same_driver_fields in Hd.
    destruct Hd as (-> & -> & -> & _). reflexivity. }
  assert (Hb : bios w1 = bios w).
  { destruct Hd as (calls & log & ->). reflexivity. }
  apply same_driver_fields in Hd.
  destruct Hd as (Hz & _ & _ & _ & _ & _ & _ & _ & _ & _ & _ & _ & _ & _ & Hh).
  destruct (Z.eqb_spec r 0) as [->|Hr]; cbn [negb fst snd].
  2: { conj; [exact Hz | exact Hs | exact Ha | | intros E; contradiction].
       intros _. conj; [reflexivity | | exact Hc | exact Hh].
       destruct (Z.leb_spec r 0); unfold EINVAL; lia. }
  rewrite Hz1, Hp.
  set (state := <[_ := _]> (<[_ := _]> (<[_ := _]> st))).
  set (w2 := set_hw_writes _ w1).
  pose proof (query_effect HPWMI_FOURZONE_COLOR_SET HPWMI_FOURZONE
                state 128 128 w2) as [Hd2 _].
  pose proof (query_call_pushed HPWMI_FOURZONE_COLOR_SET HPWMI_FOURZONE
                state 128 128 w2 ltac:(lia) ltac:(lia)) as Hc2.
  pose proof (query_status_answer HPWMI_FOURZONE_COLOR_SET HPWMI_FOURZONE
                state 128 128 w2 ltac:(lia) ltac:(lia)) as Ha2.
  change (encode_outsize_for_pvsz 128) with 3 in Hc2, Ha2.
  destruct (hp_wmi_perform_query _ _ _ _ _ w2) as [[r2 st2] w3].
  cbn [fst snd] in *.
  pose proof (settings_same_driver _ _ Hd2) as Hs2.
  apply same_driver_fields in Hd2.
  destruct Hd2 as (Hz2 & _ & _ & _ & _ & _ & _ & _ & _ & _ & _ & _ & _ & _ & Hh2).
  assert (Hfin : forall w4,
            w4 = (if negb (r2 =? 0)
                  then set_klog (warn_fourzone_color_set r2 :: klog w3) w3
                  else w3) ->
            zone_data w4 = zone_data w3 /\ settings w4 = settings w3
            /\ wmi_calls w4 = wmi_calls w3 /\ hw_writes w4 = hw_writes w3).
  { intros w4 ->. destruct (r2 =? 0); cbn [negb]; repeat split. }
  destruct (Hfin _ eq_refl) as (F1 & F2 & F3 & F4).
  rewrite F1, F2, F3, F4, Hz2, Hs2, Hc2, Hh2.
  subst w2. cbn [zone_data set_hw_writes wmi_calls hw_writes bios] in *.
  rewrite settings_set_hw_writes, Hz, Hs, Hc, Hh.
  rewrite Hc, Hb in Ha2.
  conj; [reflexivity | reflexivity | exact Ha | intros E; now elim E |].
  intros _. conj; [exact Ha2 | reflexivity | reflexivity].
Qed.

Lemma set_colors_same (zn : platform_zone) : set_colors (colors zn) zn = zn.
Proof. now destruct zn. Qed.

(** X7: on a keyboard that keeps the last frame it was sent, a zone write
    followed by a read of the same zone succeeds and gives the zone the
    colour that was written, so the zones are as before; the write leaves
    the colours the keyboard holds for the other zones untouched. *)
Theorem fourzone_write_read_roundtrip (w : world) (init : list Z) (z : nat) :
  wf w -> (z < ZONE_COUNT)%nat -> bios w = frame_store init ->
  let wr := fourzone_update_led z HPWMI_WRITE w in
  let rd := fourzone_update_led z HPWMI_READ wr.2 in
  wr.1 = 0 /\ rd.1 = 0
  /\ zone_data rd.2 = zone_data w
  /\ frame_color (current_frame init (wmi_calls wr.2)) z = colors (zone_at w z)
  /\ forall z', z' <> z ->
       frame_color (current_frame init (wmi_calls wr.2)) z'
       = frame_color (current_frame init (wmi_calls w)) z'.
Proof.
  intros Hw Hz Hb. cbv zeta.
  destruct (fourzone_write_frame_store w init z Hw Hz Hb)
    as (w1 & E & Hzd & Ho & Hg & Hb1 & Hf).
  rewrite E. cbn [fst snd].
  assert (Hw1 : wf w1) by (apply (wf_ext w); assumption).
  rewrite Hb in Hb1.
  rewrite (fourzone_read_frame_store w1 init z Hw1 Hz Hb1). cbn [fst snd].
  rewrite Hf.
  rewrite frame_color_with_same by (apply current_frame_ok || exact Hz).
  repeat split.
  - unfold set_zone_colors. cbn [zone_data set_zone_data set_wmi_calls].
    unfold zone_at. cbn [zone_data set_wmi_calls]. rewrite Hzd.
    rewrite set_colors_same. apply insert_nth_same.
  - intros z' Hne. now apply frame_color_with_other.
Qed.

Lemma fourzone_write_read_roundtrip_witness :
  zone_data
    (fourzone_update_led 2 HPWMI_READ
       (fourzone_update_led 2 HPWMI_WRITE sample_world).2).2
  = zone_data sample_world.
Proof.
  apply (fourzone_write_read_roundtrip sample_world sample_frame 2).
  - exact sample_world_wf.
  - unfold ZONE_COUNT. lia.
  - reflexivity.
Defined.

(** ** What a routine leaves alone *)

Lemma keeps_ret {A} (R : world -> world -> Prop) (a : A) :
  (forall w, R w w) -> keeps R (ret a).
Proof. intros H w. apply H. Qed.

Lemma keeps_modify (R : world -> world -> Prop) (f : world -> world) :
  (forall w, R w (f w)) -> keeps R (modify f).
Proof. intros H w. apply H. Qed.

Lemma keeps_get (R : world -> world -> Prop) :
  (forall w, R w w) -> keeps R get.
Proof. intros H w. apply H. Qed.

Lemma keeps_if {A} (R : world -> world -> Prop) (b : bool) (c1 c2 : M A) :
  keeps R c1 -> keeps R c2 -> keeps R (if b then c1 else c2).
Proof. now destruct b. Qed.

Lemma keeps_for_zones (R : world -> world -> Prop) (zs : list nat)
    (body : nat -> M unit) :
  (forall w, R w w) ->
  (forall w1 w2 w3, R w1 w2 -> R w2 w3 -> R w1 w3) ->
  (forall z, keeps R (body z)) -> keeps R (for_zones zs body).
Proof.
  intros Hr Ht Hb. induction zs as [|z zs IH]; cbn [for_zones].
  - now apply keeps_ret.
  - apply keeps_bind; [exact Ht | apply Hb | intros _; exact IH].
Qed.

Lemma keeps_weaken {A} (R R' : world -> world -> Prop) (c : M A) :
  (forall w w', R w w' -> R' w w') -> keeps R c -> keeps R' c.
Proof. intros H Hc w. apply H, Hc. Qed.

Lemma same_settings_refl (w : world) : same_settings w w.
Proof. reflexivity. Qed.

Lemma same_settings_trans (w1 w2 w3 : world) :
  same_settings w1 w2 -> same_settings w2 w3 -> same_settings w1 w3.
Proof. unfold same_settings. congruence. Qed.

Lemma same_controls_refl (w : world) : same_controls w w.
Proof. reflexivity. Qed.

Lemma same_controls_trans (w1 w2 w3 : world) :
  same_controls w1 w2 -> same_controls w2 w3 -> same_controls w1 w3.
Proof. unfold same_controls. congruence. Qed.

Lemma controls_settings (w w' : world) :
  settings w' = settings w -> controls w' = controls w.
Proof. unfold controls. now intros ->. Qed.

Lemma same_settings_controls (w w' : world) :
  same_settings w w' -> same_controls w w'.
Proof. apply controls_settings. Qed.

(** The fields the settings consist of. *)
Lemma settings_fields (w w' : world) :
  settings w' = settings w ->
  original_colors w' = original_colors w
  /\ global_brightness w' = global_brightness w
  /\ current_animation w' = current_animation w
  /\ animation_speed w' = animation_speed w
  /\ animation_timer w' = animation_timer w
  /\ animation_work w' = animation_work w
  /\ animation_start_time w' = animation_start_time w
  /\ animation_active w' = animation_active w
  /\ jiffies w' = jiffies w
  /\ bios w' = bios w
  /\ stack_junk w' = stack_junk w
  /\ state_file w' = state_file w
  /\ fs_writable w' = fs_writable w.
Proof.
  intros H.
  repeat split;
    match goal with
    | |- ?f w' = ?f w => exact (f_equal f H)
    end.
Qed.

Lemma controls_fields (w w' : world) :
  controls w' = controls w ->
  global_brightness w' = global_brightness w
  /\ current_animation w' = current_animation w
  /\ animation_speed w' = animation_speed w
  /\ animation_timer w' = animation_timer w
  /\ animation_work w' = animation_work w
  /\ animation_start_time w' = animation_start_time w
  /\ animation_active w' = animation_active w
  /\ jiffies w' = jiffies w
  /\ bios w' = bios w
  /\ stack_junk w' = stack_junk w
  /\ fs_writable w' = fs_writable w.
Proof.
  intros H.
  repeat split;
    match goal with
    | |- ?f w' = ?f w => exact (f_equal f H)
    end.
Qed.

Lemma fourzone_write_settings (z : nat) :
  keeps same_settings (fourzone_update_led z HPWMI_WRITE).
Proof.
  intros w. unfold same_settings.
  destruct (fourzone_write_effect z w w eq_refl) as [H|(frame & H)];
    now rewrite (settings_same_driver _ _ H).
Qed.

Lemma fourzone_read_settings (z : nat) :
  keeps same_settings (fourzone_update_led z HPWMI_READ).
Proof.
  intros w. unfold same_settings.
  destruct (fourzone_read_effect z w w eq_refl) as [[_ H]|[_ (c & _ & H)]];
    now rewrite (settings_same_driver _ _ H).
Qed.

Create HintDb keeps discriminated.

#[export] Hint Resolve same_settings_refl same_settings_trans
  same_controls_refl same_controls_trans same_scheduler_refl
  same_scheduler_trans : keeps.
#[export] Hint Resolve fourzone_write_settings fourzone_read_settings : keeps.

(** Structural steps of a proof that a routine keeps a relation: through
    sequencing, branching and the zone loop. *)
Ltac rel_leaf :=
  first [ assumption
        | apply cc_refl | apply cc_trans
        | apply cc_zone | apply cc_original | apply cc_klog | apply cc_file
        | apply sc_active | apply sc_timer | apply sc_current
        | apply sc_start_time | apply sc_work | apply sc_jiffies
        | apply sc_brightness
        | solve [eauto with keeps]
        | reflexivity ].

Ltac keeps_leaf :=
  match goal with
  | H : keeps ?R ?c |- keeps ?R ?c => exact H
  | H : forall x, keeps ?R (?c x) |- keeps ?R (?c _) => apply H
  | H : forall x y, keeps ?R (?c x y) |- keeps ?R (?c _ _) => apply H
  | |- keeps _ (fourzone_update_led _ HPWMI_READ) => apply cc_read
  | |- keeps _ (fourzone_update_led _ HPWMI_WRITE) => apply cc_write
  | |- _ => solve [eauto with keeps typeclass_instances]
  end.

Ltac keeps_steps :=
  repeat match goal with
         | |- keeps _ (ret _) => apply keeps_ret; rel_leaf
         | |- keeps _ get => apply keeps_get; rel_leaf
         | |- keeps _ (modify _) =>
             apply keeps_modify; intros ?; cbv beta; rel_leaf
         | |- keeps _ (pr _) =>
             apply keeps_modify; intros ?; cbv beta; rel_leaf
         | |- keeps _ (bind _ _) =>
             apply keeps_bind; [rel_leaf | | intros ?]
         | |- keeps _ (if _ then _ else _) => apply keeps_if
         | |- keeps _ (for_zones _ _) =>
             apply keeps_for_zones; [rel_leaf | rel_leaf | intros ?]
         | |- keeps _ (match ?x with _ => _ end) => destruct x
         | |- keeps _ _ => keeps_leaf
         end.

Lemma update_all_zones_settings (frame : list color_platform) :
  keeps same_settings (update_all_zones_with_colors frame).
Proof. unfold update_all_zones_with_colors. keeps_steps. Qed.

#[export] Hint Resolve update_all_zones_settings : keeps.

Lemma animation_work_func_settings (msecs_to_jiffies : Z -> Z) :
  keeps same_settings (animation_work_func msecs_to_jiffies).
Proof.
  unfold animation_work_func.
  apply keeps_bind; [eauto with keeps | keeps_steps | intros w].
  apply keeps_if; [keeps_steps|].
  destruct (current_animation w);
    [ keeps_steps
    | unfold animation_breathing | unfold animation_rainbow
    | unfold animation_wave | unfold animation_pulse
    | unfold animation_chase | unfold animation_sparkle
    | unfold animation_candle | unfold animation_aurora
    | unfold animation_disco ];
    keeps_steps.
Qed.

(** ** The scheduler, step by step *)

Lemma run_bind {A B} (c : M A) (k : A -> M B) (w : world) :
  bind c k w = k (c w).1 (c w).2.
Proof. unfold bind. now destruct (c w). Qed.

Lemma animation_mode_set_parse (msecs_to_jiffies : Z -> Z) (buf : string)
    (count : Z) :
  animation_mode_set msecs_to_jiffies buf count
  = match parse_mode buf with
    | None => ret (- EINVAL)
    | Some new_mode =>
        let* _ := stop_animation in
        let* _ := modify (set_current_animation new_mode) in
        let* _ := if negb (is_static new_mode)
                  then start_animation msecs_to_jiffies else ret tt in
        let* _ := save_animation_state in
        ret count
    end.
Proof. reflexivity. Qed.

Lemma parse_mode_prefix (m : animation_mode) (rest : string) :
  parse_mode (mode_name m ++ rest) = Some m.
Proof.
  destruct m; unfold parse_mode, strncmp_eq; cbn.
  all: repeat first
         [ rewrite bool_decide_eq_true_2 by reflexivity
         | rewrite bool_decide_eq_false_2 by (intros H; discriminate H) ].
  all: reflexivity.
Qed.

Lemma code_inj (c c' : ascii) : code c = code c' -> c = c'.
Proof.
  unfold code. intros H. apply N2Z.inj in H.
  rewrite <- (ascii_N_embedding c), <- (ascii_N_embedding c'). now rewrite H.
Qed.

Lemma strncmp_prefix (lit buf : string) :
  Forall (fun c => code c <> 0) (list_ascii_of_string lit) ->
  strncmp_eq buf lit (String.length lit) = true <-> has_prefix lit buf.
Proof.
  unfold strncmp_eq. rewrite bool_decide_eq_true.
  revert buf. induction lit as [|c lit IH]; intros buf Hl.
  - cbn. split; [exists buf; reflexivity | reflexivity].
  - cbn [list_ascii_of_string] in Hl. inversion Hl as [|? ? Hc Hl']; subst.
    cbn [String.length cstr].
    destruct (Z.eqb_spec (code c) 0) as [E|_]; [contradiction|].
    destruct buf as [|b buf].
    + cbn. split.
      * intros H. injection H as H _. now elim Hc.
      * intros (rest & H). discriminate H.
    + cbn [cstr]. destruct (Z.eqb_spec (code b) 0) as [E|Hb].
      * cbn. split.
        -- intros H. injection H as H _. now elim Hc.
        -- intros (rest & H). injection H as -> _. contradiction.
      * cbn [app take]. split.
        -- intros H. injection H as Hbc Ht. apply code_inj in Hbc. subst b.
           apply IH in Ht; [|exact Hl']. destruct Ht as (rest & ->).
           now exists rest.
        -- intros (rest & H). injection H as -> ->. f_equal.
           apply IH; [exact Hl' | now exists rest].
Qed.

Lemma parse_mode_some (buf : string) (m : animation_mode) :
  parse_mode buf = Some m -> has_prefix (mode_name m) buf.
Proof.
  unfold parse_mode.
  repeat match goal with
         | |- context [strncmp_eq buf ?lit ?n] =>
             let E := fresh "E" in
             destruct (strncmp_eq buf lit n) eqn:E;
             [ intros [= <-];
               apply (strncmp_prefix lit buf);
               [repeat constructor; discriminate | exact E]
             | ]
         end.
  discriminate.
Qed.

Lemma start_animation_run (msecs_to_jiffies : Z -> Z) (w : world) :
  start_animation msecs_to_jiffies w
  = (tt, if is_static (current_animation w) then set_animation_active false w
         else set_animation_timer
                (Some (u64 (jiffies w
                            + msecs_to_jiffies ANIMATION_TIMER_INTERVAL_MS)))
                (set_animation_active true
                   (set_animation_start_time (jiffies w) w))).
Proof.
  unfold start_animation, mod_timer_interval, bind, get, modify.
  now destruct (is_static (current_animation w)).
Qed.

Lemma save_animation_state_run (w : world) :
  save_animation_state w
  = (tt, if fs_writable w
         then set_klog (info_state_saved :: klog w)
                (set_state_file
                   (Some (animation_state_bytes (saved_state w))) w)
         else set_klog (warn_save_failed :: klog w) w).
Proof.
  unfold save_animation_state, bind, get, modify, pr.
  now destruct (fs_writable w).
Qed.

Lemma stop_animation_settings (w : world) :
  settings (stop_animation w).2
  = settings (set_animation_timer None (set_animation_active false w)).
Proof.
  unfold stop_animation. rewrite !run_bind. cbn [modify fst snd].
  match goal with
  | |- settings (for_zones ?zs ?body ?x).2 = _ =>
      assert (H : keeps same_settings (for_zones zs body)) by keeps_steps;
      exact (H x)
  end.
Qed.

Lemma stop_animation_fields (w : world) :
  let w' := (stop_animation w).2 in
  original_colors w' = original_colors w
  /\ global_brightness w' = global_brightness w
  /\ current_animation w' = current_animation w
  /\ animation_speed w' = animation_speed w
  /\ animation_timer w' = None
  /\ animation_work w' = animation_work w
  /\ animation_start_time w' = animation_start_time w
  /\ animation_active w' = false
  /\ jiffies w' = jiffies w
  /\ bios w' = bios w
  /\ stack_junk w' = stack_junk w
  /\ state_file w' = state_file w
  /\ fs_writable w' = fs_writable w.
Proof.
  pose proof (settings_fields _ _ (stop_animation_settings w)) as H.
  cbv zeta. set (w1 := (stop_animation w).2) in *. clearbody w1.
  exact H.
Qed.

(** Reduction of a field read from a world built by field assignments. *)
Ltac fields :=
  cbn [zone_data original_colors global_brightness current_animation
       animation_speed animation_timer animation_work animation_start_time
       animation_active jiffies bios wmi_calls stack_junk state_file
       fs_writable klog hw_writes
       set_zone_data set_original_colors set_global_brightness
       set_current_animation set_animation_speed set_animation_timer
       set_animation_work set_animation_start_time set_animation_active
       set_wmi_calls set_state_file set_klog set_hw_writes set_jiffies].

Tactic Notation "fields" "in" hyp_list(Hs) :=
  cbn [zone_data original_colors global_brightness current_animation
       animation_speed animation_timer animation_work animation_start_time
       animation_active jiffies bios wmi_calls stack_junk state_file
       fs_writable klog hw_writes
       set_zone_data set_original_colors set_global_brightness
       set_current_animation set_animation_speed set_animation_timer
       set_animation_work set_animation_start_time set_animation_active
       set_wmi_calls set_state_file set_klog set_hw_writes set_jiffies]
    in Hs.

(** A save changes only the state file and the log; when the file can be
    written it holds the record of the world that is left. *)
Lemma save_animation_state_fields (w : world) :
  let w' := (save_animation_state w).2 in
  settings w' = settings (set_state_file (state_file w') w)
  /\ zone_data w' = zone_data w
  /\ wmi_calls w' = wmi_calls w
  /\ hw_writes w' = hw_writes w
  /\ (fs_writable w = true ->
      state_file w' = Some (animation_state_bytes (saved_state w')))
  /\ (fs_writable w = false -> state_file w' = state_file w).
Proof.
  cbv zeta. rewrite save_animation_state_run. cbn [snd].
  destruct (fs_writable w); repeat split; discriminate.
Qed.

Section Scheduler.

Variable msecs_to_jiffies : Z -> Z.

Lemma animation_mode_set_effect (m : animation_mode) (rest : string)
    (count : Z) (w : world) :
  let res := animation_mode_set msecs_to_jiffies (mode_name m ++ rest)
               count w in
  res.1 = count
  /\ current_animation res.2 = m
  /\ original_colors res.2 = original_colors w
  /\ global_brightness res.2 = global_brightness w
  /\ animation_speed res.2 = animation_speed w
  /\ (m = ANIMATION_STATIC ->
      animation_active res.2 = false /\ animation_timer res.2 = None)
  /\ (m <> ANIMATION_STATIC ->
      animation_active res.2 = true
      /\ animation_timer res.2
         = Some (u64 (jiffies w + msecs_to_jiffies ANIMATION_TIMER_INTERVAL_MS))
      /\ animation_start_time res.2 = jiffies w)
  /\ (fs_writable w = true ->
      state_file res.2 = Some (animation_state_bytes (saved_state res.2))).
Proof.
  cbv zeta. rewrite animation_mode_set_parse, parse_mode_prefix.
  rewrite !run_bind. cbn [modify ret fst snd].
  destruct (stop_animation_fields w)
    as (Ho & Hg & Hc & Hs & Ht & _ & _ & Ha & Hj & _ & _ & _ & Hf).
  set (w1 := (stop_animation w).2) in *. clearbody w1.
  destruct m; cbn [is_static negb ret fst snd];
    rewrite ?start_animation_run; cbn [fst snd]; fields;
    cbn [is_static];
    match goal with
    | |- context [save_animation_state ?x] =>
        destruct (save_animation_state_fields x) as (K & _ & _ & _ & Kf & _);
        apply settings_fields in K;
        destruct K as (Ko & Kg & Kc & Ks & Kt & _ & Kst & Ka & _);
        set (w2 := (save_animation_state x).2) in *; clearbody w2
    end.
  all: revert Ko Kg Kc Ks Kt Kst Ka Kf; fields.
  all: rewrite Ho, Hg, Hs, ?Ht, ?Ha, ?Hj, Hf.
  all: intros -> -> -> -> -> -> -> Kf.
  all: repeat split; try congruence; try exact Kf.
Qed.

(** X8: a write to [animation_mode] that starts with a mode name selects
    that mode, whatever follows the name, and returns the byte count.  The
    base colours, the brightness and the speed are untouched.  For "static"
    the scheduler ends idle with no timer; for any other mode the effect is
    started now, with the timer due one interval from now.  When the state
    file can be written it then holds the record of the world that is
    left. *)
Theorem animation_mode_set_accepts (m : animation_mode) (rest : string)
    (count : Z) (w : world) :
  let res := animation_mode_set msecs_to_jiffies (mode_name m ++ rest)
               count w in
  res.1 = count
  /\ current_animation res.2 = m
  /\ original_colors res.2 = original_colors w
  /\ global_brightness res.2 = global_brightness w
  /\ animation_speed res.2 = animation_speed w
  /\ (m = ANIMATION_STATIC ->
      animation_active res.2 = false /\ animation_timer res.2 = None)
  /\ (m <> ANIMATION_STATIC ->
      animation_active res.2 = true
      /\ animation_timer res.2
         = Some (u64 (jiffies w + msecs_to_jiffies ANIMATION_TIMER_INTERVAL_MS))
      /\ animation_start_time res.2 = jiffies w)
  /\ (fs_writable w = true ->
      state_file res.2 = Some (animation_state_bytes (saved_state res.2))).
Proof. apply animation_mode_set_effect. Qed.

End Scheduler.

Lemma animation_mode_set_accepts_witness :
  current_animation
    (animation_mode_set hz1000 "wavelength" 11 sample_world).2
  = ANIMATION_WAVE.
Proof.
  apply (animation_mode_set_accepts hz1000 ANIMATION_WAVE "length" 11
           sample_world).
Defined.

(** X9: a write to [animation_mode] that starts with none of the ten mode
    names fails with [-EINVAL] and changes nothing. *)
Theorem animation_mode_set_rejects (msecs_to_jiffies : Z -> Z) (buf : string)
    (count : Z) (w : world) :
  (forall m, ~ has_prefix (mode_name m) buf) ->
  animation_mode_set msecs_to_jiffies buf count w = (- EINVAL, w).
Proof.
  intros H. rewrite animation_mode_set_parse.
  destruct (parse_mode buf) as [m|] eqn:E; [|reflexivity].
  elim (H m). now apply parse_mode_some.
Qed.

Lemma animation_mode_set_rejects_witness :
  animation_mode_set hz1000 "blink" 6 sample_world = (- EINVAL, sample_world).
Proof.
  apply animation_mode_set_rejects.
  intros m (rest & H). destruct m; discriminate H.
Defined.

Lemma mode_name_shown (m : animation_mode) :
  (animation_mode_to_Z m >=? ANIMATION_COUNT) = false.
Proof. now destruct m. Qed.

(** X10: reading [animation_mode] changes nothing and gives the name of
    the current mode followed by a newline, returning the length of that
    text; writing the text back is accepted and selects the same mode. *)
Theorem animation_mode_show_roundtrip (msecs_to_jiffies : Z -> Z) (count : Z)
    (w : world) :
  let shown := animation_mode_show w in
  let text := (mode_name (current_animation w) ++ nl)%string in
  shown = (Z.of_nat (String.length text), text, w)
  /\ (animation_mode_set msecs_to_jiffies text count w).1 = count
  /\ current_animation (animation_mode_set msecs_to_jiffies text count w).2
     = current_animation w.
Proof.
  cbv zeta. split.
  - unfold animation_mode_show, bind, get, ret, sprintf.
    rewrite mode_name_shown. reflexivity.
  - pose proof (animation_mode_set_effect msecs_to_jiffies
                  (current_animation w) nl count w) as H.
    cbv zeta in H. destruct H as (H1 & H2 & _). now split.
Qed.

Lemma kstrtoul_nonneg (buf : string) (base v : Z) :
  kstrtoul buf base = Ok v -> 0 <= v < 2 ^ 64.
Proof. apply kstrtoull_range. Qed.

Lemma animation_speed_set_effect (msecs_to_jiffies : Z -> Z) (buf : string)
    (count : Z) (w : world) :
  (forall e, kstrtoul buf 10 = Err e ->
     animation_speed_set msecs_to_jiffies buf count w = (e, w))
  /\ (forall v, kstrtoul buf 10 = Ok v ->
        v < ANIMATION_SPEED_MIN \/ ANIMATION_SPEED_MAX < v ->
        animation_speed_set msecs_to_jiffies buf count w = (- EINVAL, w))
  /\ (forall v, kstrtoul buf 10 = Ok v ->
        ANIMATION_SPEED_MIN <= v <= ANIMATION_SPEED_MAX ->
        let res := animation_speed_set msecs_to_jiffies buf count w in
        let running :=
          animation_active w && negb (is_static (current_animation w)) in
        res.1 = count
        /\ animation_speed res.2 = v
        /\ current_animation res.2 = current_animation w
        /\ animation_active res.2 = animation_active w
        /\ original_colors res.2 = original_colors w
        /\ global_brightness res.2 = global_brightness w
        /\ (running = true ->
            animation_timer res.2
            = Some (u64 (jiffies w
                         + msecs_to_jiffies ANIMATION_TIMER_INTERVAL_MS))
            /\ animation_start_time res.2 = jiffies w)
        /\ (running = false ->
            animation_timer res.2 = animation_timer w
            /\ animation_start_time res.2 = animation_start_time w
            /\ wmi_calls res.2 = wmi_calls w)
        /\ (fs_writable w = true ->
            state_file res.2
            = Some (animation_state_bytes (saved_state res.2)))).
Proof.
  unfold animation_speed_set, ANIMATION_SPEED_MIN, ANIMATION_SPEED_MAX.
  split; [|split].
  - intros e ->. reflexivity.
  - intros v -> Hv.
    destruct (Z.ltb_spec v 1); [reflexivity|].
    destruct (Z.gtb_spec v 10); [reflexivity | lia].
  - intros v -> Hv. cbv zeta.
    destruct (Z.ltb_spec v 1); [lia|].
    destruct (Z.gtb_spec v 10); [lia|]. cbn [orb].
    rewrite s32_small by lia.
    rewrite !run_bind. cbn [modify get ret fst snd]. fields.
    destruct (animation_active w && negb (is_static (current_animation w)))
      eqn:Er.
    + rewrite run_bind, start_animation_run. cbn [fst snd].
      destruct (stop_animation_fields (set_animation_speed v w))
        as (Ho & Hg & Hc & Hs & Ht & _ & _ & Ha & Hj & _ & _ & _ & Hf).
      revert Ho Hg Hc Hs Ht Ha Hj Hf. fields.
      set (w1 := (stop_animation (set_animation_speed v w)).2). clearbody w1.
      intros Ho Hg Hc Hs Ht Ha Hj Hf.
      apply andb_prop in Er. destruct Er as [Ea En]. rewrite Hc.
      destruct (is_static (current_animation w)); [discriminate|].
      match goal with
      | |- context [save_animation_state ?x] =>
          destruct (save_animation_state_fields x) as (K & _ & _ & _ & Kf & _);
          apply settings_fields in K;
          destruct K as (Ko & Kg & Kc & Ks & Kt & _ & Kst & Ka & _);
          set (w2 := (save_animation_state x).2) in *; clearbody w2
      end.
      revert Ko Kg Kc Ks Kt Kst Ka Kf; fields.
      rewrite Ho, Hg, Hs, Hc, Hj, Hf.
      intros -> -> -> -> -> -> -> Kf.
      repeat split; try congruence; try exact Kf; discriminate.
    + cbn [ret fst snd].
      match goal with
      | |- context [save_animation_state ?x] =>
          destruct (save_animation_state_fields x) as (K & _ & Kwc & _ & Kf & _);
          apply settings_fields in K;
          destruct K as (Ko & Kg & Kc & Ks & Kt & _ & Kst & Ka & _);
          set (w2 := (save_animation_state x).2) in *; clearbody w2
      end.
      revert Ko Kg Kc Ks Kt Kst Ka Kf Kwc; fields.
      intros -> -> -> -> -> -> -> Kf ->.
      repeat split; try congruence; try exact Kf; discriminate.
Qed.

(** X11: a write to [animation_speed] that is not a decimal number fails
    with the error of [kstrtoul], and one outside 1..10 with [-EINVAL]; both
    change nothing.  A speed from 1 to 10 is stored and the byte count
    returned; the mode, the base colours and the brightness stay.  A running
    effect is restarted from the current time with the timer due one
    interval from now; otherwise the timer is untouched and the firmware is
    not called.  When the state file can be written it then holds the
    record of the world that is left. *)
Theorem animation_speed_set_behaviour (msecs_to_jiffies : Z -> Z)
    (buf : string) (count : Z) (w : world) :
  (forall e, kstrtoul buf 10 = Err e ->
     animation_speed_set msecs_to_jiffies buf count w = (e, w))
  /\ (forall v, kstrtoul buf 10 = Ok v ->
        v < ANIMATION_SPEED_MIN \/ ANIMATION_SPEED_MAX < v ->
        animation_speed_set msecs_to_jiffies buf count w = (- EINVAL, w))
  /\ (forall v, kstrtoul buf 10 = Ok v ->
        ANIMATION_SPEED_MIN <= v <= ANIMATION_SPEED_MAX ->
        let res := animation_speed_set msecs_to_jiffies buf count w in
        let running :=
          animation_active w && negb (is_static (current_animation w)) in
        res.1 = count
        /\ animation_speed res.2 = v
        /\ current_animation res.2 = current_animation w
        /\ animation_active res.2 = animation_active w
        /\ original_colors res.2 = original_colors w
        /\ global_brightness res.2 = global_brightness w
        /\ (running = true ->
            animation_timer res.2
            = Some (u64 (jiffies w
                         + msecs_to_jiffies ANIMATION_TIMER_INTERVAL_MS))
            /\ animation_start_time res.2 = jiffies w)
        /\ (running = false ->
            animation_timer res.2 = animation_timer w
            /\ animation_start_time res.2 = animation_start_time w
            /\ wmi_calls res.2 = wmi_calls w)
        /\ (fs_writable w = true ->
            state_file res.2
            = Some (animation_state_bytes (saved_state res.2)))).
Proof. apply animation_speed_set_effect. Qed.

Lemma animation_speed_set_behaviour_witness :
  animation_speed_set hz1000 "fast" 5 sample_rainbow = (- EINVAL, sample_rainbow)
  /\ animation_speed_set hz1000 "11" 3 sample_rainbow
     = (- EINVAL, sample_rainbow)
  /\ animation_speed (animation_speed_set hz1000 "7" 2 sample_rainbow).2 = 7.
Proof.
  destruct (animation_speed_set_behaviour hz1000 "fast" 5 sample_rainbow)
    as (H1 & _).
  destruct (animation_speed_set_behaviour hz1000 "11" 3 sample_rainbow)
    as (_ & H2 & _).
  destruct (animation_speed_set_behaviour hz1000 "7" 2 sample_rainbow)
    as (_ & _ & H3).
  split; [|split].
  - apply H1. reflexivity.
  - apply (H2 11); [reflexivity | right; vm_compute; reflexivity].
  - apply (H3 7); [reflexivity | vm_compute; split; discriminate].
Defined.

(** ** The state of a driver in use *)

Lemma hoare_if {A} (P : world -> Prop) (Q : A -> world -> Prop) (b : bool)
    (c1 c2 : M A) :
  hoare P c1 Q -> hoare P c2 Q -> hoare P (if b then c1 else c2) Q.
Proof. now destruct b. Qed.

Lemma hoare_wf_of_writes_inv {A} (P : hw_write -> Prop) (c : M A) :
  (forall w0, hoare (writes_inv P w0) c (fun _ => writes_inv P w0)) ->
  hoare wf c (fun _ => wf).
Proof.
  intros H w Hw.
  apply (H w w). split; [exact Hw | apply writes_since_refl].
Qed.

Lemma stop_animation_wf : hoare wf stop_animation (fun _ => wf).
Proof. apply (hoare_wf_of_writes_inv write_scaled), stop_animation_scaled. Qed.

Lemma zone_set_wf (a : nat) (buf : string) (count : Z) :
  hoare wf (zone_set a buf count) (fun _ => wf).
Proof.
  apply (hoare_wf_of_writes_inv write_scaled). intros w0.
  apply zone_set_scaled.
Qed.

Lemma all_set_wf (buf : string) (count : Z) :
  hoare wf (all_set buf count) (fun _ => wf).
Proof.
  apply (hoare_wf_of_writes_inv write_scaled). intros w0.
  apply all_set_scaled.
Qed.

Lemma brightness_set_wf (buf : string) (count : Z) :
  hoare wf (brightness_set buf count) (fun _ => wf).
Proof.
  apply (hoare_wf_of_writes_inv write_scaled). intros w0.
  apply brightness_set_scaled.
Qed.

Lemma save_animation_state_wf : hoare wf save_animation_state (fun _ => wf).
Proof.
  apply (hoare_wf_of_writes_inv write_scaled). intros w0.
  apply save_animation_state_inv.
Qed.

Lemma update_all_zones_wf (frame : list color_platform) :
  (forall z, u8_color (nth z frame black)) ->
  hoare wf (update_all_zones_with_colors frame) (fun _ => wf).
Proof.
  intros H. apply (hoare_wf_of_writes_inv (write_scaled_from frame)).
  intros w0. now apply update_all_zones_scaled.
Qed.

Lemma fourzone_read_wf (z : nat) :
  hoare wf (fourzone_update_led z HPWMI_READ) (fun _ => wf).
Proof.
  apply hoare_fourzone_read.
  - intros w w' r Hw _ H. now apply (stable_wf w).
  - intros w w' c Hw Hc H. apply (stable_wf (set_zone_colors z c w)); [|exact H].
    now apply wf_set_zone_colors.
Qed.

(** A frame of colours built zone by zone. *)
Lemma frame_u8 (f : nat -> color_platform) :
  (forall z, u8_color (f z)) ->
  forall z, u8_color (nth z (map f zones) black).
Proof.
  intros H z.
  destruct (Nat.lt_ge_cases z (length zones)) as [Hz|Hz].
  - rewrite (nth_indep _ black (f 0%nat)) by (now rewrite length_map).
    rewrite map_nth. apply H.
  - rewrite nth_overflow by (now rewrite length_map). apply black_u8.
Qed.

Lemma dim_u8 (c : color_platform) (num den : Z) : u8_color (dim c num den).
Proof. unfold u8_color, dim; cbn [blue green red]. auto using u8_range. Qed.

Lemma hsv_to_rgb_u8 (h s v : Z) : u8_color (hsv_to_rgb h s v).
Proof.
  unfold hsv_to_rgb. cbv zeta.
  repeat match goal with
         | |- context [?x <? ?y] => destruct (x <? y)
         end;
    unfold u8_color; cbn [blue green red]; auto using u8_range.
Qed.

Lemma rgb_u8 (r g b : Z) :
  0 <= r < 256 -> 0 <= g < 256 -> 0 <= b < 256 -> u8_color (rgb r g b).
Proof. unfold u8_color, rgb; cbn [blue green red]. auto. Qed.

Create HintDb u8 discriminated.

#[export] Hint Resolve dim_u8 hsv_to_rgb_u8 black_u8 u8_range : u8.

Ltac wf_modify :=
  apply hoare_modify;
  let w := fresh "w" in
  let H := fresh "H" in
  intros w H; apply (wf_ext w); [reflexivity .. | exact H].

Section UseWf.

Variable msecs_to_jiffies : Z -> Z.

(** An effect reads the world and pushes the frame it has computed. *)
Ltac effect_frame :=
  eapply hoare_bind with (R := fun a w => a = w /\ wf w);
  [ apply hoare_get; intros ? [_ ?]; auto | intros ? ];
  let H := fresh "H" in
  intros ? [<- H]; apply update_all_zones_wf; [|exact H];
  try apply frame_u8; intros ?.

Lemma animation_work_func_wf :
  hoare wf (animation_work_func msecs_to_jiffies) (fun _ => wf).
Proof.
  unfold animation_work_func.
  eapply hoare_bind with (R := fun a w => a = w /\ wf w).
  { apply hoare_get. auto. }
  intros w. apply hoare_if.
  { apply hoare_ret. now intros ? [_ H]. }
  destruct (current_animation w).
  - apply hoare_ret. now intros ? [_ H].
  - unfold animation_breathing. effect_frame. apply dim_u8.
  - unfold animation_rainbow. effect_frame. apply hsv_to_rgb_u8.
  - unfold animation_wave. effect_frame. apply dim_u8.
  - unfold animation_pulse. effect_frame. apply dim_u8.
  - unfold animation_chase. effect_frame.
    destruct (_ =? _); [now apply wf_original_colors | apply dim_u8].
  - unfold animation_sparkle. effect_frame.
    destruct (_ <? _); [apply rgb_u8; lia | apply dim_u8].
  - unfold animation_candle. effect_frame. apply rgb_u8; apply u8_range.
  - unfold animation_aurora. effect_frame. apply rgb_u8; apply u8_range.
  - unfold animation_disco. effect_frame.
    match goal with
    | |- u8_color (nth ?z _ _) =>
        destruct (_ <? _); do 5 (try destruct z as [|z]); cbn;
        first [apply black_u8 | apply rgb_u8; lia]
    end.
Qed.

End UseWf.

(** *** Relations that colour traffic respects *)

Section Closed.

Context (R : world -> world -> Prop) `{!ColorClosed R}.

Lemma stop_loop_keeps :
  keeps R (for_zones zones (fun zone =>
    let* _ := modify (fun w => set_zone_colors zone (colors (original_at w zone)) w) in
    let* _ := modify (fun w =>
      set_zone_colors zone (apply_brightness_to_color w (colors (zone_at w zone))) w) in
    let* _ := fourzone_update_led zone HPWMI_WRITE in
    ret tt)).
Proof. keeps_steps. Qed.

Lemma update_all_zones_keeps (frame : list color_platform) :
  keeps R (update_all_zones_with_colors frame).
Proof. unfold update_all_zones_with_colors. keeps_steps. Qed.

Lemma save_animation_state_keeps : keeps R save_animation_state.
Proof.
  intros w. rewrite save_animation_state_run. cbn [snd].
  destruct (fs_writable w).
  - eapply cc_trans; [apply cc_file | apply cc_klog].
  - apply cc_klog.
Qed.

Lemma brightness_set_loop_keeps (level : Z) (zs : list nat) :
  keeps R (brightness_set_loop level zs).
Proof.
  induction zs as [|z zs IH]; cbn [brightness_set_loop]; keeps_steps.
Qed.

Lemma all_set_loop_keeps (temp : platform_zone) (zs : list nat) :
  keeps R (all_set_loop temp zs).
Proof.
  induction zs as [|z zs IH]; cbn [all_set_loop]; keeps_steps.
Qed.

Lemma zone_show_keeps (a : nat) : keeps R (zone_show a).
Proof. unfold zone_show. keeps_steps. Qed.

Lemma all_show_keeps : keeps R all_show.
Proof. unfold all_show. keeps_steps. Qed.

Lemma animation_work_func_keeps (msecs_to_jiffies : Z -> Z) :
  keeps R (animation_work_func msecs_to_jiffies).
Proof.
  pose proof update_all_zones_keeps.
  unfold animation_work_func.
  apply keeps_bind; [apply cc_trans | apply keeps_get, cc_refl | intros w].
  apply keeps_if; [apply keeps_ret, cc_refl|].
  destruct (current_animation w);
    [ apply keeps_ret, cc_refl
    | unfold animation_breathing | unfold animation_rainbow
    | unfold animation_wave | unfold animation_pulse
    | unfold animation_chase | unfold animation_sparkle
    | unfold animation_candle | unfold animation_aurora
    | unfold animation_disco ];
    keeps_steps.
Qed.

End Closed.

Lemma layout_same_driver (w w' : world) :
  same_driver w w' -> same_layout w w'.
Proof. intros (calls & log & ->). reflexivity. Qed.

Lemma map_insert_keep {A B} (f : A -> B) (l : list A) (i : nat) (x d : A) :
  f x = f (nth i l d) -> map f (<[i := x]> l) = map f l.
Proof.
  revert i. induction l as [|a l IH]; intros i H; [reflexivity|].
  destruct i as [|i]; cbn in *.
  - now rewrite H.
  - f_equal. now apply IH.
Qed.

Lemma layout_set_zone_colors (z : nat) (c : color_platform) (w : world) :
  same_layout w (set_zone_colors z c w).
Proof.
  unfold same_layout, layout, set_zone_colors, zone_at.
  cbn [zone_data set_zone_data].
  now apply map_insert_keep with (d := zone0).
Qed.

Lemma same_layout_refl (w : world) : same_layout w w.
Proof. reflexivity. Qed.

Lemma same_layout_trans (w1 w2 w3 : world) :
  same_layout w1 w2 -> same_layout w2 w3 -> same_layout w1 w3.
Proof. unfold same_layout. congruence. Qed.

Lemma same_speed_trans (w1 w2 w3 : world) :
  same_speed w1 w2 -> same_speed w2 w3 -> same_speed w1 w3.
Proof. unfold same_speed. congruence. Qed.

#[export] Instance same_layout_closed : ColorClosed same_layout.
Proof.
  split.
  - apply same_layout_refl.
  - apply same_layout_trans.
  - intros z w.
    destruct (fourzone_read_effect z w w eq_refl) as [[_ H]|[_ (c & _ & H)]].
    + now apply layout_same_driver.
    + eapply same_layout_trans;
        [apply layout_set_zone_colors | apply layout_same_driver, H].
  - intros z w.
    destruct (fourzone_write_effect z w w eq_refl) as [H|(frame & H)];
      now apply layout_same_driver in H.
  - apply layout_set_zone_colors.
  - reflexivity.
  - reflexivity.
  - reflexivity.
Qed.

#[export] Instance same_speed_closed : ColorClosed same_speed.
Proof.
  split; try reflexivity.
  - apply same_speed_trans.
  - intros z w. unfold same_speed.
    now destruct (settings_fields _ _ (fourzone_read_settings z w))
      as (_ & _ & _ & H & _).
  - intros z w. unfold same_speed.
    now destruct (settings_fields _ _ (fourzone_write_settings z w))
      as (_ & _ & _ & H & _).
Qed.

#[export] Instance same_scheduler_closed : ColorClosed same_scheduler.
Proof.
  split.
  - apply same_scheduler_refl.
  - apply same_scheduler_trans.
  - intros z w. apply fourzone_read_scheduler.
  - intros z w. apply fourzone_write_scheduler.
  - intros. repeat split.
  - intros. repeat split.
  - intros. repeat split.
  - intros. repeat split.
Qed.

#[export] Instance same_controls_closed : ColorClosed same_controls.
Proof.
  split; try reflexivity.
  - apply same_controls_trans.
  - intros z w. apply same_settings_controls, fourzone_read_settings.
  - intros z w. apply same_settings_controls, fourzone_write_settings.
Qed.

#[export] Instance same_layout_setting : SettingClosed same_layout.
Proof. split; [apply _ | reflexivity ..]. Qed.

#[export] Instance same_speed_setting : SettingClosed same_speed.
Proof. split; [apply _ | reflexivity ..]. Qed.

#[export] Hint Resolve update_all_zones_keeps save_animation_state_keeps
  brightness_set_loop_keeps all_set_loop_keeps zone_show_keeps all_show_keeps
  animation_work_func_keeps stop_loop_keeps : keeps.
#[export] Hint Resolve same_layout_closed same_speed_closed
  same_scheduler_closed same_controls_closed same_layout_setting
  same_speed_setting : keeps.

Section Settings.

Context (R : world -> world -> Prop) `{!SettingClosed R}.
Variable msecs_to_jiffies : Z -> Z.

Lemma stop_animation_keeps : keeps R stop_animation.
Proof. unfold stop_animation. keeps_steps. Qed.

Lemma start_animation_keeps : keeps R (start_animation msecs_to_jiffies).
Proof. unfold start_animation, mod_timer_interval. keeps_steps. Qed.

Lemma all_set_keeps (buf : string) (count : Z) : keeps R (all_set buf count).
Proof.
  pose proof stop_animation_keeps.
  unfold all_set. destruct (parse_rgb buf zone0) as [r temp]. keeps_steps.
Qed.

Lemma brightness_set_keeps (buf : string) (count : Z) :
  keeps R (brightness_set buf count).
Proof. unfold brightness_set. keeps_steps. Qed.

Lemma animation_mode_set_keeps (buf : string) (count : Z) :
  keeps R (animation_mode_set msecs_to_jiffies buf count).
Proof.
  pose proof stop_animation_keeps. pose proof start_animation_keeps.
  rewrite animation_mode_set_parse. keeps_steps.
Qed.

Lemma timer_expire_keeps : keeps R (timer_expire msecs_to_jiffies).
Proof.
  unfold timer_expire, animation_timer_callback, mod_timer_interval.
  keeps_steps.
Qed.

Lemma run_work_keeps : keeps R (run_work msecs_to_jiffies).
Proof. unfold run_work. keeps_steps. Qed.

Lemma hp_wmi_exit_keeps : keeps R hp_wmi_exit.
Proof. pose proof stop_animation_keeps. unfold hp_wmi_exit. keeps_steps. Qed.

Lemma brightness_show_keeps : keeps R brightness_show.
Proof. unfold brightness_show. keeps_steps. Qed.

Lemma animation_mode_show_keeps : keeps R animation_mode_show.
Proof. unfold animation_mode_show. keeps_steps. Qed.

Lemma animation_speed_show_keeps : keeps R animation_speed_show.
Proof. unfold animation_speed_show. keeps_steps. Qed.

End Settings.

#[export] Hint Resolve stop_animation_keeps start_animation_keeps
  all_set_keeps brightness_set_keeps animation_mode_set_keeps
  timer_expire_keeps run_work_keeps hp_wmi_exit_keeps brightness_show_keeps
  animation_mode_show_keeps animation_speed_show_keeps : keeps.

Lemma zone_set_speed (a : nat) (buf : string) (count : Z) :
  keeps same_speed (zone_set a buf count).
Proof. unfold zone_set. keeps_steps. Qed.

Lemma animation_speed_set_layout (msecs_to_jiffies : Z -> Z) (buf : string)
    (count : Z) :
  keeps same_layout (animation_speed_set msecs_to_jiffies buf count).
Proof. unfold animation_speed_set. keeps_steps. Qed.

(** The tail of [zone_set], after the animation has been stopped. *)
Lemma zone_set_tail_keeps (R : world -> world -> Prop) `{!ColorClosed R}
    (z : nat) (count : Z) :
  keeps R
    (let* _ := modify (fun w =>
       set_original_colors_at z (colors (zone_at w z)) w) in
     let* _ := modify (fun w =>
       let c := colors (zone_at w z) in
       set_zone_colors z
         {| blue := scale_channel (blue c) (global_brightness w);
            green := scale_channel (green c) (global_brightness w);
            red := scale_channel (red c) (global_brightness w) |} w) in
     let* r := fourzone_update_led z HPWMI_WRITE in
     if negb (r =? 0) then ret r
     else
       let* _ := save_animation_state in
       ret count).
Proof.
  apply keeps_bind; [apply cc_trans | keeps_steps | intros _].
  apply keeps_bind; [apply cc_trans | | intros _].
  { apply keeps_modify. intros w. cbv beta zeta. apply cc_zone. }
  keeps_steps.
Qed.

Lemma zone_set_run (a : nat) (buf : string) (count : Z) (w : world) (z : nat)
    (target : platform_zone) :
  match_zone w a = Some z ->
  parse_rgb buf (zone_at w z) = (0, target) ->
  zone_set a buf count w
  = (let* _ := modify (fun w =>
       set_original_colors_at z (colors (zone_at w z)) w) in
     let* _ := modify (fun w =>
       let c := colors (zone_at w z) in
       set_zone_colors z
         {| blue := scale_channel (blue c) (global_brightness w);
            green := scale_channel (green c) (global_brightness w);
            red := scale_channel (red c) (global_brightness w) |} w) in
     let* r := fourzone_update_led z HPWMI_WRITE in
     if negb (r =? 0) then ret r
     else
       let* _ := save_animation_state in
       ret count)
      (set_current_animation ANIMATION_STATIC
         (stop_animation
            (set_zone_data (<[z := target]> (zone_data w)) w)).2).
Proof.
  intros Hm Hp. unfold zone_set.
  rewrite run_bind. cbn [get fst snd]. rewrite Hm, Hp.
  rewrite run_bind. cbn [modify fst snd negb Z.eqb].
  rewrite run_bind. rewrite run_bind. cbn [modify fst snd]. reflexivity.
Qed.

Lemma zone_set_failure (a : nat) (buf : string) (count : Z) (w : world) :
  (match_zone w a = None ->
   zone_set a buf count w
   = (1, set_klog (err_invalid_target_zone :: klog w) w))
  /\ (forall z r target,
        match_zone w a = Some z ->
        parse_rgb buf (zone_at w z) = (r, target) -> r <> 0 ->
        zone_set a buf count w = (r, w)).
Proof.
  split.
  - intros Hm. unfold zone_set. rewrite run_bind. cbn [get fst snd].
    now rewrite Hm.
  - intros z r target Hm Hp Hr. unfold zone_set.
    rewrite run_bind. cbn [get fst snd]. rewrite Hm, Hp.
    rewrite run_bind. cbn [modify fst snd].
    destruct (Z.eqb_spec r 0) as [E|_]; [contradiction|]. cbn [negb ret].
    pose proof (parse_rgb_failure buf (zone_at w z) (zone_at w z) r) as H.
    rewrite Hp in H. specialize (H eq_refl Hr). injection H as ->.
    now rewrite writeback_same_zone.
Qed.

Lemma layout_writeback (w : world) (z : nat) (buf : string) :
  same_layout w
    (set_zone_data (<[z := (parse_rgb buf (zone_at w z)).2]> (zone_data w)) w).
Proof.
  rewrite parse_rgb_zone. apply (layout_set_zone_colors z _ w).
Qed.

Lemma zone_set_layout (a : nat) (buf : string) (count : Z) (w : world) :
  same_layout w (zone_set a buf count w).2.
Proof.
  destruct (zone_set_failure a buf count w) as [H1 H2].
  destruct (match_zone w a) as [z|] eqn:Hm.
  2: { rewrite H1 by reflexivity. reflexivity. }
  destruct (parse_rgb buf (zone_at w z)) as [r target] eqn:Hp.
  destruct (Z.eq_dec r 0) as [->|Hr].
  2: { rewrite (H2 z r target eq_refl Hp Hr). reflexivity. }
  rewrite (zone_set_run a buf count w z target Hm Hp).
  eapply same_layout_trans; [|apply (zone_set_tail_keeps same_layout)].
  eapply same_layout_trans; [|apply (sc_current (R := same_layout))].
  eapply same_layout_trans; [|apply (stop_animation_keeps same_layout)].
  pose proof (layout_writeback w z buf) as H. now rewrite Hp in H.
Qed.

Lemma scheduler_ok_same (w w' : world) :
  same_scheduler w w' -> scheduler_ok w -> scheduler_ok w'.
Proof.
  intros (Hc & Ha & Ht) H. unfold scheduler_ok in *.
  now rewrite Hc, Ha, Ht.
Qed.

Lemma scheduler_ok_static (w : world) : scheduler_static w -> scheduler_ok w.
Proof.
  intros (Hc & Ha & Ht). unfold scheduler_ok. rewrite Ha, Ht.
  split; [split; [intros H; now elim H | discriminate] | discriminate].
Qed.

Lemma zone_set_scheduler_ok (a : nat) (buf : string) (count : Z) (w : world) :
  scheduler_ok w -> scheduler_ok (zone_set a buf count w).2.
Proof.
  intros Hw.
  destruct (zone_set_failure a buf count w) as [H1 H2].
  destruct (match_zone w a) as [z|] eqn:Hm.
  2: { rewrite H1 by reflexivity. exact Hw. }
  destruct (parse_rgb buf (zone_at w z)) as [r target] eqn:Hp.
  destruct (Z.eq_dec r 0) as [->|Hr].
  2: { now rewrite (H2 z r target eq_refl Hp Hr). }
  rewrite (zone_set_run a buf count w z target Hm Hp).
  eapply scheduler_ok_same; [apply (zone_set_tail_keeps same_scheduler)|].
  apply scheduler_ok_static, scheduler_static_after_stop.
Qed.

Lemma all_set_scheduler_ok (buf : string) (count : Z) (w : world) :
  scheduler_ok w -> scheduler_ok (all_set buf count w).2.
Proof.
  intros Hw. unfold all_set.
  destruct (parse_rgb buf zone0) as [r temp].
  destruct (r =? 0); cbn [negb]; [|exact Hw].
  rewrite !run_bind. cbn [modify fst snd].
  match goal with
  | |- scheduler_ok ((if ?b then ?c1 else ?c2) ?x).2 =>
      assert (Hk : keeps same_scheduler (if b then c1 else c2))
        by keeps_steps;
      eapply scheduler_ok_same; [apply Hk|]
  end.
  eapply scheduler_ok_same; [apply (all_set_loop_keeps same_scheduler)|].
  apply scheduler_ok_static, scheduler_static_after_stop.
Qed.

(** *** Well-formedness through every operation *)

Create HintDb wf discriminated.

#[export] Hint Resolve stop_animation_wf zone_set_wf all_set_wf
  brightness_set_wf save_animation_state_wf fourzone_read_wf
  start_animation_wf animation_work_func_wf : wf.

Ltac wf_steps :=
  repeat match goal with
         | |- hoare wf (ret _) _ => apply hoare_ret; intros ? ?; assumption
         | |- hoare wf get _ => apply hoare_get; intros ? ?; assumption
         | |- hoare wf (modify _) _ => wf_modify
         | |- hoare wf (bind _ _) _ =>
             eapply hoare_bind with (R := fun _ => wf); [|intros ?]
         | |- hoare wf (if _ then _ else _) _ => apply hoare_if
         | |- hoare wf (match ?x with _ => _ end) _ => destruct x
         | |- hoare wf _ _ => solve [eauto with wf]
         end.

Section UseInv.

Variable msecs_to_jiffies : Z -> Z.

Lemma animation_mode_set_wf (buf : string) (count : Z) :
  hoare wf (animation_mode_set msecs_to_jiffies buf count) (fun _ => wf).
Proof. rewrite animation_mode_set_parse. wf_steps. Qed.

Lemma animation_speed_set_wf (buf : string) (count : Z) :
  hoare wf (animation_speed_set msecs_to_jiffies buf count) (fun _ => wf).
Proof. unfold animation_speed_set. wf_steps. Qed.

Lemma timer_expire_wf : hoare wf (timer_expire msecs_to_jiffies) (fun _ => wf).
Proof.
  unfold timer_expire, animation_timer_callback, mod_timer_interval. wf_steps.
Qed.

Lemma run_work_wf : hoare wf (run_work msecs_to_jiffies) (fun _ => wf).
Proof. unfold run_work. wf_steps. Qed.

Lemma zone_show_wf (a : nat) : hoare wf (zone_show a) (fun _ => wf).
Proof. unfold zone_show. wf_steps. Qed.

Lemma all_show_wf : hoare wf all_show (fun _ => wf).
Proof. unfold all_show. wf_steps. Qed.

Lemma run_op_wf (o : op) : hoare wf (run_op msecs_to_jiffies o) (fun _ => wf).
Proof.
  pose proof animation_mode_set_wf. pose proof animation_speed_set_wf.
  pose proof timer_expire_wf. pose proof run_work_wf.
  pose proof zone_show_wf. pose proof all_show_wf.
  destruct o; cbn [run_op];
    unfold brightness_show, animation_mode_show, animation_speed_show;
    wf_steps; auto.
Qed.

Lemma shows_pure (w : world) :
  (brightness_show w).2 = w
  /\ (animation_mode_show w).2 = w
  /\ (animation_speed_show w).2 = w.
Proof.
  unfold brightness_show, animation_mode_show, animation_speed_show,
    bind, get, ret.
  rewrite mode_name_shown. now repeat split.
Qed.

Lemma run_op_layout (o : op) (w : world) :
  same_layout w (run_op msecs_to_jiffies o w).2.
Proof.
  destruct (shows_pure w) as (S1 & S2 & S3).
  destruct o; cbn [run_op]; rewrite ?run_bind; cbn [ret snd modify];
    rewrite ?S1, ?S2, ?S3.
  - apply zone_set_layout.
  - apply (all_set_keeps same_layout).
  - apply (brightness_set_keeps same_layout).
  - apply (animation_mode_set_keeps same_layout).
  - apply animation_speed_set_layout.
  - apply (zone_show_keeps same_layout).
  - apply (all_show_keeps same_layout).
  - reflexivity.
  - reflexivity.
  - reflexivity.
  - reflexivity.
  - apply (timer_expire_keeps same_layout).
  - apply (run_work_keeps same_layout).
Qed.

Lemma speed_ok_same (w w' : world) :
  same_speed w w' -> speed_ok w -> speed_ok w'.
Proof. unfold same_speed, speed_ok. now intros ->. Qed.

Lemma run_op_speed_ok (o : op) (w : world) :
  speed_ok w -> speed_ok (run_op msecs_to_jiffies o w).2.
Proof.
  intros Hw. destruct (shows_pure w) as (S1 & S2 & S3).
  assert (Hk : forall w', same_speed w w' -> speed_ok w')
    by (intros w' H; now apply (speed_ok_same w)).
  destruct o; cbn [run_op]; rewrite ?run_bind; cbn [ret snd modify];
    rewrite ?S1, ?S2, ?S3.
  - apply Hk, zone_set_speed.
  - apply Hk, (all_set_keeps same_speed).
  - apply Hk, (brightness_set_keeps same_speed).
  - apply Hk, (animation_mode_set_keeps same_speed).
  - destruct (animation_speed_set_effect msecs_to_jiffies buf count w)
      as (H1 & H2 & H3).
    destruct (kstrtoul buf 10) as [v|e] eqn:E.
    + destruct (Z_lt_le_dec v ANIMATION_SPEED_MIN) as [Hlo|Hlo];
        [rewrite (H2 v eq_refl) by (now left); exact Hw|].
      destruct (Z_lt_le_dec ANIMATION_SPEED_MAX v) as [Hhi|Hhi];
        [rewrite (H2 v eq_refl) by (now right); exact Hw|].
      destruct (H3 v eq_refl (conj Hlo Hhi)) as (_ & Hs & _).
      unfold speed_ok. rewrite Hs. now split.
    + now rewrite (H1 e eq_refl).
  - apply Hk, (zone_show_keeps same_speed).
  - apply Hk, (all_show_keeps same_speed).
  - exact Hw.
  - exact Hw.
  - exact Hw.
  - exact Hw.
  - apply Hk, (timer_expire_keeps same_speed).
  - apply Hk, (run_work_keeps same_speed).
Qed.

Lemma timer_expire_run (w : world) :
  timer_expire msecs_to_jiffies w
  = (tt,
     match animation_timer w with
     | Some expires =>
         if expires <=? jiffies w then
           if animation_active w && negb (is_static (current_animation w))
           then set_animation_timer
                  (Some (u64 (jiffies w
                              + msecs_to_jiffies ANIMATION_TIMER_INTERVAL_MS)))
                  (set_animation_work true (set_animation_timer None w))
           else set_animation_timer None w
         else w
     | None => w
     end).
Proof.
  unfold timer_expire, animation_timer_callback, mod_timer_interval.
  rewrite run_bind. cbn [get fst snd].
  destruct (animation_timer w) as [e|]; [|reflexivity].
  destruct (e <=? jiffies w); [|reflexivity].
  rewrite !run_bind. cbn [modify get fst snd]. fields.
  destruct (animation_active w && negb (is_static (current_animation w)));
    reflexivity.
Qed.

Lemma is_static_false (m : animation_mode) :
  is_static m = false -> m <> ANIMATION_STATIC.
Proof. now destruct m. Qed.

Lemma is_static_true (m : animation_mode) :
  is_static m = true -> m = ANIMATION_STATIC.
Proof. now destruct m. Qed.

Lemma mode_name_inj_static (m : animation_mode) :
  m <> ANIMATION_STATIC -> is_static m = false.
Proof. destruct m; [now intros H | reflexivity ..]. Qed.

Lemma run_op_scheduler_ok (o : op) (w : world) :
  scheduler_ok w -> scheduler_ok (run_op msecs_to_jiffies o w).2.
Proof.
  intros Hw. destruct (shows_pure w) as (S1 & S2 & S3).
  destruct o; cbn [run_op]; rewrite ?run_bind; cbn [ret snd modify];
    rewrite ?S1, ?S2, ?S3.
  - now apply zone_set_scheduler_ok.
  - now apply all_set_scheduler_ok.
  - eapply scheduler_ok_same; [apply brightness_set_scheduler | exact Hw].
  - rewrite animation_mode_set_parse.
    destruct (parse_mode buf) as [m|] eqn:E; [|exact Hw].
    apply parse_mode_some in E. destruct E as (rest & ->).
    destruct (animation_mode_set_effect msecs_to_jiffies m rest count w)
      as (_ & Hc & _ & _ & _ & Hs & Hn & _).
    rewrite animation_mode_set_parse, parse_mode_prefix in Hc, Hs, Hn.
    unfold scheduler_ok.
    destruct (is_static m) eqn:Em.
    + apply is_static_true in Em. destruct (Hs Em) as [-> ->].
      split; [split; [intros H; now elim H | discriminate] | discriminate].
    + apply is_static_false in Em. destruct (Hn Em) as (-> & -> & _).
      rewrite Hc.
      split; [split; [reflexivity | discriminate] | now intros _].
  - destruct (animation_speed_set_effect msecs_to_jiffies buf count w)
      as (H1 & H2 & H3).
    destruct (kstrtoul buf 10) as [v|e] eqn:E.
    + destruct (Z_lt_le_dec v ANIMATION_SPEED_MIN) as [Hlo|Hlo];
        [rewrite (H2 v eq_refl) by (now left); exact Hw|].
      destruct (Z_lt_le_dec ANIMATION_SPEED_MAX v) as [Hhi|Hhi];
        [rewrite (H2 v eq_refl) by (now right); exact Hw|].
      destruct (H3 v eq_refl (conj Hlo Hhi))
        as (_ & _ & Hc & Ha & _ & _ & Hr & Hn & _).
      unfold scheduler_ok in *. rewrite Hc, Ha.
      destruct (animation_active w && negb (is_static (current_animation w)))
        eqn:Er.
      * destruct (Hr eq_refl) as [-> _].
        apply andb_prop in Er. destruct Er as [Ea _]. rewrite Ea.
        split; [split; [reflexivity | discriminate]
               | intros _; now apply Hw].
      * destruct (Hn eq_refl) as [-> _]. exact Hw.
    + now rewrite (H1 e eq_refl).
  - eapply scheduler_ok_same; [apply (zone_show_keeps same_scheduler) | exact Hw].
  - eapply scheduler_ok_same; [apply (all_show_keeps same_scheduler) | exact Hw].
  - exact Hw.
  - exact Hw.
  - exact Hw.
  - exact Hw.
  - rewrite timer_expire_run. cbn [snd]. unfold scheduler_ok in *.
    destruct Hw as [[H1 H2] H3].
    destruct (animation_timer w) as [e|] eqn:Et; [|now rewrite Et].
    destruct (e <=? jiffies w); [|now rewrite Et].
    destruct (animation_active w) eqn:Ea.
    + specialize (H3 eq_refl). apply mode_name_inj_static in H3 as Hs.
      rewrite Hs. cbn [andb negb]. fields. rewrite Ea.
      split; [split; [reflexivity | discriminate] | now intros _].
    + cbn [andb]. fields. rewrite Ea.
      split; [split; [intros H; now elim H | discriminate] | discriminate].
  - eapply scheduler_ok_same; [|exact Hw].
    unfold run_work. rewrite run_bind. cbn [get fst snd].
    destruct (animation_work w); [|apply same_scheduler_refl].
    rewrite run_bind. cbn [modify fst snd].
    eapply same_scheduler_trans;
      [|apply (animation_work_func_keeps same_scheduler)].
    repeat split.
Qed.

Lemma attrs_ok_same (w w' : world) :
  same_layout w w' -> attrs_ok w -> attrs_ok w'.
Proof.
  unfold same_layout, layout, attrs_ok, zone_at. intros H Hw z Hz.
  specialize (Hw z Hz).
  assert (E : nth z (map (fun zn => (offset zn, attr zn)) (zone_data w'))
                (offset zone0, attr zone0)
              = nth z (map (fun zn => (offset zn, attr zn)) (zone_data w))
                  (offset zone0, attr zone0)) by now rewrite H.
  rewrite !(map_nth (fun zn => (offset zn, attr zn))) in E.
  injection E as _ E. now rewrite E.
Qed.

Lemma run_op_driver_ok (o : op) (w : world) :
  driver_ok w -> driver_ok (run_op msecs_to_jiffies o w).2.
Proof.
  intros (Hw & Ha & Hs & Hc). split; [|split; [|split]].
  - now apply run_op_wf.
  - eapply attrs_ok_same; [apply run_op_layout | exact Ha].
  - now apply run_op_speed_ok.
  - now apply run_op_scheduler_ok.
Qed.

(** X12: whatever is done with a loaded driver (writes to and reads of
    its attributes, time passing, timer expiries and work runs, in any
    order and with any input), its state stays sound: four zones at their
    frame offsets answering to their attributes, byte-sized colours, a
    brightness from 0 to 100, a speed from 1 to 10, a timer pending exactly
    while an effect is active, and no active effect in static mode. *)
Theorem driver_ok_kept (os : list op) (w : world) :
  driver_ok w -> driver_ok (run_ops msecs_to_jiffies os w).2.
Proof.
  revert w. induction os as [|o os IH]; intros w Hw; [exact Hw|].
  cbn [run_ops]. rewrite run_bind. apply IH. now apply run_op_driver_ok.
Qed.

End UseInv.

(** ** On a keyboard that keeps its frame *)

Lemma write_step (init : list Z) (w : world) (z : nat) :
  wf w -> (z < ZONE_COUNT)%nat -> bios w = frame_store init ->
  exists w',
    fourzone_update_led z HPWMI_WRITE w = (0, w')
    /\ wf w' /\ bios w' = frame_store init
    /\ zone_data w' = zone_data w
    /\ settings w' = settings w
    /\ kbd init w' z = colors (zone_at w z)
    /\ forall z', z' <> z -> kbd init w' z' = kbd init w z'.
Proof.
  intros Hw Hz Hb.
  destruct (fourzone_write_frame_store w init z Hw Hz Hb)
    as (w' & E & Hzd & Ho & Hg & Hb' & Hf).
  exists w'. split; [exact E|].
  pose proof (fourzone_write_settings z w) as Hs.
  rewrite E in Hs. cbn [snd] in Hs.
  conj.
  - now apply (wf_ext w).
  - congruence.
  - exact Hzd.
  - exact Hs.
  - unfold kbd. rewrite Hf.
    apply frame_color_with_same; [apply current_frame_ok | exact Hz].
  - intros z' Hne. unfold kbd. rewrite Hf.
    now apply frame_color_with_other.
Qed.

Lemma zone_at_set_other (w : world) (z z' : nat) (c : color_platform) :
  z' <> z -> zone_at (set_zone_colors z c w) z' = zone_at w z'.
Proof.
  intros H. unfold zone_at, set_zone_colors. cbn [zone_data set_zone_data].
  apply nth_insert_ne. congruence.
Qed.

(** A loop that gives each zone a colour and writes it. *)
Lemma paint_loop (init : list Z) (body : nat -> M unit)
    (g : nat -> color_platform) (s0 : world) :
  (forall z w, (z < ZONE_COUNT)%nat -> wf w -> bios w = frame_store init ->
     settings w = s0 ->
     exists w',
       body z w = (tt, w')
       /\ wf w' /\ bios w' = frame_store init /\ settings w' = s0
       /\ colors (zone_at w' z) = g z
       /\ kbd init w' z = g z
       /\ forall z', z' <> z ->
            colors (zone_at w' z') = colors (zone_at w z')
            /\ kbd init w' z' = kbd init w z') ->
  forall zs, NoDup zs -> (forall z, z ∈ zs -> (z < ZONE_COUNT)%nat) ->
  forall w, wf w -> bios w = frame_store init -> settings w = s0 ->
  exists w',
    for_zones zs body w = (tt, w')
    /\ wf w' /\ bios w' = frame_store init /\ settings w' = s0
    /\ (forall z, z ∈ zs -> colors (zone_at w' z) = g z /\ kbd init w' z = g z)
    /\ (forall z, z ∉ zs ->
          colors (zone_at w' z) = colors (zone_at w z)
          /\ kbd init w' z = kbd init w z).
Proof.
  intros Hbody zs. induction zs as [|z zs IH]; intros Hnd Hin w Hw Hb Hs.
  - exists w. cbn [for_zones ret]. conj; try assumption; try reflexivity.
    + intros z Hz. now apply elem_of_nil in Hz.
    + intros z _. now split.
  - apply NoDup_cons in Hnd. destruct Hnd as [Hz Hnd].
    destruct (Hbody z w (Hin z ltac:(left)) Hw Hb Hs)
      as (w1 & E1 & Hw1 & Hb1 & Hs1 & Hc1 & Hk1 & Ho1).
    destruct (IH Hnd (fun x Hx => Hin x ltac:(now right)) w1 Hw1 Hb1 Hs1)
      as (w2 & E2 & Hw2 & Hb2 & Hs2 & Hi2 & Ho2).
    exists w2. cbn [for_zones]. rewrite run_bind, E1. cbn [fst snd].
    split; [exact E2|]. conj; try assumption.
    + intros x Hx. apply elem_of_cons in Hx. destruct Hx as [->|Hx].
      * destruct (Ho2 z Hz) as [-> ->]. now split.
      * now apply Hi2.
    + intros x Hx.
      destruct (Ho2 x) as [-> ->]; [intros Hy; apply Hx; now right|].
      apply Ho1. intros ->. apply Hx. now left.
Qed.

Lemma NoDup_zones : NoDup zones.
Proof. unfold zones. apply NoDup_ListNoDup, seq_NoDup. Qed.

Lemma apply_brightness_settings (w w' : world) (c : color_platform) :
  settings w' = settings w ->
  apply_brightness_to_color w' c = apply_brightness_to_color w c.
Proof.
  intros H. unfold apply_brightness_to_color.
  now rewrite (f_equal global_brightness H : global_brightness w' = _).
Qed.

Lemma paint_body (init : list Z) (w : world) (z : nat) (c : color_platform) :
  (z < ZONE_COUNT)%nat -> wf w -> bios w = frame_store init -> u8_color c ->
  exists w',
    (let* _ := modify (set_zone_colors z c) in
     let* _ := modify (fun w =>
       set_zone_colors z
         (apply_brightness_to_color w (colors (zone_at w z))) w) in
     let* _ := fourzone_update_led z HPWMI_WRITE in
     ret tt) w = (tt, w')
    /\ wf w' /\ bios w' = frame_store init /\ settings w' = settings w
    /\ colors (zone_at w' z) = apply_brightness_to_color w c
    /\ kbd init w' z = apply_brightness_to_color w c
    /\ forall z', z' <> z ->
         colors (zone_at w' z') = colors (zone_at w z')
         /\ kbd init w' z' = kbd init w z'.
Proof.
  intros Hz Hw Hb Hc.
  rewrite !run_bind. cbn [modify fst snd].
  set (w1 := set_zone_colors z c w).
  assert (Hw1 : wf w1) by now apply wf_set_zone_colors.
  assert (E1 : colors (zone_at w1 z) = c) by now apply colors_zone_at_set.
  rewrite E1.
  change (apply_brightness_to_color w1 c) with (apply_brightness_to_color w c).
  set (c' := apply_brightness_to_color w c).
  set (w2 := set_zone_colors z c' w1).
  assert (Hw2 : wf w2) by (apply wf_set_zone_colors;
                            [apply apply_brightness_u8 | exact Hw1]).
  assert (E2 : colors (zone_at w2 z) = c') by now apply colors_zone_at_set.
  destruct (write_step init w2 z Hw2 Hz Hb)
    as (w3 & E3 & Hw3 & Hb3 & Hzd3 & Hs3 & Hk3 & Ho3).
  rewrite E3. cbn [fst snd ret]. exists w3. split; [reflexivity|].
  conj; try assumption.
  - unfold zone_at. rewrite Hzd3. exact E2.
  - now rewrite Hk3.
  - intros z' Hne. split.
    + unfold zone_at. rewrite Hzd3. fold (zone_at w2 z').
      subst w2 w1. now rewrite !zone_at_set_other.
    + now rewrite Ho3.
Qed.

Lemma stop_animation_frame_store (init : list Z) (w : world) :
  wf w -> bios w = frame_store init ->
  exists w',
    stop_animation w = (tt, w')
    /\ wf w' /\ bios w' = frame_store init
    /\ settings w'
       = settings (set_animation_timer None (set_animation_active false w))
    /\ forall z, (z < ZONE_COUNT)%nat ->
         colors (zone_at w' z)
         = apply_brightness_to_color w (colors (original_at w z))
         /\ kbd init w' z
            = apply_brightness_to_color w (colors (original_at w z)).
Proof.
  intros Hw Hb. unfold stop_animation.
  rewrite !run_bind. cbn [modify fst snd].
  set (w0 := set_animation_timer None (set_animation_active false w)).
  assert (Hw0 : wf w0) by now apply (wf_ext w).
  destruct (paint_loop init
              (fun zone =>
                 let* _ := modify (fun w =>
                   set_zone_colors zone (colors (original_at w zone)) w) in
                 let* _ := modify (fun w =>
                   set_zone_colors zone
                     (apply_brightness_to_color w (colors (zone_at w zone))) w) in
                 let* _ := fourzone_update_led zone HPWMI_WRITE in
                 ret tt)
              (fun z => apply_brightness_to_color w (colors (original_at w z)))
              (settings w0))
    with (zs := zones) (w := w0)
    as (w' & E & Hw' & Hb' & Hs' & Hin & _);
    try assumption; try reflexivity.
  - intros z w1 Hz Hw1 Hb1 Hs1.
    destruct (paint_body init w1 z (colors (original_at w1 z)) Hz Hw1 Hb1)
      as (w2 & E2 & H2); [now apply wf_original_colors|].
    exists w2.
    assert (Eo : original_at w1 z = original_at w z).
    { unfold original_at.
      now rewrite (f_equal original_colors Hs1 : original_colors w1 = _). }
    assert (Eg : forall c, apply_brightness_to_color w1 c
                           = apply_brightness_to_color w c).
    { intros c. now rewrite (apply_brightness_settings w0 w1). }
    rewrite Eo, Eg in H2.
    split; [|destruct H2 as (? & ? & Hs2 & ?); now rewrite Hs2 in *].
    rewrite <- E2. rewrite !run_bind. cbn [modify fst snd]. reflexivity.
  - apply NoDup_zones.
  - intros z Hz. now apply zones_spec.
  - exists w'. conj; try assumption.
    intros z Hz. now apply Hin, zones_spec.
Qed.

Lemma update_all_zones_frame_store (init : list Z) (frame : list color_platform)
    (w : world) :
  wf w -> bios w = frame_store init ->
  (forall z, u8_color (nth z frame black)) ->
  exists w',
    update_all_zones_with_colors frame w = (tt, w')
    /\ wf w' /\ bios w' = frame_store init /\ settings w' = settings w
    /\ forall z, (z < ZONE_COUNT)%nat ->
         colors (zone_at w' z)
         = apply_brightness_to_color w (nth z frame black)
         /\ kbd init w' z = apply_brightness_to_color w (nth z frame black).
Proof.
  intros Hw Hb Hf. unfold update_all_zones_with_colors.
  destruct (paint_loop init
              (fun zone =>
                 let* _ := modify (set_zone_colors zone (nth zone frame black)) in
                 let* _ := modify (fun w =>
                   set_zone_colors zone
                     (apply_brightness_to_color w (colors (zone_at w zone))) w) in
                 let* _ := fourzone_update_led zone HPWMI_WRITE in
                 ret tt)
              (fun z => apply_brightness_to_color w (nth z frame black))
              (settings w))
    with (zs := zones) (w := w)
    as (w' & E & Hw' & Hb' & Hs' & Hin & _);
    try assumption; try reflexivity.
  - intros z w1 Hz Hw1 Hb1 Hs1.
    destruct (paint_body init w1 z (nth z frame black) Hz Hw1 Hb1 (Hf z))
      as (w2 & E2 & H2).
    exists w2. rewrite (apply_brightness_settings w w1) in H2 by exact Hs1.
    split; [exact E2|].
    destruct H2 as (? & ? & Hs2 & ?). now rewrite Hs2 in *.
  - apply NoDup_zones.
  - intros z Hz. now apply zones_spec.
  - exists w'. conj; try assumption.
    intros z Hz. now apply Hin, zones_spec.
Qed.

(** X13: on a keyboard that keeps its frame, stopping an animation gives
    every zone its base colour scaled by the brightness, both in the zone
    array and on the keyboard; the scheduler is left inactive with no timer
    and every other setting is unchanged. *)
Theorem stop_animation_restores (init : list Z) (w : world) :
  wf w -> bios w = frame_store init ->
  let w' := (stop_animation w).2 in
  wf w'
  /\ settings w'
     = settings (set_animation_timer None (set_animation_active false w))
  /\ forall z, (z < ZONE_COUNT)%nat ->
       colors (zone_at w' z)
       = apply_brightness_to_color w (colors (original_at w z))
       /\ kbd init w' z
          = apply_brightness_to_color w (colors (original_at w z)).
Proof.
  intros Hw Hb. cbv zeta.
  destruct (stop_animation_frame_store init w Hw Hb)
    as (w' & -> & Hw' & _ & Hs & H).
  cbn [snd]. now conj.
Qed.

Lemma stop_animation_restores_witness :
  kbd sample_frame (stop_animation sample_disco).2 2 = rgb 70 80 90.
Proof.
  destruct (stop_animation_restores sample_frame sample_disco) as (_ & _ & H).
  - concrete_wf.
  - vm_compute. reflexivity.
  - destruct (H 2%nat) as [_ ->]; [unfold ZONE_COUNT; lia|].
    vm_compute. reflexivity.
Defined.

(** X14: on a keyboard that keeps its frame, the frame push of the effects
    gives every zone the frame's colour for it scaled by the brightness,
    in the zone array and on the keyboard, and changes no setting: not the
    base colours, the brightness, the mode, the speed or the timer. *)
Theorem frame_push_reaches_keyboard (init : list Z)
    (frame : list color_platform) (w : world) :
  wf w -> bios w = frame_store init ->
  (forall z, u8_color (nth z frame black)) ->
  let w' := (update_all_zones_with_colors frame w).2 in
  wf w' /\ settings w' = settings w
  /\ forall z, (z < ZONE_COUNT)%nat ->
       colors (zone_at w' z) = apply_brightness_to_color w (nth z frame black)
       /\ kbd init w' z = apply_brightness_to_color w (nth z frame black).
Proof.
  intros Hw Hb Hf. cbv zeta.
  destruct (update_all_zones_frame_store init frame w Hw Hb Hf)
    as (w' & -> & Hw' & _ & Hs & H).
  cbn [snd]. now conj.
Qed.

Lemma frame_push_reaches_keyboard_witness :
  let frame := [rgb 255 0 0; rgb 0 255 0; rgb 0 0 255; rgb 255 0 255] in
  let w := (brightness_set "50" 3 sample_world).2 in
  kbd sample_frame (update_all_zones_with_colors frame w).2 3 = rgb 127 0 127.
Proof.
  cbv zeta.
  set (frame := [rgb 255 0 0; rgb 0 255 0; rgb 0 0 255; rgb 255 0 255]).
  set (w := (brightness_set "50" 3 sample_world).2).
  destruct (frame_push_reaches_keyboard sample_frame frame w) as (_ & _ & H).
  - subst w. concrete_wf.
  - vm_compute. reflexivity.
  - intros z. subst frame. do 5 (try destruct z as [|z]); cbn;
      first [apply black_u8 | apply rgb_u8; lia].
  - destruct (H 3%nat) as [_ ->]; [unfold ZONE_COUNT; lia|].
    vm_compute. reflexivity.
Defined.

Lemma original_at_set_same (w : world) (z : nat) (c : color_platform) :
  wf w -> (z < ZONE_COUNT)%nat ->
  colors (original_at (set_original_colors_at z c w) z) = c.
Proof. apply colors_original_at_set. Qed.

(** One zone given a base colour and written at the current brightness. *)
Lemma store_step (init : list Z) (w : world) (z : nat) (c : color_platform) :
  wf w -> (z < ZONE_COUNT)%nat -> bios w = frame_store init -> u8_color c ->
  let w2 := set_zone_colors z (apply_brightness_to_color w c)
              (set_original_colors_at z c w) in
  exists w',
    fourzone_update_led z HPWMI_WRITE w2 = (0, w')
    /\ wf w' /\ bios w' = frame_store init
    /\ controls w' = controls w
    /\ settings w' = settings (set_original_colors_at z c w)
    /\ colors (original_at w' z) = c
    /\ colors (zone_at w' z) = apply_brightness_to_color w c
    /\ kbd init w' z = apply_brightness_to_color w c
    /\ forall z', z' <> z ->
         original_at w' z' = original_at w z'
         /\ zone_at w' z' = zone_at w z'
         /\ kbd init w' z' = kbd init w z'.
Proof.
  intros Hw Hz Hb Hc. cbv zeta.
  set (w1 := set_original_colors_at z c w).
  assert (Hw1 : wf w1) by now apply wf_set_original_colors_at.
  set (c' := apply_brightness_to_color w c).
  set (w2 := set_zone_colors z c' w1).
  assert (Hw2 : wf w2)
    by (apply wf_set_zone_colors; [apply apply_brightness_u8 | exact Hw1]).
  assert (E2 : colors (zone_at w2 z) = c') by now apply colors_zone_at_set.
  destruct (write_step init w2 z Hw2 Hz Hb)
    as (w3 & E3 & Hw3 & Hb3 & Hzd3 & Hs3 & Hk3 & Ho3).
  exists w3. split; [exact E3|].
  pose proof (f_equal original_colors Hs3) as Hor. cbn in Hor.
  conj; try assumption.
  - now rewrite (controls_settings _ _ Hs3).
  - unfold original_at. rewrite Hor. now apply colors_original_at_set.
  - unfold zone_at. rewrite Hzd3. exact E2.
  - now rewrite Hk3.
  - intros z' Hne. conj.
    + unfold original_at. rewrite Hor. now apply original_at_set_other.
    + unfold zone_at. rewrite Hzd3. fold (zone_at w2 z').
      subst w2. now rewrite zone_at_set_other.
    + now rewrite Ho3.
Qed.

Lemma all_set_loop_frame_store (init : list Z) (temp : platform_zone)
    (g : Z) (zs : list nat) :
  u8_color (colors temp) ->
  NoDup zs -> (forall z, z ∈ zs -> (z < ZONE_COUNT)%nat) ->
  forall w, wf w -> bios w = frame_store init -> global_brightness w = g ->
  exists w',
    all_set_loop temp zs w = (0, w')
    /\ wf w' /\ bios w' = frame_store init /\ controls w' = controls w
    /\ (forall z, z ∈ zs ->
          colors (original_at w' z) = colors temp
          /\ colors (zone_at w' z) = apply_brightness_to_color w (colors temp)
          /\ kbd init w' z = apply_brightness_to_color w (colors temp))
    /\ (forall z, z ∉ zs ->
          original_at w' z = original_at w z
          /\ zone_at w' z = zone_at w z
          /\ kbd init w' z = kbd init w z).
Proof.
  intros Hc. induction zs as [|z zs IH]; intros Hnd Hin w Hw Hb Hg.
  - exists w. cbn [all_set_loop ret]. conj; try assumption; try reflexivity.
    + intros z Hz. now apply elem_of_nil in Hz.
    + intros z _. now conj.
  - apply NoDup_cons in Hnd. destruct Hnd as [Hz Hnd].
    destruct (store_step init w z (colors temp) Hw (Hin z ltac:(left)) Hb Hc)
      as (w1 & E1 & Hw1 & Hb1 & Hct1 & _ & Ho1 & Hz1 & Hk1 & Hr1).
    assert (Hg1 : global_brightness w1 = g).
    { rewrite <- Hg. exact (f_equal global_brightness Hct1). }
    destruct (IH Hnd (fun x Hx => Hin x ltac:(now right)) w1 Hw1 Hb1 Hg1)
      as (w2 & E2 & Hw2 & Hb2 & Hct2 & Hi2 & Ho2).
    assert (Ea : forall c, apply_brightness_to_color w1 c
                           = apply_brightness_to_color w c).
    { intros c. unfold apply_brightness_to_color. now rewrite Hg1, Hg. }
    exists w2. cbn [all_set_loop]. rewrite !run_bind. cbn [modify fst snd].
    change (apply_brightness_to_color w (colors temp))
      with {| blue := scale_channel (blue (colors temp)) (global_brightness w);
              green := scale_channel (green (colors temp)) (global_brightness w);
              red := scale_channel (red (colors temp)) (global_brightness w) |}
      in E1.
    cbn [global_brightness set_original_colors_at set_original_colors].
    rewrite E1. cbn [fst snd negb Z.eqb].
    split; [exact E2|]. conj; try assumption.
    + congruence.
    + intros x Hx. apply elem_of_cons in Hx. destruct Hx as [->|Hx].
      * destruct (Ho2 z Hz) as (-> & -> & ->). now conj.
      * rewrite <- Ea. now apply Hi2.
    + intros x Hx.
      destruct (Ho2 x) as (-> & -> & ->); [intros Hy; apply Hx; now right|].
      apply Hr1. intros ->. apply Hx. now left.
Qed.

Lemma scheduler_static_settings (w w' : world) :
  settings w' = settings w -> scheduler_static w -> scheduler_static w'.
Proof.
  intros H (Hc & Ha & Ht). unfold scheduler_static.
  apply settings_fields in H.
  destruct H as (_ & _ & -> & _ & -> & _ & _ & -> & _). now conj.
Qed.

Lemma scheduler_static_controls (w w' : world) :
  controls w' = controls w -> scheduler_static w -> scheduler_static w'.
Proof.
  intros H (Hc & Ha & Ht). unfold scheduler_static.
  apply controls_fields in H.
  destruct H as (_ & -> & _ & -> & _ & _ & -> & _). now conj.
Qed.

Lemma parse_rgb_colors_u8 (buf : string) (zone target : platform_zone) :
  parse_rgb buf zone = (0, target) -> u8_color (colors target).
Proof.
  unfold parse_rgb. destruct (kstrtoul buf 16) as [v|e] eqn:E.
  - destruct (v >? 16777215); intros H; [discriminate H|].
    injection H as <-.
    unfold u8_color, repackager; cbn [colors set_colors blue green red].
    conj; apply le_byte_range.
  - intros H. injection H as -> _. apply kstrtoull_errno in E.
    unfold EINVAL, ERANGE in E. lia.
Qed.

(** The colour a successful parse yields does not depend on the zone it is
    stored into. *)
Lemma parse_rgb_colors (buf : string) (zone zone' target : platform_zone) :
  parse_rgb buf zone = (0, target) ->
  parse_rgb buf zone' = (0, set_colors (colors target) zone').
Proof.
  unfold parse_rgb. destruct (kstrtoul buf 16) as [v|e] eqn:E.
  - destruct (v >? 16777215); intros H; [discriminate H|].
    now injection H as <-.
  - intros H. injection H as -> _. apply kstrtoull_errno in E.
    unfold EINVAL, ERANGE in E. lia.
Qed.

Lemma all_set_frame_store (init : list Z) (buf : string) (count : Z)
    (temp : platform_zone) (w : world) :
  wf w -> bios w = frame_store init ->
  parse_rgb buf zone0 = (0, temp) ->
  let res := all_set buf count w in
  let shown := apply_brightness_to_color w (colors temp) in
  res.1 = count
  /\ wf res.2
  /\ scheduler_static res.2
  /\ global_brightness res.2 = global_brightness w
  /\ (forall z, (z < ZONE_COUNT)%nat ->
        colors (original_at res.2 z) = colors temp
        /\ colors (zone_at res.2 z) = shown
        /\ kbd init res.2 z = shown)
  /\ (fs_writable w = true ->
      state_file res.2 = Some (animation_state_bytes (saved_state res.2))).
Proof.
  intros Hw Hb Hp. cbv zeta. unfold all_set. rewrite Hp.
  cbn [negb Z.eqb]. rewrite !run_bind. cbn [modify fst snd].
  destruct (stop_animation_frame_store init w Hw Hb)
    as (w1 & E1 & Hw1 & Hb1 & Hs1 & _).
  rewrite E1. cbn [snd].
  set (w2 := set_current_animation ANIMATION_STATIC w1).
  assert (Hw2 : wf w2) by now apply (wf_ext w1).
  assert (Hst : scheduler_static w2).
  { subst w2. apply settings_fields in Hs1.
    destruct Hs1 as (_ & _ & _ & _ & Ht & _ & _ & Ha & _).
    unfold scheduler_static. fields. now conj. }
  assert (Hg2 : global_brightness w2 = global_brightness w).
  { subst w2. fields. exact (f_equal global_brightness Hs1). }
  assert (Hf2 : fs_writable w2 = fs_writable w).
  { subst w2. fields. exact (f_equal fs_writable Hs1). }
  destruct (all_set_loop_frame_store init temp (global_brightness w) zones
              (parse_rgb_colors_u8 _ _ _ Hp) NoDup_zones
              (fun z Hz => proj1 (zones_spec z) Hz) w2 Hw2 Hb1 Hg2)
    as (w3 & E3 & Hw3 & Hb3 & Hc3 & Hi3 & _).
  rewrite E3. cbn [fst snd negb Z.eqb]. rewrite run_bind. cbn [ret fst snd].
  destruct (save_animation_state_fields w3) as (K & Kz & Kc & _ & Kf & _).
  set (w4 := (save_animation_state w3).2) in *. clearbody w4.
  assert (Ea : apply_brightness_to_color w2 (colors temp)
               = apply_brightness_to_color w (colors temp)).
  { unfold apply_brightness_to_color. now rewrite Hg2. }
  apply settings_fields in K. fields in K.
  destruct K as (Ko & Kg & Kcur & _ & Kt & _ & _ & Ka & _).
  apply controls_fields in Hc3 as Hc3'.
  destruct Hc3' as (Hg3 & Hcur3 & _ & Ht3 & _ & _ & Ha3 & _ & _ & _ & Hf3).
  conj.
  - reflexivity.
  - apply (wf_ext w3); assumption.
  - destruct Hst as (S1 & S2 & S3). unfold scheduler_static.
    rewrite Kcur, Kt, Ka, Hcur3, Ht3, Ha3. now conj.
  - congruence.
  - intros z Hz. apply zones_spec in Hz.
    destruct (Hi3 z Hz) as (I1 & I2 & I3).
    unfold original_at, zone_at, kbd in *. rewrite Ko, Kz, Kc, <- Ea.
    now conj.
  - intros Hwr. apply Kf. congruence.
Qed.

Lemma plain_all_set_frame_store (init : list Z) (buf : string) (count : Z)
    (temp : platform_zone) (w : world) :
  wf w -> bios w = frame_store init ->
  parse_rgb buf zone0 = (0, temp) ->
  let res := Plain.all_set buf count w in
  let shown := apply_brightness_to_color w (colors temp) in
  res.1 = count
  /\ wf res.2
  /\ controls res.2 = controls w
  /\ forall z, (z < ZONE_COUNT)%nat ->
       colors (original_at res.2 z) = colors temp
       /\ colors (zone_at res.2 z) = shown
       /\ kbd init res.2 z = shown.
Proof.
  intros Hw Hb Hp. cbv zeta. unfold Plain.all_set. rewrite Hp.
  cbn [negb Z.eqb]. rewrite !run_bind.
  destruct (all_set_loop_frame_store init temp (global_brightness w) zones
              (parse_rgb_colors_u8 _ _ _ Hp) NoDup_zones
              (fun z Hz => proj1 (zones_spec z) Hz) w Hw Hb eq_refl)
    as (w3 & E3 & Hw3 & Hb3 & Hc3 & Hi3 & _).
  rewrite E3. cbn [fst snd negb Z.eqb ret]. conj; try easy.
  intros z Hz. now apply Hi3, zones_spec.
Qed.

(** X15: on a keyboard that keeps its frame, a write of a valid colour to
    [all] succeeds in both driver variants: every zone gets the colour as
    its base colour and shows it scaled by the brightness, in the zone
    array and on the keyboard, and the brightness is unchanged.  The variant
    with animations also leaves the scheduler static and, when the state
    file can be written, the file holding the record of the world that is
    left; the plain variant leaves every control as it was. *)
Theorem all_set_paints (init : list Z) (buf : string) (count : Z)
    (temp : platform_zone) (w : world) :
  wf w -> bios w = frame_store init ->
  parse_rgb buf zone0 = (0, temp) ->
  let shown := apply_brightness_to_color w (colors temp) in
  (let res := all_set buf count w in
   res.1 = count
   /\ wf res.2
   /\ scheduler_static res.2
   /\ global_brightness res.2 = global_brightness w
   /\ (forall z, (z < ZONE_COUNT)%nat ->
         colors (original_at res.2 z) = colors temp
         /\ colors (zone_at res.2 z) = shown
         /\ kbd init res.2 z = shown)
   /\ (fs_writable w = true ->
       state_file res.2 = Some (animation_state_bytes (saved_state res.2))))
  /\ (let res := Plain.all_set buf count w in
      res.1 = count
      /\ wf res.2
      /\ controls res.2 = controls w
      /\ forall z, (z < ZONE_COUNT)%nat ->
           colors (original_at res.2 z) = colors temp
           /\ colors (zone_at res.2 z) = shown
           /\ kbd init res.2 z = shown).
Proof.
  intros Hw Hb Hp. split.
  - now apply all_set_frame_store.
  - now apply plain_all_set_frame_store.
Qed.

Lemma all_set_paints_witness :
  let w := (brightness_set "50" 3 sample_world).2 in
  kbd sample_frame (all_set "FF8000" 7 w).2 1 = rgb 127 64 0
  /\ kbd sample_frame (Plain.all_set "FF8000" 7 w).2 1 = rgb 127 64 0.
Proof.
  cbv zeta. set (w := (brightness_set "50" 3 sample_world).2).
  destruct (all_set_paints sample_frame "FF8000" 7
              (set_colors (rgb 255 128 0) zone0) w)
    as ((_ & _ & _ & _ & H1 & _) & (_ & _ & _ & H2)).
  - subst w. concrete_wf.
  - vm_compute. reflexivity.
  - vm_compute. reflexivity.
  - destruct (H1 1%nat) as (_ & _ & ->); [unfold ZONE_COUNT; lia|].
    destruct (H2 1%nat) as (_ & _ & ->); [unfold ZONE_COUNT; lia|].
    split; vm_compute; reflexivity.
Defined.

Lemma writeback_parsed (w : world) (z : nat) (buf : string) (r : Z)
    (target : platform_zone) :
  parse_rgb buf (zone_at w z) = (r, target) ->
  set_zone_data (<[z := target]> (zone_data w)) w
  = set_zone_colors z (colors target) w.
Proof.
  intros Hp. pose proof (parse_rgb_zone buf (zone_at w z)) as H.
  rewrite Hp in H. cbn [snd] in H. unfold set_zone_colors. now rewrite <- H.
Qed.

Lemma plain_zone_set_frame_store (init : list Z) (a z : nat) (buf : string)
    (count : Z) (target : platform_zone) (w : world) :
  wf w -> bios w = frame_store init ->
  match_zone w a = Some z ->
  parse_rgb buf (zone_at w z) = (0, target) ->
  let res := Plain.zone_set a buf count w in
  let shown := apply_brightness_to_color w (colors target) in
  res.1 = count
  /\ wf res.2
  /\ controls res.2 = controls w
  /\ same_layout w res.2
  /\ bios res.2 = frame_store init
  /\ colors (original_at res.2 z) = colors target
  /\ colors (zone_at res.2 z) = shown
  /\ kbd init res.2 z = shown
  /\ forall z', z' <> z ->
       original_at res.2 z' = original_at w z'
       /\ zone_at res.2 z' = zone_at w z'
       /\ kbd init res.2 z' = kbd init w z'.
Proof.
  intros Hw Hb Hm Hp. cbv zeta. pose proof (match_zone_lt _ _ _ Hm) as Hz.
  pose proof (parse_rgb_colors_u8 _ _ _ Hp) as Hu.
  unfold Plain.zone_set. rewrite run_bind. cbn [get fst snd].
  rewrite Hm, Hp. rewrite !run_bind. cbn [modify fst snd negb Z.eqb].
  rewrite (writeback_parsed w z buf 0 target Hp).
  rewrite !run_bind. cbn [modify fst snd].
  set (w1 := set_zone_colors z (colors target) w).
  assert (Hw1 : wf w1) by now apply wf_set_zone_colors.
  assert (E1 : colors (zone_at w1 z) = colors target)
    by now apply colors_zone_at_set.
  assert (Ez : forall x c, zone_at (set_original_colors_at x c w1) z
                           = zone_at w1 z) by reflexivity.
  rewrite Ez, E1.
  destruct (store_step init w1 z (colors target) Hw1 Hz Hb Hu)
    as (w3 & E3 & Hw3 & Hb3 & Hc3 & Hs3 & Ho3 & Hz3 & Hk3 & Hr3).
  change (apply_brightness_to_color w1 (colors target))
    with {| blue := scale_channel (blue (colors target)) (global_brightness w1);
            green := scale_channel (green (colors target)) (global_brightness w1);
            red := scale_channel (red (colors target)) (global_brightness w1) |}
    in E3.
  cbn [global_brightness set_original_colors_at set_original_colors] in *.
  rewrite E3. cbn [fst snd ret negb Z.eqb].
  conj; try assumption; try reflexivity.
  - eapply same_layout_trans;
      [apply (layout_set_zone_colors z (colors target) w)|].
    unfold same_layout, layout.
    pose proof (cc_write (R := same_layout) z
                  (set_zone_colors z
                     (apply_brightness_to_color w1 (colors target))
                     (set_original_colors_at z (colors target) w1))) as H.
    change (apply_brightness_to_color w1 (colors target))
      with {| blue := scale_channel (blue (colors target)) (global_brightness w1);
              green := scale_channel (green (colors target)) (global_brightness w1);
              red := scale_channel (red (colors target)) (global_brightness w1) |}
      in H.
    cbn [global_brightness set_original_colors_at set_original_colors] in H.
    rewrite E3 in H. cbn [snd] in H.
    eapply same_layout_trans; [|exact H].
    apply (layout_set_zone_colors z _ (set_original_colors_at z _ w1)).
  - intros z' Hne. destruct (Hr3 z' Hne) as (R1 & R2 & R3). conj.
    + exact R1.
    + rewrite R2. subst w1. now apply zone_at_set_other.
    + exact R3.
Qed.

(** X16: in the plain variant, on a keyboard that keeps its frame, a write
    of a valid colour to a zone's attribute succeeds: the colour becomes
    the zone's base colour and the zone shows it scaled by the brightness,
    in the zone array and on the keyboard, while the other zones, their
    base colours and every control are as before. *)
Theorem plain_zone_set_paints (init : list Z) (a z : nat) (buf : string)
    (count : Z) (target : platform_zone) (w : world) :
  wf w -> bios w = frame_store init ->
  match_zone w a = Some z ->
  parse_rgb buf (zone_at w z) = (0, target) ->
  let res := Plain.zone_set a buf count w in
  let shown := apply_brightness_to_color w (colors target) in
  res.1 = count
  /\ wf res.2
  /\ controls res.2 = controls w
  /\ colors (original_at res.2 z) = colors target
  /\ colors (zone_at res.2 z) = shown
  /\ kbd init res.2 z = shown
  /\ forall z', z' <> z ->
       original_at res.2 z' = original_at w z'
       /\ zone_at res.2 z' = zone_at w z'
       /\ kbd init res.2 z' = kbd init w z'.
Proof.
  intros Hw Hb Hm Hp.
  destruct (plain_zone_set_frame_store init a z buf count target w Hw Hb Hm Hp)
    as (H1 & H2 & H3 & _ & _ & H4).
  cbv zeta. now conj.
Qed.

Lemma plain_zone_set_paints_witness :
  let res := Plain.zone_set 2 "FF8000" 7 sample_world in
  colors (original_at res.2 2) = rgb 255 128 0
  /\ kbd sample_frame res.2 2 = rgb 255 128 0.
Proof.
  cbv zeta.
  destruct (plain_zone_set_paints sample_frame 2 2 "FF8000" 7
              (set_colors (rgb 255 128 0) (zone_at sample_world 2))
              sample_world)
    as (_ & _ & _ & H1 & _ & H2 & _).
  - exact sample_world_wf.
  - reflexivity.
  - vm_compute. reflexivity.
  - vm_compute. reflexivity.
  - rewrite H1, H2. split; vm_compute; reflexivity.
Defined.

Lemma zone_set_frame_store (init : list Z) (a z : nat) (buf : string)
    (count : Z) (target : platform_zone) (w : world) :
  wf w -> bios w = frame_store init ->
  match_zone w a = Some z ->
  parse_rgb buf (zone_at w z) = (0, target) ->
  let res := zone_set a buf count w in
  let base z' := colors (original_at w z') in
  let dimmed := apply_brightness_to_color w in
  res.1 = count
  /\ wf res.2
  /\ scheduler_static res.2
  /\ global_brightness res.2 = global_brightness w
  /\ colors (original_at res.2 z) = dimmed (base z)
  /\ kbd init res.2 z = dimmed (dimmed (base z))
  /\ forall z', z' <> z -> (z' < ZONE_COUNT)%nat ->
       original_at res.2 z' = original_at w z'
       /\ kbd init res.2 z' = dimmed (base z').
Proof.
  intros Hw Hb Hm Hp. cbv zeta. pose proof (match_zone_lt _ _ _ Hm) as Hz.
  pose proof (parse_rgb_colors_u8 _ _ _ Hp) as Hu.
  rewrite (zone_set_run a buf count w z target Hm Hp).
  rewrite (writeback_parsed w z buf 0 target Hp).
  set (w1 := set_zone_colors z (colors target) w).
  assert (Hw1 : wf w1) by now apply wf_set_zone_colors.
  destruct (stop_animation_frame_store init w1 Hw1 Hb)
    as (w2 & E2 & Hw2 & Hb2 & Hs2 & Hi2).
  rewrite E2. cbn [snd].
  set (w3 := set_current_animation ANIMATION_STATIC w2).
  assert (Hw3 : wf w3) by now apply (wf_ext w2).
  assert (Hst : scheduler_static w3).
  { subst w3. apply settings_fields in Hs2.
    destruct Hs2 as (_ & _ & _ & _ & Ht & _ & _ & Ha & _).
    unfold scheduler_static. fields. now conj. }
  apply settings_fields in Hs2 as Hf2. fields in Hf2.
  destruct Hf2 as (Ho2 & Hg2 & _ & _ & _ & _ & _ & _ & _ & _ & _ & _ & Hfw2).
  assert (Ea : forall c, apply_brightness_to_color w3 c
                         = apply_brightness_to_color w c).
  { intros c. unfold apply_brightness_to_color. subst w3. fields.
    now rewrite Hg2. }
  assert (Ea1 : forall c, apply_brightness_to_color w1 c
                          = apply_brightness_to_color w c) by reflexivity.
  assert (Eo1 : forall x, original_at w1 x = original_at w x) by reflexivity.
  rewrite !run_bind. cbn [modify fst snd].
  assert (Ez : forall x c, zone_at (set_original_colors_at x c w3) z
                           = zone_at w3 z) by reflexivity.
  rewrite Ez.
  assert (E3 : colors (zone_at w3 z)
               = apply_brightness_to_color w (colors (original_at w z))).
  { change (zone_at w3 z) with (zone_at w2 z).
    destruct (Hi2 z Hz) as [-> _]. now rewrite Ea1, Eo1. }
  rewrite E3.
  set (c1 := apply_brightness_to_color w (colors (original_at w z))).
  destruct (store_step init w3 z c1 Hw3 Hz Hb2 (apply_brightness_u8 _ _))
    as (w4 & E4 & Hw4 & Hb4 & Hc4 & Hs4 & Ho4 & Hz4 & Hk4 & Hr4).
  change (apply_brightness_to_color w3 c1)
    with {| blue := scale_channel (blue c1) (global_brightness w3);
            green := scale_channel (green c1) (global_brightness w3);
            red := scale_channel (red c1) (global_brightness w3) |}
    in E4.
  cbn [global_brightness set_original_colors_at set_original_colors] in *.
  rewrite E4. cbn [fst snd negb Z.eqb]. rewrite run_bind. cbn [ret fst snd].
  destruct (save_animation_state_fields w4) as (K & Kz & Kc & _ & _ & _).
  set (w5 := (save_animation_state w4).2) in *. clearbody w5.
  apply settings_fields in K. fields in K.
  destruct K as (Ko & Kg & Kcur & _ & Kt & _ & _ & Ka & _).
  apply controls_fields in Hc4 as Hc4'.
  destruct Hc4' as (Hg4 & Hcur4 & _ & Ht4 & _ & _ & Ha4 & _).
  conj.
  - reflexivity.
  - apply (wf_ext w4); assumption.
  - destruct Hst as (S1 & S2 & S3). unfold scheduler_static.
    rewrite Kcur, Kt, Ka, Hcur4, Ht4, Ha4. now conj.
  - rewrite Kg, Hg4. subst w3. fields. exact Hg2.
  - unfold original_at in *. now rewrite Ko.
  - unfold kbd in *. rewrite Kc, Hk4. apply Ea.
  - intros z' Hne Hz'. destruct (Hr4 z' Hne) as (R1 & _ & R3). conj.
    + unfold original_at in *. rewrite Ko, R1. subst w3. fields.
      now rewrite Ho2.
    + unfold kbd in *. rewrite Kc, R3.
      change (wmi_calls w3) with (wmi_calls w2).
      destruct (Hi2 z' Hz') as [_ H]. unfold kbd in H. rewrite H.
      now rewrite Ea1, Eo1.
Qed.

(** X17: in the variant with animations, on a keyboard that keeps its
    frame, a write of a valid colour to a zone's attribute reports success
    but the colour written is not used: stopping the animation overwrites
    it before it is read.  The zone's base colour becomes its previous base
    colour scaled by the brightness, the keyboard shows that colour scaled
    once more, and every other zone shows its base colour at the
    brightness; the scheduler is left static. *)
Theorem zone_set_repaints_base (init : list Z) (a z : nat) (buf : string)
    (count : Z) (target : platform_zone) (w : world) :
  wf w -> bios w = frame_store init ->
  match_zone w a = Some z ->
  parse_rgb buf (zone_at w z) = (0, target) ->
  let res := zone_set a buf count w in
  let base z' := colors (original_at w z') in
  let dimmed := apply_brightness_to_color w in
  res.1 = count
  /\ wf res.2
  /\ scheduler_static res.2
  /\ global_brightness res.2 = global_brightness w
  /\ colors (original_at res.2 z) = dimmed (base z)
  /\ kbd init res.2 z = dimmed (dimmed (base z))
  /\ forall z', z' <> z -> (z' < ZONE_COUNT)%nat ->
       original_at res.2 z' = original_at w z'
       /\ kbd init res.2 z' = dimmed (base z').
Proof. apply zone_set_frame_store. Qed.

Lemma zone_set_repaints_base_witness :
  let w := (brightness_set "50" 3 sample_tan).2 in
  let res := zone_set 0 "00FF00" 7 w in
  colors (original_at w 0) = rgb 200 100 50
  /\ colors (original_at res.2 0) = rgb 100 50 25
  /\ kbd sample_frame res.2 0 = rgb 50 25 12.
Proof.
  cbv zeta. set (w := (brightness_set "50" 3 sample_tan).2).
  destruct (zone_set_repaints_base sample_frame 0 0 "00FF00" 7
              (set_colors (rgb 0 255 0) (zone_at w 0)) w)
    as (_ & _ & _ & _ & H1 & H2 & _).
  - subst w. concrete_wf.
  - vm_compute. reflexivity.
  - vm_compute. reflexivity.
  - vm_compute. reflexivity.
  - rewrite H1, H2. conj; vm_compute; reflexivity.
Defined.

(** ** Initialisation *)

Lemma unloaded_restore (f : nat -> color_platform) (l : list nat) (w : world) :
  unloaded (fold_left (fun w i => set_original_colors_at i (f i) w) l w)
  = unloaded w.
Proof.
  revert w. induction l as [|i l IH]; intros w; [reflexivity|].
  cbn [fold_left]. now rewrite IH.
Qed.

Lemma unloaded_apply_state (s : animation_state) (w : world) :
  unloaded (apply_state s w) = unloaded w.
Proof.
  unfold apply_state. rewrite unloaded_restore.
  destruct ((mode s >=? 0) && (mode s <? ANIMATION_COUNT));
    [destruct (animation_mode_of_Z (mode s))|];
    destruct ((speed s >=? ANIMATION_SPEED_MIN)
              && (speed s <=? ANIMATION_SPEED_MAX));
    destruct ((brightness s >=? 0) && (brightness s <=? 100));
    reflexivity.
Qed.

Lemma unloaded_set_klog (l : list klog_msg) (w : world) :
  unloaded (set_klog l w) = unloaded w.
Proof. reflexivity. Qed.

Lemma unloaded_fields (w w' : world) :
  unloaded w' = unloaded w ->
  zone_data w' = zone_data w
  /\ animation_timer w' = animation_timer w
  /\ animation_work w' = animation_work w
  /\ animation_start_time w' = animation_start_time w
  /\ animation_active w' = animation_active w
  /\ jiffies w' = jiffies w
  /\ bios w' = bios w
  /\ wmi_calls w' = wmi_calls w
  /\ stack_junk w' = stack_junk w
  /\ state_file w' = state_file w
  /\ fs_writable w' = fs_writable w
  /\ hw_writes w' = hw_writes w.
Proof.
  intros H.
  repeat split;
    match goal with
    | |- ?f w' = ?f w => exact (f_equal f H)
    end.
Qed.

(** Loading the state leaves the zones, the scheduler's timer and flags and
    the environment alone, and never leaves a speed outside 1..10. *)
Lemma load_animation_state_unloaded (w : world) :
  unloaded (load_animation_state w).2 = unloaded w
  /\ (speed_ok w -> speed_ok (load_animation_state w).2).
Proof.
  destruct (state_file w) as [file|] eqn:Hf.
  2: { unfold load_animation_state. rewrite run_bind. cbn [get fst snd].
       rewrite Hf. now split. }
  destruct (Nat.lt_ge_cases (length file) 24) as [Hl|Hl].
  { rewrite (load_short_file w file Hf Hl). now split. }
  rewrite (load_animation_state_accepts w file Hf Hl).
  generalize (animation_state_of_bytes (take 24 file)). intros s.
  pose proof (unloaded_apply_state s w) as Hu.
  destruct (apply_state_fields s w) as (_ & Hsp & _).
  set (w1 := apply_state s w) in *. clearbody w1. cbn [snd].
  rewrite unloaded_set_klog. split; [exact Hu|].
  intros Hs. unfold speed_ok. change (animation_speed (set_klog ?l ?x))
    with (animation_speed x). rewrite Hsp.
  destruct (Z.leb_spec ANIMATION_SPEED_MIN (speed s));
    destruct (Z.leb_spec (speed s) ANIMATION_SPEED_MAX);
    cbn [andb]; try exact Hs.
  now split.
Qed.

Lemma fourzone_setup_read_controls (zs : list nat) :
  keeps same_controls (fourzone_setup_read zs).
Proof.
  induction zs as [|z zs IH]; cbn [fourzone_setup_read]; keeps_steps.
Qed.

Lemma fourzone_setup_run (msecs_to_jiffies : Z -> Z) (w : world) :
  fourzone_setup msecs_to_jiffies w
  = let w2 := set_zone_data (replicate ZONE_COUNT zone0)
                (load_animation_state w).2 in
    let q := fourzone_setup_read zones w2 in
    if negb (q.1 =? 0) then q
    else
      let w4 :=
        (for_zones zones (fun zone =>
           modify (fun w =>
             set_zone_data
               (<[zone := {| offset := u8 (25 + Z.of_nat zone * 3);
                             attr := Some zone;
                             colors := colors (zone_at w zone) |}]>
                  (zone_data w)) w)) q.2).2 in
      (0, if negb (is_static (current_animation w4))
          then (start_animation msecs_to_jiffies w4).2 else w4).
Proof.
  unfold fourzone_setup. rewrite !run_bind. cbn [modify fst snd]. cbv zeta.
  destruct (fourzone_setup_read zones _) as [r w3]. cbn [fst snd].
  destruct (r =? 0); cbn [negb]; [|reflexivity].
  rewrite !run_bind. cbn [get fst snd].
  destruct (is_static (current_animation _)); cbn [negb].
  - reflexivity.
  - cbn [ret]. now rewrite start_animation_run.
Qed.

(** The loop that names the attributes gives zone [z] attribute [z] and
    its offset and keeps every colour. *)
Lemma setup_attrs (w : world) :
  length (zone_data w) = ZONE_COUNT ->
  let w' :=
    (for_zones zones (fun zone =>
       modify (fun w =>
         set_zone_data
           (<[zone := {| offset := u8 (25 + Z.of_nat zone * 3);
                         attr := Some zone;
                         colors := colors (zone_at w zone) |}]>
              (zone_data w)) w)) w).2 in
  attrs_ok w'
  /\ (forall z, colors (zone_at w' z) = colors (zone_at w z))
  /\ settings w' = settings w.
Proof.
  intros Hl. cbv zeta.
  destruct w as [zd oc gb ca sp tm wk st ac jf bs wc sj sf fw kl hw].
  cbn in Hl.
  destruct zd as [|z0 [|z1 [|z2 [|z3 [|]]]]]; try discriminate.
  conj.
  - intros z Hz. unfold ZONE_COUNT in Hz.
    destruct z as [|[|[|[|z]]]]; [reflexivity .. | lia].
  - intros z. destruct z as [|[|[|[|z]]]]; reflexivity.
  - reflexivity.
Qed.

Lemma match_zone_attrs (w : world) :
  attrs_ok w ->
  (forall z, (z < ZONE_COUNT)%nat -> match_zone w z = Some z)
  /\ (forall a, (ZONE_COUNT <= a)%nat -> match_zone w a = None).
Proof.
  intros H. unfold attrs_ok, zone_at, ZONE_COUNT in H.
  pose proof (H 0%nat ltac:(lia)) as H0. pose proof (H 1%nat ltac:(lia)) as H1.
  pose proof (H 2%nat ltac:(lia)) as H2. pose proof (H 3%nat ltac:(lia)) as H3.
  unfold match_zone, ZONE_COUNT. cbn [match_zone_from].
  rewrite H0, H1, H2, H3. split.
  - intros z Hz. destruct z as [|[|[|[|z]]]]; [reflexivity .. | lia].
  - intros a Ha.
    rewrite !bool_decide_eq_false_2; [reflexivity | intros [= E]; lia ..].
Qed.

Section Setup.

Variable msecs_to_jiffies : Z -> Z.

Lemma fourzone_setup_driver_ok (fw : list wmi_call -> option acpi_object)
    (junk : list Z) (file : option (list Z)) (writable : bool) :
  let res := fourzone_setup msecs_to_jiffies (boot fw junk file writable) in
  res.1 = 0 -> driver_ok res.2.
Proof.
  cbv zeta. set (w0 := boot fw junk file writable). intros Hr.
  pose proof (fourzone_setup_wf msecs_to_jiffies w0
                (boot_originals_ok fw junk file writable) Hr) as Hwf.
  revert Hr Hwf. rewrite fourzone_setup_run. cbv zeta.
  destruct (load_animation_state_unloaded w0) as [Hu Hs].
  apply unloaded_fields in Hu.
  destruct Hu as (_ & Ht & _ & _ & Ha & _).
  specialize (Hs ltac:(unfold speed_ok; cbn; unfold ANIMATION_SPEED_MIN,
                       ANIMATION_SPEED_MAX, ANIMATION_SPEED_DEFAULT; lia)).
  pose proof (load_animation_state_originals_ok w0
                (boot_originals_ok fw junk file writable)) as Ho.
  set (w1 := (load_animation_state w0).2) in *. clearbody w1.
  set (w2 := set_zone_data (replicate ZONE_COUNT zone0) w1).
  pose proof (fourzone_setup_read_controls zones w2) as Hc.
  pose proof (fourzone_setup_read_colors_ok zones w2
                (colors_ok_alloc w1 Ho)) as Hc3.
  destruct (fourzone_setup_read zones w2) as [r w3]. cbn [fst snd] in *.
  destruct (Z.eqb_spec r 0) as [->|Hr]; cbn [negb fst snd];
    [|intros E; contradiction].
  intros _ Hwf.
  apply controls_fields in Hc. fields in Hc.
  destruct Hc as (_ & _ & Hsp & Ht3 & _ & _ & Ha3 & _).
  assert (Hl3 : length (zone_data w3) = ZONE_COUNT) by apply Hc3.
  destruct (setup_attrs w3 Hl3) as (Hat & _ & Hs4).
  apply settings_fields in Hs4.
  destruct Hs4 as (_ & _ & _ & Hsp4 & Ht4 & _ & _ & Ha4 & _).
  set (w4 := (for_zones zones _ w3).2) in *. clearbody w4.
  split; [exact Hwf|]. clear Hwf.
  assert (Hs4 : speed_ok w4).
  { unfold speed_ok in *. now rewrite Hsp4, Hsp. }
  destruct (is_static (current_animation w4)) eqn:Em; cbn [negb].
  - conj; [exact Hat | exact Hs4 |]. apply scheduler_ok_static.
    unfold scheduler_static. apply is_static_true in Em.
    conj; [exact Em | rewrite Ha4, Ha3; exact Ha | rewrite Ht4, Ht3; exact Ht].
  - rewrite start_animation_run, Em. cbn [snd]. conj.
    + exact Hat.
    + exact Hs4.
    + unfold scheduler_ok. fields. apply is_static_false in Em.
      split; [split; [reflexivity | discriminate] | now intros _].
Qed.

(** X18: when the initialisation of a freshly loaded module succeeds,
    whatever the firmware and the state file, the driver's state is sound
    (as X12 describes), attribute [z] finds zone [z] for each of the four
    zones, and no other attribute finds a zone. *)
Theorem fourzone_setup_establishes (fw : list wmi_call -> option acpi_object)
    (junk : list Z) (file : option (list Z)) (writable : bool) :
  let res := fourzone_setup msecs_to_jiffies (boot fw junk file writable) in
  res.1 = 0 ->
  driver_ok res.2
  /\ (forall z, (z < ZONE_COUNT)%nat -> match_zone res.2 z = Some z)
  /\ (forall a, (ZONE_COUNT <= a)%nat -> match_zone res.2 a = None).
Proof.
  cbv zeta. intros Hr.
  pose proof (fourzone_setup_driver_ok fw junk file writable Hr) as H.
  split; [exact H|]. apply match_zone_attrs, H.
Qed.

End Setup.

Lemma fourzone_setup_establishes_witness :
  driver_ok sample_world /\ match_zone sample_world 4 = None.
Proof.
  destruct (fourzone_setup_establishes hz1000 (frame_store sample_frame)
              [] None true) as (H1 & _ & H2).
  - vm_compute. reflexivity.
  - split; [exact H1 | apply H2; unfold ZONE_COUNT; lia].
Defined.

Lemma sample_world_driver_ok : driver_ok sample_world.
Proof.
  apply (fourzone_setup_driver_ok hz1000 (frame_store sample_frame)
           [] None true).
  vm_compute. reflexivity.
Qed.

Lemma driver_ok_kept_witness :
  driver_ok
    (run_ops hz1000
       [write_animation_mode "disco" 6; time_passes 60; timer_fires;
        work_runs; write_brightness "50" 3; read_zone 1;
        write_zone 2 "00FF00" 7]
       sample_world).2.
Proof.
  apply (driver_ok_kept hz1000). exact sample_world_driver_ok.
Defined.

(** ** Initialisation on the reference firmware *)

Lemma current_frame_gets (init : list Z) (l calls : list wmi_call) :
  Forall is_get l ->
  current_frame init (l ++ calls) = current_frame init calls.
Proof.
  induction 1 as [|c l Hc _ IH]; [reflexivity|].
  cbn [app current_frame]. unfold is_get in Hc. rewrite Hc. exact IH.
Qed.

(** A colour read on the reference firmware succeeds, sends one GET and puts
    the bytes of the frame at the zone's offset into the zone. *)
Lemma read_step (init : list Z) (w : world) (z : nat) :
  bios w = frame_store init ->
  offset (zone_at w z) = 25 + 3 * Z.of_nat z ->
  fourzone_update_led z HPWMI_READ w
  = (0, set_zone_colors z (kbd init w z)
          (set_wmi_calls (get_call w :: wmi_calls w) w)).
Proof.
  intros Hb Ho. rewrite fourzone_read_unfold.
  rewrite (query_get_frame_store w init _ Hb (bytes_n_length _ _)).
  cbv zeta. cbn [fst snd negb Z.eqb].
  change (zone_at (set_wmi_calls ?c w) z) with (zone_at w z).
  rewrite Ho.
  replace (Z.to_nat (25 + 3 * Z.of_nat z)) with (25 + 3 * z)%nat by lia.
  reflexivity.
Qed.

(** The world after the first loop of the setup has handled zone [z]. *)
Lemma setup_read_cons (init : list Z) (w : world) (z : nat) (zs : list nat) :
  bios w = frame_store init ->
  (z < ZONE_COUNT)%nat -> length (zone_data w) = ZONE_COUNT ->
  let wa := set_zone_data
              (<[z := {| offset := u8 (25 + Z.of_nat z * 3);
                         attr := attr (zone_at w z);
                         colors := colors (zone_at w z) |}]> (zone_data w)) w in
  let wb := set_zone_colors z (kbd init w z)
              (set_wmi_calls (get_call w :: wmi_calls w) wa) in
  fourzone_setup_read (z :: zs) w
  = fourzone_setup_read zs
      (set_original_colors_at z (colors (zone_at wb z)) wb).
Proof.
  intros Hb Hz Hl. cbv zeta. cbn [fourzone_setup_read].
  rewrite !run_bind. cbn [modify fst snd].
  set (wa := set_zone_data _ w).
  rewrite (read_step init wa z Hb).
  2: { unfold wa, zone_at. cbn [zone_data set_zone_data].
       rewrite nth_insert_eq by (rewrite Hl; exact Hz). cbn [offset].
       unfold ZONE_COUNT in Hz. unfold u8.
       rewrite Z.mod_small; lia. }
  cbn [fst snd negb Z.eqb]. rewrite !run_bind. cbn [modify fst snd].
  reflexivity.
Qed.

Lemma setup_read_frame_store (init : list Z) (zs : list nat) :
  (forall z, z ∈ zs -> (z < ZONE_COUNT)%nat) ->
  forall w,
    bios w = frame_store init ->
    length (zone_data w) = ZONE_COUNT ->
    length (original_colors w) = ZONE_COUNT ->
    exists w',
      fourzone_setup_read zs w = (0, w')
      /\ controls w' = controls w
      /\ hw_writes w' = hw_writes w
      /\ length (zone_data w') = ZONE_COUNT
      /\ (exists l, wmi_calls w' = l ++ wmi_calls w
                    /\ Forall is_get l /\ length l = length zs)
      /\ (forall z, z ∈ zs ->
            colors (zone_at w' z) = kbd init w z
            /\ colors (original_at w' z) = kbd init w z)
      /\ (forall z, z ∉ zs ->
            colors (zone_at w' z) = colors (zone_at w z)
            /\ original_at w' z = original_at w z).
Proof.
  induction zs as [|z zs IH]; intros Hin w Hb Hl Ho.
  { exists w. conj; try reflexivity; try assumption.
    - exists []. now conj.
    - intros z Hz. now apply elem_of_nil in Hz.
    - intros z _. now split. }
  assert (Hz : (z < ZONE_COUNT)%nat) by (apply Hin; left).
  rewrite (setup_read_cons init w z zs Hb Hz Hl). cbv zeta.
  set (wa := set_zone_data _ w).
  set (wb := set_zone_colors z _ _).
  set (wc := set_original_colors_at z _ wb).
  assert (Ezb : colors (zone_at wb z) = kbd init w z).
  { unfold wb, zone_at, set_zone_colors. cbn [zone_data set_zone_data].
    rewrite nth_insert_eq; [reflexivity|].
    unfold wa. cbn [zone_data set_zone_data set_wmi_calls].
    rewrite length_insert, Hl. exact Hz. }
  assert (Eoc : colors (original_at wc z) = kbd init w z).
  { unfold wc, original_at, set_original_colors_at.
    cbn [original_colors set_original_colors].
    rewrite nth_insert_eq; [cbn [colors set_colors]; exact Ezb|].
    unfold wb, wa. cbn [original_colors set_zone_colors set_zone_data
      set_wmi_calls]. rewrite Ho. exact Hz. }
  assert (Eother : forall z', z' <> z ->
            colors (zone_at wc z') = colors (zone_at w z')
            /\ original_at wc z' = original_at w z').
  { intros z' Hne. split.
    - unfold wc, wb, wa, zone_at, set_original_colors_at, set_zone_colors.
      cbn [zone_data set_zone_data set_wmi_calls set_original_colors].
      now rewrite !nth_insert_ne by congruence.
    - unfold wc. now rewrite original_at_set_other. }
  assert (Ekbd : forall z', kbd init wc z' = kbd init w z').
  { intros z'. unfold kbd, wc, wb, wa.
    cbn [wmi_calls set_original_colors_at set_original_colors set_zone_colors
         set_zone_data set_wmi_calls current_frame get_call input
         query_args commandtype].
    reflexivity. }
  destruct (IH (fun z' H => Hin z' (proj2 (elem_of_cons zs z' z) (or_intror H)))
              wc)
    as (w' & E & Hc & Hh & Hl' & (l & Hcalls & Hget & Hlen) & Hzs & Hnot).
  { exact Hb. }
  { unfold wc, wb, wa. cbn [zone_data set_original_colors_at
      set_original_colors set_zone_colors set_zone_data set_wmi_calls].
    now rewrite !length_insert. }
  { unfold wc. cbn [original_colors set_original_colors_at
      set_original_colors]. now rewrite length_insert. }
  exists w'. conj.
  - exact E.
  - rewrite Hc. reflexivity.
  - rewrite Hh. reflexivity.
  - exact Hl'.
  - exists (l ++ [get_call w]). conj.
    + rewrite Hcalls, <- app_assoc. reflexivity.
    + apply Forall_app. split; [exact Hget|]. now repeat constructor.
    + rewrite length_app, Hlen. cbn. lia.
  - intros z' Hz'. destruct (decide (z' ∈ zs)) as [Hr|Hr].
    + destruct (Hzs z' Hr) as [H1 H2]. now rewrite H1, H2, Ekbd.
    + apply elem_of_cons in Hz'. destruct Hz' as [->|Hz']; [|contradiction].
      destruct (Hnot z Hr) as [H1 H2]. now rewrite H1, H2.
  - intros z' Hz'. apply not_elem_of_cons in Hz'. destruct Hz' as [Hne Hr].
    destruct (Hnot z' Hr) as [H1 H2]. rewrite H1, H2. now apply Eother.
Qed.

(** The loop that names the attributes touches nothing but the zones. *)
Lemma setup_attrs_only_zones (w : world) :
  let w' :=
    (for_zones zones (fun zone =>
       modify (fun w =>
         set_zone_data
           (<[zone := {| offset := u8 (25 + Z.of_nat zone * 3);
                         attr := Some zone;
                         colors := colors (zone_at w zone) |}]>
              (zone_data w)) w)) w).2 in
  w' = set_zone_data (zone_data w') w.
Proof. destruct w. reflexivity. Qed.

Section SetupOnKeyboard.

Variable msecs_to_jiffies : Z -> Z.
Variables (init junk : list Z) (file : option (list Z)) (writable : bool).

Lemma fourzone_setup_frame_store :
  let w1 :=
    (load_animation_state (boot (frame_store init) junk file writable)).2 in
  exists w',
    fourzone_setup msecs_to_jiffies
      (boot (frame_store init) junk file writable) = (0, w')
    /\ (forall z, (z < ZONE_COUNT)%nat ->
          colors (zone_at w' z) = frame_color (bytes_n 128 init) z
          /\ colors (original_at w' z) = frame_color (bytes_n 128 init) z)
    /\ Forall is_get (wmi_calls w')
    /\ length (wmi_calls w') = ZONE_COUNT
    /\ hw_writes w' = []
    /\ current_animation w' = current_animation w1
    /\ animation_speed w' = animation_speed w1
    /\ global_brightness w' = global_brightness w1
    /\ (if is_static (current_animation w1)
        then animation_active w' = false /\ animation_timer w' = None
        else animation_active w' = true
             /\ animation_timer w'
                = Some (u64 (0 + msecs_to_jiffies ANIMATION_TIMER_INTERVAL_MS))
             /\ animation_start_time w' = 0).
Proof.
  cbv zeta. rewrite fourzone_setup_run. cbv zeta.
  destruct (load_animation_state_unloaded
              (boot (frame_store init) junk file writable)) as [Hu _].
  apply unloaded_fields in Hu.
  destruct Hu as (_ & Ht & _ & _ & Ha & Hj & Hb & Hc & _ & _ & _ & Hh).
  pose proof (load_animation_state_originals_ok
                (boot (frame_store init) junk file writable)
                (boot_originals_ok _ junk file writable)) as (Ho & _).
  set (w1 := (load_animation_state _).2) in *. clearbody w1.
  set (w2 := set_zone_data (replicate ZONE_COUNT zone0) w1).
  destruct (setup_read_frame_store init zones
              ltac:(intros z Hz; apply elem_of_seq in Hz; lia) w2 Hb
              eq_refl Ho)
    as (w3 & -> & Hc3 & Hh3 & Hl3 & (l & Hcalls & Hget & Hlen) & Hzs & _).
  cbn [fst snd negb Z.eqb].
  apply controls_fields in Hc3. fields in Hc3.
  destruct Hc3 as (Hg3 & Hm3 & Hsp3 & Ht3 & _ & _ & Ha3 & Hj3 & _).
  destruct (setup_attrs w3 Hl3) as (_ & Hcol & _).
  pose proof (setup_attrs_only_zones w3) as E4. cbv zeta in E4.
  set (w4 := (for_zones zones _ w3).2) in *. clearbody w4.
  assert (Hin : forall z, (z < ZONE_COUNT)%nat -> z ∈ zones).
  { intros z Hz. apply elem_of_seq. lia. }
  assert (Hk : forall z, kbd init w2 z = frame_color (bytes_n 128 init) z).
  { intros z. unfold kbd. change (wmi_calls w2) with (wmi_calls w1).
    rewrite Hc. reflexivity. }
  assert (Hcalls4 : wmi_calls w4 = l).
  { rewrite E4. cbn [wmi_calls set_zone_data]. rewrite Hcalls.
    change (wmi_calls w2) with (wmi_calls w1). rewrite Hc. apply app_nil_r. }
  assert (F : (forall z, (z < ZONE_COUNT)%nat ->
                 colors (zone_at w4 z) = frame_color (bytes_n 128 init) z
                 /\ colors (original_at w4 z)
                    = frame_color (bytes_n 128 init) z)
              /\ Forall is_get (wmi_calls w4)
              /\ length (wmi_calls w4) = ZONE_COUNT
              /\ hw_writes w4 = []
              /\ current_animation w4 = current_animation w1
              /\ animation_speed w4 = animation_speed w1
              /\ global_brightness w4 = global_brightness w1
              /\ animation_active w4 = false /\ animation_timer w4 = None
              /\ jiffies w4 = 0).
  { conj.
    - intros z Hz. destruct (Hzs z (Hin z Hz)) as [H1 H2].
      rewrite Hcol, H1, <- Hk. split; [reflexivity|].
      rewrite E4. exact H2.
    - now rewrite Hcalls4.
    - now rewrite Hcalls4, Hlen.
    - rewrite E4. cbn [hw_writes set_zone_data]. rewrite Hh3. exact Hh.
    - rewrite E4. exact Hm3.
    - rewrite E4. exact Hsp3.
    - rewrite E4. exact Hg3.
    - rewrite E4. cbn [animation_active set_zone_data]. rewrite Ha3. exact Ha.
    - rewrite E4. cbn [animation_timer set_zone_data]. rewrite Ht3. exact Ht.
    - rewrite E4. cbn [jiffies set_zone_data]. rewrite Hj3. exact Hj. }
  clear E4.
  destruct F as (F1 & F2 & F3 & F4 & F5 & F6 & F7 & F8 & F9 & F10).
  eexists. split; [reflexivity|].
  rewrite <- F5.
  destruct (is_static (current_animation w4)) eqn:Em; cbn [negb].
  - now conj.
  - rewrite start_animation_run, Em. cbn [snd]. fields. rewrite F10.
    now conj.
Qed.

(** X19: on a keyboard that answers colour reads, the initialisation of a
    freshly loaded module succeeds whatever the state file holds; it sends
    the firmware exactly four requests, all of them colour reads, and pushes
    no frame; afterwards every zone's colour and every zone's base colour
    are what the keyboard reported, so base colours from a state file are
    discarded. *)
Theorem fourzone_setup_reads_keyboard :
  let res := fourzone_setup msecs_to_jiffies
               (boot (frame_store init) junk file writable) in
  res.1 = 0
  /\ (forall z, (z < ZONE_COUNT)%nat ->
        colors (zone_at res.2 z) = frame_color (bytes_n 128 init) z
        /\ colors (original_at res.2 z) = frame_color (bytes_n 128 init) z)
  /\ Forall is_get (wmi_calls res.2)
  /\ length (wmi_calls res.2) = ZONE_COUNT
  /\ hw_writes res.2 = [].
Proof.
  cbv zeta.
  destruct fourzone_setup_frame_store
    as (w' & -> & H1 & H2 & H3 & H4 & _).
  cbn [fst snd]. now conj.
Qed.

End SetupOnKeyboard.

(** X20: the mode, speed and brightness stored by a successful save come
    back when the module is next loaded on a keyboard that answers colour
    reads; a stored effect is started again with the timer set one interval
    after time zero, and a stored static mode leaves the timer off. *)
Theorem reload_resumes (msecs_to_jiffies : Z -> Z) (init junk : list Z)
    (writable : bool) (w : world) :
  speed_ok w -> 0 <= global_brightness w <= 100 ->
  (forall z, u8_color (colors (original_at w z))) ->
  fs_writable w = true ->
  let file := state_file (save_animation_state w).2 in
  let w' := (fourzone_setup msecs_to_jiffies
               (boot (frame_store init) junk file writable)).2 in
  current_animation w' = current_animation w
  /\ animation_speed w' = animation_speed w
  /\ global_brightness w' = global_brightness w
  /\ (if is_static (current_animation w)
      then animation_active w' = false /\ animation_timer w' = None
      else animation_active w' = true
           /\ animation_timer w'
              = Some (u64 (0 + msecs_to_jiffies ANIMATION_TIMER_INTERVAL_MS))).
Proof.
  intros Hs Hg Hc Hfs. cbv zeta.
  set (file := state_file (save_animation_state w).2).
  destruct (save_load_roundtrip w (boot (frame_store init) junk file writable)
              Hs Hg Hc Hfs eq_refl eq_refl) as (Lm & Ls & Lb & _).
  destruct (fourzone_setup_frame_store msecs_to_jiffies init junk file writable)
    as (w' & -> & _ & _ & _ & _ & Hm & Hsp & Hbr & Hst).
  cbn [snd]. rewrite Hm, Hsp, Hbr, Lm, Ls, Lb. rewrite Lm in Hst.
  conj; try reflexivity.
  destruct (is_static (current_animation w)); [exact Hst|].
  destruct Hst as (H1 & H2 & _). now split.
Qed.

Lemma reload_resumes_witness :
  let w' := (fourzone_setup hz1000
               (boot (frame_store sample_frame) []
                  (state_file (save_animation_state sample_disco).2) true)).2 in
  current_animation w' = ANIMATION_DISCO
  /\ animation_timer w' = Some 50
  /\ colors (original_at w' 0) = rgb 10 20 30.
Proof.
  cbv zeta.
  destruct (reload_resumes hz1000 sample_frame [] true sample_disco)
    as (H1 & _ & _ & H4).
  - vm_compute. split; discriminate.
  - vm_compute. split; discriminate.
  - intros z. unfold original_at, u8_color.
    do 5 (try destruct z as [|z]); vm_compute; intuition discriminate.
  - reflexivity.
  - assert (E : current_animation sample_disco = ANIMATION_DISCO)
      by (vm_compute; reflexivity).
    rewrite E in H1, H4. cbn [is_static] in H4. destruct H4 as [_ H4].
    conj.
    + exact H1.
    + rewrite H4. vm_compute. reflexivity.
    + vm_compute. reflexivity.
Defined.

(** ** Reading a zone *)

(** X21: on a keyboard that answers colour reads, reading a zone's
    attribute asks the keyboard and prints the colour the keyboard holds
    for that zone, which also replaces the zone's colour in the driver;
    reading [all] does the same for zone 0 alone.  Neither pushes a
    frame. *)
Theorem show_reports_keyboard (init : list Z) (w : world) (z : nat) :
  wf w -> attrs_ok w -> bios w = frame_store init -> (z < ZONE_COUNT)%nat ->
  zone_show z w
  = (sprintf (color_text (kbd init w z)), after_read z (kbd init w z) w)
  /\ all_show w
     = (sprintf (color_text (kbd init w 0)), after_read 0 (kbd init w 0) w)
  /\ hw_writes (zone_show z w).2 = hw_writes w
  /\ hw_writes (all_show w).2 = hw_writes w.
Proof.
  intros [Hc Ho] Ha Hb Hz.
  assert (Hcol : forall z', (z' < ZONE_COUNT)%nat ->
            colors (zone_at (after_read z' (kbd init w z') w) z')
            = kbd init w z').
  { intros z' Hz'. unfold after_read, zone_at, set_zone_colors.
    cbn [zone_data set_zone_data set_wmi_calls].
    rewrite nth_insert_eq; [reflexivity|].
    now rewrite (ok_zones w Hc). }
  assert (Ez : zone_show z w
               = (sprintf (color_text (kbd init w z)),
                  after_read z (kbd init w z) w)).
  { unfold zone_show. rewrite run_bind. cbn [get fst snd].
    destruct (match_zone_attrs w Ha) as [-> _]; [|exact Hz].
    rewrite run_bind, (read_step init w z Hb (Ho z Hz)).
    cbn [fst snd negb Z.eqb]. rewrite run_bind. cbn [get fst snd ret].
    fold (after_read z (kbd init w z) w). now rewrite Hcol. }
  assert (Ea : all_show w
               = (sprintf (color_text (kbd init w 0)),
                  after_read 0 (kbd init w 0) w)).
  { unfold all_show.
    rewrite run_bind, (read_step init w 0 Hb (Ho 0%nat ltac:(unfold ZONE_COUNT; lia))).
    cbn [fst snd negb Z.eqb]. rewrite run_bind. cbn [get fst snd ret].
    fold (after_read 0 (kbd init w 0) w).
    now rewrite Hcol by (unfold ZONE_COUNT; lia). }
  rewrite Ez, Ea. now conj.
Qed.

Lemma show_reports_keyboard_witness :
  (zone_show 2 sample_disco).1
  = (29, ("red: 70, green: 80, blue: 90" ++ nl)%string).
Proof.
  destruct (show_reports_keyboard sample_frame sample_disco 2) as (E & _).
  - concrete_wf.
  - intros z Hz. unfold ZONE_COUNT in Hz.
    do 4 (try destruct z as [|z]); [vm_compute; reflexivity .. | lia].
  - reflexivity.
  - unfold ZONE_COUNT. lia.
  - rewrite E. vm_compute. reflexivity.
Defined.

(** ** Numbers read back *)

Lemma decimal_roundtrip (n : Z) :
  0 <= n <= 100 -> kstrtoul (fmt_d n ++ nl) 10 = Ok n.
Proof.
  intros Hn.
  assert (Hall : forallb (fun k =>
                    match kstrtoul (fmt_d (Z.of_nat k) ++ nl) 10 with
                    | Ok v => v =? Z.of_nat k
                    | Err _ => false
                    end) (seq 0 101) = true) by (vm_compute; reflexivity).
  rewrite forallb_forall in Hall.
  specialize (Hall (Z.to_nat n)). rewrite Z2Nat.id in Hall by lia.
  destruct (kstrtoul (fmt_d n ++ nl) 10) as [v|e].
  - f_equal. apply Z.eqb_eq. apply Hall. apply in_seq. lia.
  - discriminate Hall. apply in_seq. lia.
Qed.

Lemma brightness_set_brightness (buf : string) (count level : Z) (w : world) :
  kstrtoul buf 10 = Ok level -> 0 <= level <= 100 ->
  same_controls (set_global_brightness level w) (brightness_set buf count w).2.
Proof.
  intros Hk Hl. unfold brightness_set. rewrite Hk.
  replace (level >? 100) with false
    by (symmetry; rewrite Z.gtb_ltb; apply Z.ltb_ge; lia).
  rewrite s32_small by lia.
  rewrite run_bind. cbn [modify fst snd].
  generalize (set_global_brightness level w). intros w1.
  revert w1. change (keeps same_controls
    (let* r := brightness_set_loop level zones in
     if negb (r =? 0) then ret r
     else let* _ := save_animation_state in ret count)).
  pose proof (brightness_set_loop_keeps same_controls level zones).
  pose proof (save_animation_state_keeps same_controls).
  keeps_steps.
Qed.

(** X22: reading [animation_speed] or [brightness] changes nothing and
    prints the number and a newline.  For a speed of 1 to 10 and a
    brightness of 0 to 100, writing the printed text back is accepted as
    the same number: the speed write returns the count and keeps speed,
    mode, brightness and base colours, and the brightness write keeps the
    brightness, the mode, the speed and the scheduler. *)
Theorem number_show_roundtrip (msecs_to_jiffies : Z -> Z) (count : Z)
    (w : world) :
  speed_ok w -> 0 <= global_brightness w <= 100 ->
  let speed_text := (fmt_d (animation_speed w) ++ nl)%string in
  let level_text := (fmt_d (global_brightness w) ++ nl)%string in
  let ws := (animation_speed_set msecs_to_jiffies speed_text count w) in
  animation_speed_show w = (sprintf speed_text, w)
  /\ brightness_show w = (sprintf level_text, w)
  /\ ws.1 = count
  /\ animation_speed ws.2 = animation_speed w
  /\ current_animation ws.2 = current_animation w
  /\ global_brightness ws.2 = global_brightness w
  /\ original_colors ws.2 = original_colors w
  /\ controls (brightness_set level_text count w).2 = controls w.
Proof.
  intros Hs Hg. cbv zeta.
  assert (Hr : 0 <= animation_speed w <= 100)
    by (unfold speed_ok, ANIMATION_SPEED_MIN, ANIMATION_SPEED_MAX in Hs; lia).
  destruct (animation_speed_set_effect msecs_to_jiffies
              (fmt_d (animation_speed w) ++ nl) count w) as (_ & _ & H).
  specialize (H (animation_speed w) (decimal_roundtrip _ Hr) Hs).
  cbv zeta in H. destruct H as (H1 & H2 & H3 & _ & H5 & H6 & _).
  conj; try reflexivity; try assumption.
  pose proof (brightness_set_brightness _ count _ w
                (decimal_roundtrip _ Hg) Hg) as H.
  unfold same_controls in H. rewrite H.
  destruct w. reflexivity.
Qed.

Lemma number_show_roundtrip_witness :
  (animation_speed_set hz1000 ("1" ++ nl) 2 sample_disco).1 = 2.
Proof.
  assert (E : animation_speed sample_disco = 1) by (vm_compute; reflexivity).
  destruct (number_show_roundtrip hz1000 2 sample_disco) as (_ & _ & H & _).
  - unfold speed_ok. rewrite E. vm_compute. split; discriminate.
  - vm_compute. split; discriminate.
  - rewrite E in H. exact H.
Defined.

(** ** The scheduler at rest *)

Section Rest.

Variable msecs_to_jiffies : Z -> Z.

Lemma clock_op_idle (o : op) (w : world) :
  clock_op o = true -> animation_active w = false ->
  clockless (run_op msecs_to_jiffies o w).2 = clockless w
  /\ animation_active (run_op msecs_to_jiffies o w).2 = false.
Proof.
  intros Ho Ha. destruct o; try discriminate Ho; cbn [run_op].
  - now split.
  - unfold timer_expire, animation_timer_callback.
    rewrite run_bind. cbn [get fst snd].
    destruct (animation_timer w) as [e|]; [|now split].
    destruct (e <=? jiffies w); [|now split].
    rewrite !run_bind. cbn [modify get fst snd].
    fields. rewrite Ha. cbn [andb ret snd]. fields. now split.
  - unfold run_work, animation_work_func.
    rewrite run_bind. cbn [get fst snd].
    destruct (animation_work w); [|now split].
    rewrite !run_bind. cbn [modify get fst snd].
    fields. rewrite Ha. cbn [negb orb ret snd]. fields. now split.
Qed.

Lemma clock_ops_idle (os : list op) (w : world) :
  forallb clock_op os = true -> animation_active w = false ->
  clockless (run_ops msecs_to_jiffies os w).2 = clockless w
  /\ animation_active (run_ops msecs_to_jiffies os w).2 = false.
Proof.
  revert w. induction os as [|o os IH]; intros w Ho Ha; [now split|].
  cbn [forallb] in Ho. apply andb_prop in Ho. destruct Ho as [Ho Hos].
  cbn [run_ops]. rewrite run_bind.
  destruct (clock_op_idle o w Ho Ha) as [E1 E2].
  destruct (IH _ Hos E2) as [E3 E4]. split; [congruence | exact E4].
Qed.

(** X23: while no effect is active, the passing of time, an expiring timer
    and a queued frame work, in any number and order, change nothing but
    the clock, the timer and the work queue: no request goes to the
    firmware, no colour, setting or file changes, and no effect becomes
    active. *)
Theorem idle_scheduler_quiet (os : list op) (w : world) :
  forallb clock_op os = true -> animation_active w = false ->
  let w' := (run_ops msecs_to_jiffies os w).2 in
  clockless w' = clockless w
  /\ animation_active w' = false
  /\ wmi_calls w' = wmi_calls w
  /\ zone_data w' = zone_data w.
Proof.
  intros Ho Ha. cbv zeta.
  destruct (clock_ops_idle os w Ho Ha) as [E1 E2].
  conj; [exact E1 | exact E2 | |].
  - exact (f_equal wmi_calls E1).
  - exact (f_equal zone_data E1).
Qed.

(** X24: on a keyboard that keeps its frame, unloading the module leaves
    every zone of the keyboard at its base colour scaled by the
    brightness, with the effect stopped, the timer off and no work
    queued; whatever clock events follow, no further request reaches the
    firmware. *)
Theorem unload_restores_and_rests (init : list Z) (os : list op) (w : world) :
  wf w -> bios w = frame_store init -> forallb clock_op os = true ->
  let w' := (hp_wmi_exit w).2 in
  (forall z, (z < ZONE_COUNT)%nat ->
     kbd init w' z = apply_brightness_to_color w (colors (original_at w z)))
  /\ animation_active w' = false
  /\ animation_timer w' = None
  /\ animation_work w' = false
  /\ wmi_calls (run_ops msecs_to_jiffies os w').2 = wmi_calls w'.
Proof.
  intros Hw Hb Ho. cbv zeta. unfold hp_wmi_exit.
  rewrite run_bind. cbn [modify snd].
  destruct (stop_animation_frame_store init w Hw Hb)
    as (w1 & -> & _ & _ & Hs & Hz).
  cbn [snd]. apply settings_fields in Hs. fields in Hs.
  destruct Hs as (_ & _ & _ & _ & Ht & _ & _ & Ha & _).
  assert (Ha' : animation_active (set_animation_work false w1) = false)
    by exact Ha.
  conj.
  - intros z H. apply (Hz z H).
  - exact Ha.
  - exact Ht.
  - reflexivity.
  - destruct (clock_ops_idle os _ Ho Ha') as [E _].
    exact (f_equal wmi_calls E).
Qed.

End Rest.

Lemma idle_scheduler_quiet_witness :
  wmi_calls
    (run_ops hz1000 [time_passes 60; timer_fires; work_runs; time_passes 60;
                     timer_fires] sample_world).2
  = wmi_calls sample_world.
Proof.
  destruct (idle_scheduler_quiet hz1000
              [time_passes 60; timer_fires; work_runs; time_passes 60;
               timer_fires] sample_world) as (_ & _ & H & _).
  - reflexivity.
  - vm_compute. reflexivity.
  - exact H.
Defined.

Lemma unload_restores_and_rests_witness :
  kbd sample_frame (hp_wmi_exit sample_disco).2 1 = rgb 40 50 60.
Proof.
  destruct (unload_restores_and_rests hz1000 sample_frame
              [time_passes 60; timer_fires; work_runs] sample_disco)
    as (H & _).
  - concrete_wf.
  - reflexivity.
  - reflexivity.
  - rewrite H by (unfold ZONE_COUNT; lia). vm_compute. reflexivity.
Defined.

(** ** Effects that dim the base colours *)

Lemma scale_le (c n : Z) :
  0 <= c < 256 -> 0 <= n <= 100 -> 0 <= u8 ((c * n) ÷ 100) <= c.
Proof.
  intros Hc Hn.
  assert (H : 0 <= (c * n) ÷ 100 <= c)
    by (Z.to_euclidean_division_equations; nia).
  rewrite u8_id; lia.
Qed.

Lemma dim_le (c : color_platform) (n : Z) :
  u8_color c -> 0 <= n <= 100 ->
  color_le (dim c n 100) c /\ u8_color (dim c n 100).
Proof.
  intros (Hb & Hg & Hr) Hn. unfold color_le, u8_color, dim.
  cbn [blue green red].
  pose proof (scale_le _ _ Hb Hn). pose proof (scale_le _ _ Hg Hn).
  pose proof (scale_le _ _ Hr Hn). lia.
Qed.

Lemma apply_brightness_le (w : world) (c : color_platform) :
  u8_color c -> 0 <= global_brightness w <= 100 ->
  color_le (apply_brightness_to_color w c) c.
Proof.
  intros (Hb & Hg & Hr) Hn.
  unfold color_le, apply_brightness_to_color, scale_channel.
  cbn [blue green red].
  pose proof (scale_le _ _ Hb Hn). pose proof (scale_le _ _ Hg Hn).
  pose proof (scale_le _ _ Hr Hn). lia.
Qed.

Lemma color_le_trans (a b c : color_platform) :
  color_le a b -> color_le b c -> color_le a c.
Proof. unfold color_le. lia. Qed.

Lemma simple_sin_range (a : Z) : -100 <= simple_sin a <= 100.
Proof.
  unfold simple_sin; cbv zeta.
  by_ltb_cases; Z.to_euclidean_division_equations; lia.
Qed.

Lemma nth_map_zones (f : nat -> color_platform) (z : nat) :
  (z < ZONE_COUNT)%nat -> nth z (map f zones) black = f z.
Proof.
  unfold ZONE_COUNT. intros Hz.
  destruct z as [|[|[|[|z]]]]; [reflexivity .. | lia].
Qed.

(** The colour an effect that scales the base colours takes for zone [z]. *)
Lemma dimming_frame (init : list Z) (w : world)
    (base : nat -> color_platform) (level : nat -> Z) :
  wf w -> bios w = frame_store init ->
  (forall z, u8_color (base z)) -> (forall z, 0 <= level z <= 100) ->
  let w' := (update_all_zones_with_colors
               (map (fun zone => dim (base zone) (level zone) 100) zones) w).2 in
  settings w' = settings w
  /\ forall z, (z < ZONE_COUNT)%nat -> color_le (kbd init w' z) (base z).
Proof.
  intros Hw Hb Hbase Hlevel. cbv zeta.
  destruct (update_all_zones_frame_store init
              (map (fun zone => dim (base zone) (level zone) 100) zones)
              w Hw Hb) as (w' & -> & _ & _ & Hs & Hz).
  { apply frame_u8. intros z. apply dim_u8. }
  cbn [snd]. split; [exact Hs|]. intros z Hzlt.
  destruct (Hz z Hzlt) as [_ ->]. rewrite nth_map_zones by exact Hzlt.
  destruct (dim_le (base z) (level z) (Hbase z) (Hlevel z)) as [Hle Hu].
  eapply color_le_trans; [|exact Hle].
  apply apply_brightness_le; [exact Hu | apply Hw].
Qed.

Section Dimming.

Variable msecs_to_jiffies : Z -> Z.

(** X25: on a keyboard that keeps its frame, a frame of the breathing,
    wave or pulse effect leaves every channel of every zone of the
    keyboard at or below that channel of the zone's base colour, whatever
    the time, speed and brightness, and changes no setting and no base
    colour. *)
Theorem dimming_effects_bounded (init : list Z) (w : world) :
  wf w -> bios w = frame_store init -> animation_active w = true ->
  current_animation w = ANIMATION_BREATHING
  \/ current_animation w = ANIMATION_WAVE
  \/ current_animation w = ANIMATION_PULSE ->
  let w' := (animation_work_func msecs_to_jiffies w).2 in
  settings w' = settings w
  /\ forall z, (z < ZONE_COUNT)%nat ->
       color_le (kbd init w' z) (colors (original_at w z)).
Proof.
  intros Hw Hb Ha Hm. cbv zeta.
  assert (Hbase : forall z, u8_color (colors (original_at w z)))
    by apply Hw.
  unfold animation_work_func. rewrite run_bind. cbn [get fst snd].
  rewrite Ha. cbn [negb orb].
  destruct Hm as [Hm|[Hm|Hm]]; rewrite Hm; cbn [is_static].
  - unfold animation_breathing. rewrite run_bind. cbn [get fst snd]. cbv zeta.
    apply (dimming_frame init w (fun z => colors (original_at w z))
             (fun _ => _) Hw Hb Hbase).
    intros _.
    match goal with
    | |- context [simple_sin ?a] =>
        generalize (simple_sin_range a); generalize (simple_sin a)
    end.
    intros s Hs. Z.to_euclidean_division_equations; lia.
  - unfold animation_wave. rewrite run_bind. cbn [get fst snd]. cbv zeta.
    apply (dimming_frame init w (fun z => colors (original_at w z))
             (fun z => _) Hw Hb Hbase).
    intros z.
    match goal with
    | |- context [simple_sin ?a] =>
        generalize (simple_sin_range a); generalize (simple_sin a)
    end.
    intros s Hs. Z.to_euclidean_division_equations; lia.
  - unfold animation_pulse. rewrite run_bind. cbn [get fst snd]. cbv zeta.
    apply (dimming_frame init w (fun z => colors (original_at w z))
             (fun _ => _) Hw Hb Hbase).
    intros _.
    match goal with
    | |- context [simple_sin ?a] =>
        generalize (simple_sin_range a); generalize (simple_sin a)
    end.
    intros s Hs. Z.to_euclidean_division_equations; lia.
Qed.

End Dimming.

Lemma dimming_effects_bounded_witness :
  let w := set_jiffies 300
             (animation_mode_set hz1000 "breathing" 9 sample_world).2 in
  color_le (kbd sample_frame (animation_work_func hz1000 w).2 3)
    (rgb 100 110 120).
Proof.
  cbv zeta.
  destruct (dimming_effects_bounded hz1000 sample_frame
              (set_jiffies 300
                 (animation_mode_set hz1000 "breathing" 9 sample_world).2))
    as (_ & H).
  - concrete_wf.
  - vm_compute. reflexivity.
  - vm_compute. reflexivity.
  - left. vm_compute. reflexivity.
  - apply (H 3%nat). unfold ZONE_COUNT. lia.
Defined.
